(* ===== verification/_CoqProject ===== *)
-Q . S2P
Prelude.v
Config.v
Dedup.v
Clock.v
Consolidator.v
Ingest.v
Cache.v
Regex.v
Quality.v
LearningState.v
Learning.v
LearningProps.v
Notification.v
Formatter.v
Chat.v
DateExtractor.v
VoiceCalendar.v
OAuth.v
Gmail.v
FileSearch.v
Transcriber.v
Api.v
Calendar.v
