(* ===== verification/Prelude.v ===== *)
(** * School Copilot: a verification development of the e-mail intake,
      consolidation, question answering and calendar pipeline

    This library models the Python sources under [src/app/] of the School
    Copilot repository and proves the properties that make them correct:
    deduplicated intake of e-mails, append-only markdown consolidation with
    size-based rotation, a time-boxed response cache, the question handler
    and its self-tuning feedback loop, date extraction for the calendar,
    and the HTTP endpoints that compose them.

    ** The program and how its parts interact

    - [upload_tracker.py]: two persistent JSON sets (files by
      "path:mtime", e-mails by Gmail id) read, mutated and rewritten whole on
      every call.
    - [markdown_consolidator.py]: formats one e-mail as a markdown section
      and appends it to the weekly file [school-data-<%Y>-W<%V>.md] in
      [data/consolidated], or writes a fresh [_part<N>] sibling when the
      weekly file is already over 5 MiB.
    - [ingest_emails.py]: the ingestion sweep; for every fetched e-mail not
      yet in the e-mail tracker it saves the attachments, consolidates,
      marks the e-mail processed (also when consolidation raises) and
      finally deletes every saved attachment.
    - [rag_cache.py]: a JSON map md5(lower(strip q)) -> {question, answer,
      timestamp}, with lazy expiry on lookup and a sweep on every store.
    - [rag_improvement.py]: quality scoring of an answer, per-pattern
      learning statistics, failure and success logs, periodic
      auto-optimisation and the learned prompt fragment.
    - [response_formatter.py]: the markdown post-processing of an answer.
    - [rag_chat.py]: [ask_school_question] calls the cache, the learning
      engine, the model (an oracle) and the formatter, in that order.
    - [notification_service.py]: "new since last check" detection with a
      persisted last-check timestamp and check counter.
    - [date_extractor.py] and [voice_calendar.py]: events read from the
      model's JSON reply, and a spoken request turned into one calendar
      event.
    - [main.py]: the FastAPI endpoints, thin compositions of the above that
      turn exceptions into HTTP errors.
    - [gmail_client.py] and [calendar_client.py]: the two Google clients,
      which share one OAuth login procedure; the Gmail client fetches and
      parses the e-mails that [ingest_emails.py] and
      [notification_service.py] consume, the calendar client creates the
      events of the endpoints and of the voice request.
    - [gemini_file_search.py], [attachment_transcriber.py] and
      [image_processor.py]: uploads to the Gemini Files API (deduplicated
      by the upload tracker) and the transcription of attachments that
      the consolidator inlines.
    - [config.py]: the settings read from the environment.

    ** Files of the development (dependency order, as in _CoqProject)

    - [Prelude] (this file): shared notation ([py_scope]), the Python list
      idioms ([last_n] for [l[-n:]], [append_capped] for "append, then keep
      the last N"), Python string primitives on byte strings ([lower],
      [upper], [strip], [contains] for [in], [split_on], [join], [py_replace]
      for [str.replace]), the model of a persisted JSON file ([stored]:
      missing, corrupt or valid), the bounded search [first_free], the
      hint database [pycore] and the tactic [skip_literal_prefix].
    - [Config] (Module [Config]): [config.py]; [Config()] over an
      environment function, [_parse_list].
    - [Dedup] (Module [UploadTracker]): [upload_tracker.py]; a [gset
      string] per tracker file, with a file-system model of paths and
      modification times.
    - [Clock]: naive [datetime] as civil fields, days since 1970, the
      [strftime] directives the code uses ([%Y %m %d %H %M %S %V %A %B]),
      [isoformat], [timedelta(days=1)] and [timedelta(hours=1)].
    - [Consolidator] (Module [MarkdownConsolidator]):
      [markdown_consolidator.py]; the file system is a [gmap string string]
      (path -> bytes), the clock an explicit [datetime].
    - [Ingest] (Module [IngestEmails]): [ingest_emails.py]; the sweep as
      explicit state passing over the tracker and the file system.
    - [Cache] (Module [RagCache]): [rag_cache.py]; a [gmap string
      cache_item] keyed by a digest that is a Section variable (md5 is not
      modelled), time in microseconds.
    - [Regex] (Module [PyRegex]): the fragment of Python's [re] the code
      uses, as a backtracking matcher with Python's priorities (greedy and
      lazy repetition).
    - [Quality] (Module [ResponseQuality]): [calculate_response_quality],
      [extract_query_pattern] and the two keyword classifiers.
    - [LearningState], [Learning]: the metrics, learning and feedback files
      and the operations of [rag_improvement.py] that change them, one
      definition per block of [track_query]; [LearningProps] holds their
      invariant and theorems.
    - [Notification] (Module [NotificationService]):
      [notification_service.py], with Python's aware/naive comparison.
    - [Formatter] (Module [ResponseFormatter]): [response_formatter.py],
      each line loop a [Fixpoint] over [split '\n'] carrying its flags.
    - [Chat] (Module [RagChat]): [ask_school_question], written against the
      typeclass [AnswerCache] (with its laws [AnswerCacheLaws]) that
      [rag_cache.py] instantiates; exceptions are the values of [outcome].
    - [DateExtractor], [VoiceCalendar]: [date_extractor.py] and
      [voice_calendar.py], with [int()] and [strptime] written out and
      [json.loads] a Section variable.
    - [OAuth] (Module [OAuth]): the [authenticate] method both clients
      share, written once over the Record [oauth_client] of their
      constants; the token file is a [stored creds].
    - [Gmail] (Module [GmailClient]): [gmail_client.py]; the message
      payload as a nested inductive tree with its own induction, the
      exceptions as the values of an error monad [raising] with its
      notation, and the fetch over a client state.
    - [FileSearch] (Module [GeminiFileSearch]): [gemini_file_search.py];
      uploads over the file system and the upload tracker of [Dedup], and
      the poll loop shared with the transcriber.
    - [Transcriber] (Module [AttachmentTranscriber]):
      [attachment_transcriber.py] and [image_processor.py]; its result is
      the [transcription] oracle of [Consolidator].
    - [Api] (Module [Api]): the endpoints of [main.py]; an [HTTPException]
      is [HttpError status detail].
    - [Calendar] (Module [CalendarClient]): [calendar_client.py] over a
      client state, and [api_create] / [voice_create], the client plugged
      into the calendar inputs of [Api] and [VoiceCalendar].

    ** What the theorems show (groups)

    - Invariants by induction over sequences of operations: a second
      ingestion sweep writes nothing (C1) and every e-mail it consolidated
      is marked (C9), the learning files stay well-formed in every
      reachable state (C2), marking adds exactly its id and is idempotent
      (C8), consolidation only appends (C33), a login is remembered
      (C20), an upload is recorded so the next one is skipped (C22).
    - Functional behaviour on every branch, errors included: rotation and
      the part-name search (C3, C7), the weekly file name at the turn of
      the year (C35), cache lookups (C4), the aware/naive [TypeError] of
      the notification check (C5), the running means and pattern
      statistics (C10, C30-C32), the question handler (C11-C14) and the
      status of [/chat] (C15), the endpoints (C26-C28), the e-mail body
      and fetch (C18, C19), the calendar client behind the endpoint
      (C21), the file uploads and transcriptions (C23, C24), the
      consolidation of a failed transcription (C34).
    - Refinement: the handler against the [AnswerCache] contract (C11);
      equivalence of the fence loop of the date extractor with a
      split-and-select reference (C25); termination of the part-name
      search within the number of files (C17); liveness: a pattern
      failing every time is flagged for optimisation within twelve
      queries (C16); bounds: the quality score stays in [0, 1] (C29),
      while [confidence_scores] grows without bound (C6).

    ** Bounds and representation choices

    Python floats are modelled as exact rationals [Q]: every score the code
    computes is a multiple of 1/10 and every comparison the code makes
    ([< 0.5], [> 0.7], [> 0.8], [>= 0.3 * n]) gives the same answer on the
    IEEE doubles Python computes (checked by enumeration of the sixteen
    score combinations and of [n < 5000]). Text is a byte string
    ([String.string]); [len] of a non-ASCII Python string counts code
    points, which is documented where it matters. Python integers are [Z]
    (unbounded, as in Python). The loops over candidate paths use fuel
    equal to the number of existing files plus one: among that many
    distinct names one is free, which [part_search_terminates] shows. The
    poll loops of the Files API use fuel [max_wait / step] (24, 30 and
    15), which [poll_loop_fuel] shows is enough. The other loops are
    structural over the lists or trees they walk.

    ** Not modelled

    The Google and Gemini services themselves are I/O: their answers
    (the Gmail and Calendar API, the OAuth browser flow, the Files API,
    the model) are Section variables or inputs of the models. Library
    behaviour the code only calls ([json.loads], [base64] decoding,
    [str()] of a decoded float or list, md5, [email.utils] date parsing,
    [repr]) is a Section variable. Not modelled: the scheduler
    ([scheduler.py]: APScheduler job registration and a subprocess
    call), [create_file_search_store], [list_files_in_store] and
    [upload_consolidated_markdown] of [gemini_file_search.py] (REST calls
    and a sort by modification time), [get_latest_markdown_file], the
    report strings of [rag_improvement.py], the endpoints of [main.py]
    that only serve files or read configuration, and the scripts under
    [src/scripts] (one-off drivers). *)

From Stdlib Require Export QArith Qminmax ZArith Ascii String.
From stdpp Require Export base gmap fin_maps strings list.
Close Scope Q_scope.

Declare Scope py_scope.
Delimit Scope py_scope with py.

Create HintDb pycore.
Create Rewrite HintDb pycore.

(** ** Python list idioms *)

(** [l[-n:]]: the last [n] elements, the whole list when it is shorter. *)
Definition last_n {A} (n : nat) (l : list A) : list A := drop (length l - n) l.

Notation "l '.[-' n ':]'" := (last_n n l)
  (at level 1, left associativity, format "l .[- n :]") : py_scope.
Open Scope py_scope.

(** [l.append(x); if len(l) > n: l = l[-n:]] *)
Definition append_capped {A} (n : nat) (l : list A) (x : A) : list A :=
  let l' := l ++ [x] in
  if n <? length l' then l'.[-n:] else l'.

(** [l.extend(xs); if len(l) > n: l = l[-n:]] *)
Definition extend_capped {A} (n : nat) (l xs : list A) : list A :=
  let l' := l ++ xs in
  if n <? length l' then l'.[-n:] else l'.

(** [while exists(cand(counter)): counter += 1]: the first candidate from
    [counter] on that is not taken, looking at [fuel] candidates. *)
Fixpoint first_free {B} (taken : B -> bool) (cand : nat -> B) (fuel counter : nat) : B :=
  match fuel with
  | O => cand counter
  | S f => if taken (cand counter) then first_free taken cand f (S counter) else cand counter
  end.

(** ** A persisted JSON file: absent, unreadable, or holding a value *)
Inductive stored (A : Type) : Type :=
| Missing
| Corrupt
| Valid (a : A).
Arguments Missing {A}.
Arguments Corrupt {A}.
Arguments Valid {A} a.

(** [load_*]: a missing or corrupt file reads as the default value. *)
Definition load_or {A} (dflt : A) (s : stored A) : A :=
  match s with Valid a => a | _ => dflt end.

(** ** Python string primitives on byte strings *)

Definition ascii_lower (c : ascii) : ascii :=
  let n := nat_of_ascii c in
  if (65 <=? n) && (n <=? 90) then ascii_of_nat (n + 32) else c.

(** [str.lower()] on the ASCII range. *)
Fixpoint lower (s : string) : string :=
  match s with
  | EmptyString => EmptyString
  | String c s' => String (ascii_lower c) (lower s')
  end.

Definition ascii_upper (c : ascii) : ascii :=
  let n := nat_of_ascii c in
  if (97 <=? n) && (n <=? 122) then ascii_of_nat (n - 32) else c.

(** Truthiness of a [str]. *)
Definition nonempty (s : string) : bool := negb (bool_decide (s = EmptyString)).

(** The double quote, which a string literal here cannot hold. *)
Definition dq : string := String (ascii_of_nat 34) EmptyString.

(** [str.upper()] on the ASCII range. *)
Fixpoint upper (s : string) : string :=
  match s with
  | EmptyString => EmptyString
  | String c s' => String (ascii_upper c) (upper s')
  end.

(** [len(s)] and [s[:n]] on a [str]: strings are UTF-8 bytes, and a
    character is a lead byte with its continuation bytes [10xxxxxx]. *)
Definition is_utf8_cont (c : ascii) : bool :=
  let n := nat_of_ascii c in (128 <=? n) && (n <? 192).

Fixpoint py_len (s : string) : nat :=
  match s with
  | EmptyString => 0
  | String c s' => if is_utf8_cont c then py_len s' else S (py_len s')
  end.

Fixpoint py_take (n : nat) (s : string) : string :=
  match s with
  | EmptyString => EmptyString
  | String c s' =>
      if is_utf8_cont c then String c (py_take n s')
      else match n with
           | 0 => EmptyString
           | S n' => String c (py_take n' s')
           end
  end.

(** [str.isspace()] on single bytes: space, \t \n \v \f \r and \x1c-\x1f. *)
Definition is_space (c : ascii) : bool :=
  let n := nat_of_ascii c in
  (n =? 32) || ((9 <=? n) && (n <=? 13)) || ((28 <=? n) && (n <=? 31)).

Fixpoint lstrip (s : string) : string :=
  match s with
  | EmptyString => EmptyString
  | String c s' => if is_space c then lstrip s' else s
  end.

Definition string_rev (s : string) : string :=
  string_of_list_ascii (rev (list_ascii_of_string s)).

Definition rstrip (s : string) : string :=
  string_rev (lstrip (string_rev s)).

(** [str.strip()] *)
Definition strip (s : string) : string := rstrip (lstrip s).

(** [s.startswith(p)] *)
Fixpoint startswith (p s : string) : bool :=
  match p, s with
  | EmptyString, _ => true
  | String a p', String b s' => Ascii.eqb a b && startswith p' s'
  | String _ _, EmptyString => false
  end.

(** [needle in hay] *)
Fixpoint contains (needle hay : string) : bool :=
  startswith needle hay ||
  match hay with
  | EmptyString => false
  | String _ hay' => contains needle hay'
  end.

(** [any(w in s for w in ws)] *)
Definition contains_any (ws : list string) (s : string) : bool :=
  existsb (fun w => contains w s) ws.

(** [s.split(sep)] for a one-character separator: never empty, [""]
    for the empty string. *)
Fixpoint split_on (sep : ascii) (s : string) : list string :=
  match s with
  | EmptyString => [EmptyString]
  | String c s' =>
      if Ascii.eqb c sep then EmptyString :: split_on sep s'
      else match split_on sep s' with
           | x :: xs => String c x :: xs
           | [] => [String c EmptyString]
           end
  end.

(** ['\n'] as a one-character string. *)
Definition lf : string := String (ascii_of_nat 10) EmptyString.

(** [sep.join(l)] *)
Fixpoint join (sep : ascii) (l : list string) : string :=
  match l with
  | [] => EmptyString
  | [x] => x
  | x :: xs => x ++ String sep (join sep xs)
  end.

(** [s.replace(old, new)] for a non-empty [old]: left to right, without
    overlaps; [skip] counts the characters of the last match still to
    pass. *)
Fixpoint replace_loop (old new : string) (skip : nat) (s : string) : string :=
  match s with
  | EmptyString => EmptyString
  | String c s' =>
      match skip with
      | S k => replace_loop old new k s'
      | 0 => if startswith old s then new ++ replace_loop old new (String.length old - 1) s'
             else String c (replace_loop old new 0 s')
      end
  end.

Definition py_replace (old new s : string) : string := replace_loop old new 0 s.

(** [s.split(sep, 1)[1]]: what follows the first [sep] ([IndexError] when
    there is none, which the callers rule out). *)
Fixpoint after_first (sep : ascii) (s : string) : string :=
  match s with
  | EmptyString => EmptyString
  | String c s' => if Ascii.eqb c sep then s' else after_first sep s'
  end.


(** [s.endswith(p)] *)
Definition endswith (p s : string) : bool := startswith (string_rev p) (string_rev s).

(** ** Generic lemmas *)

(** stdpp makes [String.append] [simpl never]; unfold one step by hand. *)
Lemma string_app_cons (x : ascii) (a b : string) :
  (String x a ++ b)%string = String x (a ++ b)%string.
Proof. reflexivity. Qed.

Lemma string_app_nil_l (a : string) : (EmptyString ++ a)%string = a.
Proof. reflexivity. Qed.

Lemma string_app_assoc (a b c : string) : ((a ++ b) ++ c = a ++ (b ++ c))%string.
Proof. induction a as [|x a IH]; [done|]. by rewrite !string_app_cons, IH. Qed.

Lemma string_app_nil_r (a : string) : (a ++ EmptyString)%string = a.
Proof. induction a as [|x a IH]; [done|]. by rewrite string_app_cons, IH. Qed.

Lemma length_string_app (a b : string) :
  String.length (a ++ b)%string = String.length a + String.length b.
Proof. induction a as [|x a IH]; [done|]. rewrite string_app_cons. simpl. by rewrite IH. Qed.


Lemma split_on_cons (sep : ascii) (s : string) : split_on sep s <> [].
Proof. induction s as [|c s IH]; simpl; [done|]. case_match; [done|]. by case_match. Qed.

(** [sep.join(s.split(sep)) == s] *)
Lemma join_split_on (sep : ascii) (s : string) : join sep (split_on sep s) = s.
Proof.
  induction s as [|c s IH]; [done|]. simpl.
  destruct (Ascii.eqb_spec c sep) as [->|Hne].
  - destruct (split_on sep s) as [|x xs] eqn:E; [by apply split_on_cons in E|].
    simpl in *. destruct xs; by rewrite IH.
  - destruct (split_on sep s) as [|x xs] eqn:E; [by apply split_on_cons in E|].
    destruct xs as [|y ys]; simpl in *; [by rewrite IH|].
    rewrite string_app_cons. by rewrite IH.
Qed.

Lemma length_last_n {A} (n : nat) (l : list A) :
  length (l.[-n:]) = Nat.min n (length l).
Proof. unfold last_n. rewrite length_drop. lia. Qed.

Lemma last_n_short {A} (n : nat) (l : list A) :
  length l <= n -> l.[-n:] = l.
Proof. intros H. unfold last_n. replace (length l - n) with 0 by lia. done. Qed.

Lemma last_n_suffix {A} (n : nat) (l : list A) : suffix (l.[-n:]) l.
Proof. unfold last_n. apply suffix_drop. Qed.

Lemma length_append_capped {A} (n : nat) (l : list A) (x : A) :
  length (append_capped n l x) = Nat.min n (S (length l)) \/
  (length (append_capped n l x) = S (length l) /\ S (length l) <= n).
Proof.
  unfold append_capped. rewrite length_app; simpl.
  destruct (Nat.ltb_spec n (length l + 1)).
  - left. rewrite length_last_n, length_app; simpl. lia.
  - right. rewrite length_app; simpl. lia.
Qed.

(** The cap holds after every append once it held before. *)
Lemma append_capped_bound {A} (n : nat) (l : list A) (x : A) :
  length l <= n -> length (append_capped n l x) <= n.
Proof. intros H. destruct (length_append_capped n l x); lia. Qed.

(** The trim after an append or an extend bounds the length whatever it
    was before. *)
Lemma append_capped_max {A} (n : nat) (l : list A) (x : A) :
  length (append_capped n l x) <= n.
Proof. destruct (length_append_capped n l x); lia. Qed.

Lemma extend_capped_max {A} (n : nat) (l xs : list A) :
  length (extend_capped n l xs) <= n.
Proof.
  unfold extend_capped. destruct (Nat.ltb_spec n (length (l ++ xs))).
  - rewrite length_last_n. lia.
  - lia.
Qed.

Lemma last_n_max {A} (n : nat) (l : list A) : length (l.[-n:]) <= n.
Proof. rewrite length_last_n. lia. Qed.

Lemma fmap_last_n {A B} (f : A -> B) (n : nat) (l : list A) :
  f <$> l.[-n:] = (f <$> l).[-n:].
Proof. unfold last_n. by rewrite fmap_drop, length_fmap. Qed.

Lemma NoDup_last_n {A} (n : nat) (l : list A) : NoDup l -> NoDup (l.[-n:]).
Proof.
  unfold last_n. rewrite <-(take_drop (length l - n) l) at 1.
  rewrite NoDup_app. naive_solver.
Qed.

Lemma Forall_last_n {A} (P : A -> Prop) (n : nat) (l : list A) :
  Forall P l -> Forall P (l.[-n:]).
Proof. apply Forall_drop. Qed.

Lemma append_capped_le {A} (n : nat) (l : list A) (x : A) :
  length (append_capped n l x) <= n \/ append_capped n l x = l ++ [x].
Proof.
  unfold append_capped. destruct (Nat.ltb_spec n (length (l ++ [x]))).
  - left. rewrite length_last_n. lia.
  - right. done.
Qed.

Lemma append_capped_suffix {A} (n : nat) (l : list A) (x : A) :
  suffix (append_capped n l x) (l ++ [x]).
Proof.
  unfold append_capped. case_match; [apply last_n_suffix | done].
Qed.

(** The newest element is kept whenever the cap is positive. *)
Lemma append_capped_last {A} (n : nat) (l : list A) (x : A) :
  0 < n -> last (append_capped n l x) = Some x.
Proof.
  intros Hn. unfold append_capped. case_match.
  - unfold last_n. rewrite length_app; simpl.
    replace (length l + 1 - n) with (length l - (n - 1)) by lia.
    rewrite drop_app_le; [|lia]. rewrite last_app; simpl. done.
  - by rewrite last_app.
Qed.

Lemma extend_capped_bound {A} (n : nat) (l xs : list A) :
  length l <= n -> length xs <= n -> length (extend_capped n l xs) <= n.
Proof.
  intros Hl Hx. unfold extend_capped.
  destruct (Nat.ltb_spec n (length (l ++ xs))).
  - rewrite length_last_n. lia.
  - lia.
Qed.

Lemma startswith_refl (s : string) : startswith s s = true.
Proof. induction s; simpl; [done|]. by rewrite Ascii.eqb_refl, IHs. Qed.

Lemma contains_app_r (n a b : string) :
  contains n b = true -> contains n (a ++ b)%string = true.
Proof.
  intros H. induction a as [|c a IH]; [done|].
  rewrite string_app_cons. simpl. by rewrite IH, orb_true_r.
Qed.

(** [contains n (p ++ s)] for a literal [p] none of whose positions starts
    [n]: [contains n s]. *)
Ltac skip_literal_prefix :=
  repeat match goal with
  | |- context [contains ?n (?p ++ ?s)] =>
      let H := fresh in
      assert (H : contains n (p ++ s) = contains n s) by (cbv [contains startswith append]; reflexivity);
      rewrite H; clear H
  end.

Lemma contains_self (s : string) : contains s s = true.
Proof. destruct s; simpl; [done|]. by rewrite Ascii.eqb_refl, startswith_refl. Qed.

Lemma contains_any_app_r (ws : list string) (a b : string) :
  contains_any ws b = true -> contains_any ws (a ++ b)%string = true.
Proof.
  unfold contains_any. rewrite !existsb_exists.
  intros [w [Hin Hw]]. exists w. split; [done|]. by apply contains_app_r.
Qed.

Lemma string_app_inv_l (a b c : string) : (a ++ b = a ++ c)%string -> b = c.
Proof.
  induction a as [|x a IH]; [done|]. rewrite !string_app_cons.
  intros H. injection H as H. by apply IH.
Qed.

Lemma string_app_inv_r (b c s : string) : (b ++ s = c ++ s)%string -> b = c.
Proof.
  revert c. induction b as [|x b IH]; intros [|y c] H; try done.
  - apply (f_equal String.length) in H.
    rewrite string_app_nil_l, string_app_cons in H. simpl in H.
    rewrite length_string_app in H. lia.
  - apply (f_equal String.length) in H.
    rewrite string_app_nil_l, string_app_cons in H. simpl in H.
    rewrite length_string_app in H. lia.
  - rewrite !string_app_cons in H. injection H as -> H. f_equal. by apply IH.
Qed.

Lemma startswith_app (n a b : string) :
  startswith n a = true -> startswith n (a ++ b)%string = true.
Proof.
  revert a. induction n as [|x n IH]; intros [|y a]; simpl; try done.
  intros [Hx Hn]%andb_true_iff. rewrite Hx. simpl. by apply IH.
Qed.

Lemma contains_app_l (n a b : string) :
  contains n a = true -> contains n (a ++ b)%string = true.
Proof.
  induction a as [|c a IH]; intros H.
  - destruct n; [destruct b; done|]. discriminate.
  - rewrite string_app_cons. simpl in *. apply orb_true_iff in H as [H|H].
    + assert (startswith n (String c (a ++ b)) = true) as ->; [|done].
      rewrite <- string_app_cons. by apply startswith_app.
    + rewrite IH by done. apply orb_true_r.
Qed.

(** The search returns one of its candidates. *)
Lemma first_free_cand {B} (taken : B -> bool) (cand : nat -> B) (f c : nat) :
  exists k, first_free taken cand f c = cand k.
Proof.
  revert c. induction f as [|f IH]; intros c; simpl; [by exists c|].
  destruct (taken (cand c)); [apply IH | by exists c].
Qed.

(** The search returns the first candidate that is not taken, or the last
    one it looked at. *)
Lemma first_free_least {B} (taken : B -> bool) (cand : nat -> B) (f c : nat) :
  exists k, c <= k <= c + f /\ first_free taken cand f c = cand k /\
    (forall j, c <= j < k -> taken (cand j) = true) /\
    (taken (cand k) = false \/ k = c + f).
Proof.
  revert c. induction f as [|f IH]; intros c; simpl.
  - exists c. split_and!; [lia|lia|done|intros; lia|right; lia].
  - destruct (taken (cand c)) eqn:E.
    + destruct (IH (S c)) as (k & Hk & Hr & Hlt & Hend). exists k.
      split_and!; [lia|lia|done| |destruct Hend; [by left|right; lia]].
      intros j Hj. destruct (decide (j = c)) as [->|]; [done|]. apply Hlt. lia.
    + exists c. split_and!; [lia|lia|done|intros; lia|by left].
Qed.

(** If the search ends on a taken candidate, it looked at [fuel + 1]
    candidates and all were taken. *)
Lemma first_free_taken {B} (taken : B -> bool) (cand : nat -> B) (f c : nat) :
  taken (first_free taken cand f c) = true ->
  forall k, c <= k <= c + f -> taken (cand k) = true.
Proof.
  revert c. induction f as [|f IH]; intros c Hres k Hk; simpl in Hres.
  - by replace k with c by lia.
  - destruct (taken (cand c)) eqn:E.
    + destruct (decide (k = c)) as [->|Hne]; [done|]. apply (IH (S c)); [done|lia].
    + by rewrite E in Hres.
Qed.

(** Termination of the free-name search on a finite directory: with
    distinct names, [size fs] candidates always reach a free one. *)
Lemma first_free_fresh {A B} (fs : gmap string A) (key : B -> string)
    (cand : nat -> B) (c : nat) :
  (forall k1 k2, key (cand k1) = key (cand k2) -> k1 = k2) ->
  fs !! key (first_free (fun b => bool_decide (is_Some (fs !! key b))) cand (size fs) c)
  = None.
Proof.
  intros Hinj.
  destruct (fs !! key (first_free _ cand (size fs) c)) eqn:E; [|done]. exfalso.
  pose proof (first_free_taken (fun b => bool_decide (is_Some (fs !! key b))) cand
    (size fs) c (ltac:(apply bool_decide_eq_true; by rewrite E))) as Hall.
  set (names := (fun k => key (cand k)) <$> seq c (S (size fs))).
  assert (Hsub : (list_to_set names : gset string) ⊆ dom fs).
  { intros x Hx. apply elem_of_list_to_set, list_elem_of_fmap in Hx
      as (k & -> & Hk%list_elem_of_In%in_seq).
    apply elem_of_dom. pose proof (Hall k ltac:(lia)) as Hk'. simpl in Hk'.
    by apply bool_decide_eq_true in Hk'. }
  apply subseteq_size in Hsub. rewrite size_dom, size_list_to_set in Hsub.
  - unfold names in Hsub. rewrite length_fmap, length_seq in Hsub. lia.
  - apply NoDup_fmap_2; [|apply NoDup_seq]. intros k1 k2. apply Hinj.
Qed.

#[export] Hint Resolve append_capped_max extend_capped_max last_n_max : pycore.
#[export] Hint Resolve contains_app_r contains_any_app_r contains_app_l : pycore.
#[export] Hint Rewrite string_app_cons string_app_assoc string_app_nil_r length_string_app : pycore.

(** Close a goal about one of the capped logs: unfold the cap and let
    [lia] see the lengths. *)
Ltac solve_cap :=
  repeat match goal with
  | |- context [length (append_capped _ _ _)] => apply append_capped_bound
  | |- context [length (extend_capped _ _ _)] => apply extend_capped_bound
  end; simpl; try lia; eauto with pycore.

(** [contains n s] where [n] is one leaf of the append tree [s]. *)
Ltac solve_contains :=
  first [ apply contains_self
        | reflexivity
        | apply contains_app_l; solve_contains
        | apply contains_app_r; solve_contains ].
