(* ===== verification/Config.v ===== *)
(** * Config: the settings of [config.py]

    [Config()] reads the process environment once at import time; the
    environment is the function [env] ([os.getenv], [None] for an unset
    variable). Lists are comma-separated values parsed by [_parse_list]. *)

From S2P Require Import Prelude.
Local Open Scope string_scope.

Module Config.

(** [Config._parse_list]: the comma-separated items, stripped, without the
    empty ones. *)
Definition parse_list (value : string) : list string :=
  if negb (nonempty value) then []
  else filter (fun item => nonempty item) (map strip (split_on "," value)).

(** The attributes of a [Config] object. *)
Record config := {
  GOOGLE_API_KEY : string;
  FILE_SEARCH_STORE_NAME : string;
  SCHOOL_DOMAINS : list string;
  SCHOOL_SENDERS : list string;
  GMAIL_CLIENT_ID : string;
  GMAIL_CLIENT_SECRET : string;
  GMAIL_REDIRECT_URI : string;
  GMAIL_SCOPES : list string;
  CREDENTIALS_FILE : string;
  TOKEN_FILE : string;
  RAW_EMAILS_DIR : string;
  ATTACHMENTS_DIR : string;
  CONSOLIDATED_DIR : string;
  CALENDAR_ID : string;
  DEFAULT_CALENDAR_ATTENDEES : list string;
  EMAIL_INGESTION_TIME : string }.

(** [os.getenv(name, default)] *)
Definition getenv (env : string -> option string) (name dflt : string) : string :=
  default dflt (env name).

(** [Config.__init__] *)
Definition load_config (env : string -> option string) : config := {|
  GOOGLE_API_KEY := getenv env "GOOGLE_API_KEY" EmptyString;
  FILE_SEARCH_STORE_NAME := getenv env "FILE_SEARCH_STORE_NAME" EmptyString;
  SCHOOL_DOMAINS := parse_list (getenv env "SCHOOL_DOMAINS" EmptyString);
  SCHOOL_SENDERS := parse_list (getenv env "SCHOOL_SENDERS" EmptyString);
  GMAIL_CLIENT_ID := getenv env "GMAIL_CLIENT_ID" EmptyString;
  GMAIL_CLIENT_SECRET := getenv env "GMAIL_CLIENT_SECRET" EmptyString;
  GMAIL_REDIRECT_URI := getenv env "GMAIL_REDIRECT_URI" "http://localhost";
  GMAIL_SCOPES := ["https://www.googleapis.com/auth/gmail.readonly"];
  CREDENTIALS_FILE := "credentials.json";
  TOKEN_FILE := "token.json";
  RAW_EMAILS_DIR := "data/raw_emails";
  ATTACHMENTS_DIR := "data/attachments";
  CONSOLIDATED_DIR := "data/consolidated";
  CALENDAR_ID := getenv env "CALENDAR_ID" "primary";
  DEFAULT_CALENDAR_ATTENDEES := parse_list (getenv env "DEFAULT_CALENDAR_ATTENDEES" EmptyString);
  EMAIL_INGESTION_TIME := getenv env "EMAIL_INGESTION_TIME" "18:00" |}.

End Config.
