(* ===== verification/Dedup.v ===== *)
(** * Dedup: the persistent processed-item trackers of [upload_tracker.py]

    Two JSON files, [data/.upload_tracker.json] (file identities
    "path:mtime") and [data/.email_tracker.json] (Gmail message ids), each
    [{items: [...], count: n}]. Every operation loads the whole file into a
    Python [set] ([load_tracker]: a missing or corrupt file reads as the
    empty set), mutates it and rewrites the file ([save_tracker]). Here the
    two files are the fields of [tracker_files], the set is a [gset string],
    and the file system's modification times are a [gmap] from path to the
    text [str(os.path.getmtime(path))]. *)

From S2P Require Import Prelude.
Local Open Scope string_scope.

Module UploadTracker.

(** The JSON payload [{items, count}]: [count] is derived from [items] on
    every save and never read back, so only [items] is kept. *)
Record tracker_files := {
  upload_tracker : stored (list string);   (** TRACKER_FILE *)
  email_tracker : stored (list string)     (** EMAIL_TRACKER_FILE *)
}.

(** [os.path.getmtime] for the paths that exist, as Python prints it. *)
Abbreviation mtimes := (gmap string string).

(** [load_tracker]: [set(data.get('items', []))], or [set()] when the file
    is absent or not valid JSON. *)
Definition load_tracker (f : stored (list string)) : gset string :=
  list_to_set (load_or [] f).

(** [save_tracker]: rewrite the file with [list(items)]. *)
Definition save_tracker (items : gset string) : stored (list string) :=
  Valid (elements items).

(** [file_id = f"{filepath}:{mtime}"] *)
Definition file_id (filepath mtime : string) : string :=
  filepath ++ ":" ++ mtime.

Definition is_file_uploaded (mt : mtimes) (st : tracker_files)
    (filepath : string) : bool :=
  match mt !! filepath with
  | Some m => bool_decide (file_id filepath m ∈ load_tracker (upload_tracker st))
  | None => false
  end.

Definition mark_file_uploaded (mt : mtimes) (st : tracker_files)
    (filepath : string) : tracker_files :=
  match mt !! filepath with
  | Some m =>
      {| upload_tracker :=
           save_tracker ({[file_id filepath m]} ∪ load_tracker (upload_tracker st));
         email_tracker := email_tracker st |}
  | None => st
  end.

(** [clear_upload_tracker]: remove the file if it exists. *)
Definition clear_upload_tracker (st : tracker_files) : tracker_files :=
  {| upload_tracker := Missing; email_tracker := email_tracker st |}.

Definition is_email_processed (st : tracker_files) (email_id : string) : bool :=
  bool_decide (email_id ∈ load_tracker (email_tracker st)).

Definition mark_email_processed (st : tracker_files) (email_id : string)
    : tracker_files :=
  {| upload_tracker := upload_tracker st;
     email_tracker := save_tracker ({[email_id]} ∪ load_tracker (email_tracker st)) |}.

(** [get_tracker_stats]: (uploaded_files, processed_emails). *)
Definition get_tracker_stats (st : tracker_files) : nat * nat :=
  (size (load_tracker (upload_tracker st)), size (load_tracker (email_tracker st))).

(** ** Splitting a file identity back at its last colon *)
Fixpoint split_last_colon (s : string) : option (string * string) :=
  match s with
  | EmptyString => None
  | String c s' =>
      match split_last_colon s' with
      | Some (a, b) => Some (String c a, b)
      | None => if Ascii.eqb c ":"%char then Some (EmptyString, s') else None
      end
  end.

(** ** The two halves of a read-modify-write, for interleavings *)

(** What a process holds after its [load_tracker] of the e-mail file. *)
Definition email_snapshot (st : tracker_files) : gset string :=
  load_tracker (email_tracker st).

(** The [save_tracker] that ends [mark_email_processed] from a snapshot. *)
Definition email_save_from (snap : gset string) (email_id : string)
    (st : tracker_files) : tracker_files :=
  {| upload_tracker := upload_tracker st;
     email_tracker := save_tracker ({[email_id]} ∪ snap) |}.

(** ** Lemmas *)

Lemma load_save_tracker (s : gset string) : load_tracker (save_tracker s) = s.
Proof. unfold load_tracker, save_tracker. simpl. apply list_to_set_elements_L. Qed.

#[export] Hint Rewrite load_save_tracker : pycore.

(** Marking a path that exists makes it uploaded. *)
Lemma mark_then_is_file_uploaded (mt : mtimes) (st : tracker_files) (filepath : string) :
  is_Some (mt !! filepath) -> is_file_uploaded mt (mark_file_uploaded mt st filepath) filepath = true.
Proof.
  intros [m Hm]. unfold is_file_uploaded, mark_file_uploaded. rewrite Hm. simpl.
  rewrite load_save_tracker. apply bool_decide_eq_true. set_solver.
Qed.

Lemma split_last_colon_none (m : string) :
  contains ":" m = false -> split_last_colon m = None.
Proof.
  induction m as [|c m IH]; simpl; [done|].
  intros H. apply orb_false_iff in H as [H1 H2].
  rewrite IH by done. rewrite andb_true_r in H1.
  destruct (Ascii.eqb c ":"%char) eqn:E; [|done].
  apply Ascii.eqb_eq in E. subst. done.
Qed.

(** The e-mail set after a mark: one more id, nothing else. *)
Lemma load_mark_email_processed (st : tracker_files) (email_id : string) :
  load_tracker (email_tracker (mark_email_processed st email_id)) =
  {[email_id]} ∪ load_tracker (email_tracker st).
Proof. apply load_save_tracker. Qed.

Lemma is_email_processed_spec (st : tracker_files) (email_id : string) :
  is_email_processed st email_id = true <-> email_id ∈ load_tracker (email_tracker st).
Proof. unfold is_email_processed. apply bool_decide_eq_true. Qed.

(** Splitting "path:mtime" at its last colon gives back both parts. *)
Lemma split_last_colon_file_id (filepath mtime : string) :
  contains ":" mtime = false ->
  split_last_colon (file_id filepath mtime) = Some (filepath, mtime).
Proof.
  intros Hm. unfold file_id.
  induction filepath as [|c p IH]; simpl.
  - rewrite split_last_colon_none by done. done.
  - rewrite IH. done.
Qed.

(** ** Properties *)

(** Marking an e-mail makes it processed, whatever the file held
    (missing, corrupt or valid). *)
Theorem mark_then_is_email_processed (st : tracker_files) (email_id : string) :
  is_email_processed (mark_email_processed st email_id) email_id = true.
Proof.
  unfold is_email_processed, mark_email_processed. simpl.
  rewrite load_save_tracker. apply bool_decide_eq_true. set_solver.
Qed.

(** C8: [mark_email_processed] adds exactly its id: afterwards an id is
    processed iff it is the marked one or was processed before, the upload
    tracker is untouched, and a second mark of the same id leaves both
    tracker files exactly as the first one left them. *)
Theorem mark_email_processed_idempotent (st : tracker_files) (email_id : string) :
  (forall id', is_email_processed (mark_email_processed st email_id) id' =
               bool_decide (id' = email_id) || is_email_processed st id') /\
  upload_tracker (mark_email_processed st email_id) = upload_tracker st /\
  mark_email_processed (mark_email_processed st email_id) email_id =
  mark_email_processed st email_id.
Proof.
  split_and!.
  - intros id'. unfold is_email_processed. rewrite load_mark_email_processed.
    apply eq_bool_prop_intro. rewrite orb_True, !bool_decide_spec. set_solver.
  - done.
  - unfold mark_email_processed. simpl. rewrite load_save_tracker. f_equal.
    f_equal. set_solver.
Qed.

(** Marking never forgets: an id processed before stays processed
    after another id is marked, and the upload tracker is untouched. *)
Theorem mark_email_processed_monotone (st : tracker_files) (id id' : string) :
  is_email_processed st id' = true ->
  is_email_processed (mark_email_processed st id) id' = true /\
  upload_tracker (mark_email_processed st id) = upload_tracker st.
Proof.
  unfold is_email_processed, mark_email_processed. simpl.
  rewrite load_save_tracker. rewrite !bool_decide_eq_true. set_solver.
Qed.

Lemma mark_email_processed_monotone_witness :
  is_email_processed {| upload_tracker := Missing; email_tracker := Valid ["m1"] |} "m1" = true /\
  is_email_processed (mark_email_processed
     {| upload_tracker := Missing; email_tracker := Valid ["m1"] |} "m2") "m1" = true /\
  upload_tracker (mark_email_processed
     {| upload_tracker := Missing; email_tracker := Valid ["m1"] |} "m2") = Missing.
Proof.
  assert (H : is_email_processed
     {| upload_tracker := Missing; email_tracker := Valid ["m1"] |} "m1" = true)
    by reflexivity.
  split; [exact H|]. exact (mark_email_processed_monotone _ "m2" "m1" H).
Defined.

(** File identities are unambiguous: two (path, mtime) pairs with the
    same "path:mtime" identity are the same pair, because a printed float
    has no colon and splitting at the last colon recovers both parts. *)
Theorem file_id_injective (p1 p2 m1 m2 : string) :
  contains ":" m1 = false -> contains ":" m2 = false ->
  file_id p1 m1 = file_id p2 m2 -> p1 = p2 /\ m1 = m2.
Proof.
  intros H1 H2 Heq. apply (f_equal split_last_colon) in Heq.
  rewrite !split_last_colon_file_id in Heq by done. by simplify_eq.
Qed.

Lemma file_id_injective_witness :
  contains ":" "1700000000.25" = false /\ contains ":" "1700000000.5" = false /\
  (file_id "data/a:b.pdf" "1700000000.25" = file_id "data/a:b.pdf" "1700000000.5" ->
   "1700000000.25" = "1700000000.5").
Proof.
  split; [reflexivity|]. split; [reflexivity|]. intros Heq.
  pose proof (file_id_injective "data/a:b.pdf" "data/a:b.pdf" "1700000000.25" "1700000000.5") as H.
  refine (proj2 (H _ _ Heq)); reflexivity.
Defined.

(** A file whose modification time changed is new again: marking the
    file at its old mtime does not make it count as uploaded at the new one. *)
Theorem file_new_after_mtime_change (mt : mtimes) (st : tracker_files)
    (p m m' : string) :
  mt !! p = Some m -> m <> m' ->
  contains ":" m = false -> contains ":" m' = false ->
  is_file_uploaded (<[p:=m']> mt) (mark_file_uploaded mt st p) p =
  is_file_uploaded (<[p:=m']> mt) st p.
Proof.
  intros Hp Hne Hm Hm'. unfold is_file_uploaded, mark_file_uploaded.
  rewrite Hp, lookup_insert_eq. simpl. rewrite load_save_tracker.
  apply bool_decide_ext. rewrite elem_of_union, elem_of_singleton.
  split; [|tauto]. intros [Heq|?]; [|done]. exfalso.
  apply (f_equal split_last_colon) in Heq.
  rewrite !split_last_colon_file_id in Heq by done. congruence.
Qed.

Lemma file_new_after_mtime_change_witness :
  is_file_uploaded (<["a.pdf":="2.0"]> (<["a.pdf":="1.0"]> ∅))
    (mark_file_uploaded (<["a.pdf":="1.0"]> ∅)
       {| upload_tracker := Missing; email_tracker := Missing |} "a.pdf") "a.pdf" =
  is_file_uploaded (<["a.pdf":="2.0"]> (<["a.pdf":="1.0"]> ∅))
       {| upload_tracker := Missing; email_tracker := Missing |} "a.pdf".
Proof.
  apply file_new_after_mtime_change with (m := "1.0");
    [reflexivity | discriminate | reflexivity | reflexivity].
Defined.

(** The trackers are read-modify-write without locking: when two
    processes both load the e-mail tracker before either saves, the second
    save erases the first process's mark (last writer wins, §5 of the
    spec). [mark_email_processed] is exactly snapshot-then-save. *)
Theorem email_tracker_lost_update (st : tracker_files) (a b : string) :
  a <> b -> is_email_processed st a = false ->
  let snap_a := email_snapshot st in
  let snap_b := email_snapshot st in
  let st' := email_save_from snap_b b (email_save_from snap_a a st) in
  is_email_processed st' a = false /\ is_email_processed st' b = true /\
  mark_email_processed st a = email_save_from (email_snapshot st) a st.
Proof.
  intros Hne Ha. unfold is_email_processed in *. simpl.
  rewrite load_save_tracker. rewrite bool_decide_eq_false in Ha.
  split; [|split]; [|apply bool_decide_eq_true; set_solver | done].
  apply bool_decide_eq_false. unfold email_snapshot. set_solver.
Qed.

Lemma email_tracker_lost_update_witness :
  let st := {| upload_tracker := Missing; email_tracker := Valid ["m0"] |} in
  ("a" <> "b") /\ is_email_processed st "a" = false /\
  is_email_processed
    (email_save_from (email_snapshot st) "b"
       (email_save_from (email_snapshot st) "a" st)) "a" = false.
Proof.
  intros st.
  assert (Hne : "a" <> "b") by discriminate.
  assert (Ha : is_email_processed st "a" = false) by reflexivity.
  split; [exact Hne|]. split; [exact Ha|].
  exact (proj1 (email_tracker_lost_update st "a" "b" Hne Ha)).
Defined.

End UploadTracker.
