(* ===== verification/Clock.v ===== *)
(** * Clock: Python's naive [datetime] and the [strftime] directives the
    code uses

    [datetime.now()] is an input of every handler that reads the clock. A
    [datetime] is its civil fields; [strftime] is modelled for the
    directives [%Y %m %d %H %M %S %V] that [markdown_consolidator.py] and
    [rag_chat.py] use, following the C library's definition of the ISO
    8601 week number [%V] (weeks start on Monday; week 1 is the week with
    the year's first Thursday). Days are counted from 1970-01-01 with the
    civil-from-days arithmetic of the proleptic Gregorian calendar. *)

From S2P Require Import Prelude.
From stdpp Require Import pretty.
Local Open Scope string_scope.
Local Open Scope Z_scope.

Record datetime := mk_datetime {
  dt_year : Z; dt_month : Z; dt_day : Z;
  dt_hour : Z; dt_minute : Z; dt_second : Z
}.

Definition is_leap (y : Z) : bool :=
  ((y mod 4 =? 0) && negb (y mod 100 =? 0)) || (y mod 400 =? 0).

Definition days_in_month (y m : Z) : Z :=
  if (m =? 2) then (if is_leap y then 29 else 28)
  else if (m =? 4) || (m =? 6) || (m =? 9) || (m =? 11) then 30 else 31.

(** A [datetime] Python can construct. *)
Definition valid_datetime (t : datetime) : bool :=
  (1 <=? dt_year t) && (dt_year t <=? 9999) &&
  (1 <=? dt_month t) && (dt_month t <=? 12) &&
  (1 <=? dt_day t) && (dt_day t <=? days_in_month (dt_year t) (dt_month t)) &&
  (0 <=? dt_hour t) && (dt_hour t <? 24) &&
  (0 <=? dt_minute t) && (dt_minute t <? 60) &&
  (0 <=? dt_second t) && (dt_second t <? 60).

(** Days since 1970-01-01 of a civil date. *)
Definition days_from_civil (y m d : Z) : Z :=
  let y' := if m <=? 2 then y - 1 else y in
  let era := y' / 400 in
  let yoe := y' - era * 400 in
  let mp := if 2 <? m then m - 3 else m + 9 in
  let doy := (153 * mp + 2) / 5 + d - 1 in
  let doe := yoe * 365 + yoe / 4 - yoe / 100 + doy in
  era * 146097 + doe - 719468.

(** ISO weekday, Monday = 1 ... Sunday = 7 (1970-01-01 was a Thursday). *)
Definition iso_weekday (y m d : Z) : Z := (days_from_civil y m d + 3) mod 7 + 1.

(** Day of the year, from 1. *)
Definition day_of_year (y m d : Z) : Z :=
  days_from_civil y m d - days_from_civil y 1 1 + 1.

(** ISO weeks in year [y]: 53 when it starts on a Thursday, or on a
    Wednesday in a leap year. *)
Definition iso_weeks_in_year (y : Z) : Z :=
  let jan1 := iso_weekday y 1 1 in
  if (jan1 =? 4) || (is_leap y && (jan1 =? 3)) then 53 else 52.

(** ISO (year, week) of a date: what [%G] and [%V] print. *)
Definition iso_week_date (y m d : Z) : Z * Z :=
  let w := (day_of_year y m d - iso_weekday y m d + 10) / 7 in
  if w <? 1 then (y - 1, iso_weeks_in_year (y - 1))
  else if iso_weeks_in_year y <? w then (y + 1, 1)
  else (y, w).

(** Zero-padded decimal fields. *)
Definition pad2 (n : Z) : string :=
  if n <? 10 then "0" ++ pretty n else pretty n.

Definition strftime_Y (t : datetime) : string := pretty (dt_year t).
Definition strftime_m (t : datetime) : string := pad2 (dt_month t).
Definition strftime_d (t : datetime) : string := pad2 (dt_day t).
Definition strftime_V (t : datetime) : string :=
  pad2 (snd (iso_week_date (dt_year t) (dt_month t) (dt_day t))).

(** [strftime("%Y-W%V")] *)
Definition strftime_year_week (t : datetime) : string :=
  strftime_Y t ++ "-W" ++ strftime_V t.

(** [strftime("%Y-%m-%d")] *)
Definition strftime_date (t : datetime) : string :=
  strftime_Y t ++ "-" ++ strftime_m t ++ "-" ++ strftime_d t.

(** [strftime("%H:%M:%S")] *)
Definition strftime_time (t : datetime) : string :=
  pad2 (dt_hour t) ++ ":" ++ pad2 (dt_minute t) ++ ":" ++ pad2 (dt_second t).

(** [strftime("%Y-%m-%d %H:%M:%S")] *)
Definition strftime_datetime (t : datetime) : string :=
  strftime_date t ++ " " ++ strftime_time t.

(** Calendar sanity of the model, checked on dates whose ISO weeks are
    known from the calendar. *)
Example iso_week_known_dates :
  iso_week_date 2025 11 3 = (2025, 45) /\ iso_week_date 2025 11 4 = (2025, 45) /\
  iso_week_date 2024 12 30 = (2025, 1) /\ iso_week_date 2021 1 1 = (2020, 53) /\
  iso_week_date 2026 12 31 = (2026, 53) /\ iso_weekday 2025 11 3 = 1.
Proof. vm_compute. repeat split. Qed.

(** Names of [%A] and [%B] in the C locale. *)
Definition weekday_name (wd : Z) : string :=
  match wd with
  | 1 => "Monday" | 2 => "Tuesday" | 3 => "Wednesday" | 4 => "Thursday"
  | 5 => "Friday" | 6 => "Saturday" | _ => "Sunday"
  end.

Definition month_name (m : Z) : string :=
  match m with
  | 1 => "January" | 2 => "February" | 3 => "March" | 4 => "April" | 5 => "May"
  | 6 => "June" | 7 => "July" | 8 => "August" | 9 => "September" | 10 => "October"
  | 11 => "November" | _ => "December"
  end.

(** [strftime("%B %d, %Y")] *)
Definition strftime_month_day_year (t : datetime) : string :=
  month_name (dt_month t) ++ " " ++ strftime_d t ++ ", " ++ strftime_Y t.

(** [strftime("%A, %B %d, %Y")] *)
Definition strftime_long_date (t : datetime) : string :=
  weekday_name (iso_weekday (dt_year t) (dt_month t) (dt_day t)) ++ ", " ++
  strftime_month_day_year t.

(** [%04d] *)
Definition pad4 (n : Z) : string :=
  if n <? 10 then "000" ++ pretty n else if n <? 100 then "00" ++ pretty n
  else if n <? 1000 then "0" ++ pretty n else pretty n.

(** [datetime.isoformat()] of a datetime without microseconds. *)
Definition isoformat (t : datetime) : string :=
  pad4 (dt_year t) ++ "-" ++ strftime_m t ++ "-" ++ strftime_d t ++ "T" ++ strftime_time t.

(** [t + timedelta(days=1)] *)
Definition add_day (t : datetime) : datetime :=
  if dt_day t <? days_in_month (dt_year t) (dt_month t) then
    mk_datetime (dt_year t) (dt_month t) (dt_day t + 1) (dt_hour t) (dt_minute t) (dt_second t)
  else if dt_month t <? 12 then
    mk_datetime (dt_year t) (dt_month t + 1) 1 (dt_hour t) (dt_minute t) (dt_second t)
  else mk_datetime (dt_year t + 1) 1 1 (dt_hour t) (dt_minute t) (dt_second t).

(** [t + timedelta(hours=1)] *)
Definition add_hour (t : datetime) : datetime :=
  if dt_hour t <? 23 then
    mk_datetime (dt_year t) (dt_month t) (dt_day t) (dt_hour t + 1) (dt_minute t) (dt_second t)
  else add_day (mk_datetime (dt_year t) (dt_month t) (dt_day t) 0 (dt_minute t) (dt_second t)).

(** Within a month, the day count grows with the day. *)
Lemma days_from_civil_day (y m d : Z) :
  days_from_civil y m d = days_from_civil y m 1 + (d - 1).
Proof. unfold days_from_civil. lia. Qed.

Lemma iso_weekday_range (y m d : Z) : 1 <= iso_weekday y m d <= 7.
Proof. unfold iso_weekday. pose proof (Z.mod_pos_bound (days_from_civil y m d + 3) 7). lia. Qed.

Lemma iso_weeks_in_year_ge (y : Z) : 52 <= iso_weeks_in_year y.
Proof. unfold iso_weeks_in_year. case_match; lia. Qed.

(** January 4 is in ISO week 1 of its own year, whatever the year. *)
Lemma jan4_iso_week (y : Z) : iso_week_date y 1 4 = (y, 1).
Proof.
  unfold iso_week_date, day_of_year. rewrite (days_from_civil_day y 1 4).
  pose proof (iso_weekday_range y 1 4). pose proof (iso_weeks_in_year_ge y).
  assert (Hw : (days_from_civil y 1 1 + (4 - 1) - days_from_civil y 1 1 + 1 - iso_weekday y 1 4 + 10) / 7 = 1).
  { symmetry. apply (Z.div_unique _ _ _ (14 - iso_weekday y 1 4 - 7)); lia. }
  rewrite Hw. rewrite (proj2 (Z.ltb_ge 1 1)) by lia. rewrite (proj2 (Z.ltb_ge _ 1)) by lia. done.
Qed.

