(* ===== verification/Consolidator.v ===== *)
(** * Consolidator: [markdown_consolidator.py]

    The corpus is the directory [data/consolidated]. The file system is a
    [gmap string string] from a path to the bytes of the file; a path of a
    corpus document is its parent directory and its stem ([md_path]), the
    suffix being ".md" as in every path the code builds. [datetime.now()]
    is the explicit argument [now]. Attachment transcription
    ([attachment_transcriber.transcribe_attachment]) is an oracle: a
    function from the attachment path to its text or to the message of the
    exception it raised.

    The size ceiling [MAX_FILE_SIZE] is the first argument of the
    operations that read it, so that the theorems, stated for every
    ceiling, also run on small concrete files; the program is the instance
    at [MAX_FILE_SIZE]. *)

From S2P Require Import Prelude Clock.
From stdpp Require Import pretty.
Local Open Scope string_scope.

Module MarkdownConsolidator.

Abbreviation fsys := (gmap string string).

Definition nl : string := String (ascii_of_nat 10) EmptyString.

(** [MAX_FILE_SIZE = 5 * 1024 * 1024] *)
Definition MAX_FILE_SIZE : nat := 5 * 1024 * 1024.

(** A [pathlib.Path] "<parent>/<stem>.md". *)
Record md_path := { md_parent : string; md_stem : string }.

Definition path_str (p : md_path) : string := md_parent p ++ "/" ++ md_stem p ++ ".md".

Definition file_exists (fs : fsys) (p : string) : bool := bool_decide (is_Some (fs !! p)).

(** [get_master_markdown_path]: [data/consolidated/school-data-%Y-W%V.md]. *)
Definition get_master_markdown_path (now : datetime) : md_path :=
  {| md_parent := "data/consolidated"; md_stem := "school-data-" ++ strftime_year_week now |}.

(** [should_create_new_file]: absent, or [st_size > MAX_FILE_SIZE]. *)
Definition should_create_new_file (max_size : nat) (fs : fsys) (file_path : md_path) : bool :=
  match fs !! path_str file_path with
  | None => true
  | Some content => (max_size <? String.length content)%nat
  end.

Definition create_markdown_header (now : datetime) : string :=
  "# School Emails & Announcements" ++ nl ++ nl ++
  "**Generated:** " ++ strftime_datetime now ++ "  " ++ nl ++
  "**Week:** " ++ strftime_year_week now ++ "  " ++ nl ++
  "**Source:** Gmail School Inbox" ++ nl ++ nl ++
  "---" ++ nl ++ nl.

(** [os.path.basename]: the text after the last '/'. *)
Fixpoint basename_acc (s acc : string) : string :=
  match s with
  | EmptyString => acc
  | String c s' =>
      if Ascii.eqb c "/"%char then basename_acc s' EmptyString
      else basename_acc s' (acc ++ String c EmptyString)
  end.
Definition basename (s : string) : string := basename_acc s EmptyString.

(** One attachment subsection of [format_email_markdown]. *)
Definition format_attachment (att : string * string) : string :=
  "#### " ++ basename (fst att) ++ nl ++ nl ++ snd att ++ nl ++ nl.

Definition format_email_markdown (email_date : datetime)
    (email_subject email_sender email_body email_id : string)
    (attachments : list (string * string)) : string :=
  let date_str := strftime_date email_date in
  let time_str := strftime_time email_date in
  let markdown :=
    "## Email: " ++ date_str ++ " - " ++ email_subject ++ nl ++ nl ++
    "**From:** " ++ email_sender ++ "  " ++ nl ++
    "**Date:** " ++ date_str ++ " " ++ time_str ++ "  " ++ nl ++
    "**Email ID:** " ++ email_id ++ nl ++ nl ++
    email_body ++ nl in
  let markdown :=
    match attachments with
    | [] => markdown
    | _ :: _ =>
        fold_left (fun md att => md ++ format_attachment att) attachments
          (markdown ++ nl ++ "### Attachments:" ++ nl ++ nl)
    end in
  markdown ++ nl ++ "---" ++ nl ++ nl.

(** [base_path.parent / f"{stem}_part{counter}.md"] *)
Definition part_path (base : md_path) (counter : nat) : md_path :=
  {| md_parent := md_parent base; md_stem := md_stem base ++ "_part" ++ pretty counter |}.

(** The [while file_path.exists()] loop after its first iteration: the
    first [_part<k>], [k >= 1], that does not exist; [size fs] candidates
    suffice (lemma [next_part_path_fresh]). *)
Definition next_part_path (fs : fsys) (base : md_path) : md_path :=
  first_free (fun p => file_exists fs (path_str p)) (part_path base) (size fs) 1.

(** [append_to_master_markdown]: the new file system and the path written. *)
Definition append_to_master_markdown (max_size : nat) (now : datetime)
    (fs : fsys) (email_content : string) (file_path : md_path) : fsys * md_path :=
  if should_create_new_file max_size fs file_path then
    let target :=
      if file_exists fs (path_str file_path) then next_part_path fs file_path
      else file_path in
    (<[path_str target := create_markdown_header now ++ email_content]> fs, target)
  else
    (<[path_str file_path := default "" (fs !! path_str file_path) ++ email_content]> fs,
     file_path).

(** What [transcribe_attachment] did: returned text, or raised. *)
Inductive transcription :=
| Transcribed (text : string)
| TranscribeError (message : string).

(** The transcription loop of [consolidate_email_with_attachments]: a
    missing attachment is skipped, a raising one becomes an inline
    placeholder. *)
Definition transcribe_attachments (fs : fsys) (transcribe : string -> transcription)
    (attachment_paths : list string) : list (string * string) :=
  flat_map (fun att_path =>
    if file_exists fs att_path then
      match transcribe att_path with
      | Transcribed text => [(att_path, text)]
      | TranscribeError e => [(att_path, "[Error transcribing attachment: " ++ e ++ "]")]
      end
    else []) attachment_paths.

Definition consolidate_email_with_attachments (max_size : nat) (now : datetime)
    (fs : fsys) (transcribe : string -> transcription) (email_date : datetime)
    (email_subject email_sender email_body email_id : string)
    (attachment_paths : list string) : fsys * md_path :=
  let master_path := get_master_markdown_path now in
  let transcribed := transcribe_attachments fs transcribe attachment_paths in
  let email_markdown :=
    format_email_markdown email_date email_subject email_sender email_body email_id
      transcribed in
  append_to_master_markdown max_size now fs email_markdown master_path.

(** ** Lemmas *)

Lemma part_path_str_inj (base : md_path) (k1 k2 : nat) :
  path_str (part_path base k1) = path_str (part_path base k2) -> k1 = k2.
Proof.
  unfold path_str, part_path. simpl. intros H.
  rewrite !string_app_assoc in H. do 4 apply string_app_inv_l in H.
  apply string_app_inv_r in H. by apply (inj pretty).
Qed.

(** The part-name search terminates on a name no file has. *)
Lemma next_part_path_fresh (fs : fsys) (base : md_path) :
  fs !! path_str (next_part_path fs base) = None.
Proof.
  apply (first_free_fresh fs path_str (part_path base) 1). apply part_path_str_inj.
Qed.

Lemma append_to_master_markdown_rotate (max_size : nat) (now : datetime)
    (fs : fsys) (content c : string) (p : md_path) :
  fs !! path_str p = Some c -> max_size < String.length c ->
  append_to_master_markdown max_size now fs content p =
  (<[path_str (next_part_path fs p) := create_markdown_header now ++ content]> fs,
   next_part_path fs p).
Proof.
  intros Hp Hc. unfold append_to_master_markdown, should_create_new_file.
  rewrite Hp. apply Nat.ltb_lt in Hc. rewrite Hc.
  unfold file_exists. rewrite Hp. done.
Qed.

Lemma append_to_master_markdown_append (max_size : nat) (now : datetime)
    (fs : fsys) (content c : string) (p : md_path) :
  fs !! path_str p = Some c -> String.length c <= max_size ->
  append_to_master_markdown max_size now fs content p =
  (<[path_str p := c ++ content]> fs, p).
Proof.
  intros Hp Hc. unfold append_to_master_markdown, should_create_new_file.
  rewrite Hp. apply Nat.ltb_ge in Hc. rewrite Hc. done.
Qed.

Lemma append_to_master_markdown_create (max_size : nat) (now : datetime)
    (fs : fsys) (content : string) (p : md_path) :
  fs !! path_str p = None ->
  append_to_master_markdown max_size now fs content p =
  (<[path_str p := create_markdown_header now ++ content]> fs, p).
Proof.
  intros Hp. unfold append_to_master_markdown, should_create_new_file, file_exists.
  rewrite Hp. done.
Qed.

(** The document written ends with the new section, and nothing else
    changes. *)
Lemma append_to_master_markdown_written (max_size : nat) (now : datetime)
    (fs : fsys) (content : string) (p : md_path) :
  exists pre,
    (append_to_master_markdown max_size now fs content p).1
      !! path_str (append_to_master_markdown max_size now fs content p).2
    = Some (pre ++ content) /\
    forall q, q <> path_str (append_to_master_markdown max_size now fs content p).2 ->
      (append_to_master_markdown max_size now fs content p).1 !! q = fs !! q.
Proof.
  destruct (fs !! path_str p) as [c|] eqn:Hp.
  - destruct (Nat.le_gt_cases (String.length c) max_size) as [Hc|Hc].
    + rewrite (append_to_master_markdown_append _ _ _ _ c) by done. simpl.
      exists c. split; [apply lookup_insert_eq|]. intros q Hq. by apply lookup_insert_ne.
    + rewrite (append_to_master_markdown_rotate _ _ _ _ c) by done. simpl.
      eexists. split; [apply lookup_insert_eq|]. intros q Hq. by apply lookup_insert_ne.
  - rewrite append_to_master_markdown_create by done. simpl.
    eexists. split; [apply lookup_insert_eq|]. intros q Hq. by apply lookup_insert_ne.
Qed.

(** Every existing file keeps its bytes as a prefix. *)
Lemma append_to_master_markdown_extends (max_size : nat) (now : datetime) (fs : fsys)
    (md : string) (p : md_path) (q c : string) :
  fs !! q = Some c ->
  exists sfx, (append_to_master_markdown max_size now fs md p).1 !! q = Some (c ++ sfx).
Proof.
  intros Hq. destruct (fs !! path_str p) as [c0|] eqn:Hp.
  - destruct (Nat.le_gt_cases (String.length c0) max_size) as [Hc|Hc].
    + rewrite (append_to_master_markdown_append _ _ _ _ c0) by done. simpl.
      destruct (decide (q = path_str p)) as [->|Hne].
      * rewrite lookup_insert_eq. exists md. congruence.
      * rewrite lookup_insert_ne by congruence. exists "". by rewrite string_app_nil_r.
    + rewrite (append_to_master_markdown_rotate _ _ _ _ c0) by done. simpl.
      pose proof (next_part_path_fresh fs p).
      rewrite lookup_insert_ne by congruence. exists "". by rewrite string_app_nil_r.
  - rewrite append_to_master_markdown_create by done. simpl.
    rewrite lookup_insert_ne by congruence. exists "". by rewrite string_app_nil_r.
Qed.

(** The document written is in the directory of the requested one. *)
Lemma append_to_master_markdown_parent (max_size : nat) (now : datetime) (fs : fsys)
    (md : string) (p : md_path) :
  md_parent (append_to_master_markdown max_size now fs md p).2 = md_parent p.
Proof.
  unfold append_to_master_markdown.
  destruct (should_create_new_file _ _ _); [|done]. simpl.
  destruct (file_exists _ _); [|done]. unfold next_part_path.
  destruct (first_free_cand (fun q => file_exists fs (path_str q)) (part_path p) (size fs) 1)
    as [k ->]. done.
Qed.

(** The path chosen does not depend on the section written. *)
Lemma append_to_master_markdown_target (max_size : nat) (now : datetime)
    (fs : fsys) (c1 c2 : string) (p : md_path) :
  (append_to_master_markdown max_size now fs c1 p).2 =
  (append_to_master_markdown max_size now fs c2 p).2.
Proof. unfold append_to_master_markdown. by destruct (should_create_new_file _ _ _). Qed.

Lemma contains_fold_attachments (n : string) (atts : list (string * string)) (m : string) :
  contains n m = true \/ (exists a, a ∈ atts /\ contains n (format_attachment a) = true) ->
  contains n (fold_left (fun md att => md ++ format_attachment att) atts m) = true.
Proof.
  revert m. induction atts as [|a atts IH]; intros m [Hm|(b & Hb & Hn)]; simpl.
  - done.
  - by apply not_elem_of_nil in Hb.
  - apply IH. left. by apply contains_app_l.
  - apply IH. apply elem_of_cons in Hb as [->|Hb].
    + left. by apply contains_app_r.
    + right. by exists b.
Qed.

(** Every transcribed attachment's text is in the formatted section. *)
Lemma format_email_markdown_attachment (d : datetime) (subj sender body eid : string)
    (atts : list (string * string)) (a : string * string) :
  a ∈ atts -> contains (snd a) (format_email_markdown d subj sender body eid atts) = true.
Proof.
  intros Ha. unfold format_email_markdown. destruct atts as [|a0 atts'] eqn:Eatts.
  - by apply not_elem_of_nil in Ha.
  - apply contains_app_l. rewrite <- Eatts. apply contains_fold_attachments.
    right. exists a. split; [by subst|]. unfold format_attachment. solve_contains.
Qed.

(** ** Properties *)

(** C3: rotation. When the target document exists and is over the
    ceiling, the section goes to a [_part<k>] sibling that did not exist,
    which then holds exactly a fresh header and the section; the original
    document and every other file are unchanged. *)
Theorem rotation_creates_fresh_part (max_size : nat) (now : datetime) (fs : fsys)
    (content c : string) (p : md_path) :
  fs !! path_str p = Some c -> max_size < String.length c ->
  let r := append_to_master_markdown max_size now fs content p in
  fs !! path_str r.2 = None /\
  r.1 !! path_str r.2 = Some (create_markdown_header now ++ content) /\
  r.1 !! path_str p = Some c /\
  (forall q, q <> path_str r.2 -> r.1 !! q = fs !! q).
Proof.
  intros Hp Hc. rewrite (append_to_master_markdown_rotate _ _ _ _ c) by done. simpl.
  pose proof (next_part_path_fresh fs p) as Hfresh.
  split; [done|]. split; [apply lookup_insert_eq|].
  split; [rewrite lookup_insert_ne; [done|congruence]|].
  intros q Hq. by apply lookup_insert_ne.
Qed.

Lemma rotation_creates_fresh_part_witness :
  let now := mk_datetime 2025 11 3 18 0 0 in
  let fs : fsys := {[ "data/consolidated/school-data-2025-W45.md" := "0123456789AB" ]} in
  fs !! path_str (get_master_markdown_path now) = Some "0123456789AB" /\ 10 < 12 /\
  (append_to_master_markdown 10 now fs "## Email" (get_master_markdown_path now)).2 =
    part_path (get_master_markdown_path now) 1.
Proof.
  intros now fs.
  assert (H1 : fs !! path_str (get_master_markdown_path now) = Some "0123456789AB")
    by reflexivity.
  assert (H2 : 10 < String.length "0123456789AB") by (simpl; lia).
  pose proof (rotation_creates_fresh_part 10 now fs "## Email" _ _ H1 H2) as _.
  split; [exact H1|]. split; [lia|]. vm_compute. reflexivity.
Defined.

(** C7: below the ceiling the section is appended to the same document
    whatever its size, so the document grows by exactly the section and
    may end above the ceiling: the size check reads only the existing
    size (the spec's rotation rule checks the size after the append). *)
Theorem append_ignores_section_size (max_size : nat) (now : datetime) (fs : fsys)
    (content c : string) (p : md_path) :
  fs !! path_str p = Some c -> String.length c <= max_size ->
  let r := append_to_master_markdown max_size now fs content p in
  r.2 = p /\ r.1 !! path_str p = Some (c ++ content) /\
  String.length (c ++ content) = String.length c + String.length content /\
  (forall q, q <> path_str p -> r.1 !! q = fs !! q).
Proof.
  intros Hp Hc. rewrite (append_to_master_markdown_append _ _ _ _ c) by done. simpl.
  split; [done|]. split; [apply lookup_insert_eq|].
  split; [apply length_string_app|]. intros q Hq. by apply lookup_insert_ne.
Qed.

Lemma append_ignores_section_size_witness :
  let now := mk_datetime 2025 11 3 18 0 0 in
  let fs : fsys := {[ "data/consolidated/school-data-2025-W45.md" := "0123456789" ]} in
  fs !! path_str (get_master_markdown_path now) = Some "0123456789" /\
  (append_to_master_markdown 10 now fs "## Email: x" (get_master_markdown_path now)).1
    !! "data/consolidated/school-data-2025-W45.md" = Some "0123456789## Email: x" /\
  10 < String.length "0123456789## Email: x".
Proof.
  intros now fs.
  assert (H1 : fs !! path_str (get_master_markdown_path now) = Some "0123456789")
    by reflexivity.
  assert (H2 : String.length "0123456789" <= 10) by (simpl; lia).
  destruct (append_ignores_section_size 10 now fs "## Email: x" _ _ H1 H2)
    as (_ & H3 & _).
  split; [exact H1|]. split; [exact H3|]. simpl. lia.
Defined.

(** C33: documents are append-only: after consolidating an e-mail, every
    file that existed holds its old bytes followed by (possibly nothing)
    new bytes. *)
Theorem consolidate_append_only (max_size : nat) (now : datetime) (fs : fsys)
    (transcribe : string -> transcription) (d : datetime)
    (subj sender body eid : string) (atts : list string) (q c : string) :
  fs !! q = Some c ->
  exists sfx,
    (consolidate_email_with_attachments max_size now fs transcribe d subj sender body
       eid atts).1 !! q = Some (c ++ sfx).
Proof. intros Hq. by apply append_to_master_markdown_extends. Qed.

Lemma consolidate_append_only_witness :
  let fs : fsys := {[ "data/consolidated/school-data-2025-W45.md" := "# old" ]} in
  fs !! "data/consolidated/school-data-2025-W45.md" = Some "# old" /\
  exists sfx,
    (consolidate_email_with_attachments MAX_FILE_SIZE (mk_datetime 2025 11 4 9 0 0) fs
       (fun _ => Transcribed "") (mk_datetime 2025 11 4 8 0 0) "Field Trip"
       "office@school.org" "Bring lunch." "E2" []).1
      !! "data/consolidated/school-data-2025-W45.md" = Some ("# old" ++ sfx).
Proof.
  intros fs. assert (H : fs !! "data/consolidated/school-data-2025-W45.md" = Some "# old")
    by reflexivity.
  split; [exact H|]. exact (consolidate_append_only _ _ _ _ _ _ _ _ _ _ _ _ H).
Defined.

(** C35: the weekly name prints the calendar year [%Y] beside the ISO
    week [%V]: every December day that ISO 8601 puts in week 1 of the
    next year is written to the same document as January 4 of its own
    calendar year, a week eleven months earlier. *)
Theorem week_file_reused_across_year (t : datetime) (h mi s : Z) :
  dt_month t = 12%Z -> snd (iso_week_date (dt_year t) 12 (dt_day t)) = 1%Z ->
  get_master_markdown_path t = get_master_markdown_path (mk_datetime (dt_year t) 1 4 h mi s).
Proof.
  intros Hm Hw. unfold get_master_markdown_path, strftime_year_week, strftime_Y, strftime_V.
  simpl. rewrite Hm, Hw, jan4_iso_week. reflexivity.
Qed.

(** Monday 2024-12-30 is in ISO week 1 of 2025: its messages go to
    [school-data-2024-W01], the file of the first week of January 2024. *)
Lemma week_file_reused_across_year_witness :
  get_master_markdown_path (mk_datetime 2024 12 30 18 0 0) =
  get_master_markdown_path (mk_datetime 2024 1 4 18 0 0) /\
  md_stem (get_master_markdown_path (mk_datetime 2024 12 30 18 0 0)) = "school-data-2024-W01".
Proof.
  split; [|vm_compute; reflexivity].
  apply (week_file_reused_across_year (mk_datetime 2024 12 30 18 0 0)); vm_compute; reflexivity.
Defined.

(** The document an e-mail goes to is chosen by the clock at
    ingestion time and the sizes of the existing files, never by the
    e-mail: two e-mails with different dates consolidated at the same
    moment go to the same document. *)
Theorem consolidate_target_ignores_email (max_size : nat) (now : datetime) (fs : fsys)
    (tr : string -> transcription) (d1 d2 : datetime)
    (s1 s2 f1 f2 b1 b2 i1 i2 : string) (a1 a2 : list string) :
  (consolidate_email_with_attachments max_size now fs tr d1 s1 f1 b1 i1 a1).2 =
  (consolidate_email_with_attachments max_size now fs tr d2 s2 f2 b2 i2 a2).2.
Proof. unfold consolidate_email_with_attachments. apply append_to_master_markdown_target. Qed.

(** C34: a transcription that raises does not abort the e-mail: the
    document written contains the inline placeholder with the exception's
    message. *)
Theorem transcription_error_inline (max_size : nat) (now : datetime) (fs : fsys)
    (tr : string -> transcription) (d : datetime) (subj sender body eid : string)
    (atts : list string) (att e : string) :
  att ∈ atts -> file_exists fs att = true -> tr att = TranscribeError e ->
  let r := consolidate_email_with_attachments max_size now fs tr d subj sender body eid atts in
  exists doc, r.1 !! path_str r.2 = Some doc /\
    contains ("[Error transcribing attachment: " ++ e ++ "]") doc = true.
Proof.
  intros Hin Hex Htr. unfold consolidate_email_with_attachments.
  destruct (append_to_master_markdown_written max_size now fs
    (format_email_markdown d subj sender body eid (transcribe_attachments fs tr atts))
    (get_master_markdown_path now)) as (pre & Hw & _).
  eexists. split; [exact Hw|]. apply contains_app_r.
  apply (format_email_markdown_attachment _ _ _ _ _ _
           (att, "[Error transcribing attachment: " ++ e ++ "]")).
  unfold transcribe_attachments. apply list_elem_of_In, in_flat_map.
  exists att. split; [by apply list_elem_of_In|]. rewrite Hex, Htr. by left.
Qed.

Lemma transcription_error_inline_witness :
  let fs : fsys := {[ "data/attachments/menu.pdf" := "%PDF" ]} in
  let tr := fun _ : string => TranscribeError "corrupt PDF" in
  "data/attachments/menu.pdf" ∈ ["data/attachments/menu.pdf"] /\
  file_exists fs "data/attachments/menu.pdf" = true /\
  exists doc,
    (consolidate_email_with_attachments MAX_FILE_SIZE (mk_datetime 2025 11 3 18 0 0) fs tr
       (mk_datetime 2025 11 3 8 0 0) "Lunch" "office@school.org" "See menu" "E1"
       ["data/attachments/menu.pdf"]).1
    !! path_str (consolidate_email_with_attachments MAX_FILE_SIZE
       (mk_datetime 2025 11 3 18 0 0) fs tr (mk_datetime 2025 11 3 8 0 0) "Lunch"
       "office@school.org" "See menu" "E1" ["data/attachments/menu.pdf"]).2 = Some doc /\
    contains "[Error transcribing attachment: corrupt PDF]" doc = true.
Proof.
  intros fs tr.
  assert (H1 : "data/attachments/menu.pdf" ∈ ["data/attachments/menu.pdf"])
    by (apply list_elem_of_In; left; reflexivity).
  assert (H2 : file_exists fs "data/attachments/menu.pdf" = true) by reflexivity.
  split; [exact H1|]. split; [exact H2|].
  exact (transcription_error_inline _ _ fs tr _ _ _ _ _ _ _ "corrupt PDF" H1 H2 eq_refl).
Defined.

(** C17: the [while file_path.exists(): counter += 1] loop of
    [append_to_master_markdown] terminates: among [_part1] ...
    [_part(N+1)], [N] the number of files, it returns the first part name
    no file has, the one Python's unbounded loop stops at. *)
Theorem part_search_terminates (fs : fsys) (base : md_path) :
  exists k, (1 <= k <= size fs + 1)%nat /\ next_part_path fs base = part_path base k /\
    fs !! path_str (part_path base k) = None /\
    (forall j, (1 <= j < k)%nat -> is_Some (fs !! path_str (part_path base j))).
Proof.
  destruct (first_free_least (fun p => file_exists fs (path_str p)) (part_path base) (size fs) 1)
    as (k & Hk & Hr & Hlt & _).
  exists k. split_and!; [lia|lia|exact Hr| |].
  - rewrite <-Hr. apply next_part_path_fresh.
  - intros j Hj. specialize (Hlt j Hj). unfold file_exists in Hlt. by apply bool_decide_eq_true in Hlt.
Qed.

End MarkdownConsolidator.
