(* ===== verification/Ingest.v ===== *)
(** * Ingest: the ingestion sweep of [ingest_emails.py]

    [main()] fetches up to 50 e-mails (an input here: the Gmail client is
    not modelled), and for each one not yet in the e-mail tracker saves
    its attachments under [data/attachments] with a name made unique by a
    counter, consolidates the e-mail with [Consolidator], and marks the
    e-mail processed with [Dedup], also when consolidation raised. A
    [finally] block then deletes every attachment saved during the sweep.

    State is passed explicitly: the tracker files and the file system.
    Whether consolidation of an e-mail raises (a disk error while opening
    the document) is the input [raises]; a raising consolidation writes
    nothing. Writes of attachments and deletions are assumed to succeed
    (their failures are either fatal for the sweep or, for deletion,
    caught and printed). *)

From S2P Require Import Prelude Clock Dedup Consolidator.
From stdpp Require Import pretty.
Local Open Scope string_scope.
Import UploadTracker MarkdownConsolidator.

Module IngestEmails.

(** [gmail_client.EmailAttachment] *)
Record email_attachment := {
  att_filename : string; att_mime_type : string; att_data : string }.

(** [gmail_client.Email] *)
Record email := {
  email_id : string; email_subject : string; email_sender : string;
  email_date : datetime; email_body_text : string;
  email_attachments : list email_attachment }.

(** [config.ATTACHMENTS_DIR] *)
Definition ATTACHMENTS_DIR : string := "data/attachments".

(** The characters < > : / \ | ? * and the double quote (byte 34). *)
Definition is_unsafe_char (c : ascii) : bool :=
  existsb (Ascii.eqb c) (ascii_of_nat 34 :: ["<"; ">"; ":"; "/"; "\"; "|"; "?"; "*"]%char).

Fixpoint replace_unsafe (s : string) : string :=
  match s with
  | EmptyString => EmptyString
  | String c s' => String (if is_unsafe_char c then "_"%char else c) (replace_unsafe s')
  end.

(** [sanitize_filename]: every character of the class above becomes '_',
    then at most 200 characters are kept. *)
Definition sanitize_filename (filename : string) : string :=
  let filename := replace_unsafe filename in
  if (200 <? py_len filename)%nat then py_take 200 filename else filename.

(** Index of the last '.' of a string. *)
Fixpoint last_dot_acc (s : string) (i : nat) (acc : option nat) : option nat :=
  match s with
  | EmptyString => acc
  | String c s' => last_dot_acc s' (S i) (if Ascii.eqb c "."%char then Some i else acc)
  end.

(** [os.path.splitext] of a name without '/': split at the last dot
    unless only dots precede it. *)
Definition splitext (s : string) : string * string :=
  match last_dot_acc s 0 None with
  | Some i =>
      let root := substring 0 i s in
      if forallb (fun c => Ascii.eqb c "."%char) (list_ascii_of_string root) then (s, "")
      else (root, substring i (String.length s - i) s)
  | None => (s, "")
  end.

(** The extension table of [save_attachment] for unnamed attachments. *)
Definition ext_of_mime (mime : string) : string :=
  if mime =? "application/pdf" then ".pdf"
  else if mime =? "image/jpeg" then ".jpg"
  else if mime =? "image/png" then ".png"
  else if mime =? "image/gif" then ".gif"
  else if mime =? "text/plain" then ".txt"
  else if mime =? "application/vnd.openxmlformats-officedocument.wordprocessingml.document"
  then ".docx"
  else ".bin".

(** [save_attachment]: the new file system and the path written. *)
Definition save_attachment (fs : fsys) (att : email_attachment) (eid output_dir : string)
    : fsys * string :=
  let filename := sanitize_filename (att_filename att) in
  let filename :=
    if filename =? "" then "attachment_" ++ py_take 8 eid ++ ext_of_mime (att_mime_type att)
    else filename in
  let filepath := output_dir ++ "/" ++ filename in
  let filepath :=
    if file_exists fs filepath then
      let '(name, ext) := splitext filename in
      first_free (file_exists fs) (fun k => output_dir ++ "/" ++ name ++ "_" ++ pretty k ++ ext)
        (size fs) 1
    else filepath in
  (<[filepath := att_data att]> fs, filepath).

(** The attachment loop of [main] for one e-mail. *)
Fixpoint save_attachments (fs : fsys) (atts : list email_attachment) (eid : string)
    : fsys * list string :=
  match atts with
  | [] => (fs, [])
  | a :: atts' =>
      let '(fs1, p) := save_attachment fs a eid ATTACHMENTS_DIR in
      let '(fs2, ps) := save_attachments fs1 atts' eid in
      (fs2, p :: ps)
  end.

Record ingest_state := { trackers : tracker_files; files : fsys }.

Record ingest_counts := {
  processed_emails : nat; processed_attachments : nat; skipped_emails : nat }.

(** The external collaborators of one sweep. *)
Record ingest_env := {
  env_max_size : nat;                           (** MAX_FILE_SIZE *)
  env_now : datetime;                           (** datetime.now() *)
  env_transcribe : string -> transcription;     (** transcribe_attachment *)
  env_raises : email -> bool                    (** consolidation raised *)
}.

(** One iteration of the [for email in emails] loop. *)
Definition process_email (env : ingest_env) (st : ingest_state) (temp : list string)
    (cnt : ingest_counts) (e : email) : ingest_state * list string * ingest_counts :=
  if is_email_processed (trackers st) (email_id e) then
    (st, temp, {| processed_emails := processed_emails cnt;
                  processed_attachments := processed_attachments cnt;
                  skipped_emails := S (skipped_emails cnt) |})
  else
    let '(fs1, paths) := save_attachments (files st) (email_attachments e) (email_id e) in
    let fs2 :=
      if env_raises env e then fs1
      else (consolidate_email_with_attachments (env_max_size env) (env_now env) fs1
              (env_transcribe env) (email_date e) (email_subject e) (email_sender e)
              (email_body_text e) (email_id e) paths).1 in
    ({| trackers := mark_email_processed (trackers st) (email_id e); files := fs2 |},
     (temp ++ paths)%list,
     {| processed_emails :=
          if env_raises env e then processed_emails cnt else S (processed_emails cnt);
        processed_attachments := processed_attachments cnt + length paths;
        skipped_emails := skipped_emails cnt |}).

Fixpoint ingest_loop (env : ingest_env) (emails : list email) (st : ingest_state)
    (temp : list string) (cnt : ingest_counts) : ingest_state * list string * ingest_counts :=
  match emails with
  | [] => (st, temp, cnt)
  | e :: es =>
      let '(st', temp', cnt') := process_email env st temp cnt e in
      ingest_loop env es st' temp' cnt'
  end.

(** The [finally] block: delete each saved attachment that exists. *)
Definition cleanup (fs : fsys) (temp : list string) : fsys :=
  fold_left (fun fs p => if file_exists fs p then delete p fs else fs) temp fs.

Definition zero_counts : ingest_counts :=
  {| processed_emails := 0; processed_attachments := 0; skipped_emails := 0 |}.

(** [main()] on the fetched e-mails. *)
Definition main (env : ingest_env) (emails : list email) (st : ingest_state)
    : ingest_state * ingest_counts :=
  match emails with
  | [] => (st, zero_counts)
  | _ :: _ =>
      let '(st', temp, cnt) := ingest_loop env emails st [] zero_counts in
      ({| trackers := trackers st'; files := cleanup (files st') temp |}, cnt)
  end.

(** ** The sweep invariant *)

(** A file of the attachments directory. *)
Definition is_attachment_path (p : string) : bool := startswith "data/attachments/" p.

(** What holds of the file system [fs] and the saved paths [temp] during
    a sweep that started from [fs0]: saved paths were fresh, the rest of
    the attachments directory is untouched, and every file that existed
    keeps its bytes as a prefix. *)
Definition sweep_inv (fs0 fs : fsys) (temp : list string) : Prop :=
  (forall p, p ∈ temp -> fs0 !! p = None) /\
  (forall p, p ∉ temp -> is_attachment_path p = true -> fs !! p = fs0 !! p) /\
  (forall p c, fs0 !! p = Some c -> exists sfx, fs !! p = Some (c ++ sfx)).

Lemma save_attachment_spec (fs : fsys) (att : email_attachment) (eid : string) :
  let r := save_attachment fs att eid ATTACHMENTS_DIR in
  fs !! r.2 = None /\ r.1 = <[r.2 := att_data att]> fs /\ is_attachment_path r.2 = true.
Proof.
  unfold save_attachment. set (filename := if _ =? "" then _ else _).
  destruct (file_exists fs (ATTACHMENTS_DIR ++ "/" ++ filename)) eqn:E.
  - destruct (splitext filename) as [name ext]. simpl.
    set (cand := fun k => ATTACHMENTS_DIR ++ "/" ++ name ++ "_" ++ pretty k ++ ext).
    split; [|split; [done|]].
    + apply (first_free_fresh fs (fun x => x) cand 1).
      intros k1 k2 H. unfold cand in H.
      do 4 apply string_app_inv_l in H. apply string_app_inv_r in H.
      by apply (inj pretty).
    + destruct (first_free_cand (file_exists fs) cand (size fs) 1) as [k ->].
      unfold cand, is_attachment_path, ATTACHMENTS_DIR. by cbn.
  - simpl. unfold file_exists in E. apply bool_decide_eq_false in E.
    split; [by apply eq_None_not_Some|]. split; [done|].
    unfold is_attachment_path, ATTACHMENTS_DIR. by cbn.
Qed.

Lemma sweep_inv_save (fs0 fs : fsys) (temp : list string) (att : email_attachment)
    (eid : string) :
  sweep_inv fs0 fs temp ->
  let r := save_attachment fs att eid ATTACHMENTS_DIR in
  sweep_inv fs0 r.1 (temp ++ [r.2]).
Proof.
  intros (Hfresh & Hatt & Hext).
  destruct (save_attachment_spec fs att eid) as (Hnone & Hfs & Hp).
  destruct (save_attachment fs att eid ATTACHMENTS_DIR) as [fs' p]. simpl in *. subst fs'.
  split; [|split].
  - intros q [Hq|Hq%list_elem_of_singleton]%elem_of_app; [by apply Hfresh|]. subst q.
    destruct (decide (p ∈ temp)) as [Hin|Hin]; [by apply Hfresh|].
    rewrite <- Hatt by done. done.
  - intros q Hq Hqa. rewrite elem_of_app, list_elem_of_singleton in Hq.
    rewrite lookup_insert_ne by naive_solver. apply Hatt; [naive_solver|done].
  - intros q c Hq. destruct (Hext q c Hq) as [sfx Hs].
    exists sfx. rewrite lookup_insert_ne; [done|congruence].
Qed.

Lemma sweep_inv_saves (fs0 fs : fsys) (temp : list string) (atts : list email_attachment)
    (eid : string) :
  sweep_inv fs0 fs temp ->
  let r := save_attachments fs atts eid in sweep_inv fs0 r.1 (temp ++ r.2).
Proof.
  revert fs temp. induction atts as [|a atts IH]; intros fs temp Hinv.
  - simpl. by rewrite app_nil_r.
  - destruct (save_attachment fs a eid ATTACHMENTS_DIR) as [fs1 p] eqn:E1.
    destruct (save_attachments fs1 atts eid) as [fs2 ps] eqn:E2.
    cbv zeta. cbn [save_attachments]. rewrite E1, E2. simpl.
    pose proof (sweep_inv_save fs0 fs temp a eid Hinv) as Hinv1.
    rewrite E1 in Hinv1. simpl in Hinv1.
    pose proof (IH fs1 (temp ++ [p])%list Hinv1) as Hinv2. rewrite E2 in Hinv2. simpl in Hinv2.
    rewrite <- app_assoc in Hinv2. exact Hinv2.
Qed.

Lemma sweep_inv_consolidate (fs0 fs : fsys) (temp : list string) (max_size : nat)
    (now : datetime) (tr : string -> transcription) (d : datetime)
    (subj sender body eid : string) (atts : list string) :
  sweep_inv fs0 fs temp ->
  sweep_inv fs0
    (consolidate_email_with_attachments max_size now fs tr d subj sender body eid atts).1
    temp.
Proof.
  intros (Hfresh & Hatt & Hext). unfold consolidate_email_with_attachments.
  set (md := format_email_markdown _ _ _ _ _ _).
  set (p := get_master_markdown_path now).
  destruct (append_to_master_markdown_written max_size now fs md p) as (pre & _ & Hsame).
  pose proof (append_to_master_markdown_parent max_size now fs md p) as Hpar.
  split; [done|split].
  - intros q Hq Hqa. rewrite Hsame; [by apply Hatt|]. intros ->.
    revert Hqa. unfold is_attachment_path, path_str. rewrite Hpar. by cbn.
  - intros q c Hq. destruct (Hext q c Hq) as [s1 Hs1].
    destruct (append_to_master_markdown_extends max_size now fs md p q _ Hs1) as [s2 Hs2].
    exists (s1 ++ s2). by rewrite <- string_app_assoc.
Qed.

Lemma sweep_inv_process (env : ingest_env) (fs0 : fsys) (st : ingest_state)
    (temp : list string) (cnt : ingest_counts) (e : email) :
  sweep_inv fs0 (files st) temp ->
  let r := process_email env st temp cnt e in sweep_inv fs0 (files r.1.1) r.1.2.
Proof.
  intros Hinv. unfold process_email.
  destruct (is_email_processed _ _); [done|].
  destruct (save_attachments (files st) (email_attachments e) (email_id e))
    as [fs1 paths] eqn:Es.
  pose proof (sweep_inv_saves fs0 (files st) temp (email_attachments e) (email_id e) Hinv)
    as Hinv1.
  rewrite Es in Hinv1. simpl in *.
  destruct (env_raises env e); [done|]. by apply sweep_inv_consolidate.
Qed.

Lemma sweep_inv_loop (env : ingest_env) (fs0 : fsys) (emails : list email)
    (st : ingest_state) (temp : list string) (cnt : ingest_counts) :
  sweep_inv fs0 (files st) temp ->
  let r := ingest_loop env emails st temp cnt in sweep_inv fs0 (files r.1.1) r.1.2.
Proof.
  revert st temp cnt. induction emails as [|e es IH]; intros st temp cnt Hinv; [done|].
  simpl. pose proof (sweep_inv_process env fs0 st temp cnt e Hinv) as H1.
  destruct (process_email env st temp cnt e) as [[st' temp'] cnt']. by apply IH.
Qed.

Lemma cleanup_lookup (fs : fsys) (temp : list string) (q : string) :
  cleanup fs temp !! q = if bool_decide (q ∈ temp) then None else fs !! q.
Proof.
  unfold cleanup. revert fs. induction temp as [|p temp IH]; intros fs; simpl; [done|].
  rewrite IH. unfold file_exists. destruct (decide (q ∈ temp)) as [H1|H1].
  - rewrite (bool_decide_eq_true_2 (q ∈ temp)) by done.
    rewrite (bool_decide_eq_true_2 (q ∈ p :: temp)) by set_solver. done.
  - rewrite (bool_decide_eq_false_2 (q ∈ temp)) by done.
    destruct (decide (q = p)) as [->|Hne].
    + rewrite (bool_decide_eq_true_2 (p ∈ p :: temp)) by set_solver.
      destruct (bool_decide (is_Some (fs !! p))) eqn:E3.
      * by rewrite lookup_delete_eq.
      * apply bool_decide_eq_false in E3. by apply eq_None_not_Some.
    + rewrite (bool_decide_eq_false_2 (q ∈ p :: temp)) by set_solver.
      destruct (bool_decide (is_Some (fs !! p))); [by rewrite lookup_delete_ne|done].
Qed.

(** ** Tracking *)

Lemma process_email_tracks (env : ingest_env) (st : ingest_state) (temp : list string)
    (cnt : ingest_counts) (e : email) :
  let st' := (process_email env st temp cnt e).1.1 in
  load_tracker (email_tracker (trackers st')) =
  {[email_id e]} ∪ load_tracker (email_tracker (trackers st)).
Proof.
  unfold process_email. destruct (is_email_processed _ _) eqn:E.
  - simpl. apply is_email_processed_spec in E. set_solver.
  - destruct (save_attachments _ _ _). simpl. apply load_mark_email_processed.
Qed.

Lemma ingest_loop_tracks (env : ingest_env) (emails : list email) (st : ingest_state)
    (temp : list string) (cnt : ingest_counts) :
  load_tracker (email_tracker (trackers (ingest_loop env emails st temp cnt).1.1)) =
  list_to_set (email_id <$> emails) ∪ load_tracker (email_tracker (trackers st)).
Proof.
  revert st temp cnt. induction emails as [|e es IH]; intros st temp cnt; simpl.
  - set_solver.
  - pose proof (process_email_tracks env st temp cnt e) as H.
    destruct (process_email env st temp cnt e) as [[st' temp'] cnt']. simpl in H.
    rewrite IH, H. set_solver.
Qed.

Lemma ingest_loop_skips (env : ingest_env) (emails : list email) (st : ingest_state)
    (temp : list string) (cnt : ingest_counts) :
  (forall e, e ∈ emails -> is_email_processed (trackers st) (email_id e) = true) ->
  ingest_loop env emails st temp cnt =
  (st, temp, {| processed_emails := processed_emails cnt;
                processed_attachments := processed_attachments cnt;
                skipped_emails := skipped_emails cnt + length emails |}).
Proof.
  revert cnt. induction emails as [|e es IH]; intros cnt Hall; simpl.
  - destruct cnt. simpl. by rewrite Nat.add_0_r.
  - unfold process_email. rewrite Hall by set_solver.
    rewrite IH by set_solver. simpl. do 3 f_equal. lia.
Qed.

Lemma sweep_inv_init (fs : fsys) : sweep_inv fs fs [].
Proof.
  split; [set_solver|]. split; [done|].
  intros p c Hp. exists "". by rewrite string_app_nil_r.
Qed.

Lemma main_cons (env : ingest_env) (e : email) (es : list email) (st : ingest_state) :
  main env (e :: es) st =
  let '(st', temp, cnt) := ingest_loop env (e :: es) st [] zero_counts in
  ({| trackers := trackers st'; files := cleanup (files st') temp |}, cnt).
Proof. reflexivity. Qed.

(** The sweep's effect on the file system: the loop's, then the cleanup. *)
Lemma main_files (env : ingest_env) (emails : list email) (st : ingest_state) :
  exists fs temp, sweep_inv (files st) fs temp /\
    files (main env emails st).1 = cleanup fs temp.
Proof.
  destruct emails as [|e es].
  - exists (files st), []. split; [apply sweep_inv_init|done].
  - rewrite main_cons.
    pose proof (sweep_inv_loop env (files st) (e :: es) st [] zero_counts
      (sweep_inv_init (files st))) as Hinv.
    destruct (ingest_loop env (e :: es) st [] zero_counts) as [[st' temp] cnt].
    exists (files st'), temp. by split.
Qed.

(** ** Properties *)

(** C9: after a sweep every fetched e-mail is in the e-mail tracker,
    including those whose consolidation raised (the "never reprocess a
    poison item" policy). *)
Theorem ingest_marks_every_email (env : ingest_env) (emails : list email)
    (st : ingest_state) (e : email) :
  e ∈ emails -> is_email_processed (trackers (main env emails st).1) (email_id e) = true.
Proof.
  intros He. destruct emails as [|e0 es]; [by apply not_elem_of_nil in He|].
  rewrite main_cons.
  pose proof (ingest_loop_tracks env (e0 :: es) st [] zero_counts) as Ht.
  destruct (ingest_loop env (e0 :: es) st [] zero_counts) as [[st' temp] cnt].
  cbn [fst snd trackers files] in *. apply is_email_processed_spec. rewrite Ht. apply elem_of_union_l.
  apply elem_of_list_to_set, list_elem_of_fmap. by exists e.
Qed.

Lemma ingest_marks_every_email_witness :
  let e := {| email_id := "E9"; email_subject := "Picture day";
              email_sender := "office@school.org"; email_date := mk_datetime 2025 11 5 8 0 0;
              email_body_text := "Smile."; email_attachments := [] |} in
  let env := {| env_max_size := MAX_FILE_SIZE; env_now := mk_datetime 2025 11 5 18 0 0;
                env_transcribe := fun _ => Transcribed ""; env_raises := fun _ => true |} in
  e ∈ [e] /\
  is_email_processed
    (trackers (main env [e] {| trackers := {| upload_tracker := Missing;
                                               email_tracker := Corrupt |};
                                files := ∅ |}).1) "E9" = true.
Proof.
  intros e env. assert (He : e ∈ [e]) by (apply list_elem_of_In; left; reflexivity).
  split; [exact He|]. exact (ingest_marks_every_email env [e] _ e He).
Defined.

(** C1: ingestion is idempotent: a second sweep over the same e-mails,
    whatever the clock, the oracle or the failures, skips every e-mail and
    leaves the trackers and every file exactly as the first sweep left
    them. *)
Theorem ingest_rerun_noop (env env' : ingest_env) (emails : list email) (st : ingest_state) :
  let st1 := (main env emails st).1 in
  main env' emails st1 =
  (st1, {| processed_emails := 0; processed_attachments := 0;
           skipped_emails := length emails |}).
Proof.
  intros st1. destruct emails as [|e0 es]; [done|].
  assert (Hall : forall e, e ∈ e0 :: es ->
                 is_email_processed (trackers st1) (email_id e) = true).
  { intros e He. unfold st1. apply is_email_processed_spec. rewrite main_cons.
    pose proof (ingest_loop_tracks env (e0 :: es) st [] zero_counts) as Ht.
    destruct (ingest_loop env (e0 :: es) st [] zero_counts) as [[st' temp] cnt].
    cbn [fst snd trackers files] in *. rewrite Ht. apply elem_of_union_l.
    apply elem_of_list_to_set, list_elem_of_fmap. by exists e. }
  rewrite main_cons. rewrite ingest_loop_skips by done. simpl. by destruct st1.
Qed.

(** The attachments directory is left as the sweep found it: every
    attachment saved during the sweep is deleted by the cleanup, and no
    file that was already there is overwritten or deleted. *)
Theorem ingest_leaves_attachments_dir (env : ingest_env) (emails : list email)
    (st : ingest_state) (q : string) :
  is_attachment_path q = true -> files (main env emails st).1 !! q = files st !! q.
Proof.
  intros Hq. destruct (main_files env emails st) as (fs & temp & (Hfresh & Hatt & _) & ->).
  rewrite cleanup_lookup. case_bool_decide as Hin.
  - symmetry. by apply Hfresh.
  - by apply Hatt.
Qed.

Lemma ingest_leaves_attachments_dir_witness :
  let e := {| email_id := "E3"; email_subject := "Menu";
              email_sender := "office@school.org"; email_date := mk_datetime 2025 11 5 8 0 0;
              email_body_text := "See attached.";
              email_attachments := [{| att_filename := "menu.pdf";
                                       att_mime_type := "application/pdf";
                                       att_data := "%PDF-1.4" |}] |} in
  let env := {| env_max_size := MAX_FILE_SIZE; env_now := mk_datetime 2025 11 5 18 0 0;
                env_transcribe := fun _ => Transcribed "Pizza"; env_raises := fun _ => false |} in
  let st := {| trackers := {| upload_tracker := Missing; email_tracker := Missing |};
               files := {[ "data/attachments/menu.pdf" := "old menu" ]} |} in
  is_attachment_path "data/attachments/menu.pdf" = true /\
  files (main env [e] st).1 !! "data/attachments/menu.pdf" = Some "old menu".
Proof.
  intros e env st. assert (H : is_attachment_path "data/attachments/menu.pdf" = true)
    by reflexivity.
  split; [exact H|]. exact (ingest_leaves_attachments_dir env [e] st _ H).
Defined.

(** A sweep never loses data: every file that existed before it
    (corpus documents included) still exists afterwards and begins with
    its old bytes. *)
Theorem ingest_preserves_existing_files (env : ingest_env) (emails : list email)
    (st : ingest_state) (q c : string) :
  files st !! q = Some c ->
  exists sfx, files (main env emails st).1 !! q = Some (c ++ sfx).
Proof.
  intros Hq. destruct (main_files env emails st) as (fs & temp & (Hfresh & _ & Hext) & ->).
  rewrite cleanup_lookup. case_bool_decide as Hin.
  - rewrite (Hfresh q Hin) in Hq. discriminate.
  - by apply Hext.
Qed.

Lemma ingest_preserves_existing_files_witness :
  let e := {| email_id := "E4"; email_subject := "Concert";
              email_sender := "music@school.org"; email_date := mk_datetime 2025 11 6 8 0 0;
              email_body_text := "Friday 6pm."; email_attachments := [] |} in
  let env := {| env_max_size := MAX_FILE_SIZE; env_now := mk_datetime 2025 11 6 18 0 0;
                env_transcribe := fun _ => Transcribed ""; env_raises := fun _ => false |} in
  let st := {| trackers := {| upload_tracker := Missing; email_tracker := Missing |};
               files := {[ "data/consolidated/school-data-2025-W45.md" := "# header" ]} |} in
  files st !! "data/consolidated/school-data-2025-W45.md" = Some "# header" /\
  exists sfx, files (main env [e] st).1 !! "data/consolidated/school-data-2025-W45.md"
              = Some ("# header" ++ sfx).
Proof.
  intros e env st.
  assert (H : files st !! "data/consolidated/school-data-2025-W45.md" = Some "# header")
    by reflexivity.
  split; [exact H|]. exact (ingest_preserves_existing_files env [e] st _ _ H).
Defined.

(** The scenario of the spec (§8): e-mail E1 ("Field Trip", sent
    2025-11-03) ingested on 2025-11-03 into an empty corpus creates the one
    document [school-data-2025-W45.md] holding a header and E1's section;
    ingesting E1 again changes nothing; ingesting E2 (sent 2025-11-04) on
    2025-11-04 appends its section to the same document. *)
Theorem ingest_scenario_field_trip :
  let e1 := {| email_id := "E1"; email_subject := "Field Trip";
               email_sender := "office@school.org"; email_date := mk_datetime 2025 11 3 8 0 0;
               email_body_text := "Bring lunch."; email_attachments := [] |} in
  let e2 := {| email_id := "E2"; email_subject := "Field Trip update";
               email_sender := "office@school.org"; email_date := mk_datetime 2025 11 4 8 0 0;
               email_body_text := "Bus at 8."; email_attachments := [] |} in
  let env1 := {| env_max_size := MAX_FILE_SIZE; env_now := mk_datetime 2025 11 3 18 0 0;
                 env_transcribe := fun _ => Transcribed ""; env_raises := fun _ => false |} in
  let env2 := {| env_max_size := MAX_FILE_SIZE; env_now := mk_datetime 2025 11 4 18 0 0;
                 env_transcribe := fun _ => Transcribed ""; env_raises := fun _ => false |} in
  let st0 := {| trackers := {| upload_tracker := Missing; email_tracker := Missing |};
                files := ∅ |} in
  let doc := "data/consolidated/school-data-2025-W45.md" in
  let sec1 := format_email_markdown (email_date e1) "Field Trip" "office@school.org"
                "Bring lunch." "E1" [] in
  let sec2 := format_email_markdown (email_date e2) "Field Trip update" "office@school.org"
                "Bus at 8." "E2" [] in
  let st1 := (main env1 [e1] st0).1 in
  files st1 = {[ doc := create_markdown_header (env_now env1) ++ sec1 ]} /\
  (main env1 [e1] st1).1 = st1 /\
  files (main env2 [e2] st1).1 =
    {[ doc := create_markdown_header (env_now env1) ++ sec1 ++ sec2 ]}.
Proof. vm_compute. split; [reflexivity|]. split; reflexivity. Qed.

End IngestEmails.
