(* ===== verification/Cache.v ===== *)
(** * Cache: the response cache of [rag_cache.py]

    [data/.rag_cache.json] maps the md5 hex digest of the normalised
    question ([question.lower().strip()]) to [{question, answer,
    timestamp}]. [get_cached_response] deletes an entry older than seven
    days when it meets it; [cache_response] inserts and then sweeps out
    every expired entry before saving.

    The digest is the Section variable [md5_hexdigest]: md5 is not
    modelled, and no theorem assumes it injective. Time is [datetime.now()]
    in microseconds (the resolution of [isoformat], whose output
    [fromisoformat] reads back exactly). *)

From S2P Require Import Prelude.
Local Open Scope string_scope.

Module RagCache.

Record cache_item := { ci_question : string; ci_answer : string; ci_timestamp : Z }.

(** [CACHE_EXPIRY_DAYS = 7], as a [timedelta] in microseconds. *)
Definition CACHE_EXPIRY_DAYS : Z := 7.
Definition cache_expiry : Z := (CACHE_EXPIRY_DAYS * 86400 * 1000000)%Z.

(** [datetime.now() > cached_time + timedelta(days=CACHE_EXPIRY_DAYS)] *)
Definition is_expired (now : Z) (item : cache_item) : bool :=
  (ci_timestamp item + cache_expiry <? now)%Z.

Section WithDigest.

(** [hashlib.md5(s.encode()).hexdigest()] *)
Variable md5_hexdigest : string -> string.

(** [get_cache_key]: [md5(question.lower().strip())]. *)
Definition get_cache_key (question : string) : string :=
  md5_hexdigest (strip (lower question)).

(** [load_cache]: [{}] when the file is absent or not valid JSON. *)
Definition load_cache (f : stored (gmap string cache_item)) : gmap string cache_item :=
  load_or ∅ f.

Definition save_cache (cache : gmap string cache_item) : stored (gmap string cache_item) :=
  Valid cache.

(** [get_cached_response]: the answer, and the cache file afterwards. *)
Definition get_cached_response (now : Z) (f : stored (gmap string cache_item))
    (question : string) : option string * stored (gmap string cache_item) :=
  let cache := load_cache f in
  let cache_key := get_cache_key question in
  match cache !! cache_key with
  | None => (None, f)
  | Some cached_item =>
      if is_expired now cached_item then (None, save_cache (delete cache_key cache))
      else (Some (ci_answer cached_item), f)
  end.

(** [cache_response]: insert, sweep the expired entries, save. *)
Definition cache_response (now : Z) (f : stored (gmap string cache_item))
    (question answer : string) : stored (gmap string cache_item) :=
  let cache := load_cache f in
  let cache_key := get_cache_key question in
  let cache := <[cache_key := {| ci_question := question; ci_answer := answer;
                                 ci_timestamp := now |}]> cache in
  save_cache (filter (fun kv => is_expired now kv.2 = false) cache).

(** [get_cache_stats]: (total_entries, valid_entries, expired_entries). *)
Definition get_cache_stats (now : Z) (f : stored (gmap string cache_item)) : nat * nat * nat :=
  let cache := load_cache f in
  (size cache,
   size (filter (fun kv => is_expired now kv.2 = false) cache),
   size (filter (fun kv => is_expired now kv.2 = true) cache)).

(** ** Lemmas *)

Lemma load_cache_response (now : Z) (f : stored (gmap string cache_item))
    (question answer : string) (k : string) :
  load_cache (cache_response now f question answer) !! k =
  if decide (k = get_cache_key question) then
    Some {| ci_question := question; ci_answer := answer; ci_timestamp := now |}
  else
    match load_cache f !! k with
    | Some i => if is_expired now i then None else Some i
    | None => None
    end.
Proof.
  unfold cache_response, save_cache, load_cache at 1. simpl.
  rewrite map_lookup_filter. destruct (decide (k = get_cache_key question)) as [->|Hne].
  - rewrite lookup_insert_eq. simpl. unfold is_expired. simpl.
    rewrite option_guard_True; [done|]. apply Z.ltb_ge.
    unfold cache_expiry, CACHE_EXPIRY_DAYS. lia.
  - rewrite lookup_insert_ne by done. destruct (load_cache f !! k) as [i|]; simpl; [|done].
    by destruct (is_expired now i).
Qed.

Lemma get_cached_response_hit (now : Z) (f : stored (gmap string cache_item))
    (question : string) (i : cache_item) :
  load_cache f !! get_cache_key question = Some i -> is_expired now i = false ->
  get_cached_response now f question = (Some (ci_answer i), f).
Proof. intros Hi He. unfold get_cached_response. by rewrite Hi, He. Qed.

(** ** Properties *)

(** C4: a stored answer is returned for every question with the same
    normalised form (case-folded and stripped) until the TTL has passed,
    the boundary instant included, and such a hit does not rewrite the
    cache file. *)
Theorem cache_hit_within_ttl (now now' : Z) (f : stored (gmap string cache_item))
    (q q' a : string) :
  strip (lower q') = strip (lower q) -> (now' <= now + cache_expiry)%Z ->
  get_cached_response now' (cache_response now f q a) q' =
  (Some a, cache_response now f q a).
Proof.
  intros Hq Ht.
  assert (Hk : get_cache_key q' = get_cache_key q) by (unfold get_cache_key; by rewrite Hq).
  apply (get_cached_response_hit _ _ _ {| ci_question := q; ci_answer := a; ci_timestamp := now |}).
  - rewrite load_cache_response, Hk. by rewrite decide_True.
  - unfold is_expired. simpl. apply Z.ltb_ge. lia.
Qed.


(** Lazy expiry: an entry older than the TTL is reported absent and
    is deleted from the cache file, every other entry being kept. *)
Theorem cache_expired_purged (now : Z) (f : stored (gmap string cache_item))
    (q : string) (i : cache_item) :
  load_cache f !! get_cache_key q = Some i -> is_expired now i = true ->
  (get_cached_response now f q).1 = None /\
  load_cache (get_cached_response now f q).2 !! get_cache_key q = None /\
  (forall k, k <> get_cache_key q ->
     load_cache (get_cached_response now f q).2 !! k = load_cache f !! k).
Proof.
  intros Hi He. unfold get_cached_response. rewrite Hi, He. simpl.
  split; [done|]. split; [apply lookup_delete_eq|]. intros k Hk. by apply lookup_delete_ne.
Qed.


(** After [cache_response] the cache file holds the new answer and
    no entry that is expired at that instant (the sweep). *)
Theorem cache_response_sweeps (now : Z) (f : stored (gmap string cache_item))
    (q a : string) :
  load_cache (cache_response now f q a) !! get_cache_key q =
    Some {| ci_question := q; ci_answer := a; ci_timestamp := now |} /\
  (forall k i, load_cache (cache_response now f q a) !! k = Some i -> is_expired now i = false).
Proof.
  split; [rewrite load_cache_response; by rewrite decide_True|].
  intros k i. rewrite load_cache_response. case_decide.
  - intros [= <-]. unfold is_expired. simpl. apply Z.ltb_ge.
    unfold cache_expiry, CACHE_EXPIRY_DAYS. lia.
  - destruct (load_cache f !! k) as [j|]; [|done].
    destruct (is_expired now j) eqn:E; [done|]. by intros [= <-].
Qed.

(** Storing an answer never evicts another entry that is still
    valid. *)
Theorem cache_response_keeps_valid (now : Z) (f : stored (gmap string cache_item))
    (q a k : string) (i : cache_item) :
  k <> get_cache_key q -> load_cache f !! k = Some i -> is_expired now i = false ->
  load_cache (cache_response now f q a) !! k = Some i.
Proof.
  intros Hk Hi He. rewrite load_cache_response, decide_False by done. by rewrite Hi, He.
Qed.


End WithDigest.

(** ** Witnesses, with the identity as digest *)

Definition id_digest (s : string) : string := s.

Lemma cache_hit_within_ttl_witness :
  strip (lower "  When is the Field Trip? ") = strip (lower "when is the field trip?") /\
  (1000 + 604800000000 <= 1000 + cache_expiry)%Z /\
  get_cached_response id_digest (1000 + 604800000000)%Z
    (cache_response id_digest 1000%Z Missing "when is the field trip?" "Nov 14") "  When is the Field Trip? "
  = (Some "Nov 14", cache_response id_digest 1000%Z Missing "when is the field trip?" "Nov 14").
Proof.
  assert (H1 : strip (lower "  When is the Field Trip? ") = strip (lower "when is the field trip?"))
    by reflexivity.
  assert (H2 : (1000 + 604800000000 <= 1000 + cache_expiry)%Z) by (vm_compute; discriminate).
  split; [exact H1|]. split; [exact H2|]. exact (cache_hit_within_ttl id_digest _ _ _ _ _ _ H1 H2).
Defined.

Lemma cache_expired_purged_witness :
  let f := cache_response id_digest 0%Z Missing "what is the dress code?" "Uniform" in
  load_cache f !! get_cache_key id_digest "what is the dress code?" =
    Some {| ci_question := "what is the dress code?"; ci_answer := "Uniform";
            ci_timestamp := 0 |} /\
  is_expired (cache_expiry + 1)%Z
    {| ci_question := "what is the dress code?"; ci_answer := "Uniform"; ci_timestamp := 0 |}
    = true /\
  (get_cached_response id_digest (cache_expiry + 1)%Z f "what is the dress code?").1 = None.
Proof.
  intros f.
  assert (H1 : load_cache f !! get_cache_key id_digest "what is the dress code?" =
    Some {| ci_question := "what is the dress code?"; ci_answer := "Uniform";
            ci_timestamp := 0 |}) by reflexivity.
  assert (H2 : is_expired (cache_expiry + 1)%Z
    {| ci_question := "what is the dress code?"; ci_answer := "Uniform"; ci_timestamp := 0 |}
    = true) by reflexivity.
  split; [exact H1|]. split; [exact H2|]. exact (proj1 (cache_expired_purged id_digest _ _ _ _ H1 H2)).
Defined.

Lemma cache_response_keeps_valid_witness :
  let f := cache_response id_digest 0%Z Missing "when is picture day?" "Nov 20" in
  "when is the concert?" <> get_cache_key id_digest "when is picture day?" /\
  load_cache f !! "when is the concert?" = None /\
  load_cache (cache_response id_digest 5%Z
    (cache_response id_digest 0%Z Missing "when is the concert?" "Friday")
    "when is picture day?" "Nov 20") !! "when is the concert?" =
  Some {| ci_question := "when is the concert?"; ci_answer := "Friday"; ci_timestamp := 0 |}.
Proof.
  intros f. assert (Hk : "when is the concert?" <> get_cache_key id_digest "when is picture day?")
    by discriminate.
  split; [exact Hk|]. split; [reflexivity|].
  apply (cache_response_keeps_valid id_digest 5%Z _ _ _ _ _ Hk); reflexivity.
Defined.

End RagCache.
