(* ===== verification/Regex.v ===== *)
(** * Regex: the fragment of Python's [re] that the code uses

    The patterns of [rag_improvement.py], [response_formatter.py] and
    [gmail_client.py] are built from character classes, bounded or
    unbounded greedy repetition of a class ([\d{1,2}], [\s+], [[a-z]+],
    [\n{3,}]), lazy repetition ([[^<]+?]: the fewest characters first),
    concatenation,
    ordered alternation ([(mr|ms|miss|mrs|dr)]), greedy optional groups
    ([\.?], [(?:st|nd|rd|th)?]) and the word boundary [\b]. [mtch] is a
    backtracking matcher in continuation-passing style with the priorities
    of Python's engine: the longest repetition first, the left alternative
    first, the optional group taken first. It is structural in the
    pattern, and repetition only applies to one character class, so every
    recursion terminates.

    [re.search], [re.sub] and [re.findall] scan from the left for the
    first position where the pattern matches, as Python does. Characters
    are bytes: [\d], [\w] and [\s] are their ASCII classes ([str] patterns
    in Python also accept non-ASCII digits, letters and spaces). *)

From S2P Require Import Prelude.

Module PyRegex.

Inductive regex :=
| RClass (p : ascii -> bool)                           (** one character of a class *)
| RRepeat (p : ascii -> bool) (lo : nat) (hi : option nat)  (** [p{lo,hi}], greedy *)
| RLazy (p : ascii -> bool) (lo : nat) (hi : option nat)    (** [p{lo,hi}?], lazy *)
| RSeq (r1 r2 : regex)
| RAlt (r1 r2 : regex)                                 (** [r1|r2], left first *)
| ROpt (r : regex)                                     (** [r?], greedy *)
| RWordBoundary                                        (** [\b] *)
| REmpty.

Definition is_digit (c : ascii) : bool :=
  let n := nat_of_ascii c in (48 <=? n) && (n <=? 57).
Definition is_upper (c : ascii) : bool :=
  let n := nat_of_ascii c in (65 <=? n) && (n <=? 90).
Definition is_lower (c : ascii) : bool :=
  let n := nat_of_ascii c in (97 <=? n) && (n <=? 122).
(** [\w] *)
Definition is_word (c : ascii) : bool :=
  is_digit c || is_upper c || is_lower c || Ascii.eqb c "_"%char.

Definition word_at (o : option ascii) : bool :=
  match o with Some c => is_word c | None => false end.

(** The longest prefix of [s] in the class, at most [hi] characters. *)
Fixpoint run_length (p : ascii -> bool) (hi : option nat) (s : list ascii) : nat :=
  match hi, s with
  | Some 0, _ => 0
  | _, [] => 0
  | _, c :: s' => if p c then S (run_length p (option_map pred hi) s') else 0
  end.

(** The rest of a match: the previous character and the remaining input. *)
Definition continuation := option ascii -> list ascii -> option nat.

(** Greedy repetition: try [n], [n - 1], ..., [lo] characters. *)
Fixpoint try_counts (k : continuation) (prev : option ascii) (s : list ascii)
    (lo n : nat) : option nat :=
  if n <? lo then None else
  match k (match n with 0 => prev | S m => nth_error s m end) (drop n s) with
  | Some r => Some r
  | None => match n with 0 => None | S n' => try_counts k prev s lo n' end
  end.

(** Lazy repetition: try [n], [n + 1], ..., [n + extra] characters. *)
Fixpoint try_up (k : continuation) (prev : option ascii) (s : list ascii)
    (n extra : nat) : option nat :=
  match k (match n with 0 => prev | S m => nth_error s m end) (drop n s) with
  | Some r => Some r
  | None => match extra with 0 => None | S e => try_up k prev s (S n) e end
  end.

Fixpoint mtch (r : regex) (prev : option ascii) (s : list ascii) (k : continuation)
    : option nat :=
  match r with
  | RClass p => match s with c :: s' => if p c then k (Some c) s' else None | [] => None end
  | RRepeat p lo hi => try_counts k prev s lo (run_length p hi s)
  | RLazy p lo hi =>
      let m := run_length p hi s in
      if m <? lo then None else try_up k prev s lo (m - lo)
  | RSeq r1 r2 => mtch r1 prev s (fun prev' s' => mtch r2 prev' s' k)
  | RAlt r1 r2 => match mtch r1 prev s k with Some x => Some x | None => mtch r2 prev s k end
  | ROpt r1 => match mtch r1 prev s k with Some x => Some x | None => k prev s end
  | RWordBoundary =>
      if xorb (word_at prev) (word_at (head s)) then k prev s else None
  | REmpty => k prev s
  end.

(** The length of the match of [r] at the start of [s], if any. *)
Definition match_here (r : regex) (prev : option ascii) (s : list ascii) : option nat :=
  mtch r prev s (fun _ s' => Some (length s - length s')).

(** [re.search]: the first position where [r] matches and the length. *)
Fixpoint search_from (r : regex) (prev : option ascii) (s : list ascii)
    : option (nat * nat) :=
  match match_here r prev s with
  | Some n => Some (0, n)
  | None =>
      match s with
      | [] => None
      | c :: s' => option_map (fun '(i, n) => (S i, n)) (search_from r (Some c) s')
      end
  end.

Definition re_search (r : regex) (s : string) : option (nat * nat) :=
  search_from r None (list_ascii_of_string s).

(** [bool(re.search(r, s))] *)
Definition re_test (r : regex) (s : string) : bool := bool_decide (is_Some (re_search r s)).

(** [re.sub(r, repl, s)]: scan left to right; after a match of [n + 1]
    characters the next [n] characters are skipped; an empty match
    inserts the replacement before the character. [repl] computes the
    replacement from the matched text, as a function passed to [re.sub]
    does. *)
Fixpoint sub_loop (r : regex) (repl : list ascii -> list ascii) (prev : option ascii)
    (skip : nat) (s : list ascii) : list ascii :=
  match s with
  | [] =>
      match skip with
      | 0 => if bool_decide (is_Some (match_here r prev [])) then repl [] else []
      | S _ => []
      end
  | c :: s' =>
      match skip with
      | S k => sub_loop r repl (Some c) k s'
      | 0 =>
          match match_here r prev s with
          | Some (S n) => repl (take (S n) s) ++ sub_loop r repl (Some c) n s'
          | Some 0 => repl [] ++ c :: sub_loop r repl (Some c) 0 s'
          | None => c :: sub_loop r repl (Some c) 0 s'
          end
      end
  end.

(** [re.sub(r, repl, s)] with a replacement string without group
    references. *)
Definition re_sub (r : regex) (repl s : string) : string :=
  string_of_list_ascii
    (sub_loop r (fun _ => list_ascii_of_string repl) None 0 (list_ascii_of_string s)).

(** [re.sub(r, f, s)] with a function of the match. *)
Definition re_sub_fn (r : regex) (f : string -> string) (s : string) : string :=
  string_of_list_ascii
    (sub_loop r (fun m => list_ascii_of_string (f (string_of_list_ascii m))) None 0
       (list_ascii_of_string s)).

(** [re.findall(r, s)] for a pattern without groups. *)
Fixpoint findall_loop (r : regex) (prev : option ascii) (skip : nat) (s : list ascii)
    : list (list ascii) :=
  match s with
  | [] =>
      match skip with
      | 0 => if bool_decide (is_Some (match_here r prev [])) then [[]] else []
      | S _ => []
      end
  | c :: s' =>
      match skip with
      | S k => findall_loop r (Some c) k s'
      | 0 =>
          match match_here r prev s with
          | Some (S n) => take (S n) s :: findall_loop r (Some c) n s'
          | Some 0 => [] :: findall_loop r (Some c) 0 s'
          | None => findall_loop r (Some c) 0 s'
          end
      end
  end.

Definition re_findall (r : regex) (s : string) : list string :=
  string_of_list_ascii <$> findall_loop r None 0 (list_ascii_of_string s).

(** ** Building patterns *)

Definition ch (c : ascii) : regex := RClass (Ascii.eqb c).

(** A literal, as a sequence of one-character classes. *)
Fixpoint lit (s : string) : regex :=
  match s with
  | EmptyString => REmpty
  | String c EmptyString => ch c
  | String c s' => RSeq (ch c) (lit s')
  end.

(** [(w1|w2|...)] *)
Fixpoint alts (ws : list string) : regex :=
  match ws with
  | [] => RClass (fun _ => false)
  | [w] => lit w
  | w :: ws' => RAlt (lit w) (alts ws')
  end.

(** [r1 r2 ... rn] *)
Fixpoint seqs (rs : list regex) : regex :=
  match rs with
  | [] => REmpty
  | [r] => r
  | r :: rs' => RSeq r (seqs rs')
  end.

(** [re.match(r, s)]: a match at the start. *)
Definition re_match (r : regex) (s : string) : bool :=
  bool_decide (is_Some (match_here r None (list_ascii_of_string s))).

(** Under [re.IGNORECASE]: a letter matches both of its cases. *)
Definition ch_ci (c : ascii) : regex :=
  RClass (fun x => Ascii.eqb (ascii_lower x) (ascii_lower c)).

Fixpoint lit_ci (s : string) : regex :=
  match s with
  | EmptyString => REmpty
  | String c EmptyString => ch_ci c
  | String c s' => RSeq (ch_ci c) (lit_ci s')
  end.

Fixpoint alts_ci (ws : list string) : regex :=
  match ws with
  | [] => RClass (fun _ => false)
  | [w] => lit_ci w
  | w :: ws' => RAlt (lit_ci w) (alts_ci ws')
  end.

(** [[a-z]] under [re.IGNORECASE] *)
Definition is_alpha (c : ascii) : bool := is_lower c || is_upper c.

(** ** Lemmas *)

(** Greedy repetition only hands suffixes of the input on. *)
Lemma try_counts_none (k : continuation) (prev : option ascii) (s : list ascii) (lo n : nat) :
  (forall p' s', s' `suffix_of` s -> k p' s' = None) -> try_counts k prev s lo n = None.
Proof.
  intros Hk. induction n as [|n IH]; simpl; destruct (_ <? lo); try done.
  - by rewrite Hk by apply suffix_drop.
  - rewrite Hk by apply suffix_drop. done.
Qed.

Lemma try_up_none (k : continuation) (prev : option ascii) (s : list ascii) (n e : nat) :
  (forall p' s', s' `suffix_of` s -> k p' s' = None) -> try_up k prev s n e = None.
Proof.
  intros Hk. revert n. induction e as [|e IH]; intros n; simpl;
    rewrite Hk by apply suffix_drop; [done|apply IH].
Qed.

(** The matcher passes its continuation suffixes of its input only: if the
    continuation fails on every suffix then the match fails. *)
Lemma mtch_none (r : regex) (prev : option ascii) (s : list ascii) (k : continuation) :
  (forall p' s', s' `suffix_of` s -> k p' s' = None) -> mtch r prev s k = None.
Proof.
  revert prev s k. induction r as [p|p lo hi|p lo hi|r1 IH1 r2 IH2|r1 IH1 r2 IH2|r1 IH1| |];
    intros prev s k Hk; simpl.
  - destruct s as [|c s']; [done|]. destruct (p c); [|done]. apply Hk, suffix_cons_r. done.
  - by apply try_counts_none.
  - destruct (_ <? lo); [done|]. by apply try_up_none.
  - apply IH1. intros p' s' Hs. apply IH2. intros p'' s'' Hs'. apply Hk. by trans s'.
  - by rewrite IH1, IH2.
  - by rewrite IH1, Hk.
  - destruct (xorb _ _); [by apply Hk|done].
  - by apply Hk.
Qed.

(** The same with an invariant [P] of the input closed under suffixes:
    the second part of a sequence fails on every such input. *)
Lemma mtch_seq_none (P : list ascii -> Prop)
    (HP : forall s s', s' `suffix_of` s -> P s -> P s')
    (r1 r2 : regex) (prev : option ascii) (s : list ascii) (k : continuation) :
  P s -> (forall p' s', P s' -> mtch r2 p' s' k = None) -> mtch (RSeq r1 r2) prev s k = None.
Proof. intros Hs H2. simpl. apply mtch_none. intros p' s' Hs'. apply H2. by apply (HP s). Qed.

(** [re.sub] with a pattern that matches nowhere returns its input. *)
Lemma sub_loop_nomatch (r : regex) (repl : list ascii -> list ascii) (prev : option ascii)
    (s : list ascii) :
  (forall p' s', s' `suffix_of` s -> match_here r p' s' = None) ->
  sub_loop r repl prev 0 s = s.
Proof.
  revert prev. induction s as [|c s IH]; intros prev Hm; simpl.
  - by rewrite Hm.
  - rewrite Hm by done. f_equal. apply IH. intros p' s' Hs. apply Hm.
    by apply suffix_cons_r.
Qed.

Lemma re_sub_nomatch (r : regex) (repl s : string) :
  (forall p' s', s' `suffix_of` list_ascii_of_string s -> match_here r p' s' = None) ->
  re_sub r repl s = s.
Proof.
  intros Hm. unfold re_sub. rewrite sub_loop_nomatch by done.
  apply string_of_list_ascii_of_string.
Qed.

End PyRegex.
