(* ===== verification/Quality.v ===== *)
(** * Quality: answer scoring, question patterns and categories of
    [rag_improvement.py]

    [calculate_response_quality] scores an answer from 0 to 1 with the
    fixed phrase lists and the regular expressions of the source, written
    with [Regex]; the score is an exact rational (see the root file for why
    the IEEE doubles of the code give the same comparisons).
    [extract_query_pattern] turns a question into its learning key by
    three [re.sub] passes; [track_category] and [prompt_category] are the
    two keyword classifiers of [track_query] and
    [get_optimized_prompt_base], which are not the same. *)

From S2P Require Import Prelude Regex.
Local Open Scope string_scope.
Import PyRegex.

Module ResponseQuality.

(** ** Phrase lists and patterns *)

Definition error_indicators : list string :=
  ["could not find"; "cannot find"; "does not include"; "not available";
   "no information"; "error"].

Definition generic_phrases : list string :=
  ["i don't know"; "i'm not sure"; "please check"; "you may want to";
   "it's possible that"].

Definition months : list string :=
  ["january"; "february"; "march"; "april"; "may"; "june"; "july"; "august";
   "september"; "october"; "november"; "december"].

Definition honorifics : list string := ["mr"; "ms"; "miss"; "mrs"; "dr"].

Definition date_sep : regex :=
  RClass (fun c => Ascii.eqb c "/"%char || Ascii.eqb c "-"%char).

(** [\d{1,2}[/-]\d{1,2}[/-]\d{2,4}] *)
Definition numeric_date : regex :=
  seqs [RRepeat is_digit 1 (Some 2); date_sep; RRepeat is_digit 1 (Some 2); date_sep;
        RRepeat is_digit 2 (Some 4)].

(** [\b\w+\b] *)
Definition word_re : regex := seqs [RWordBoundary; RRepeat is_word 1 None; RWordBoundary].

(** [\d{1,2}[/-]\d{1,2}[/-]\d{2,4}|\b(january|...|december)\b] *)
Definition answer_date_re : regex :=
  RAlt numeric_date (seqs [RWordBoundary; alts months; RWordBoundary]).

(** [\b\d+\b] *)
Definition number_re : regex := seqs [RWordBoundary; RRepeat is_digit 1 None; RWordBoundary].

(** [\b(mr|ms|miss|mrs|dr)\.?\s+[A-Z][a-z]+\b] *)
Definition person_re : regex :=
  seqs [RWordBoundary; alts honorifics; ROpt (ch "."%char); RRepeat is_space 1 None;
        RClass is_upper; RRepeat is_lower 1 None; RWordBoundary].

(** [\b\d{1,2}[/-]\d{1,2}[/-]\d{2,4}\b] *)
Definition pattern_date_re : regex := seqs [RWordBoundary; numeric_date; RWordBoundary].

(** [\b(january|...|december)\s+\d{1,2}\b] *)
Definition pattern_month_day_re : regex :=
  seqs [RWordBoundary; alts months; RRepeat is_space 1 None;
        RRepeat is_digit 1 (Some 2); RWordBoundary].

(** ** calculate_response_quality *)

Record quality_analysis := {
  length_appropriate : bool; contains_keywords : bool; not_generic : bool;
  has_specifics : bool; not_error : bool }.

(** [set(re.findall(r'\b\w+\b', s))] as a duplicate-free list. *)
Definition word_set (s : string) : list string := remove_dups (re_findall word_re s).

(** [len(question_words.intersection(answer_words))] *)
Definition overlap (qw aw : list string) : nat :=
  length (filter (fun w => w ∈ aw) qw).

Definition calculate_response_quality (answer question : string) : Q * quality_analysis :=
  let answer_lower := lower answer in
  let question_lower := lower question in
  if contains_any error_indicators answer_lower then
    (0%Q, {| length_appropriate := false; contains_keywords := false; not_generic := false;
             has_specifics := false; not_error := false |})
  else
    let len_ok := ((50 <=? py_len answer) && (py_len answer <=? 2000))%nat in
    let question_words := word_set question_lower in
    let answer_words := word_set answer_lower in
    let ov := overlap question_words answer_words in
    let kw_ok := Qle_bool (inject_Z (Z.of_nat (length question_words)) * (3 # 10))%Q
                          (inject_Z (Z.of_nat ov)) in
    let has_dates := re_test answer_date_re answer_lower in
    let has_numbers := re_test number_re answer in
    let has_names := re_test person_re answer in
    let specifics := has_dates || has_numbers || has_names in
    let generic_ok := negb (contains_any generic_phrases answer_lower) in
    let score :=
      ((1 # 2) + (if len_ok then 1 # 10 else 0) + (if kw_ok then 2 # 10 else 0) +
       (if specifics then 2 # 10 else 0) + (if generic_ok then 1 # 10 else 0))%Q in
    (Qmin score 1%Q,
     {| length_appropriate := len_ok; contains_keywords := kw_ok; not_generic := generic_ok;
        has_specifics := specifics; not_error := true |}).

(** ** extract_query_pattern *)

Definition extract_query_pattern (question : string) : string :=
  let pattern := lower question in
  let pattern := re_sub person_re "[PERSON]" pattern in
  let pattern := re_sub pattern_date_re "[DATE]" pattern in
  let pattern := re_sub pattern_month_day_re "[DATE]" pattern in
  re_sub number_re "[NUMBER]" pattern.

(** ** Question categories *)

Inductive query_category := DateTime | Policy | Person | Location | General.

#[export] Instance query_category_eq_dec : EqDecision query_category.
Proof. solve_decision. Defined.

(** The category's name in [query_types] and in the [pattern_key]. *)
Definition category_name (c : query_category) : string :=
  match c with
  | DateTime => "date_time" | Policy => "policy" | Person => "person"
  | Location => "location" | General => "general"
  end.

(** The first-match rules of [track_query] ([word in question_lower] is a
    substring test). *)
Definition track_category (question : string) : query_category :=
  let q := lower question in
  if contains_any ["when"; "date"; "time"; "schedule"; "next"] q then DateTime
  else if contains_any ["what"; "policy"; "rule"; "guideline"; "can"; "should"] q then Policy
  else if contains_any ["who"; "teacher"; "miss"; "ms"; "mr"; "from"] q then Person
  else if contains_any ["where"; "location"; "place"] q then Location
  else General.

(** The rules of [get_optimized_prompt_base]: no "can"/"should", no
    location branch. *)
Definition prompt_category (question : string) : query_category :=
  let q := lower question in
  if contains_any ["when"; "date"; "time"; "schedule"; "next"] q then DateTime
  else if contains_any ["what"; "policy"; "rule"; "guideline"] q then Policy
  else if contains_any ["who"; "teacher"; "miss"; "ms"; "mr"; "from"] q then Person
  else General.

(** ** Lemmas *)

Lemma ascii_lower_not_upper (c : ascii) : is_upper (ascii_lower c) = false.
Proof. destruct c as [[] [] [] [] [] [] [] []]; reflexivity. Qed.

Definition no_upper (s : list ascii) : Prop := Forall (fun c => is_upper c = false) s.

Lemma no_upper_suffix (s s' : list ascii) : s' `suffix_of` s -> no_upper s -> no_upper s'.
Proof. intros [k ->] H. unfold no_upper in *. by apply Forall_app in H as [_ ?]. Qed.

Lemma lower_no_upper (s : string) : no_upper (list_ascii_of_string (lower s)).
Proof. induction s; constructor; auto using ascii_lower_not_upper. Qed.

(** [person_re] needs an upper-case letter after the title. *)
Lemma person_re_needs_upper (prev : option ascii) (s : list ascii) :
  no_upper s -> match_here person_re prev s = None.
Proof.
  intros Hs. unfold match_here, person_re. cbn [seqs].
  do 4 (apply (mtch_seq_none no_upper no_upper_suffix); [exact Hs|]; clear Hs; intros ? ? Hs).
  simpl. match goal with |- context [match ?t with _ => _ end] => destruct t as [|c t] end; [done|].
  apply Forall_cons in Hs as [-> _]. done.
Qed.

(** Every score of a non-error answer has the shape
    [min(0.5 + ..., 1)] of the four checks. *)
Lemma quality_score_shape (answer question : string) :
  contains_any error_indicators (lower answer) = false ->
  exists b1 b2 b3 b4 : bool,
    (calculate_response_quality answer question).1 =
    Qmin ((1 # 2) + (if b1 then 1 # 10 else 0) + (if b2 then 2 # 10 else 0) +
          (if b3 then 2 # 10 else 0) + (if b4 then 1 # 10 else 0))%Q 1%Q.
Proof. intros H. unfold calculate_response_quality. rewrite H. simpl. eauto. Qed.

(** ** Properties *)

(** C29: the score is exactly 0 when the answer contains one of the
    error phrases, and otherwise lies between 0.5 and 1. *)
Theorem quality_score_bounds (answer question : string) :
  let s := (calculate_response_quality answer question).1 in
  (contains_any error_indicators (lower answer) = true /\ s = 0%Q) \/
  (contains_any error_indicators (lower answer) = false /\ (1 # 2 <= s)%Q /\ (s <= 1)%Q).
Proof.
  simpl. destruct (contains_any error_indicators (lower answer)) eqn:E.
  - left. unfold calculate_response_quality. by rewrite E.
  - right. split; [done|]. destruct (quality_score_shape answer question E) as (b1 & b2 & b3 & b4 & ->).
    destruct b1, b2, b3, b4; split; apply Qle_bool_imp_le; reflexivity.
Qed.

(** An answer that passes the five checks of the analysis gets the
    full score 1.0. *)
Theorem quality_full_marks (answer question : string) :
  let r := calculate_response_quality answer question in
  length_appropriate r.2 = true -> contains_keywords r.2 = true ->
  has_specifics r.2 = true -> not_generic r.2 = true -> not_error r.2 = true ->
  (r.1 == 1)%Q.
Proof.
  unfold calculate_response_quality. cbv zeta.
  destruct (contains_any error_indicators (lower answer)); simpl; [discriminate|].
  intros -> -> -> -> _. reflexivity.
Qed.

(** C32: the [[PERSON]] substitution of [extract_query_pattern] never
    fires: it runs on the lower-cased question while [person_re] needs an
    upper-case letter, so the learning key is the result of the date and
    number substitutions alone and keeps the teachers' names. *)
Theorem person_placeholder_dead (question : string) :
  extract_query_pattern question =
  re_sub number_re "[NUMBER]"
    (re_sub pattern_month_day_re "[DATE]" (re_sub pattern_date_re "[DATE]" (lower question))).
Proof.
  unfold extract_query_pattern. rewrite (re_sub_nomatch person_re); [done|].
  intros p s Hs. apply person_re_needs_upper. apply (no_upper_suffix _ _ Hs), lower_no_upper.
Qed.

(** The two classifiers disagree only on questions with one of the
    words [track_query] tests and [get_optimized_prompt_base] does not:
    without "can", "should", "where", "location" or "place" they give the
    same category. *)
Theorem categories_agree (question : string) :
  contains_any ["can"; "should"; "where"; "location"; "place"] (lower question) = false ->
  track_category question = prompt_category question.
Proof.
  unfold track_category, prompt_category, contains_any. cbn [existsb].
  rewrite !orb_false_r. intros H.
  repeat match type of H with (?a || ?b) = false => apply orb_false_iff in H as [? H] end.
  repeat match goal with Hf : contains _ _ = false |- _ => rewrite Hf; clear Hf end.
  rewrite !orb_false_r. simpl. reflexivity.
Qed.

(** [has_names] tests the original answer against a pattern with
    lower-case titles: a name written the usual way ("Mr. Smith") does not
    count as a specific, the same name with "mr." does. *)
Theorem has_names_case_sensitive :
  let q := "Who do I contact about the permission slip?" in
  has_specifics (calculate_response_quality
    "Please contact Mr. Smith about the permission slip for the trip." q).2 = false /\
  has_specifics (calculate_response_quality
    "Please contact mr. Smith about the permission slip for the trip." q).2 = true.
Proof. vm_compute. split; reflexivity. Qed.

End ResponseQuality.

(** ** Witnesses *)

Import ResponseQuality.

Lemma quality_full_marks_witness :
  let r := calculate_response_quality
    "The field trip to the science museum is on November 14; buses leave at 8:30."
    "When is the field trip to the science museum?" in
  (r.1 == 1)%Q.
Proof.
  intros r. apply quality_full_marks; vm_compute; reflexivity.
Defined.

Lemma categories_agree_witness :
  contains_any ["can"; "should"; "where"; "location"; "place"] (lower "Who teaches art?") = false /\
  track_category "Who teaches art?" = prompt_category "Who teaches art?".
Proof.
  assert (H : contains_any ["can"; "should"; "where"; "location"; "place"]
                (lower "Who teaches art?") = false) by reflexivity.
  split; [exact H|]. exact (categories_agree _ H).
Defined.
