(* ===== verification/LearningState.v ===== *)
(** * LearningState: the metrics and learning files of [rag_improvement.py]

    [data/.rag_metrics.json] and [data/.rag_learning.json] as records,
    [data/.rag_feedback.json] as a list; each is read with the default of
    [load_metrics] / [load_learning_data] when absent or unreadable. The
    Python truth tests on the optional score ([quality_score or 0.5],
    [quality_score and quality_score < 0.5]) are [score_or_half] and
    [truthy]; the incremental mean of [track_query] is [running_avg], whose
    fold is shown to be the arithmetic mean. *)

From S2P Require Import Prelude Quality.
Local Open Scope string_scope.
Local Open Scope Q_scope.
Import ResponseQuality.

Module RagImprovement.

(** ** The metrics file *)

(** An element of [confidence_scores]; [analysis] only on the automatic
    scoring path. *)
Record confidence_entry := {
  ce_timestamp : string; ce_score : Q; ce_question : string;
  ce_analysis : option quality_analysis }.

(** An element of [accuracy_trends]: one per day. *)
Record trend_entry := {
  te_date : string; te_total : nat; te_successful : nat; te_avg_quality : Q }.

Record metrics := {
  total_queries : nat; successful_queries : nat; failed_queries : nat;
  query_types : gmap string nat; common_questions : gmap string nat;
  response_times : list Q; improvement_suggestions : list string;
  accuracy_trends : list trend_entry; confidence_scores : list confidence_entry }.

Definition default_metrics : metrics :=
  {| total_queries := 0%nat; successful_queries := 0%nat; failed_queries := 0%nat;
     query_types := ∅; common_questions := ∅; response_times := [];
     improvement_suggestions := []; accuracy_trends := []; confidence_scores := [] |}.

(** [load_metrics]: the defaults when the file is absent or unreadable. *)
Definition load_metrics (f : stored metrics) : metrics := load_or default_metrics f.
Definition save_metrics (m : metrics) : stored metrics := Valid m.

(** ** The learning file *)

Record pattern_data := {
  pd_count : nat; pd_success_count : nat; pd_avg_quality : Q;
  pd_avg_response_time : Q; pd_examples : list string }.

Definition new_pattern_data : pattern_data :=
  {| pd_count := 0%nat; pd_success_count := 0%nat; pd_avg_quality := 0;
     pd_avg_response_time := 0; pd_examples := [] |}.

(** An element of [failed_patterns]. *)
Record failure_entry := {
  fe_timestamp : string; fe_question : string; fe_answer : string;
  fe_pattern : string; fe_category : query_category; fe_quality_score : option Q }.

(** An element of a [successful_prompts] list. *)
Record success_entry := {
  se_timestamp : string; se_question : string; se_answer_preview : string;
  se_quality_score : Q }.

(** The three kinds of suggestion of [auto_optimize], with their numbers. *)
Inductive optimization :=
| PatternFailure (pattern : string) (failures : nat)
| QualityDegradation (avg_quality : Q)
| Performance (avg_time : Q).

Record learning := {
  query_patterns : gmap string pattern_data;
  successful_prompts : gmap string (list success_entry);
  failed_patterns : list failure_entry;
  optimizations : list optimization;
  last_optimization : option string }.

Definition default_learning : learning :=
  {| query_patterns := ∅; successful_prompts := ∅; failed_patterns := [];
     optimizations := []; last_optimization := None |}.

Definition load_learning_data (f : stored learning) : learning := load_or default_learning f.
Definition save_learning_data (l : learning) : stored learning := Valid l.

(** An element of the feedback file. *)
Record feedback_entry := {
  fb_timestamp : string; fb_question : string; fb_answer : string;
  fb_helpful : bool; fb_comment : option string }.

(** The four files the engine reads and writes. *)
Record rag_files := {
  metrics_file : stored metrics; learning_file : stored learning;
  feedback_file : stored (list feedback_entry) }.

(** ** Python idioms on the optional score *)

(** [quality_score or 0.5]: [None] and [0.0] are both false. *)
Definition score_or_half (qs : option Q) : Q :=
  match qs with
  | Some x => if Qeq_bool x 0 then 1 # 2 else x
  | None => 1 # 2
  end.

(** [bool(quality_score)] *)
Definition truthy (qs : option Q) : bool :=
  match qs with Some x => negb (Qeq_bool x 0) | None => false end.

(** [x > y] and [x < y] on floats. *)
Definition Qgtb (x y : Q) : bool := negb (Qle_bool x y).
Definition Qltb (x y : Q) : bool := negb (Qle_bool y x).

(** [d[k] = d.get(k, 0) + 1] *)
Definition incr (k : string) (m : gmap string nat) : gmap string nat :=
  <[k := (default 0 (m !! k) + 1)%nat]> m.

(** [(avg * (n - 1) + x) / n] with [n] the count after the increment. *)
Definition running_avg (avg : Q) (n : nat) (x : Q) : Q :=
  (avg * inject_Z (Z.of_nat (n - 1)%nat) + x) / inject_Z (Z.of_nat n).

(** [sum(xs) / len(xs) if xs else 0] *)
Definition mean (xs : list Q) : Q :=
  match xs with
  | [] => 0
  | _ => fold_right Qplus 0 xs / inject_Z (Z.of_nat (length xs))
  end.

(** The average after feeding [xs] one by one, from count [0]. *)
Definition running_avgs (xs : list Q) : Q * nat :=
  fold_left (fun '(avg, n) x => (running_avg avg (S n) x, S n)) xs (0%Q, 0%nat).

(** ** Lemmas *)

Lemma Qgtb_spec (x y : Q) : Qgtb x y = true <-> y < x.
Proof.
  unfold Qgtb. rewrite negb_true_iff, <-not_true_iff_false, Qle_bool_iff.
  split; [apply Qnot_le_lt|apply Qlt_not_le].
Qed.

Lemma Qltb_spec (x y : Q) : Qltb x y = true <-> x < y.
Proof. unfold Qltb. apply Qgtb_spec. Qed.

Lemma Qltb_false (x y : Q) : y <= x -> Qltb x y = false.
Proof. intros H. apply not_true_iff_false. rewrite Qltb_spec. by apply Qle_not_lt. Qed.

#[export] Instance running_avg_proper : Proper (Qeq ==> eq ==> Qeq ==> Qeq) running_avg.
Proof. intros a a' Ha n ? <- x x' Hx. unfold running_avg. by rewrite Ha, Hx. Qed.

Lemma inject_Z_of_nat_S (n : nat) : inject_Z (Z.of_nat (S n)) == inject_Z (Z.of_nat n) + 1.
Proof. rewrite Nat2Z.inj_succ, <-Z.add_1_r, inject_Z_plus. reflexivity. Qed.

Lemma inject_Z_of_nat_S_neq (n : nat) : ~ inject_Z (Z.of_nat (S n)) == 0.
Proof. change 0 with (inject_Z 0). rewrite inject_Z_injective. lia. Qed.

(** One step of the incremental mean adds [x] to the running sum. *)
Lemma running_avg_step (avg : Q) (n : nat) (x : Q) :
  running_avg avg (S n) x * inject_Z (Z.of_nat (S n)) == avg * inject_Z (Z.of_nat n) + x.
Proof.
  unfold running_avg. replace (S n - 1)%nat with n by lia.
  field. apply inject_Z_of_nat_S_neq.
Qed.

Lemma fold_right_Qplus_init (a : Q) (ys : list Q) :
  fold_right Qplus a ys == fold_right Qplus 0 ys + a.
Proof. induction ys as [|y ys IH]; simpl; [ring|]. rewrite IH. ring. Qed.

(** The running average times the count is the sum of the values fed. *)
Lemma running_avgs_sum (xs : list Q) :
  (running_avgs xs).2 = length xs /\
  (running_avgs xs).1 * inject_Z (Z.of_nat (length xs)) == fold_right Qplus 0 xs.
Proof.
  unfold running_avgs. induction xs as [|x xs IH] using rev_ind; [done|].
  rewrite fold_left_app. destruct (fold_left _ xs _) as [avg n]; simpl in *.
  destruct IH as [-> IH]. rewrite length_app, Nat.add_1_r. split; [done|].
  rewrite running_avg_step, IH, fold_right_app. simpl. rewrite (fold_right_Qplus_init (x + 0)). ring.
Qed.

(** Hence it is the mean of the values. *)
Lemma running_avgs_mean (xs : list Q) : (running_avgs xs).1 == mean xs.
Proof.
  destruct (running_avgs_sum xs) as [_ H]. destruct xs as [|x xs]; [reflexivity|].
  unfold mean. rewrite <-H. field. apply inject_Z_of_nat_S_neq.
Qed.

End RagImprovement.
