(* ===== verification/Learning.v ===== *)
(** * Learning: [track_query], [auto_optimize], [get_optimized_prompt_base]
    and [record_feedback] of [rag_improvement.py]

    [track_query] is the composition of one function per block of the
    source, in the source's order, from the loaded metrics and learning
    records to the two files it saves; it ends with [auto_optimize] every
    tenth query. The clock is the record [clock] (the same instant is used
    for every [datetime.now()] of one call). *)

From S2P Require Import Prelude Regex Quality LearningState.
Local Open Scope string_scope.
Local Open Scope Q_scope.
Import ResponseQuality RagImprovement.

Module TrackQuery.

(** [datetime.now().isoformat()] and [datetime.now().date().isoformat()] *)
Record clock := { now_iso : string; today_iso : string }.

(** ** Field updates *)

Definition set_confidence_scores (cs : list confidence_entry) (m : metrics) : metrics :=
  {| total_queries := total_queries m; successful_queries := successful_queries m;
     failed_queries := failed_queries m; query_types := query_types m;
     common_questions := common_questions m; response_times := response_times m;
     improvement_suggestions := improvement_suggestions m;
     accuracy_trends := accuracy_trends m; confidence_scores := cs |}.

Definition set_common_questions (c : gmap string nat) (m : metrics) : metrics :=
  {| total_queries := total_queries m; successful_queries := successful_queries m;
     failed_queries := failed_queries m; query_types := query_types m;
     common_questions := c; response_times := response_times m;
     improvement_suggestions := improvement_suggestions m;
     accuracy_trends := accuracy_trends m; confidence_scores := confidence_scores m |}.

Definition set_query_types (t : gmap string nat) (m : metrics) : metrics :=
  {| total_queries := total_queries m; successful_queries := successful_queries m;
     failed_queries := failed_queries m; query_types := t;
     common_questions := common_questions m; response_times := response_times m;
     improvement_suggestions := improvement_suggestions m;
     accuracy_trends := accuracy_trends m; confidence_scores := confidence_scores m |}.

Definition set_response_times (r : list Q) (m : metrics) : metrics :=
  {| total_queries := total_queries m; successful_queries := successful_queries m;
     failed_queries := failed_queries m; query_types := query_types m;
     common_questions := common_questions m; response_times := r;
     improvement_suggestions := improvement_suggestions m;
     accuracy_trends := accuracy_trends m; confidence_scores := confidence_scores m |}.

Definition set_accuracy_trends (a : list trend_entry) (m : metrics) : metrics :=
  {| total_queries := total_queries m; successful_queries := successful_queries m;
     failed_queries := failed_queries m; query_types := query_types m;
     common_questions := common_questions m; response_times := response_times m;
     improvement_suggestions := improvement_suggestions m;
     accuracy_trends := a; confidence_scores := confidence_scores m |}.

Definition set_query_patterns (p : gmap string pattern_data) (l : learning) : learning :=
  {| query_patterns := p; successful_prompts := successful_prompts l;
     failed_patterns := failed_patterns l; optimizations := optimizations l;
     last_optimization := last_optimization l |}.

Definition set_successful_prompts (p : gmap string (list success_entry)) (l : learning) : learning :=
  {| query_patterns := query_patterns l; successful_prompts := p;
     failed_patterns := failed_patterns l; optimizations := optimizations l;
     last_optimization := last_optimization l |}.

Definition set_failed_patterns (f : list failure_entry) (l : learning) : learning :=
  {| query_patterns := query_patterns l; successful_prompts := successful_prompts l;
     failed_patterns := f; optimizations := optimizations l;
     last_optimization := last_optimization l |}.

(** ** The blocks of [track_query] *)

(** The counters. *)
Definition count_query (success : bool) (m : metrics) : metrics :=
  {| total_queries := S (total_queries m);
     successful_queries := if success then S (successful_queries m) else successful_queries m;
     failed_queries := if success then failed_queries m else S (failed_queries m);
     query_types := query_types m; common_questions := common_questions m;
     response_times := response_times m; improvement_suggestions := improvement_suggestions m;
     accuracy_trends := accuracy_trends m; confidence_scores := confidence_scores m |}.

(** The score: computed and logged (capped at 100) when none is given and
    [auto_score] holds; logged without the cap when one is given. *)
Definition score_query (clk : clock) (question answer : string) (quality_score : option Q)
    (auto_score : bool) (m : metrics) : option Q * metrics :=
  match quality_score with
  | None =>
      if auto_score then
        let '(s, analysis) := calculate_response_quality answer question in
        (Some s, set_confidence_scores
                   (append_capped 100 (confidence_scores m)
                      {| ce_timestamp := now_iso clk; ce_score := s;
                         ce_question := py_take 100 question;
                         ce_analysis := Some analysis |}) m)
      else (None, m)
  | Some s =>
      (Some s, set_confidence_scores
                 (confidence_scores m ++
                  [{| ce_timestamp := now_iso clk; ce_score := s;
                      ce_question := py_take 100 question; ce_analysis := None |}])%list m)
  end.

(** [success and quality_score and quality_score > t] *)
Definition success_above (success : bool) (qs : option Q) (t : Q) : bool :=
  success && truthy qs && match qs with Some x => Qgtb x t | None => false end.

(** The pattern's counters, running averages and examples. *)
Definition update_pattern_data (question : string) (response_time : Q) (success : bool)
    (qs : option Q) (pd : pattern_data) : pattern_data :=
  let count := S (pd_count pd) in
  let examples := pd_examples pd in
  {| pd_count := count;
     pd_success_count := if success then S (pd_success_count pd) else pd_success_count pd;
     pd_avg_quality := running_avg (pd_avg_quality pd) count (score_or_half qs);
     pd_avg_response_time := running_avg (pd_avg_response_time pd) count response_time;
     pd_examples :=
       if (length examples <? 5)%nat then (examples ++ [question])%list
       else if success_above success qs (7 # 10) then (tail examples ++ [question])%list
       else examples |}.

Definition track_pattern (pattern question : string) (response_time : Q) (success : bool)
    (qs : option Q) (l : learning) : learning :=
  let pd := default new_pattern_data (query_patterns l !! pattern) in
  set_query_patterns
    (<[pattern := update_pattern_data question response_time success qs pd]> (query_patterns l)) l.

(** Today's accuracy bucket. *)
Definition update_trend (success : bool) (qs : option Q) (e : trend_entry) : trend_entry :=
  let total := S (te_total e) in
  {| te_date := te_date e; te_total := total;
     te_successful := if success then S (te_successful e) else te_successful e;
     te_avg_quality := running_avg (te_avg_quality e) total (score_or_half qs) |}.

(** Find or create today's entry (the first one with that date) and
    update it in place. *)
Definition upsert_trend (today : string) (success : bool) (qs : option Q)
    (trends : list trend_entry) : list trend_entry :=
  match list_find (fun e => te_date e = today) trends with
  | Some (i, e) => <[i := update_trend success qs e]> trends
  | None =>
      (trends ++ [update_trend success qs
                    {| te_date := today; te_total := 0; te_successful := 0;
                       te_avg_quality := 0 |}])%list
  end.

(** ... and keep the last 30 days. *)
Definition track_trend (today : string) (success : bool) (qs : option Q)
    (trends : list trend_entry) : list trend_entry :=
  let trends' := upsert_trend today success qs trends in
  if (30 <? length trends')%nat then trends'.[-30:] else trends'.

(** [not success or (quality_score and quality_score < 0.5)] *)
Definition is_failure (success : bool) (qs : option Q) : bool :=
  negb success || (truthy qs && match qs with Some x => Qltb x (1 # 2) | None => false end).

Definition track_failure (clk : clock) (question answer : string) (success : bool)
    (qs : option Q) (pattern : string) (category : query_category) (l : learning) : learning :=
  if is_failure success qs then
    set_failed_patterns
      (append_capped 50 (failed_patterns l)
         {| fe_timestamp := now_iso clk; fe_question := question;
            fe_answer := py_take 200 answer; fe_pattern := pattern;
            fe_category := category; fe_quality_score := qs |}) l
  else l.

(** [f"{pattern}_{query_category}"] *)
Definition pattern_key (pattern : string) (category : query_category) : string :=
  pattern ++ "_" ++ category_name category.

Definition track_success (clk : clock) (question answer : string) (success : bool)
    (qs : option Q) (pattern : string) (category : query_category) (l : learning) : learning :=
  match qs with
  | Some x =>
      if success_above success qs (8 # 10) then
        let key := pattern_key pattern category in
        let xs := default [] (successful_prompts l !! key) in
        set_successful_prompts
          (<[key := append_capped 10 xs
                      {| se_timestamp := now_iso clk; se_question := question;
                         se_answer_preview := py_take 200 answer;
                         se_quality_score := x |}]> (successful_prompts l)) l
      else l
  | None => l
  end.

(** ** auto_optimize *)

(** The keys of a [defaultdict] filled in the order of the list: each
    value once, at its first occurrence. *)
Definition unique_in_order (xs : list string) : list string :=
  fold_left (fun acc x => if decide (x ∈ acc) then acc else (acc ++ [x])%list) xs [].

(** [failure_by_pattern.items()] with the size of each group. *)
Definition failure_groups (recent : list failure_entry) : list (string * nat) :=
  (fun p => (p, length (filter (fun f => fe_pattern f = p) recent)))
    <$> unique_in_order (fe_pattern <$> recent).

Definition pattern_failure_opts (l : learning) : list optimization :=
  match failed_patterns l with
  | [] => []
  | _ =>
      let recent := (failed_patterns l).[-10:] in
      (fun pn => PatternFailure pn.1 pn.2)
        <$> filter (fun pn => (3 <= pn.2)%nat) (failure_groups recent)
  end.

Definition quality_opts (m : metrics) : list optimization :=
  match confidence_scores m with
  | [] => []
  | _ =>
      let avg_recent := mean (ce_score <$> (confidence_scores m).[-20:]) in
      if Qltb avg_recent (6 # 10) then [QualityDegradation avg_recent] else []
  end.

Definition performance_opts (m : metrics) : list optimization :=
  match response_times m with
  | [] => []
  | _ =>
      let avg_time := mean ((response_times m).[-20:]) in
      if Qgtb avg_time 5 then [Performance avg_time] else []
  end.

Definition auto_optimize (clk : clock) (st : rag_files) : rag_files :=
  let l := load_learning_data (learning_file st) in
  let m := load_metrics (metrics_file st) in
  let opts := (pattern_failure_opts l ++ quality_opts m ++ performance_opts m)%list in
  match opts with
  | [] => st
  | _ =>
      let l' := {| query_patterns := query_patterns l;
                   successful_prompts := successful_prompts l;
                   failed_patterns := failed_patterns l;
                   optimizations := extend_capped 20 (optimizations l) opts;
                   last_optimization := Some (now_iso clk) |} in
      {| metrics_file := metrics_file st; learning_file := save_learning_data l';
         feedback_file := feedback_file st |}
  end.

(** ** track_query *)

Definition track_query (clk : clock) (st : rag_files) (question answer : string)
    (response_time : Q) (success : bool) (quality_score : option Q) (auto_score : bool)
    : rag_files :=
  let m := count_query success (load_metrics (metrics_file st)) in
  let l := load_learning_data (learning_file st) in
  let '(qs, m) := score_query clk question answer quality_score auto_score m in
  let m := set_common_questions (incr (strip (lower question)) (common_questions m)) m in
  let pattern := extract_query_pattern question in
  let l := track_pattern pattern question response_time success qs l in
  let category := track_category question in
  let m := set_query_types (incr (category_name category) (query_types m)) m in
  let m := set_response_times (append_capped 100 (response_times m) response_time) m in
  let m := set_accuracy_trends (track_trend (today_iso clk) success qs (accuracy_trends m)) m in
  let l := track_failure clk question answer success qs pattern category l in
  let l := track_success clk question answer success qs pattern category l in
  let st' := {| metrics_file := save_metrics m; learning_file := save_learning_data l;
                feedback_file := feedback_file st |} in
  if (total_queries m mod 10 =? 0)%nat then auto_optimize clk st' else st'.

(** ** get_optimized_prompt_base *)

Definition base_instruction (c : query_category) : string :=
  match c with
  | DateTime => "Focus on extracting specific dates, times, and scheduling information. Be precise with dates and times."
  | Policy => "Focus on extracting complete policy information. Include all requirements, restrictions, and details. Do not just mention that policies exist - extract the actual policy content."
  | Person => "Focus on identifying the person mentioned and extracting information FROM that person. Look for sender fields and email headers."
  | _ => "Provide complete, specific information from the emails."
  end.

Definition learned_clause : string :=
  " Use the same detailed extraction approach that worked for similar questions.".

Definition failure_clause : string :=
  " IMPORTANT: Previous similar questions had low quality. Search more thoroughly and extract complete information.".

Definition get_optimized_prompt_base (lf : stored learning) (question : string) : string :=
  let l := load_learning_data lf in
  let pattern := extract_query_pattern question in
  let category := prompt_category question in
  let base := base_instruction category in
  if bool_decide (is_Some (successful_prompts l !! pattern_key pattern category)) then
    base ++ learned_clause
  else if existsb (fun f => bool_decide (fe_pattern f = pattern)) ((failed_patterns l).[-20:]) then
    base ++ failure_clause
  else base.

(** ** record_feedback *)

Definition record_feedback (clk : clock) (st : rag_files) (question answer : string)
    (helpful : bool) (user_comment : option string) : rag_files :=
  let feedback := {| fb_timestamp := now_iso clk; fb_question := question;
                     fb_answer := py_take 500 answer; fb_helpful := helpful;
                     fb_comment := user_comment |} in
  let feedback_list := load_or [] (feedback_file st) in
  let st := {| metrics_file := metrics_file st; learning_file := learning_file st;
               feedback_file := Valid (append_capped 100 feedback_list feedback) |} in
  let quality_score := if helpful then 9 # 10 else 2 # 10 in
  track_query clk st question answer 0 helpful (Some quality_score) false.

(** ** The low-quality patterns of [get_improvement_suggestions] *)

Definition low_quality_patterns (l : learning) : list string :=
  fst <$> filter (fun pd => (3 <= pd_count pd.2)%nat /\ Qltb (pd_avg_quality pd.2) (1 # 2) = true)
                 (map_to_list (query_patterns l)).

(** ** Lemmas *)

(** The value of [quality_score] after the scoring block. *)
Definition effective_quality (question answer : string) (quality_score : option Q)
    (auto_score : bool) : option Q :=
  match quality_score with
  | Some s => Some s
  | None => if auto_score then Some (calculate_response_quality answer question).1 else None
  end.

Lemma score_query_fst (clk : clock) (question answer : string) (qs : option Q) (auto : bool)
    (m : metrics) :
  (score_query clk question answer qs auto m).1 = effective_quality question answer qs auto.
Proof.
  unfold score_query, effective_quality. destruct qs; [done|].
  destruct auto; [|done]. by destruct (calculate_response_quality answer question).
Qed.

(** [auto_optimize] leaves the metrics and everything in the learning
    file but the optimization log. *)
Lemma auto_optimize_files (clk : clock) (st : rag_files) :
  let l := load_learning_data (learning_file st) in
  let l' := load_learning_data (learning_file (auto_optimize clk st)) in
  metrics_file (auto_optimize clk st) = metrics_file st /\
  feedback_file (auto_optimize clk st) = feedback_file st /\
  query_patterns l' = query_patterns l /\ successful_prompts l' = successful_prompts l /\
  failed_patterns l' = failed_patterns l /\
  (optimizations l' = optimizations l \/ length (optimizations l') <= 20)%nat.
Proof.
  unfold auto_optimize. simpl. case_match; [naive_solver|].
  simpl. split_and!; auto using extend_capped_max.
Qed.

(** The learning record [track_query] saves, before [auto_optimize]. *)
Definition learning_after (clk : clock) (l : learning) (question answer : string)
    (response_time : Q) (success : bool) (qs : option Q) : learning :=
  let pattern := extract_query_pattern question in
  let category := track_category question in
  track_success clk question answer success qs pattern category
    (track_failure clk question answer success qs pattern category
       (track_pattern pattern question response_time success qs l)).

(** The metrics record [track_query] saves. *)
Definition metrics_after (clk : clock) (m : metrics) (question answer : string)
    (response_time : Q) (success : bool) (quality_score : option Q) (auto : bool) : metrics :=
  let '(qs, m) := score_query clk question answer quality_score auto (count_query success m) in
  let m := set_common_questions (incr (strip (lower question)) (common_questions m)) m in
  let m := set_query_types (incr (category_name (track_category question)) (query_types m)) m in
  let m := set_response_times (append_capped 100 (response_times m) response_time) m in
  set_accuracy_trends (track_trend (today_iso clk) success qs (accuracy_trends m)) m.

Lemma track_query_metrics (clk : clock) (st : rag_files) (question answer : string)
    (rt : Q) (success : bool) (qs : option Q) (auto : bool) :
  load_metrics (metrics_file (track_query clk st question answer rt success qs auto)) =
  metrics_after clk (load_metrics (metrics_file st)) question answer rt success qs auto.
Proof.
  unfold track_query, metrics_after. destruct (score_query _ _ _ _ _ _) as [q m] eqn:E.
  case_match; [rewrite (proj1 (auto_optimize_files _ _))|]; done.
Qed.

Lemma track_query_learning (clk : clock) (st : rag_files) (question answer : string)
    (rt : Q) (success : bool) (qs : option Q) (auto : bool) :
  let L := learning_after clk (load_learning_data (learning_file st)) question answer rt success
             (effective_quality question answer qs auto) in
  let l' := load_learning_data (learning_file (track_query clk st question answer rt success qs auto)) in
  feedback_file (track_query clk st question answer rt success qs auto) = feedback_file st /\
  query_patterns l' = query_patterns L /\ successful_prompts l' = successful_prompts L /\
  failed_patterns l' = failed_patterns L /\
  (optimizations l' = optimizations L \/ length (optimizations l') <= 20)%nat.
Proof.
  unfold track_query, learning_after.
  pose proof (score_query_fst clk question answer qs auto
    (count_query success (load_metrics (metrics_file st)))) as Hq.
  destruct (score_query _ _ _ _ _ _) as [q m] eqn:E. simpl in Hq. subst q.
  case_match; [|naive_solver].
  match goal with |- context [auto_optimize clk ?s] =>
    destruct (auto_optimize_files clk s) as (_ & ? & ? & ? & ? & ?) end.
  simpl in *. naive_solver.
Qed.

End TrackQuery.
