(* ===== verification/LearningProps.v ===== *)
(** * LearningProps: what the learning engine keeps and computes

    The well-formedness of the metrics and learning files ([wf_files]):
    the counters add up, every rolling log but [confidence_scores] is
    within its cap, one accuracy bucket per day, a pattern's successes do
    not exceed its count. [track_query] and [record_feedback] preserve it,
    so every state [reachable] from a fresh install has it. The running
    averages are means of the scores fed (with [0.0] counted as [0.5]);
    [get_optimized_prompt_base] finds the learned successes only when the
    two classifiers of [Quality] agree. *)

From S2P Require Import Prelude Regex Quality LearningState Learning.
Local Open Scope string_scope.
Local Open Scope Q_scope.
Import ResponseQuality RagImprovement TrackQuery.

Module LearningProps.

(** ** Well-formedness *)

Definition wf_trends (ts : list trend_entry) : Prop :=
  (length ts <= 30)%nat /\ NoDup (te_date <$> ts) /\
  Forall (fun e => (te_successful e <= te_total e)%nat) ts.

Definition wf_metrics (m : metrics) : Prop :=
  total_queries m = (successful_queries m + failed_queries m)%nat /\
  (length (response_times m) <= 100)%nat /\ wf_trends (accuracy_trends m).

Definition wf_pattern (pd : pattern_data) : Prop :=
  (pd_success_count pd <= pd_count pd)%nat /\ (length (pd_examples pd) <= 5)%nat.

Definition wf_learning (l : learning) : Prop :=
  (length (failed_patterns l) <= 50)%nat /\ (length (optimizations l) <= 20)%nat /\
  map_Forall (fun _ => wf_pattern) (query_patterns l) /\
  map_Forall (fun _ xs => (length xs <= 10)%nat) (successful_prompts l).

Definition wf_files (st : rag_files) : Prop :=
  wf_metrics (load_metrics (metrics_file st)) /\
  wf_learning (load_learning_data (learning_file st)) /\
  (length (load_or [] (feedback_file st)) <= 100)%nat.

(** The states of the four files that a fresh install reaches by answered
    questions and feedback. *)
Inductive reachable : rag_files -> Prop :=
| reach_fresh :
    reachable {| metrics_file := Missing; learning_file := Missing; feedback_file := Missing |}
| reach_track clk st question answer rt success qs auto :
    reachable st -> reachable (track_query clk st question answer rt success qs auto)
| reach_feedback clk st question answer helpful comment :
    reachable st -> reachable (record_feedback clk st question answer helpful comment).

(** ** Preservation lemmas *)

Lemma update_trend_ok (success : bool) (qs : option Q) (e : trend_entry) :
  (te_successful e <= te_total e)%nat ->
  (te_successful (update_trend success qs e) <= te_total (update_trend success qs e))%nat.
Proof. simpl. destruct success; lia. Qed.

Lemma upsert_trend_wf (today : string) (success : bool) (qs : option Q) (ts : list trend_entry) :
  NoDup (te_date <$> ts) -> Forall (fun e => (te_successful e <= te_total e)%nat) ts ->
  NoDup (te_date <$> upsert_trend today success qs ts) /\
  Forall (fun e => (te_successful e <= te_total e)%nat) (upsert_trend today success qs ts).
Proof.
  intros Hnd Hok. unfold upsert_trend. destruct (list_find _ ts) as [[i e]|] eqn:E.
  - apply list_find_Some in E as (Hi & _ & _). split.
    + rewrite list_fmap_insert. simpl. rewrite list_insert_id; [done|].
      by rewrite list_lookup_fmap, Hi.
    + apply Forall_insert; [done|]. apply update_trend_ok.
      exact (Forall_lookup_1 _ _ _ _ Hok Hi).
  - apply list_find_None in E. split.
    + rewrite fmap_app. simpl. apply NoDup_app. split_and!; [done| |by constructor; [set_solver|constructor]].
      intros x Hx ->%list_elem_of_singleton. apply list_elem_of_fmap in Hx as (e & -> & He).
      by eapply Forall_forall in E; [apply E|].
    + apply Forall_app. split; [done|]. constructor; [apply update_trend_ok; simpl; lia|done].
Qed.

Lemma wf_trends_track (today : string) (success : bool) (qs : option Q)
    (ts : list trend_entry) :
  wf_trends ts -> wf_trends (track_trend today success qs ts).
Proof.
  intros (_ & Hnd & Hok). destruct (upsert_trend_wf today success qs ts Hnd Hok) as [H1 H2].
  unfold track_trend. case_match.
  - split_and!; [apply last_n_max|rewrite fmap_last_n; by apply NoDup_last_n|by apply Forall_last_n].
  - split_and!; [apply Nat.ltb_ge; done|done|done].
Qed.

Lemma score_query_snd (clk : clock) (question answer : string) (qs : option Q) (auto : bool)
    (m : metrics) :
  exists cs, (score_query clk question answer qs auto m).2 = set_confidence_scores cs m.
Proof.
  unfold score_query. destruct qs; [eauto|]. destruct auto; [|by exists (confidence_scores m); destruct m].
  destruct (calculate_response_quality answer question). eauto.
Qed.

Lemma wf_metrics_after (clk : clock) (m : metrics) (question answer : string) (rt : Q)
    (success : bool) (qs : option Q) (auto : bool) :
  wf_metrics m -> wf_metrics (metrics_after clk m question answer rt success qs auto).
Proof.
  intros (Ht & _ & Htr). unfold metrics_after.
  destruct (score_query_snd clk question answer qs auto (count_query success m)) as [cs Hcs].
  destruct (score_query _ _ _ _ _ _) as [q m'] eqn:E. simpl in Hcs. subst m'. simpl.
  split_and!; [destruct success; simpl; lia|apply append_capped_max|by apply wf_trends_track].
Qed.

Lemma wf_pattern_new : wf_pattern new_pattern_data.
Proof. split; simpl; lia. Qed.

Lemma wf_pattern_update (question : string) (rt : Q) (success : bool) (qs : option Q)
    (pd : pattern_data) :
  wf_pattern pd -> wf_pattern (update_pattern_data question rt success qs pd).
Proof.
  intros [Hc He]. split; simpl; [destruct success; lia|].
  destruct (Nat.ltb_spec (length (pd_examples pd)) 5).
  - rewrite length_app. simpl. lia.
  - destruct (success_above _ _ _); [|lia]. rewrite length_app, length_tl. simpl. lia.
Qed.

Lemma wf_track_pattern (pattern question : string) (rt : Q) (success : bool) (qs : option Q)
    (l : learning) :
  wf_learning l -> wf_learning (track_pattern pattern question rt success qs l).
Proof.
  intros (Hf & Ho & Hp & Hs). split_and!; try done. simpl.
  apply map_Forall_insert_2; [|done]. apply wf_pattern_update.
  destruct (query_patterns l !! pattern) as [pd|] eqn:E; simpl; [by eapply Hp|apply wf_pattern_new].
Qed.

Lemma wf_track_failure (clk : clock) (question answer : string) (success : bool) (qs : option Q)
    (pattern : string) (c : query_category) (l : learning) :
  wf_learning l -> wf_learning (track_failure clk question answer success qs pattern c l).
Proof.
  intros (Hf & Ho & Hp & Hs). unfold track_failure.
  case_match; [unfold set_failed_patterns; simpl; split_and!; try done; apply append_capped_max|split_and!; done].
Qed.

Lemma wf_track_success (clk : clock) (question answer : string) (success : bool) (qs : option Q)
    (pattern : string) (c : query_category) (l : learning) :
  wf_learning l -> wf_learning (track_success clk question answer success qs pattern c l).
Proof.
  intros (Hf & Ho & Hp & Hs). unfold track_success.
  repeat case_match; try (split_and!; done).
  split_and!; try done. cbn [set_successful_prompts successful_prompts]. apply map_Forall_insert_2; [apply append_capped_max|done].
Qed.

Lemma wf_learning_after (clk : clock) (l : learning) (question answer : string) (rt : Q)
    (success : bool) (qs : option Q) :
  wf_learning l -> wf_learning (learning_after clk l question answer rt success qs).
Proof.
  intros Hl. unfold learning_after.
  apply wf_track_success, wf_track_failure, wf_track_pattern, Hl.
Qed.

(** [track_query] preserves the well-formedness of the files. *)
Lemma wf_track_query (clk : clock) (st : rag_files) (question answer : string) (rt : Q)
    (success : bool) (qs : option Q) (auto : bool) :
  wf_files st -> wf_files (track_query clk st question answer rt success qs auto).
Proof.
  intros (Hm & Hl & Hfb).
  destruct (track_query_learning clk st question answer rt success qs auto)
    as (Hfb' & Hqp & Hsp & Hfp & Hop).
  split_and!; [rewrite track_query_metrics; by apply wf_metrics_after| |by rewrite Hfb'].
  pose proof (wf_learning_after clk _ question answer rt success
    (effective_quality question answer qs auto) Hl) as (Hf' & Ho' & Hp' & Hs').
  unfold wf_learning. rewrite Hqp, Hsp, Hfp. split_and!; try done.
  by destruct Hop as [->|].
Qed.

(** [record_feedback] preserves it. *)
Lemma wf_record_feedback (clk : clock) (st : rag_files) (question answer : string)
    (helpful : bool) (comment : option string) :
  wf_files st -> wf_files (record_feedback clk st question answer helpful comment).
Proof.
  intros (Hm & Hl & Hfb). unfold record_feedback. apply wf_track_query.
  split_and!; simpl; auto using append_capped_max.
Qed.

(** ** Lemmas on the logs and the pattern statistics *)

(** A given score goes through the uncapped branch: one more entry. *)
Lemma track_query_confidence_given (clk : clock) (st : rag_files) (question answer : string)
    (rt s : Q) (success auto : bool) :
  length (confidence_scores (load_metrics (metrics_file
    (track_query clk st question answer rt success (Some s) auto)))) =
  S (length (confidence_scores (load_metrics (metrics_file st)))).
Proof.
  rewrite track_query_metrics. unfold metrics_after. simpl.
  rewrite length_app. simpl. lia.
Qed.

Lemma record_feedback_confidence (clk : clock) (st : rag_files) (question answer : string)
    (helpful : bool) (comment : option string) :
  length (confidence_scores (load_metrics (metrics_file
    (record_feedback clk st question answer helpful comment)))) =
  S (length (confidence_scores (load_metrics (metrics_file st)))).
Proof. unfold record_feedback. by rewrite track_query_confidence_given. Qed.

(** [n] pieces of feedback on the same answer. *)
Fixpoint feedback_times (clk : clock) (st : rag_files) (question answer : string)
    (n : nat) : rag_files :=
  match n with
  | O => st
  | S n' => record_feedback clk (feedback_times clk st question answer n') question answer true None
  end.

Lemma feedback_times_reachable (clk : clock) (st : rag_files) (question answer : string)
    (n : nat) :
  reachable st -> reachable (feedback_times clk st question answer n) /\
  length (confidence_scores (load_metrics (metrics_file (feedback_times clk st question answer n)))) =
  (n + length (confidence_scores (load_metrics (metrics_file st))))%nat.
Proof.
  intros Hr. induction n as [|n [IHr IHl]]; simpl; [done|].
  split; [by constructor|]. rewrite record_feedback_confidence, IHl. lia.
Qed.

(** The pattern entry after one query with that pattern. *)
Lemma track_query_pattern_lookup (clk : clock) (st : rag_files) (question answer : string)
    (rt : Q) (success : bool) (qs : option Q) (auto : bool) (p : string) :
  query_patterns (load_learning_data (learning_file
    (track_query clk st question answer rt success qs auto))) !! p =
  if decide (p = extract_query_pattern question) then
    Some (update_pattern_data question rt success (effective_quality question answer qs auto)
            (default new_pattern_data
               (query_patterns (load_learning_data (learning_file st)) !! p)))
  else query_patterns (load_learning_data (learning_file st)) !! p.
Proof.
  destruct (track_query_learning clk st question answer rt success qs auto) as (_ & -> & _).
  unfold learning_after, track_success, track_failure, track_pattern.
  repeat case_match; simplify_eq; cbn [set_successful_prompts set_failed_patterns
    set_query_patterns query_patterns];
    (rewrite lookup_insert_eq || rewrite lookup_insert_ne by done); done.
Qed.

(** One question of a sequence: the arguments of [track_query]. *)
Record query_call := {
  qc_question : string; qc_answer : string; qc_response_time : Q; qc_success : bool;
  qc_quality_score : option Q; qc_auto_score : bool }.

Definition track_call (clk : clock) (st : rag_files) (c : query_call) : rag_files :=
  track_query clk st (qc_question c) (qc_answer c) (qc_response_time c) (qc_success c)
    (qc_quality_score c) (qc_auto_score c).

(** The score each call feeds into the pattern's average. *)
Definition averaged_score (c : query_call) : Q :=
  score_or_half (effective_quality (qc_question c) (qc_answer c) (qc_quality_score c)
                   (qc_auto_score c)).

(** A run of calls with one pattern, from a file that does not know it,
    leaves the running average of their scores, fed in order. *)
Lemma track_calls_pattern (clk : clock) (st : rag_files) (calls : list query_call) (p : string) :
  Forall (fun c => extract_query_pattern (qc_question c) = p) calls ->
  query_patterns (load_learning_data (learning_file st)) !! p = None ->
  match query_patterns (load_learning_data (learning_file (fold_left (track_call clk) calls st))) !! p with
  | Some pd => (pd_avg_quality pd, pd_count pd) = running_avgs (averaged_score <$> calls)
  | None => calls = []
  end.
Proof.
  intros Hp Hnone. induction calls as [|c calls IH] using rev_ind; [simpl; by rewrite Hnone|].
  apply Forall_app in Hp as [Hp Hc]. apply Forall_cons in Hc as [Hc _].
  rewrite fold_left_app. simpl.
  change (track_call clk ?s c) with (track_query clk s (qc_question c) (qc_answer c)
    (qc_response_time c) (qc_success c) (qc_quality_score c) (qc_auto_score c)).
  rewrite track_query_pattern_lookup.
  rewrite decide_True by done.
  unfold running_avgs. rewrite fmap_app, fold_left_app. fold (running_avgs (averaged_score <$> calls)).
  specialize (IH Hp).
  destruct (query_patterns (load_learning_data (learning_file
    (fold_left (track_call clk) calls st))) !! p) as [pd|]; simpl.
  - rewrite <-IH. done.
  - subst calls. done.
Qed.

Lemma mean_replicate_half (n : nat) : mean (replicate (S n) (1 # 2)) == 1 # 2.
Proof.
  unfold mean. simpl replicate. cbv iota beta.
  assert (H : forall k, fold_right Qplus 0 (replicate k (1 # 2)) == inject_Z (Z.of_nat k) * (1 # 2)).
  { induction k as [|k IH]; simpl; [reflexivity|]. rewrite IH, inject_Z_of_nat_S. ring. }
  change (1 # 2 :: replicate n (1 # 2)) with (replicate (S n) (1 # 2)).
  rewrite H, length_replicate. field. apply inject_Z_of_nat_S_neq.
Qed.

Lemma unique_in_order_acc (xs acc : list string) (x : string) :
  x ∈ fold_left (fun acc x => if decide (x ∈ acc) then acc else (acc ++ [x])%list) xs acc <->
  x ∈ acc \/ x ∈ xs.
Proof.
  revert acc. induction xs as [|y xs IH]; intros acc; simpl; [set_solver|].
  rewrite IH. case_decide; set_solver.
Qed.

Lemma length_unique_in_order_acc (xs acc : list string) :
  (length (fold_left (fun acc x => if decide (x ∈ acc) then acc else (acc ++ [x])%list) xs acc)
   <= length acc + length xs)%nat.
Proof.
  revert acc. induction xs as [|y xs IH]; intros acc; simpl; [lia|].
  case_decide; rewrite IH; [lia|rewrite length_app; simpl; lia].
Qed.

(** The number of recent failures of a pattern. *)
Definition failures_of (p : string) (recent : list failure_entry) : nat :=
  length (filter (fun f => fe_pattern f = p) recent).

Lemma pattern_failure_opts_spec (l : learning) (p : string) :
  (3 <= failures_of p ((failed_patterns l).[-10:]))%nat ->
  PatternFailure p (failures_of p ((failed_patterns l).[-10:])) ∈ pattern_failure_opts l.
Proof.
  intros H. unfold pattern_failure_opts.
  destruct (failed_patterns l) as [|f fs] eqn:E; [by unfold failures_of, last_n in H; simpl in H; lia|].
  rewrite <-E in H |- *. apply list_elem_of_fmap.
  exists (p, failures_of p ((failed_patterns l).[-10:])). split; [done|].
  apply list_elem_of_filter. split; [exact H|]. unfold failure_groups.
  apply list_elem_of_fmap. exists p. split; [done|].
  unfold unique_in_order. apply unique_in_order_acc. right.
  destruct (filter (fun f => fe_pattern f = p) ((failed_patterns l).[-10:])) as [|g gs] eqn:F;
    [unfold failures_of in H; rewrite F in H; simpl in H; lia|].
  assert (Hg : g ∈ filter (fun f => fe_pattern f = p) ((failed_patterns l).[-10:]))
    by (rewrite F; left).
  apply list_elem_of_filter in Hg as [<- Hg]. by apply list_elem_of_fmap_2.
Qed.

Lemma length_pattern_failure_opts (l : learning) : (length (pattern_failure_opts l) <= 10)%nat.
Proof.
  unfold pattern_failure_opts. case_match; simpl; [lia|].
  rewrite length_fmap. etrans; [apply length_filter|]. unfold failure_groups.
  rewrite length_fmap. unfold unique_in_order. etrans; [apply length_unique_in_order_acc|].
  rewrite length_fmap. simpl. apply last_n_max.
Qed.

(** The newest elements survive the trim when there are at most [n] of them. *)
Lemma extend_capped_suffix {A} (n : nat) (l xs : list A) :
  (length xs <= n)%nat -> xs `suffix_of` extend_capped n l xs.
Proof.
  intros Hx. unfold extend_capped. case_match; [|by exists l].
  unfold last_n. rewrite length_app. exists (drop (length l + length xs - n) l).
  by rewrite drop_app_le by lia.
Qed.

Lemma wf_fresh :
  wf_files {| metrics_file := Missing; learning_file := Missing; feedback_file := Missing |}.
Proof.
  unfold wf_files, wf_metrics, wf_learning, wf_trends. simpl.
  split_and!; try lia; [constructor|constructor|apply map_Forall_empty|apply map_Forall_empty].
Qed.

Lemma Qltb_half_false (x : Q) : x == 1 # 2 -> Qltb x (1 # 2) = false.
Proof. intros Hx. apply Qltb_false. rewrite Hx. apply Qle_refl. Qed.

Lemma pattern_key_inj (p : string) (c1 c2 : query_category) :
  pattern_key p c1 = pattern_key p c2 -> c1 = c2.
Proof.
  unfold pattern_key. intros H. apply string_app_inv_l in H.
  rewrite !string_app_cons, !string_app_nil_l in H. injection H as H.
  destruct c1, c2; simpl in H; congruence.
Qed.

Lemma length_quality_opts (m : metrics) : (length (quality_opts m) <= 1)%nat.
Proof. unfold quality_opts. repeat case_match; simpl; lia. Qed.

Lemma length_performance_opts (m : metrics) : (length (performance_opts m) <= 1)%nat.
Proof. unfold performance_opts. repeat case_match; simpl; lia. Qed.

Lemma elem_of_suffix {A} (x : A) (l1 l2 : list A) : x ∈ l1 -> l1 `suffix_of` l2 -> x ∈ l2.
Proof. intros Hx [k ->]. apply elem_of_app. by right. Qed.

(** The tracking call of [ask_school_question]: the score it computed,
    [success] when it is at least 0.5, no automatic scoring. *)
Definition chat_track_call (question answer : string) (score : Q) : query_call :=
  {| qc_question := question; qc_answer := answer; qc_response_time := 1;
     qc_success := Qle_bool (1 # 2) score; qc_quality_score := Some score;
     qc_auto_score := false |}.

Definition fresh_files : rag_files :=
  {| metrics_file := Missing; learning_file := Missing; feedback_file := Missing |}.

Definition fresh_clock : clock :=
  {| now_iso := "2025-11-03T09:00:00"; today_iso := "2025-11-03" |}.

(** [auto_optimize] records a [pattern_failure] suggestion, with the
    number of failures, for every pattern that has at least three of the
    last ten failures, and the suggestion survives the trim of the log to
    its last 20 entries. *)
Theorem auto_optimize_flags_failing_patterns (clk : clock) (st : rag_files) (p : string) :
  let recent := (failed_patterns (load_learning_data (learning_file st))).[-10:] in
  (3 <= failures_of p recent)%nat ->
  PatternFailure p (failures_of p recent)
    ∈ optimizations (load_learning_data (learning_file (auto_optimize clk st))).
Proof.
  simpl. intros H. apply pattern_failure_opts_spec in H.
  unfold auto_optimize.
  destruct (pattern_failure_opts _ ++ _)%list as [|o os] eqn:E; [apply app_eq_nil in E as [E _]; rewrite E in H; set_solver|].
  rewrite <-E. simpl. eapply elem_of_suffix; [|apply extend_capped_suffix].
  - apply elem_of_app. by left.
  - rewrite !length_app. pose proof (length_pattern_failure_opts
      (load_learning_data (learning_file st))).
    pose proof (length_quality_opts (load_metrics (metrics_file st))).
    pose proof (length_performance_opts (load_metrics (metrics_file st))). lia.
Qed.

(** ** Repeated failures *)

Lemma last_n_last_n {A} (n k : nat) (l : list A) : (k <= n)%nat -> (l.[-n:]).[-k:] = l.[-k:].
Proof.
  intros Hk. unfold last_n. rewrite length_drop, drop_drop. f_equal.
  destruct (decide (n <= length l)%nat); lia.
Qed.

Lemma last_n_app1 {A} (j : nat) (l : list A) (x : A) :
  (j <= length l)%nat -> ((l ++ [x])%list).[-S j:] = (l.[-j:] ++ [x])%list.
Proof.
  intros Hj. unfold last_n. rewrite length_app. simpl.
  replace (length l + 1 - S j)%nat with (length l - j)%nat by lia. by rewrite drop_app_le by lia.
Qed.

Lemma last_n_append_capped {A} (n k : nat) (l : list A) (x : A) :
  (k <= n)%nat -> (append_capped n l x).[-k:] = ((l ++ [x])%list).[-k:].
Proof. intros Hk. unfold append_capped. case_match; [by apply last_n_last_n|done]. Qed.

Lemma length_append_capped_min {A} (n : nat) (l : list A) (x : A) :
  length (append_capped n l x) = Nat.min (S (length l)) n.
Proof.
  unfold append_capped. cbv zeta.
  destruct (Nat.ltb_spec n (length (l ++ [x]))); unfold last_n; rewrite ?length_drop, ?length_app in *;
    cbn [length] in *; lia.
Qed.

(** The last [j] failures of the log all have pattern [p]. *)
Definition all_last (p : string) (j : nat) (l : list failure_entry) : Prop :=
  (j <= length l)%nat /\ Forall (fun f => fe_pattern f = p) (l.[-j:]).

Lemma all_last_step (p : string) (j : nat) (l : list failure_entry) (e : failure_entry) :
  fe_pattern e = p -> (j < 50)%nat -> all_last p j l -> all_last p (S j) (append_capped 50 l e).
Proof.
  intros He Hj [Hl Hf]. split; [rewrite length_append_capped_min; lia|].
  rewrite last_n_append_capped, last_n_app1 by lia. apply Forall_app. by split; [|constructor].
Qed.

Lemma all_last_weaken (p : string) (j j' : nat) (l : list failure_entry) :
  (j' <= j)%nat -> all_last p j l -> all_last p j' l.
Proof.
  intros Hj [Hl Hf]. split; [lia|]. rewrite <-(last_n_last_n j j' l) by done.
  unfold last_n at 1. by apply Forall_drop.
Qed.

Lemma failures_of_drop (p : string) (k : nat) (l : list failure_entry) :
  (failures_of p (drop k l) <= failures_of p l)%nat.
Proof.
  unfold failures_of. rewrite <-(take_drop k l) at 2. rewrite filter_app, length_app. lia.
Qed.

Lemma failures_of_all (p : string) (l : list failure_entry) :
  Forall (fun f => fe_pattern f = p) l -> failures_of p l = length l.
Proof.
  unfold failures_of. induction 1 as [|f l Hf _ IH]; [done|].
  rewrite filter_cons, decide_True by done. simpl. by rewrite IH.
Qed.

Lemma all_last_failures (p : string) (j : nat) (l : list failure_entry) :
  (j <= 10)%nat -> all_last p j l -> (j <= failures_of p (l.[-10:]))%nat.
Proof.
  intros Hj [Hl Hf]. rewrite <-(last_n_last_n 10 j l) in Hf by done.
  etrans; [|apply (failures_of_drop p (length (l.[-10:]) - j))].
  fold (last_n j (l.[-10:])). rewrite failures_of_all by done.
  unfold last_n. rewrite !length_drop. lia.
Qed.

Lemma track_success_failed (clk : clock) (question answer : string) (success : bool)
    (qs : option Q) (pattern : string) (category : query_category) (l : learning) :
  failed_patterns (track_success clk question answer success qs pattern category l) =
  failed_patterns l.
Proof. unfold track_success. repeat case_match; reflexivity. Qed.

(** A failing call appends one failure with its pattern to the log. *)
Lemma track_call_failed (clk : clock) (st : rag_files) (c : query_call) :
  qc_success c = false ->
  exists e, fe_pattern e = extract_query_pattern (qc_question c) /\
    failed_patterns (load_learning_data (learning_file (track_call clk st c))) =
    append_capped 50 (failed_patterns (load_learning_data (learning_file st))) e.
Proof.
  intros Hs. unfold track_call.
  destruct (track_query_learning clk st (qc_question c) (qc_answer c) (qc_response_time c)
              (qc_success c) (qc_quality_score c) (qc_auto_score c)) as (_ & _ & _ & -> & _).
  rewrite Hs. unfold learning_after, track_failure, is_failure. simpl.
  rewrite track_success_failed. eexists. split; [|reflexivity]. reflexivity.
Qed.

(** Every call counts one query. *)
Lemma track_call_total (clk : clock) (st : rag_files) (c : query_call) :
  total_queries (load_metrics (metrics_file (track_call clk st c))) =
  S (total_queries (load_metrics (metrics_file st))).
Proof.
  unfold track_call. rewrite track_query_metrics. unfold metrics_after.
  match goal with |- context [score_query ?a ?b ?c ?d ?e ?m] =>
    destruct (score_query_snd a b c d e m) as [cs Hcs];
    destruct (score_query a b c d e m) as [q m'] eqn:E end.
  simpl in Hcs. subst m'. reflexivity.
Qed.

(** A call whose count is a multiple of ten ends with [auto_optimize] on
    the state it saved. *)
Lemma track_call_optimizes (clk : clock) (st : rag_files) (c : query_call) :
  (total_queries (load_metrics (metrics_file (track_call clk st c))) mod 10 = 0)%nat ->
  exists st', failed_patterns (load_learning_data (learning_file st')) =
              failed_patterns (load_learning_data (learning_file (track_call clk st c))) /\
              track_call clk st c = auto_optimize clk st'.
Proof.
  unfold track_call, track_query. destruct (score_query _ _ _ _ _ _) as [q m] eqn:E.
  match goal with |- context [if ?b then auto_optimize clk ?s else _] => destruct b eqn:Hm end.
  - intros _. eexists. split; [|reflexivity].
    match goal with |- _ = failed_patterns (load_learning_data (learning_file (auto_optimize clk ?s))) =>
      destruct (auto_optimize_files clk s) as (_ & _ & _ & _ & H5 & _); by rewrite H5 end.
  - simpl. intros H. apply Nat.eqb_neq in Hm. contradiction.
Qed.

(** ** Properties *)

(** C2: every state of the metrics, learning and feedback files reached
    from a fresh install by answered questions and feedback is
    well-formed: the query counters add up, the response-time log keeps
    at most 100 entries, the accuracy log at most 30 days with one bucket
    per day, the failure log at most 50, the optimization log at most 20,
    the success exemplars at most 10 per key, the examples at most 5 per
    pattern, the feedback log at most 100. *)
Theorem reachable_wf (st : rag_files) : reachable st -> wf_files st.
Proof.
  induction 1; [apply wf_fresh|by apply wf_track_query|by apply wf_record_feedback].
Qed.

(** C6: the confidence-score log is not kept to its last 100 entries:
    a score passed in by the caller (as [ask_school_question] and
    [record_feedback] always do) is appended without the trim, so
    reachable states hold arbitrarily long logs. *)
Theorem confidence_scores_unbounded (n : nat) :
  exists st, reachable st /\
    length (confidence_scores (load_metrics (metrics_file st))) = n.
Proof.
  pose (clk := {| now_iso := EmptyString; today_iso := EmptyString |}).
  destruct (feedback_times_reachable clk _ EmptyString EmptyString n reach_fresh) as [Hr Hl].
  eexists. split; [exact Hr|]. rewrite Hl. simpl. lia.
Qed.

(** C10: the per-pattern running average of [track_query] is the mean of
    the scores of the questions with that pattern, counting a missing or
    zero score as 0.5, and the count is their number. *)
Theorem pattern_avg_quality_mean (clk : clock) (st : rag_files) (calls : list query_call)
    (p : string) :
  Forall (fun c => extract_query_pattern (qc_question c) = p) calls ->
  query_patterns (load_learning_data (learning_file st)) !! p = None -> calls <> [] ->
  exists pd,
    query_patterns (load_learning_data (learning_file (fold_left (track_call clk) calls st))) !! p
      = Some pd /\
    pd_count pd = length calls /\ pd_avg_quality pd == mean (averaged_score <$> calls).
Proof.
  intros Hp Hn Hne. pose proof (track_calls_pattern clk st calls p Hp Hn) as H.
  destruct (query_patterns (load_learning_data (learning_file
    (fold_left (track_call clk) calls st))) !! p) as [pd|]; [|done]. exists pd. split; [done|].
  pose proof (running_avgs_sum (averaged_score <$> calls)) as [Hc _].
  rewrite <-H in Hc. simpl in Hc. rewrite length_fmap in Hc. split; [done|].
  rewrite <-(running_avgs_mean (averaged_score <$> calls)), <-H. reflexivity.
Qed.

(** C30: a pattern whose answers all scored 0.0 (every answer had an
    error phrase, which is how [ask_school_question] reports them) has an
    average quality of exactly 0.5, so it is never among the low-quality
    patterns ([avg_quality < 0.5]) of [get_improvement_suggestions],
    however often it fails. *)
Theorem failing_pattern_never_low_quality (clk : clock) (st : rag_files)
    (calls : list query_call) (p : string) :
  Forall (fun c => extract_query_pattern (qc_question c) = p /\ qc_quality_score c = Some 0) calls ->
  query_patterns (load_learning_data (learning_file st)) !! p = None ->
  p ∉ low_quality_patterns (load_learning_data (learning_file (fold_left (track_call clk) calls st))).
Proof.
  intros Hc Hn. assert (Hp : Forall (fun c => extract_query_pattern (qc_question c) = p) calls)
    by (eapply Forall_impl; [exact Hc|]; naive_solver).
  assert (Hs : averaged_score <$> calls = replicate (length calls) (1 # 2)).
  { clear -Hc. induction Hc as [|c calls [_ Hq] _ IH]; [done|].
    rewrite fmap_cons, IH. simpl. f_equal.
    unfold averaged_score, effective_quality. by rewrite Hq. }
  pose proof (track_calls_pattern clk st calls p Hp Hn) as H.
  unfold low_quality_patterns. intros (x & -> & Hx)%list_elem_of_fmap.
  destruct x as [q d]. apply list_elem_of_filter in Hx as [[_ Hlt] Hx%elem_of_map_to_list].
  simpl in *. rewrite Hx in H. rewrite Hs in H.
  destruct calls as [|c calls]; [simpl in Hx; congruence|].
  assert (Havg : pd_avg_quality d == 1 # 2).
  { replace (pd_avg_quality d) with (running_avgs (replicate (length (c :: calls)) (1 # 2))).1
      by (rewrite <-H; done).
    rewrite running_avgs_mean. apply mean_replicate_half. }
  by rewrite (Qltb_half_false _ Havg) in Hlt.
Qed.

(** C31: after one successful question scored above 0.8 on a fresh
    install, the prompt for the same question carries the learned-success
    clause exactly when [track_query] and [get_optimized_prompt_base]
    classify it alike: questions with "can", "should" or a location word
    never get it. *)
Theorem prompt_uses_learned_success (clk : clock) (question answer : string) (rt s : Q)
    (auto : bool) :
  Qgtb s (8 # 10) = true ->
  get_optimized_prompt_base
    (learning_file (track_query clk fresh_files question answer rt true (Some s) auto)) question =
  base_instruction (prompt_category question) ++
  (if decide (track_category question = prompt_category question) then learned_clause
   else EmptyString).
Proof.
  intros Hs.
  destruct (track_query_learning clk fresh_files question answer rt true (Some s) auto)
    as (_ & _ & Hsp & Hfp & _).
  apply Qgtb_spec in Hs as Hlt.
  assert (Hnf : is_failure true (Some s) = false).
  { unfold is_failure. simpl. rewrite Qltb_false; [by rewrite andb_false_r|].
    apply Qlt_le_weak. eapply Qlt_trans; [|exact Hlt]. reflexivity. }
  unfold get_optimized_prompt_base. rewrite Hsp, Hfp.
  unfold learning_after, track_success, track_failure. simpl. rewrite Hnf.
  unfold success_above. simpl. rewrite Hs.
  assert (Ht : negb (Qeq_bool s 0) = true).
  { apply negb_true_iff, not_true_iff_false. intros Hz%Qeq_bool_iff.
    rewrite Hz in Hlt. discriminate. }
  rewrite Ht. simpl.
  case_decide as Hc.
  - rewrite bool_decide_true; [done|]. rewrite Hc. by rewrite lookup_insert_eq.
  - rewrite bool_decide_false, string_app_nil_r; [done|].
    rewrite lookup_insert_ne; [by rewrite lookup_empty|].
    intros Hk. apply Hc. symmetry. by apply pattern_key_inj in Hk.
Qed.

(** The example of the specification: three questions with one
    pattern scored 0.4, 0.6 and 1.0, tracked as [ask_school_question]
    does ([success] is [score >= 0.5]), give the pattern a count of 3 and
    an average quality of 2/3, and exactly one failure record. *)
Theorem learning_aggregation_example :
  let q := "When is the field trip?" in
  let st := fold_left (track_call fresh_clock)
              [chat_track_call q "The trip is on Friday." (2 # 5);
               chat_track_call q "The trip is on Friday." (3 # 5);
               chat_track_call q "The trip is on Friday." 1] fresh_files in
  option_map (fun pd => (pd_count pd, Qred (pd_avg_quality pd)))
    (query_patterns (load_learning_data (learning_file st)) !! extract_query_pattern q)
    = Some (3%nat, 2 # 3) /\
  length (failed_patterns (load_learning_data (learning_file st))) = 1%nat.
Proof. vm_compute. split; reflexivity. Qed.

(** A "not helpful" vote ends the failure log with a record of the
    question, its pattern and category and the score 0.2. *)
Theorem negative_feedback_logs_failure (clk : clock) (st : rag_files) (question answer : string)
    (comment : option string) :
  last (failed_patterns (load_learning_data
    (learning_file (record_feedback clk st question answer false comment)))) =
  Some {| fe_timestamp := now_iso clk; fe_question := question;
          fe_answer := py_take 200 answer; fe_pattern := extract_query_pattern question;
          fe_category := track_category question; fe_quality_score := Some (2 # 10) |}.
Proof.
  unfold record_feedback. cbv zeta.
  match goal with |- context [track_query clk ?s] =>
    destruct (track_query_learning clk s question answer 0 false (Some (2 # 10)) false)
      as (_ & _ & _ & -> & _) end.
  unfold learning_after, track_success, track_failure. simpl.
  apply append_capped_last. lia.
Qed.

(** C16: a pattern that keeps failing is eventually flagged: over any
    twelve consecutive failing questions with the same pattern, one of
    the calls runs [auto_optimize] (the query count passes a multiple of
    ten) while at least three of the last ten failures are that pattern's,
    and the optimization log then holds a [pattern_failure] suggestion for
    it. *)
Theorem failing_pattern_flagged_within_12 (clk : clock) (st : rag_files)
    (calls : list query_call) (p : string) :
  length calls = 12%nat ->
  Forall (fun c => extract_query_pattern (qc_question c) = p /\ qc_success c = false) calls ->
  exists n k, (3 <= n <= 12)%nat /\ (3 <= k)%nat /\
    PatternFailure p k ∈ optimizations (load_learning_data
      (learning_file (fold_left (track_call clk) (take n calls) st))).
Proof.
  intros Hlen Hall.
  pose (run := fun n => fold_left (track_call clk) (take n calls) st).
  change (fold_left (track_call clk) (take ?n calls) st) with (run n).
  pose (T0 := total_queries (load_metrics (metrics_file st))).
  assert (Hstep : forall n, (n < 12)%nat -> exists c,
            extract_query_pattern (qc_question c) = p /\ qc_success c = false /\
            run (S n) = track_call clk (run n) c).
  { intros n Hn. destruct (lookup_lt_is_Some_2 calls n) as [c Hc]; [lia|].
    destruct (Forall_lookup_1 _ _ _ _ Hall Hc) as [Hp Hs]. exists c. split_and!; [done|done|].
    unfold run. by rewrite (take_S_r calls n c Hc), fold_left_app. }
  assert (Htot : forall n, (n <= 12)%nat ->
            total_queries (load_metrics (metrics_file (run n))) = (T0 + n)%nat).
  { induction n as [|n IH]; intros Hn; [unfold run, T0; simpl; lia|].
    destruct (Hstep n) as (c & _ & _ & ->); [lia|]. rewrite track_call_total, IH by lia. lia. }
  assert (Hlast : forall n, (n <= 12)%nat ->
            all_last p (Nat.min n 10) (failed_patterns (load_learning_data (learning_file (run n))))).
  { induction n as [|n IH]; intros Hn.
    - split; [simpl; lia|]. unfold last_n. rewrite Nat.sub_0_r, drop_all. constructor.
    - destruct (Hstep n) as (c & Hp & Hs & ->); [lia|].
      destruct (track_call_failed clk (run n) c Hs) as (e & He & ->).
      apply (all_last_weaken _ (S (Nat.min n 10))); [lia|].
      apply all_last_step; [congruence|lia|]. apply IH. lia. }
  pose proof (Nat.mod_upper_bound T0 10 ltac:(lia)) as Hb.
  pose (i := (10 - T0 mod 10)%nat).
  pose (n := if (3 <=? i)%nat then i else (i + 10)%nat).
  assert (Hn : (3 <= n <= 12)%nat) by (unfold n, i; destruct (Nat.leb_spec 3 (10 - T0 mod 10)); lia).
  assert (Hmod : ((T0 + n) mod 10 = 0)%nat).
  { pose proof (Nat.div_mod T0 10 ltac:(lia)).
    unfold n, i; destruct (Nat.leb_spec 3 (10 - T0 mod 10)); apply Nat.mod_divide; [lia| |lia|];
      [exists (T0 / 10 + 1)%nat | exists (T0 / 10 + 2)%nat]; lia. }
  destruct (Hstep (n - 1)%nat) as (c & _ & _ & Heq); [lia|].
  replace (S (n - 1)) with n in Heq by lia.
  assert (Hm : (total_queries (load_metrics (metrics_file (track_call clk (run (n - 1)%nat) c))) mod 10
                = 0)%nat) by (rewrite <-Heq, Htot by lia; exact Hmod).
  destruct (track_call_optimizes clk (run (n - 1)%nat) c Hm) as (st' & Hf & Hopt).
  assert (H3 : (3 <= failures_of p ((failed_patterns (load_learning_data (learning_file st'))).[-10:]))%nat).
  { etrans; [|apply (all_last_failures p (Nat.min n 10)); [lia|]]; [lia|].
    rewrite Hf, <-Heq. apply Hlast. lia. }
  exists n, (failures_of p ((failed_patterns (load_learning_data (learning_file st'))).[-10:])).
  split_and!; [lia|lia|exact H3|]. rewrite Heq, Hopt.
  by apply auto_optimize_flags_failing_patterns.
Qed.

End LearningProps.

(** ** Witnesses *)

Import LearningProps.

Definition trip_question : string := "When is the field trip?".
Definition trip_answer : string := "The field trip to the science museum is on Friday, November 14.".
Definition not_found_answer : string :=
  "I could not find information about the field trip in the available emails.".

Lemma pattern_avg_quality_mean_witness :
  let calls := [chat_track_call trip_question trip_answer (2 # 5);
                chat_track_call trip_question trip_answer (3 # 5);
                chat_track_call trip_question trip_answer 1] in
  let p := extract_query_pattern trip_question in
  Forall (fun c => extract_query_pattern (qc_question c) = p) calls /\
  query_patterns (load_learning_data (learning_file fresh_files)) !! p = None /\
  calls <> [] /\
  exists pd,
    query_patterns (load_learning_data (learning_file
      (fold_left (track_call fresh_clock) calls fresh_files))) !! p = Some pd /\
    pd_count pd = length calls /\ (pd_avg_quality pd == mean (averaged_score <$> calls))%Q.
Proof.
  intros calls p.
  assert (H1 : Forall (fun c => extract_query_pattern (qc_question c) = p) calls)
    by (repeat (apply Forall_cons; split; [reflexivity|]); apply Forall_nil; done).
  assert (H2 : query_patterns (load_learning_data (learning_file fresh_files)) !! p = None)
    by reflexivity.
  assert (H3 : calls <> []) by discriminate.
  split; [exact H1|]. split; [exact H2|]. split; [exact H3|].
  exact (pattern_avg_quality_mean fresh_clock fresh_files calls p H1 H2 H3).
Defined.

Lemma failing_pattern_never_low_quality_witness :
  let calls := [chat_track_call trip_question not_found_answer 0;
                chat_track_call trip_question not_found_answer 0;
                chat_track_call trip_question not_found_answer 0;
                chat_track_call trip_question not_found_answer 0] in
  let p := extract_query_pattern trip_question in
  Forall (fun c => extract_query_pattern (qc_question c) = p /\ qc_quality_score c = Some 0%Q) calls /\
  query_patterns (load_learning_data (learning_file fresh_files)) !! p = None /\
  p ∉ low_quality_patterns (load_learning_data (learning_file
        (fold_left (track_call fresh_clock) calls fresh_files))).
Proof.
  intros calls p.
  assert (H1 : Forall (fun c => extract_query_pattern (qc_question c) = p /\
                                qc_quality_score c = Some 0%Q) calls)
    by (repeat (apply Forall_cons; split; [split; reflexivity|]); apply Forall_nil; done).
  assert (H2 : query_patterns (load_learning_data (learning_file fresh_files)) !! p = None)
    by reflexivity.
  split; [exact H1|]. split; [exact H2|].
  exact (failing_pattern_never_low_quality fresh_clock fresh_files calls p H1 H2).
Defined.

Lemma prompt_uses_learned_success_witness :
  Qgtb (9 # 10) (8 # 10) = true /\
  get_optimized_prompt_base
    (learning_file (track_query fresh_clock fresh_files "Where is the gym?"
       "The gym is in Building B, next to the library." 1 true (Some (9 # 10)) false))
    "Where is the gym?" =
  (base_instruction (prompt_category "Where is the gym?") ++
   (if decide (track_category "Where is the gym?" = prompt_category "Where is the gym?")
    then learned_clause else EmptyString))%string.
Proof.
  assert (H : Qgtb (9 # 10) (8 # 10) = true) by reflexivity.
  split; [exact H|].
  exact (prompt_uses_learned_success fresh_clock "Where is the gym?"
           "The gym is in Building B, next to the library." 1 (9 # 10) false H).
Defined.

Definition trip_failure : failure_entry :=
  {| fe_timestamp := "2025-11-03T09:00:00"; fe_question := trip_question;
     fe_answer := not_found_answer; fe_pattern := "when is the field trip?";
     fe_category := DateTime; fe_quality_score := None |}.

Definition three_failures : rag_files :=
  {| metrics_file := Missing; feedback_file := Missing;
     learning_file := Valid {| query_patterns := ∅; successful_prompts := ∅;
                               failed_patterns := [trip_failure; trip_failure; trip_failure];
                               optimizations := []; last_optimization := None |} |}.

Lemma auto_optimize_flags_failing_patterns_witness :
  let recent := (failed_patterns (load_learning_data (learning_file three_failures))).[-10:] in
  (3 <= failures_of "when is the field trip?" recent)%nat /\
  PatternFailure "when is the field trip?" (failures_of "when is the field trip?" recent)
    ∈ optimizations (load_learning_data (learning_file (auto_optimize fresh_clock three_failures))).
Proof.
  intros recent.
  assert (H : (3 <= failures_of "when is the field trip?" recent)%nat)
    by (apply Nat.leb_le; vm_compute; reflexivity).
  split; [exact H|].
  exact (auto_optimize_flags_failing_patterns fresh_clock three_failures _ H).
Defined.

Lemma reachable_wf_witness :
  let st := record_feedback fresh_clock
              (track_query fresh_clock fresh_files trip_question trip_answer 1 true None true)
              trip_question trip_answer false None in
  reachable st /\ wf_files st.
Proof.
  intros st.
  assert (H : reachable st) by (apply reach_feedback, reach_track, reach_fresh).
  split; [exact H|]. exact (reachable_wf st H).
Defined.

Definition failing_trip_call : query_call :=
  {| qc_question := trip_question; qc_answer := "I could not find that in the emails.";
     qc_response_time := 1; qc_success := false; qc_quality_score := Some 0%Q;
     qc_auto_score := false |}.

Lemma failing_pattern_flagged_within_12_witness :
  exists n k, (3 <= n <= 12)%nat /\ (3 <= k)%nat /\
    PatternFailure (extract_query_pattern trip_question) k ∈ optimizations (load_learning_data
      (learning_file (fold_left (track_call fresh_clock) (take n (replicate 12 failing_trip_call))
                        fresh_files))).
Proof.
  apply failing_pattern_flagged_within_12; [reflexivity|].
  apply Forall_replicate. split; reflexivity.
Defined.
