(* ===== verification/Notification.v ===== *)
(** * Notification: new-email detection of [notification_service.py]

    [data/.last_check.json] holds [{last_check, check_count}];
    [check_for_new_emails] fetches up to 20 recent emails (the fetch is
    the argument [fetched]: its emails, or the exception it raised) and
    reports the ones newer than the last check, or the first ten on a
    manual refresh or a first run.

    A Python [datetime] is [py_datetime]: its wall-clock value in
    microseconds and, for an aware datetime, its UTC offset. Comparing an
    aware with a naive datetime raises [TypeError]; [dt_gt] returns [None]
    then, and the comparison loop [filter_new] propagates it to the
    [except] branch of [check_for_new_emails]. The check time written by
    [save_check_time] is [datetime.now()], naive; the dates of fetched
    emails come from [parsedate_to_datetime] in [gmail_client.py], aware
    whenever the Date header has a numeric zone other than [-0000]. *)

From S2P Require Import Prelude.
From stdpp Require Import pretty.
Local Open Scope string_scope.

Module NotificationService.

Record py_datetime := { dt_value : Z; dt_utcoffset : option Z }.

(** [a > b]: [None] is the [TypeError] of comparing naive and aware. *)
Definition dt_gt (a b : py_datetime) : option bool :=
  match dt_utcoffset a, dt_utcoffset b with
  | None, None => Some (dt_value b <? dt_value a)%Z
  | Some oa, Some ob => Some (dt_value b - ob <? dt_value a - oa)%Z
  | _, _ => None
  end.

(** The date of a fetched email ([gmail_client.py]): the parsed Date
    header, or [datetime.now()] when it is absent or does not parse. *)
Definition email_date (parsedate_to_datetime : string -> option py_datetime)
    (now : py_datetime) (date_str : string) : py_datetime :=
  match date_str with
  | EmptyString => now
  | _ => default now (parsedate_to_datetime date_str)
  end.

Record email_header := {
  eh_id : string; eh_subject : string; eh_sender : string; eh_date : py_datetime }.

(** The result of the fetch: the emails, or the message of the exception. *)
Inductive fetch_outcome :=
| Fetched (emails : list email_header)
| FetchRaised (message : string).

Record notification_data := { nd_last_check : py_datetime; nd_check_count : nat }.

(** [get_last_check_time] *)
Definition get_last_check_time (f : stored notification_data) : option py_datetime :=
  match f with Valid d => Some (nd_last_check d) | _ => None end.

(** [get_check_count] *)
Definition get_check_count (f : stored notification_data) : nat :=
  match f with Valid d => nd_check_count d | _ => 0 end.

(** [save_check_time()] at [now]. *)
Definition save_check_time (now : py_datetime) (f : stored notification_data)
    : stored notification_data :=
  Valid {| nd_last_check := now; nd_check_count := S (get_check_count f) |}.

Record check_result := {
  has_new : bool; new_count : nat; new_emails : list email_header; from_lobeda : bool;
  lobeda_emails : list email_header; result_last_check : option py_datetime;
  message : string; error : bool }.

(** ['lobeda' in sender.lower() or 'grace.lobeda' in sender.lower()] *)
Definition is_lobeda (e : email_header) : bool :=
  contains "lobeda" (lower (eh_sender e)) || contains "grace.lobeda" (lower (eh_sender e)).

(** The loop over [emails] with [email.date > last_check]. *)
Fixpoint filter_new (last_check : py_datetime) (emails : list email_header)
    : option (list email_header) :=
  match emails with
  | [] => Some []
  | e :: es =>
      match dt_gt (eh_date e) last_check, filter_new last_check es with
      | Some b, Some rest => Some (if b then e :: rest else rest)
      | _, _ => None
      end
  end.

Definition type_error_message : string :=
  "can't compare offset-naive and offset-aware datetimes".

Definition no_new_result (now : py_datetime) (msg : string) : check_result :=
  {| has_new := false; new_count := 0; new_emails := []; from_lobeda := false;
     lobeda_emails := []; result_last_check := Some now; message := msg; error := false |}.

Definition error_result (last_check : option py_datetime) (msg : string) : check_result :=
  {| has_new := false; new_count := 0; new_emails := []; from_lobeda := false;
     lobeda_emails := []; result_last_check := last_check;
     message := "Error checking for emails: " ++ msg; error := true |}.

(** The UTF-8 bytes of U+1F3AF. *)
Definition target_emoji : string :=
  String (ascii_of_nat 240) (String (ascii_of_nat 159)
    (String (ascii_of_nat 142) (String (ascii_of_nat 175) EmptyString))).

Definition found_message (n k : nat) : string :=
  "Found " ++ pretty n ++ " new email(s) since last check." ++
  (if (0 <? k)%nat then " " ++ target_emoji ++ " " ++ pretty k ++ " from Miss Lobeda!"
   else EmptyString).

(** [datetime.now()]: naive. *)
Definition local_now (now : Z) : py_datetime := {| dt_value := now; dt_utcoffset := None |}.

(** [check_for_new_emails]: the result and the notification file after. *)
Definition check_for_new_emails (manual : bool) (clock : Z)
    (f : stored notification_data) (fetched : fetch_outcome)
    : check_result * stored notification_data :=
  let now := local_now clock in
  let last_check := if manual then None else get_last_check_time f in
  match fetched with
  | FetchRaised msg => (error_result last_check msg, f)
  | Fetched [] => (no_new_result now "No new emails found.", save_check_time now f)
  | Fetched emails =>
      let candidates :=
        match last_check with
        | Some lc => filter_new lc emails
        | None => Some (take 10 emails)
        end in
      match candidates with
      | None => (error_result last_check type_error_message, f)
      | Some new =>
          let lobeda := filter (fun e => is_lobeda e = true) new in
          let f' := save_check_time now f in
          match new with
          | [] => (no_new_result now "No new emails since last check.", f')
          | _ =>
              ({| has_new := true; new_count := length new; new_emails := new;
                  from_lobeda := bool_decide (0 < length lobeda)%nat;
                  lobeda_emails := lobeda; result_last_check := Some now;
                  message := found_message (length new) (length lobeda); error := false |}, f')
          end
      end
  end.

(** ** Lemmas *)

Definition is_aware (d : py_datetime) : bool := bool_decide (is_Some (dt_utcoffset d)).

(** One aware date against a naive last check raises. *)
Lemma filter_new_aware (lc : py_datetime) (emails : list email_header) :
  dt_utcoffset lc = None -> Exists (fun e => is_aware (eh_date e) = true) emails ->
  filter_new lc emails = None.
Proof.
  intros Hlc Hex. induction Hex as [e es He|e es _ IH]; simpl.
  - unfold dt_gt. rewrite Hlc. unfold is_aware in He. apply bool_decide_eq_true in He.
    destruct He as [o ->]. done.
  - rewrite IH. by repeat case_match.
Qed.

(** Between naive dates the loop is a filter on the wall-clock value. *)
Lemma filter_new_naive (lc : py_datetime) (emails : list email_header) :
  dt_utcoffset lc = None -> Forall (fun e => dt_utcoffset (eh_date e) = None) emails ->
  filter_new lc emails =
  Some (filter (fun e => (dt_value lc < dt_value (eh_date e))%Z) emails).
Proof.
  intros Hlc Hall. induction Hall as [|e es He _ IH]; [done|]. simpl.
  unfold dt_gt. rewrite He, Hlc, IH. rewrite filter_cons.
  destruct (Z.ltb_spec (dt_value lc) (dt_value (eh_date e))); case_decide; try done; lia.
Qed.

Lemma check_saves (manual : bool) (clock : Z) (f : stored notification_data)
    (emails : list email_header) (new : list email_header) :
  emails <> [] ->
  (match (if manual then None else get_last_check_time f) with
   | Some lc => filter_new lc emails | None => Some (take 10 emails) end) = Some new ->
  new_emails (check_for_new_emails manual clock f (Fetched emails)).1 = new /\
  lobeda_emails (check_for_new_emails manual clock f (Fetched emails)).1 =
    filter (fun e => is_lobeda e = true) new /\
  (check_for_new_emails manual clock f (Fetched emails)).2 = save_check_time (local_now clock) f.
Proof.
  intros Hne Hc. unfold check_for_new_emails. cbv zeta.
  destruct emails as [|e es]; [done|]. rewrite Hc. destruct new; done.
Qed.

(** ** Properties *)

(** When the fetch raises, [check_for_new_emails] reports the error
    and leaves the notification file as it was: neither the check time nor
    the check counter advances (the specification says both are persisted
    on every invocation, fetch failures included). *)
Theorem fetch_error_keeps_state (manual : bool) (clock : Z) (f : stored notification_data)
    (msg : string) :
  error (check_for_new_emails manual clock f (FetchRaised msg)).1 = true /\
  (check_for_new_emails manual clock f (FetchRaised msg)).2 = f.
Proof. done. Qed.

(** C5: once a check time has been saved (a naive [datetime.now()]),
    every automatic check whose batch holds an email with a
    timezone-aware date (any Date header with a numeric zone) fails with
    the [TypeError] of the comparison and saves nothing, so the check time
    and counter stay where they were. *)
Theorem aware_dates_block_automatic_checks (clock0 clock : Z) (f0 : stored notification_data)
    (emails : list email_header) :
  Exists (fun e => is_aware (eh_date e) = true) emails ->
  let f := save_check_time (local_now clock0) f0 in
  error (check_for_new_emails false clock f (Fetched emails)).1 = true /\
  message (check_for_new_emails false clock f (Fetched emails)).1 =
    "Error checking for emails: " ++ type_error_message /\
  (check_for_new_emails false clock f (Fetched emails)).2 = f.
Proof.
  intros Hex f. unfold check_for_new_emails. cbv zeta.
  destruct emails as [|e es]; [inversion Hex|].
  assert (Hn : filter_new (local_now clock0) (e :: es) = None) by by apply filter_new_aware.
  cbn -[filter_new]. by rewrite Hn.
Qed.

(** A manual refresh of a non-empty batch reports its first ten
    emails as new, the ones from Miss Lobeda among them, and saves the
    check time with the counter incremented. *)
Theorem manual_refresh_reports_first_ten (clock : Z) (f : stored notification_data)
    (emails : list email_header) :
  emails <> [] ->
  let r := check_for_new_emails true clock f (Fetched emails) in
  new_emails r.1 = take 10 emails /\
  lobeda_emails r.1 = filter (fun e => is_lobeda e = true) (take 10 emails) /\
  get_last_check_time r.2 = Some (local_now clock) /\
  get_check_count r.2 = S (get_check_count f).
Proof.
  intros Hne. cbv zeta. destruct (check_saves true clock f emails (take 10 emails) Hne eq_refl)
    as (-> & -> & ->). done.
Qed.

(** An automatic check whose dates are all naive reports exactly the
    emails strictly newer than the saved check time, in fetch order, and
    advances the check time and counter. *)
Theorem automatic_check_naive_dates (clock : Z) (f : stored notification_data)
    (lc : py_datetime) (emails : list email_header) :
  get_last_check_time f = Some lc -> dt_utcoffset lc = None -> emails <> [] ->
  Forall (fun e => dt_utcoffset (eh_date e) = None) emails ->
  let r := check_for_new_emails false clock f (Fetched emails) in
  new_emails r.1 = filter (fun e => (dt_value lc < dt_value (eh_date e))%Z) emails /\
  get_last_check_time r.2 = Some (local_now clock) /\
  get_check_count r.2 = S (get_check_count f).
Proof.
  intros Hf Hlc Hne Hall. cbv zeta.
  destruct (check_saves false clock f emails
    (filter (fun e => (dt_value lc < dt_value (eh_date e))%Z) emails) Hne) as (-> & _ & ->);
    [simpl; rewrite Hf; by apply filter_new_naive|done].
Qed.

End NotificationService.

(** ** Witnesses *)

Import NotificationService.

Definition lobeda_email (date : py_datetime) : email_header :=
  {| eh_id := "18c2f"; eh_subject := "Field trip permission slips";
     eh_sender := "Grace Lobeda <grace.lobeda@school.org>"; eh_date := date |}.

Lemma aware_dates_block_automatic_checks_witness :
  let emails := [lobeda_email {| dt_value := 1762243200000000; dt_utcoffset := Some (-28800000000)%Z |}] in
  Exists (fun e => is_aware (eh_date e) = true) emails /\
  (check_for_new_emails false 1762250000000000 (save_check_time (local_now 1762200000000000) Missing)
     (Fetched emails)).2 = save_check_time (local_now 1762200000000000) Missing.
Proof.
  intros emails.
  assert (H : Exists (fun e => is_aware (eh_date e) = true) emails) by (left; reflexivity).
  split; [exact H|].
  exact (proj2 (proj2 (aware_dates_block_automatic_checks 1762200000000000 1762250000000000
                         Missing emails H))).
Defined.

Lemma manual_refresh_reports_first_ten_witness :
  let emails := [lobeda_email {| dt_value := 1762243200000000; dt_utcoffset := Some 0%Z |}] in
  emails <> [] /\
  lobeda_emails (check_for_new_emails true 1762250000000000 Missing (Fetched emails)).1 =
    filter (fun e => is_lobeda e = true) (take 10 emails).
Proof.
  intros emails. assert (H : emails <> []) by discriminate.
  split; [exact H|]. exact (proj1 (proj2 (manual_refresh_reports_first_ten _ Missing emails H))).
Defined.

Lemma automatic_check_naive_dates_witness :
  let lc := local_now 1762200000000000 in
  let f := save_check_time lc Missing in
  let emails := [lobeda_email (local_now 1762243200000000);
                 lobeda_email (local_now 1762100000000000)] in
  get_last_check_time f = Some lc /\ dt_utcoffset lc = None /\ emails <> [] /\
  Forall (fun e => dt_utcoffset (eh_date e) = None) emails /\
  new_emails (check_for_new_emails false 1762250000000000 f (Fetched emails)).1 =
    filter (fun e => (dt_value lc < dt_value (eh_date e))%Z) emails.
Proof.
  intros lc f emails.
  assert (H1 : get_last_check_time f = Some lc) by reflexivity.
  assert (H2 : dt_utcoffset lc = None) by reflexivity.
  assert (H3 : emails <> []) by discriminate.
  assert (H4 : Forall (fun e => dt_utcoffset (eh_date e) = None) emails)
    by (repeat constructor).
  split_and!; [exact H1|exact H2|exact H3|exact H4|].
  exact (proj1 (automatic_check_naive_dates _ f lc emails H1 H2 H3 H4)).
Defined.
