(* ===== verification/Formatter.v ===== *)
(** * Formatter: [response_formatter.py]

    [format_response_for_action] strips the raw answer, picks one of five
    strategies by keywords of the question, then runs [add_action_items],
    [improve_markdown_formatting] and [add_visual_structure]. Every
    function of the file is a definition here, with its line loop as a
    [Fixpoint] over [text.split('\n')] carrying the loop's flags.

    Strings are UTF-8 bytes. The marks of the source (the bullet, the
    emojis) are their byte sequences: a [startswith] or [in] test on them
    is the same on bytes as on characters, and the classes [[\*\-\•]] and
    the [lstrip] character set match the bullet as its three bytes.
    Python's [len] is [py_len] (characters). The patterns are built with
    [Regex]; under [re.IGNORECASE] their literal words use [lit_ci]. *)

From S2P Require Import Prelude Regex.
Local Open Scope string_scope.
Import PyRegex.

Module ResponseFormatter.

(** ** Lines *)

Definition newline : ascii := ascii_of_nat 10.

(** [text.split('\n')] and ['\n'.join(lines)] *)
Definition lines (s : string) : list string := split_on newline s.
Definition unlines (ls : list string) : string := join newline ls.

Definition nl : string := String newline EmptyString.

(** ** Patterns *)

Definition is_newline (c : ascii) : bool := Ascii.eqb c newline.

(** [\n{3,}] *)
Definition blank_run_re : regex := RRepeat is_newline 3 None.

Definition date_sep : regex :=
  RClass (fun c => Ascii.eqb c "/"%char || Ascii.eqb c "-"%char).

(** [\d{1,2}[/-]\d{1,2}[/-]\d{2,4}] *)
Definition numeric_date_re : regex :=
  seqs [RRepeat is_digit 1 (Some 2); date_sep; RRepeat is_digit 1 (Some 2); date_sep;
        RRepeat is_digit 2 (Some 4)].

Definition ordinal_suffix_re : regex := ROpt (alts_ci ["st"; "nd"; "rd"; "th"]).

(** [\b(\d{1,2}[/-]\d{1,2}[/-]\d{2,4}|\w+\s+\d{1,2}(?:st|nd|rd|th)?,?\s+\d{4})\b],
    [re.IGNORECASE] *)
Definition event_date_re : regex :=
  seqs [RWordBoundary;
        RAlt numeric_date_re
             (seqs [RRepeat is_word 1 None; RRepeat is_space 1 None;
                    RRepeat is_digit 1 (Some 2); ordinal_suffix_re; ROpt (ch ","%char);
                    RRepeat is_space 1 None; RRepeat is_digit 4 (Some 4)]);
        RWordBoundary].

Definition month_abbrevs : list string :=
  ["Jan"; "Feb"; "Mar"; "Apr"; "May"; "Jun"; "Jul"; "Aug"; "Sep"; "Oct"; "Nov"; "Dec"].

Definition weekdays : list string :=
  ["Monday"; "Tuesday"; "Wednesday"; "Thursday"; "Friday"; "Saturday"; "Sunday"].

(** The three [date_patterns] of [add_action_items], [re.IGNORECASE]. *)
Definition action_date_res : list regex :=
  [seqs [RWordBoundary; numeric_date_re; RWordBoundary];
   seqs [RWordBoundary; alts_ci month_abbrevs; RRepeat is_alpha 0 None;
         RRepeat is_space 1 None; RRepeat is_digit 1 (Some 2); ordinal_suffix_re;
         ROpt (ch ","%char); RRepeat is_space 1 None; RRepeat is_digit 4 (Some 4);
         RWordBoundary];
   seqs [RWordBoundary; alts_ci weekdays; RRepeat is_space 1 None; RRepeat is_word 1 None;
         RRepeat is_space 1 None; RRepeat is_digit 1 (Some 2); RWordBoundary]].

(** [^[\d\.\)\-\*]\s+] *)
Definition announce_item_re : regex :=
  seqs [RClass (fun c => is_digit c || Ascii.eqb c "."%char || Ascii.eqb c ")"%char ||
                         Ascii.eqb c "-"%char || Ascii.eqb c "*"%char);
        RRepeat is_space 1 None].

(** [^[\*\-\•]\s+] *)
Definition bullet_item_re : regex :=
  seqs [RAlt (RClass (fun c => Ascii.eqb c "*"%char || Ascii.eqb c "-"%char)) (lit "•");
        RRepeat is_space 1 None].

(** [^\d+[\.\)]\s+] *)
Definition numbered_item_re : regex :=
  seqs [RRepeat is_digit 1 None; RClass (fun c => Ascii.eqb c "."%char || Ascii.eqb c ")"%char);
        RRepeat is_space 1 None].

(** [^[\d\.]+\s+] *)
Definition numbered_line_re : regex :=
  seqs [RRepeat (fun c => is_digit c || Ascii.eqb c "."%char) 1 None; RRepeat is_space 1 None].

(** [\b\d{1,2}[/-]\d{1,2}\b|\b(?:Jan|...|Dec)], [re.IGNORECASE] *)
Definition item_date_re : regex :=
  RAlt (seqs [RWordBoundary; RRepeat is_digit 1 (Some 2); date_sep; RRepeat is_digit 1 (Some 2);
              RWordBoundary])
       (seqs [RWordBoundary; alts_ci month_abbrevs]).

(** ** format_announcements *)

(** [line.lstrip('0123456789.)•-* ')]: the ASCII characters of the set
    one byte at a time, the bullet as its three bytes. *)
Definition is_mark_char (c : ascii) : bool :=
  is_digit c || Ascii.eqb c "."%char || Ascii.eqb c ")"%char || Ascii.eqb c "-"%char ||
  Ascii.eqb c "*"%char || Ascii.eqb c " "%char.

Fixpoint lstrip_marks (s : string) : string :=
  match s with
  | EmptyString => EmptyString
  | String c s' =>
      if is_mark_char c then lstrip_marks s'
      else match s' with
           | String c2 (String c3 rest) =>
               if startswith "•" (String c (String c2 (String c3 EmptyString)))
               then lstrip_marks rest else s
           | _ => s
           end
  end.

Definition is_announce_item (line : string) : bool :=
  re_match announce_item_re line || startswith "•" line || startswith "-" line.

Fixpoint announce_loop (in_list : bool) (ls : list string) : list string :=
  match ls with
  | [] => []
  | l :: ls' =>
      let line := strip l in
      if bool_decide (line = EmptyString) then
        if in_list then EmptyString :: announce_loop false ls' else announce_loop in_list ls'
      else if is_announce_item line then
        ((if in_list then [] else [EmptyString]) ++
         ("**" ++ lstrip_marks line ++ "**")%string :: announce_loop true ls')%list
      else
        ((if in_list then [EmptyString] else []) ++ line :: announce_loop false ls')%list
  end.

Definition format_announcements (text : string) : string :=
  unlines (announce_loop false (lines text)).

(** ** format_dates_events *)

Definition highlight_date (date_str : string) : string := "**📅 " ++ date_str ++ "**".

Definition format_dates_events (text : string) : string :=
  let text := re_sub_fn event_date_re highlight_date text in
  if contains "next" (lower text) || contains "upcoming" (lower text) then
    "**🎯 Upcoming Events:**" ++ nl ++ nl ++ text
  else text.

(** ** format_policy *)

Definition policy_tag (line : string) : string :=
  if contains_any ["must"; "should"; "required"; "need"; "cannot"; "not allowed"] (lower line)
  then "  ⚠️ " ++ line
  else if contains_any ["can"; "may"; "allowed"; "optional"] (lower line) then "  ✅ " ++ line
  else "  • " ++ line.

Fixpoint policy_loop (in_section : bool) (ls : list string) : list string :=
  match ls with
  | [] => []
  | l :: ls' =>
      let line := strip l in
      if bool_decide (line = EmptyString) then policy_loop in_section ls'
      else if contains ":" line && (py_len line <? 100)%nat then
        ((if in_section then [EmptyString] else []) ++ ("**" ++ line ++ "**")%string ::
         policy_loop true ls')%list
      else policy_tag line :: policy_loop in_section ls'
  end.

Definition format_policy (text : string) : string := unlines (policy_loop false (lines text)).

(** ** format_informational and format_general *)

Definition informational_line (l : string) : string :=
  let line := strip l in
  if bool_decide (line = EmptyString) then EmptyString
  else if endswith ":" line && (py_len line <? 80)%nat then "**" ++ line ++ "**"
  else if re_match numbered_line_re line then "**" ++ line ++ "**"
  else line.

Definition format_informational (text : string) : string :=
  unlines (informational_line <$> lines text).

(** [re.sub(r'\n{3,}', '\n\n', text)] *)
Definition collapse_blank_lines (text : string) : string := re_sub blank_run_re (nl ++ nl) text.

Definition format_general (text : string) : string := collapse_blank_lines text.

(** ** add_action_items *)

Definition calendar_tip : string :=
  nl ++ nl ++ "---" ++ nl ++ nl ++
  "💡 **Tip:** I can add these events to your calendar! Just ask me to add them.".

Definition add_action_items (text : string) : string :=
  let has_dates := existsb (fun r => re_test r text) action_date_res in
  if has_dates && negb (contains "📅" text) then text ++ calendar_tip else text.

(** ** improve_markdown_formatting *)

Inductive list_kind := Unordered | Ordered.

#[export] Instance list_kind_eq_dec : EqDecision list_kind.
Proof. solve_decision. Defined.

(** The loop over [enumerate(lines)]: [in_list], [list_type], and whether
    a line follows ([i < len(lines) - 1]). *)
Fixpoint markdown_loop (in_list : bool) (list_type : option list_kind) (ls : list string)
    : list string :=
  match ls with
  | [] => []
  | line :: ls' =>
      let stripped := strip line in
      if re_match bullet_item_re stripped then
        ((if in_list then [] else [EmptyString]) ++
         stripped :: markdown_loop true (Some Unordered) ls')%list
      else if re_match numbered_item_re stripped then
        ((if negb in_list || bool_decide (list_type <> Some Ordered) then
            (if in_list then [EmptyString] else []) ++ [EmptyString]
          else []) ++
         stripped :: markdown_loop true (Some Ordered) ls')%list
      else
        ((if in_list then [EmptyString] else []) ++
         (if bool_decide (stripped = EmptyString) then
            (if bool_decide (ls' = []) then [] else [EmptyString])
          else [stripped]) ++
         markdown_loop false (if in_list then None else list_type) ls')%list
  end.

Definition improve_markdown_formatting (text : string) : string :=
  strip (collapse_blank_lines (unlines (markdown_loop false None (lines text)))).

(** ** add_visual_structure *)

(** [re.sub(r'^[\*\-\•]\s+', '', stripped)] *)
Definition drop_list_marker (s : string) : string :=
  match match_here bullet_item_re None (list_ascii_of_string s) with
  | Some n => string_of_list_ascii (drop n (list_ascii_of_string s))
  | None => s
  end.

Definition visual_line (line : string) : string :=
  let stripped := strip line in
  if bool_decide (stripped = EmptyString) then EmptyString
  else if re_match bullet_item_re stripped then
    let content := drop_list_marker stripped in
    if negb (startswith "📅" content) && negb (startswith "⚠️" content) &&
       negb (startswith "✅" content) then
      if re_test item_date_re content then "• 📅 " ++ content else "• " ++ content
    else "• " ++ content
  else if endswith ":" stripped && (py_len stripped <? 80)%nat then
    if negb (startswith "**" stripped) then "**" ++ stripped ++ "**" else stripped
  else stripped.

Definition add_visual_structure (text : string) : string := unlines (visual_line <$> lines text).

(** ** format_response_for_action *)

Inductive strategy := Announcements | DatesEvents | Policy | Informational | General.

Definition pick_strategy (question : string) : strategy :=
  let q := lower question in
  if contains_any ["announcement"; "news"; "latest"; "recent"; "update"] q then Announcements
  else if contains_any ["when"; "date"; "time"; "schedule"; "next"] q then DatesEvents
  else if contains_any ["policy"; "rule"; "guideline"; "can"; "should"; "allow"] q then Policy
  else if contains_any ["what"; "list"; "tell me about"] q then Informational
  else General.

Definition apply_strategy (s : strategy) (text : string) : string :=
  match s with
  | Announcements => format_announcements text
  | DatesEvents => format_dates_events text
  | Policy => format_policy text
  | Informational => format_informational text
  | General => format_general text
  end.

Definition no_answer_message : string :=
  "I couldn't find information to answer your question. Please try rephrasing it.".

Definition format_response_for_action (raw_response question : string) : string :=
  if bool_decide (strip raw_response = EmptyString) then no_answer_message
  else
    let formatted := strip raw_response in
    let formatted := apply_strategy (pick_strategy question) formatted in
    let formatted := add_action_items formatted in
    let formatted := improve_markdown_formatting formatted in
    add_visual_structure formatted.

(** ** Properties *)

(** The text is split on newlines and joined back without loss:
    ['\n'.join(text.split('\n')) == text]. *)
Theorem lines_roundtrip (text : string) : unlines (lines text) = text.
Proof. apply join_split_on. Qed.

(** An announcement list item loses the numbers its text starts
    with: [lstrip] takes a set of characters, digits included, so
    "- 3 field trips planned" is shown as "field trips planned". *)
Theorem announcement_item_drops_leading_number :
  format_response_for_action "- 3 field trips planned" "Any recent announcements?" =
  "**field trips planned**".
Proof. vm_compute. reflexivity. Qed.

(** A policy line that says "can't" (or any word containing "can")
    without one of the requirement words is tagged as allowed. *)
Theorem policy_cant_tagged_allowed (line : string) :
  contains "can" (lower line) = true ->
  contains_any ["must"; "should"; "required"; "need"; "cannot"; "not allowed"] (lower line) = false ->
  policy_tag line = "  ✅ " ++ line.
Proof.
  intros Hcan Hmust. unfold policy_tag. rewrite Hmust. unfold contains_any. simpl.
  by rewrite Hcan.
Qed.

End ResponseFormatter.

(** ** Witnesses *)

Import ResponseFormatter.

Lemma policy_cant_tagged_allowed_witness :
  contains "can" (lower "Students can't bring phones to class.") = true /\
  contains_any ["must"; "should"; "required"; "need"; "cannot"; "not allowed"]
    (lower "Students can't bring phones to class.") = false /\
  policy_tag "Students can't bring phones to class." = "  ✅ " ++ "Students can't bring phones to class.".
Proof.
  assert (H1 : contains "can" (lower "Students can't bring phones to class.") = true)
    by reflexivity.
  assert (H2 : contains_any ["must"; "should"; "required"; "need"; "cannot"; "not allowed"]
    (lower "Students can't bring phones to class.") = false) by reflexivity.
  split; [exact H1|]. split; [exact H2|]. exact (policy_cant_tagged_allowed _ H1 H2).
Defined.
