(* ===== verification/Chat.v ===== *)
(** * Chat: [ask_school_question] of [rag_chat.py]

    The question handler of the assistant. It composes the response cache
    ([Cache]), the learned prompt base and the query tracking ([Learning]),
    the quality score ([Quality]) and the answer formatter ([Formatter])
    around one call of the language model.

    The handler is written against the interface [AnswerCache] of the
    cache (lookup and store, with the law that a stored answer is found
    again until its time-to-live has passed); [rag_answer_cache] is the
    instance of [rag_cache.py]. Everything outside the repository is an
    input of [chat_env]: the configuration flag, the readings of the clock,
    the directory listing of [data/consolidated], the listing of the
    uploaded files and the model's answer as a function of the prompt.

    Exceptions are values of [outcome]: the two [ValueError]s of the guards
    and the [Exception] that wraps any error of the [try] block. The
    objects returned by [client.files.list()] and [generate_content] are
    pydantic models, which have every attribute ([None] when unset), so
    each [hasattr] test of the code holds; a [None] attribute is [None] of
    an [option] field. *)

From S2P Require Import Prelude Clock Regex Quality LearningState Learning Cache Formatter.
Local Open Scope string_scope.
Import RagImprovement TrackQuery RagCache.

Module RagChat.

(** ** The environment of a call *)

(** An entry of [consolidated_dir.glob("school-data-*.md")] with its
    [stat()]. *)
Record md_file := { md_name : string; md_mtime : Z; md_size : Z }.

(** An element of [client.files.list()]. *)
Record uploaded_file := {
  uf_state : string;                 (** [str(f.state)] *)
  uf_create_time : option Z;         (** [f.create_time] *)
  uf_uri : option string }.          (** [f.uri] *)

Inductive listing := ListError (msg : string) | Listed (fs : list uploaded_file).

(** A candidate of the response: [None] content, content whose [parts]
    is [None], or the [text] of each part. *)
Definition candidate := option (option (list (option string))).

Record gen_response := { gr_text : option string; gr_candidates : list candidate }.

(** [client.models.generate_content]: raises with its message, or answers. *)
Inductive gen_result := GenRaised (err : string) | GenResponse (r : gen_response).

Record chat_env := {
  ce_api_key : bool;                 (** [bool(config.GOOGLE_API_KEY)] *)
  ce_lookup_time : Z;                (** [datetime.now()] in [get_cached_response], in µs *)
  ce_date : datetime;                (** [datetime.now()] of the prompt *)
  ce_consolidated_exists : bool;     (** [Path("data/consolidated").exists()] *)
  ce_md_files : list md_file;        (** the glob, in directory order *)
  ce_uploaded : listing;             (** [list(client.files.list())] *)
  ce_generate : string -> string -> list (option string) -> gen_result;
                                     (** system instruction, query text, file URIs *)
  ce_store_time : Z;                 (** [datetime.now()] in [cache_response], in µs *)
  ce_clock : clock;                  (** the clock readings of [track_query] *)
  ce_track_time : Q }.               (** [time.time() - start_track] *)

(** The errors raised inside the [try] block, which the handler re-raises
    as [Exception(f"Error generating response: {e}")]. *)
Inductive inner_error :=
| OracleError (msg : string)         (** [generate_content] raised, not rate limited *)
| SortTypeError                      (** [sorted] compared a [None] [create_time] *)
| PartsTypeError.                    (** iterated a [None] [content.parts] *)

Inductive outcome :=
| Returned (answer : string)
| RaisedValueError (msg : string)
| RaisedWrapped (e : inner_error).

(** [str(e)] of the errors of the [try] block. The [TypeError] of the sort
    names the two operand types in the order of the failing comparison;
    one of the two orders is written here. *)
Definition inner_error_str (e : inner_error) : string :=
  match e with
  | OracleError msg => msg
  | SortTypeError => "'<' not supported between instances of 'NoneType' and 'datetime.datetime'"
  | PartsTypeError => "'NoneType' object is not iterable"
  end.

(** ** The interface of the response cache *)

Class AnswerCache (C : Type) := {
  ac_get : Z -> C -> string -> option string * C;     (** [get_cached_response] *)
  ac_put : Z -> C -> string -> string -> C            (** [cache_response] *)
}.

(** What the handler relies on: an answer stored at [now] is found for
    every question with the same normal form until [now + ttl], and the
    lookup then leaves the cache as it is. *)
Class AnswerCacheLaws (C : Type) `{AnswerCache C} (norm : string -> string) (ttl : Z) := {
  ac_hit (now now' : Z) (c : C) (q q' a : string) :
    norm q' = norm q -> (now' <= now + ttl)%Z ->
    ac_get now' (ac_put now c q a) q' = (Some a, ac_put now c q a)
}.

Record chat_state (C : Type) := { chat_cache : C; chat_rag : rag_files }.
Arguments chat_cache {C}. Arguments chat_rag {C}.
Arguments Build_chat_state {C}.

(** ** Prompts *)

Definition system_instruction (current_date_str current_week tomorrow_str : string) : string :=
  ResponseFormatter.unlines [
   "You are a school assistant for a busy parent.";
   EmptyString;
   "IMPORTANT: Today's date is " ++ current_date_str ++ " (Week " ++ current_week ++ ").";
   EmptyString;
   "When answering questions about time:";
   "- " ++ dq ++ "this week" ++ dq ++ " means the current week (week of " ++ current_date_str ++ ")";
   "- " ++ dq ++ "next week" ++ dq ++ " means the week after the current week";
   "- " ++ dq ++ "tomorrow" ++ dq ++ " means " ++ tomorrow_str;
   "- Use the current date (" ++ current_date_str ++ ") as reference for all relative dates";
   EmptyString;
   "Answer ONLY using information available in the File Search store.";
   "If data is missing, say so clearly.";
   "Be concise and clear.";
   "Focus on actionable information like dates, events, and deadlines.";
   "When mentioning dates, always include the full date (e.g., " ++ dq ++ "Thursday, October 24, 2025" ++ dq ++ ") for clarity."].

Definition query_text (current_date_str question optimized_base : string) : string :=
  ResponseFormatter.unlines [
   "You are searching through a consolidated file containing ALL school emails and announcements for Denali.";
   EmptyString;
   "IMPORTANT CONTEXT: Today is " ++ current_date_str ++ ".";
   EmptyString;
   "Question: " ++ question;
   EmptyString;
   "OPTIMIZED INSTRUCTIONS (based on learned patterns): " ++ optimized_base;
   EmptyString;
   "SEARCH INSTRUCTIONS - READ CAREFULLY:";
   "1. This file contains MULTIPLE emails organized by date. You MUST search through ALL of them.";
   "2. The file structure is: " ++ dq ++ "## Email: [DATE] - [SUBJECT]" ++ dq ++ " followed by email content.";
   "3. When searching for a person (e.g., " ++ dq ++ "Ms. Lobeda" ++ dq ++ ", " ++ dq ++ "Lobita" ++ dq ++ ", " ++ dq ++ "Miss Lobeda" ++ dq ++ "):";
   "   - Search for emails WHERE the sender is that person (look for " ++ dq ++ "**From:**" ++ dq ++ " lines)";
   "   - These names all refer to the same teacher: Lobeda, Lobita, Ms. Lobeda, Miss Lobeda, Grace Lobeda";
   "4. When searching for a topic (e.g., " ++ dq ++ "birthday policy" ++ dq ++ ", " ++ dq ++ "dress code" ++ dq ++ "):";
   "   - Read through ALL emails that mention that topic";
   "   - Look for complete policy information, not just brief mentions";
   "   - Include ALL details: requirements, restrictions, quantities, deadlines";
   "   - If an email says " ++ dq ++ "review the dress code guidelines" ++ dq ++ " but doesn't include them, check if there are attachments or other emails with the full guidelines";
   "   - Extract the ACTUAL guidelines/policies, not just references to them";
   "5. When you find the answer:";
   "   - Provide COMPLETE information from the email(s)";
   "   - Include specific details, not summaries";
   "   - Quote relevant sections when helpful";
   "   - Format your response to be ACTION-ORIENTED and EASY TO READ:";
   "     * Use clear headings with **bold**";
   "     * Use bullet points (•) for lists";
   "     * Highlight important dates with **📅 [DATE]**";
   "     * Make action items stand out with ✅ or ⚠️";
   "     * Use proper markdown formatting";
   "   - If you only find references (like " ++ dq ++ "please review the guidelines" ++ dq ++ "), explicitly state that the full guidelines are not in the available emails, but mention where they might be found";
   "6. If you cannot find the information after searching thoroughly, say: " ++ dq ++ "I could not find information about [topic] in the available emails." ++ dq;
   EmptyString;
   "RESPONSE FORMATTING REQUIREMENTS:";
   "- Use markdown formatting (" ++ "**, *, lists)";
   "- Make dates prominent (e.g., **📅 November 24, 2025**)";
   "- Use bullet points (•) for lists";
   "- Add section headers for clarity (use **bold**)";
   "- Make the response scannable and action-oriented";
   "- Highlight requirements with ⚠️ and allowed items with ✅";
   EmptyString;
   "Now search the file and answer: " ++ question].

(** ** Choosing the files *)

(** [sorted(xs, key=key, reverse=True)]: a stable sort, newest first,
    that keeps the input order of equal keys. *)
Fixpoint insert_desc {A} (key : A -> Z) (x : A) (l : list A) : list A :=
  match l with
  | [] => [x]
  | y :: l' => if (key y <? key x)%Z then x :: l else y :: insert_desc key x l'
  end.

Definition sort_desc {A} (key : A -> Z) (l : list A) : list A :=
  fold_left (fun acc x => insert_desc key x acc) l [].

Definition max_total_size : Z := 10 * 1024 * 1024.

(** The loop over [md_files]: take files while the total stays within
    10 MB, and always the first one. *)
Fixpoint select_loop (total : Z) (files_to_use : list md_file) (fs : list md_file)
    : list md_file :=
  match fs with
  | [] => files_to_use
  | f :: fs' =>
      if (max_total_size <? total + md_size f)%Z && negb (bool_decide (files_to_use = []))
      then files_to_use
      else select_loop (total + md_size f) (files_to_use ++ [f]) fs'
  end.

Definition select_files (md_files : list md_file) : list md_file := select_loop 0 [] md_files.

(** [str(f.state).upper() == 'ACTIVE'] *)
Definition is_active (f : uploaded_file) : bool := bool_decide (upper (uf_state f) = "ACTIVE").

(** [sorted(active_files, key=lambda f: f.create_time, reverse=True)]:
    comparing [None] raises [TypeError]; a list of fewer than two
    elements is not compared. *)
Definition sort_uploaded (fs : list uploaded_file) : option (list uploaded_file) :=
  match fs with
  | [] | [_] => Some fs
  | _ =>
      if forallb (fun f => bool_decide (is_Some (uf_create_time f))) fs
      then Some (sort_desc (fun f => default 0%Z (uf_create_time f)) fs)
      else None
  end.

(** ** The answer *)

(** The first part of a candidate with a non-empty [text]. *)
Fixpoint first_part_text (ps : list (option string)) : option string :=
  match ps with
  | [] => None
  | Some t :: ps' => if nonempty t then Some t else first_part_text ps'
  | None :: ps' => first_part_text ps'
  end.

(** The loop over [response.candidates]; [for part in None] raises. *)
Fixpoint candidates_answer (cs : list candidate) : inner_error + option string :=
  match cs with
  | [] => inr None
  | None :: cs' => candidates_answer cs'
  | Some None :: _ => inl PartsTypeError
  | Some (Some ps) :: cs' =>
      match first_part_text ps with
      | Some a => inr (Some a)
      | None => candidates_answer cs'
      end
  end.

Definition extract_answer (r : gen_response) : inner_error + option string :=
  match gr_text r with
  | Some t => if nonempty t then inr (Some t) else candidates_answer (gr_candidates r)
  | None => candidates_answer (gr_candidates r)
  end.

Definition fallback_answer : string :=
  "I couldn't generate a response. Please check your File Search Store configuration.".

Definition rate_limit_message : string :=
  "I'm currently experiencing rate limits from the Gemini API. " ++
  "Please wait a few minutes and try again, or check your API usage at " ++
  "https://ai.dev/usage?tab=rate-limit. " ++
  "The files have been successfully uploaded to the File Search Store, so once the " ++
  "rate limit resets, queries should work normally.".

(** ["429" in error_str or "RESOURCE_EXHAUSTED" in error_str] *)
Definition rate_limited (err : string) : bool :=
  contains "429" err || contains "RESOURCE_EXHAUSTED" err.

Section Handler.
Context {C : Type} `{AnswerCache C}.

(** From [answer = None] to [return answer]: extract the text, fall back,
    format, cache when [use_cache] and the answer is not empty, score and
    track. *)
Definition finish_answer (env : chat_env) (st : chat_state C) (question : string)
    (use_cache : bool) (r : gen_response) : outcome * chat_state C :=
  match extract_answer r with
  | inl e => (RaisedWrapped e, st)
  | inr found =>
      let answer := match found with Some a => a | None => fallback_answer end in
      let answer := ResponseFormatter.format_response_for_action answer question in
      let cache :=
        if use_cache && nonempty answer
        then ac_put (ce_store_time env) (chat_cache st) question answer
        else chat_cache st in
      let quality_score := (ResponseQuality.calculate_response_quality answer question).1 in
      let success := Qle_bool (1 # 2) quality_score in
      let rag := track_query (ce_clock env) (chat_rag st) question answer
                   (ce_track_time env) success (Some quality_score) false in
      (Returned answer, Build_chat_state cache rag)
  end.

(** From [consolidated_dir] to the query text: an early outcome, or the
    system instruction, the query text and the file URIs. *)
Definition prepare (env : chat_env) (rag : rag_files) (question : string)
    : outcome + (string * string * list (option string)) :=
  let current_date_str := strftime_long_date (ce_date env) in
  let current_week := strftime_year_week (ce_date env) in
  let tomorrow_str := strftime_long_date (add_day (ce_date env)) in
  let si := system_instruction current_date_str current_week tomorrow_str in
  if negb (ce_consolidated_exists env) then
    inl (Returned "No consolidated data found. Please run email ingestion first.")
  else
    let md_files := sort_desc md_mtime (ce_md_files env) in
    if bool_decide (md_files = []) then
      inl (Returned "No consolidated markdown files found. Please run email ingestion first.")
    else
      let files_to_use := select_files md_files in
      match ce_uploaded env with
      | ListError _ =>
          inl (Returned "Error accessing uploaded files. Please check your API configuration.")
      | Listed uploaded_files =>
          if bool_decide (uploaded_files = []) then
            inl (Returned "No files have been uploaded to Gemini yet. Please run the upload script first.")
          else
            let active_files := filter is_active uploaded_files in
            let active_files := if bool_decide (active_files = []) then uploaded_files
                                else active_files in
            match sort_uploaded active_files with
            | None => inl (RaisedWrapped SortTypeError)
            | Some sorted_files =>
                let sorted_files := take (length files_to_use) sorted_files in
                let file_uris_to_use := uf_uri <$> sorted_files in
                if bool_decide (file_uris_to_use = []) then
                  inl (Returned "Files haven't been uploaded to Gemini yet. Please run the upload script first.")
                else
                  let optimized_base := get_optimized_prompt_base (learning_file rag) question in
                  let qt := query_text current_date_str question optimized_base in
                  if (length file_uris_to_use + 1 =? 1)%nat then
                    inl (Returned "Error: Could not create query with file references.")
                  else inr (si, qt, file_uris_to_use)
            end
      end.

(** The [try] block of [ask_school_question]. *)
Definition generate_answer (env : chat_env) (st : chat_state C) (question : string)
    (use_cache : bool) : outcome * chat_state C :=
  match prepare env (chat_rag st) question with
  | inl o => (o, st)
  | inr (si, qt, uris) =>
      match ce_generate env si qt uris with
      | GenRaised err =>
          (if rate_limited err then Returned rate_limit_message
           else RaisedWrapped (OracleError err), st)
      | GenResponse r => finish_answer env st question use_cache r
      end
  end.

Definition ask_school_question (env : chat_env) (st : chat_state C)
    (question store_name : string) (use_cache : bool) : outcome * chat_state C :=
  if negb (ce_api_key env) then
    (RaisedValueError "GOOGLE_API_KEY not set in environment variables", st)
  else if negb (nonempty store_name) then
    (RaisedValueError "FILE_SEARCH_STORE_NAME not set in environment variables", st)
  else if use_cache then
    let '(cached_answer, cache) := ac_get (ce_lookup_time env) (chat_cache st) question in
    let st := Build_chat_state cache (chat_rag st) in
    match cached_answer with
    | Some a => if nonempty a then (Returned a, st) else generate_answer env st question use_cache
    | None => generate_answer env st question use_cache
    end
  else generate_answer env st question use_cache.

End Handler.

(** ** The cache of [rag_cache.py] *)

Section RagInstance.
Variable md5_hexdigest : string -> string.

#[local] Instance rag_answer_cache : AnswerCache (stored (gmap string cache_item)) := {
  ac_get := get_cached_response md5_hexdigest;
  ac_put := cache_response md5_hexdigest }.

(** [rag_cache.py] meets the interface, for questions equal after
    [lower().strip()] and the seven days of [CACHE_EXPIRY_DAYS]. *)
#[local] Instance rag_answer_cache_laws :
  AnswerCacheLaws (stored (gmap string cache_item)) (fun q => strip (lower q)) cache_expiry.
Proof.
  constructor. intros now now' f q q' a Hq Ht. simpl.
  apply (get_cached_response_hit _ _ _ _ {| ci_question := q; ci_answer := a; ci_timestamp := now |}).
  - rewrite load_cache_response. unfold get_cache_key. rewrite Hq. by rewrite decide_True.
  - unfold is_expired. simpl. apply Z.ltb_ge. lia.
Qed.

End RagInstance.

(** ** Lemmas *)

Definition sum_sizes (fs : list md_file) : Z := foldr (fun f acc => (md_size f + acc)%Z) 0%Z fs.

Lemma sum_sizes_app (fs gs : list md_file) : sum_sizes (fs ++ gs)%list = (sum_sizes fs + sum_sizes gs)%Z.
Proof. induction fs as [|f fs IH]; simpl; lia. Qed.

(** The loop of [select_files]: what it appends to [files_to_use] is a
    prefix of the rest; the files taken stay within the budget or are a
    single file; and it stops only before a file that would overflow. *)
Lemma select_loop_spec (l acc : list md_file) :
  (sum_sizes acc <= max_total_size)%Z \/ (length acc <= 1)%nat ->
  exists k, select_loop (sum_sizes acc) acc l = (acc ++ k)%list /\ k `prefix_of` l /\
    ((sum_sizes (acc ++ k)%list <= max_total_size)%Z \/ (length (acc ++ k)%list <= 1)%nat) /\
    (forall f rest, l = (k ++ f :: rest)%list ->
       (acc ++ k)%list <> [] /\ (max_total_size < sum_sizes (acc ++ k)%list + md_size f)%Z).
Proof.
  revert acc. induction l as [|f l IH]; intros acc Hinv; simpl.
  - exists []. rewrite app_nil_r. split_and!; [done|done|done|]. intros ? ? Hl. by destruct rest.
  - destruct (Z.ltb_spec max_total_size (sum_sizes acc + md_size f)) as [Hover|Hfit];
      destruct (bool_decide_reflect (acc = [])) as [->|Hne]; simpl.
    + destruct (IH [f]) as (k & Hk & Hp & Hb & Hs); [simpl; lia|].
      exists (f :: k). simpl in Hk. rewrite Z.add_0_r in Hk.
      split_and!; [done|by apply prefix_cons|done|].
      intros g rest Hl. injection Hl as Hl. by apply Hs in Hl.
    + exists []. rewrite app_nil_r. split_and!; [done|apply prefix_nil|lia|].
      intros g rest [= <- _]. done.
    + destruct (IH [f]) as (k & Hk & Hp & Hb & Hs); [simpl; lia|].
      exists (f :: k). simpl in Hk. rewrite Z.add_0_r in Hk.
      split_and!; [done|by apply prefix_cons|done|].
      intros g rest Hl. injection Hl as Hl. by apply Hs in Hl.
    + destruct (IH (acc ++ [f])%list) as (k & Hk & Hp & Hb & Hs).
      { left. rewrite sum_sizes_app. simpl. lia. }
      exists (f :: k). rewrite sum_sizes_app in Hk. simpl in Hk. rewrite Z.add_0_r in Hk.
      rewrite <-app_assoc in Hk, Hb, Hs. split_and!; [done|by apply prefix_cons|done|].
      intros g rest Hl. injection Hl as Hl. by apply Hs in Hl.
Qed.

Lemma select_files_nonempty (md : list md_file) : md <> [] -> select_files md <> [].
Proof.
  intros Hmd. destruct (select_loop_spec md []) as (k & Hk & Hp & _ & Hs); [simpl; lia|].
  unfold select_files. change 0%Z with (sum_sizes []). rewrite Hk. simpl.
  destruct k as [|f k]; [|done]. destruct md as [|g rest]; [done|].
  by destruct (Hs g rest).
Qed.

Lemma insert_desc_perm {A} (key : A -> Z) (x : A) (l : list A) : insert_desc key x l ≡ₚ x :: l.
Proof.
  induction l as [|y l IH]; simpl; [done|].
  destruct (key y <? key x)%Z; [done|]. rewrite IH. apply Permutation_swap.
Qed.

Lemma sort_desc_perm {A} (key : A -> Z) (l : list A) : sort_desc key l ≡ₚ l.
Proof.
  unfold sort_desc. rewrite <-(app_nil_l l) at 2. generalize (@nil A) as acc.
  induction l as [|x l IH]; intros acc; simpl; [by rewrite app_nil_r|].
  rewrite IH, insert_desc_perm. simpl. by rewrite <-Permutation_middle.
Qed.

Lemma sort_uploaded_length (fs fs' : list uploaded_file) :
  sort_uploaded fs = Some fs' -> length fs' = length fs.
Proof.
  unfold sort_uploaded. destruct fs as [|f1 [|f2 fs]]; try by intros [= <-].
  case_match; [|done]. intros [= <-]. apply Permutation_length, sort_desc_perm.
Qed.

Section Lemmas.
Context {C : Type} `{AnswerCache C}.

(** A lookup that finds a non-empty answer returns it at once. *)
Lemma ask_hit (env : chat_env) (st : chat_state C) (q store a : string) (c : C) :
  ce_api_key env = true -> nonempty store = true -> nonempty a = true ->
  ac_get (ce_lookup_time env) (chat_cache st) q = (Some a, c) ->
  ask_school_question env st q store true = (Returned a, Build_chat_state c (chat_rag st)).
Proof. intros Hk Hs Ha Hg. unfold ask_school_question. by rewrite Hk, Hs, Hg, Ha. Qed.

(** A lookup that misses goes on to the [try] block with the cache as the
    lookup left it. *)
Lemma ask_miss (env : chat_env) (st : chat_state C) (q store : string) (c : C) :
  ce_api_key env = true -> nonempty store = true ->
  ac_get (ce_lookup_time env) (chat_cache st) q = (None, c) ->
  ask_school_question env st q store true =
  generate_answer env (Build_chat_state c (chat_rag st)) q true.
Proof. intros Hk Hs Hg. unfold ask_school_question. by rewrite Hk, Hs, Hg. Qed.

(** What [finish_answer] leaves in the cache. *)
Lemma finish_answer_cache (env : chat_env) (st st' : chat_state C) (q a : string)
    (r : gen_response) :
  finish_answer env st q true r = (Returned a, st') ->
  chat_cache st' = if nonempty a then ac_put (ce_store_time env) (chat_cache st) q a
                   else chat_cache st.
Proof.
  unfold finish_answer. destruct (extract_answer r) as [e|found]; [done|].
  intros [= <- <-]. done.
Qed.

Context (norm : string -> string) (ttl : Z) `{!AnswerCacheLaws C norm ttl}.

Lemma candidates_answer_err (cs : list candidate) (e : inner_error) :
  candidates_answer cs = inl e -> e = PartsTypeError.
Proof.
  induction cs as [|c cs IH]; simpl; [done|].
  destruct c as [[ps|]|]; [|by intros [=]|done]. by destruct (first_part_text ps).
Qed.

Lemma extract_answer_err (r : gen_response) (e : inner_error) :
  extract_answer r = inl e -> e = PartsTypeError.
Proof.
  unfold extract_answer. destruct (gr_text r) as [t|]; [destruct (nonempty t)|];
    try done; apply candidates_answer_err.
Qed.

(** The model errors the handler raises are the ones that are not rate
    limits. *)
Lemma ask_raises_unlimited (env : chat_env) (st st' : chat_state C) (q store : string)
    (u : bool) (err : string) :
  ask_school_question env st q store u = (RaisedWrapped (OracleError err), st') ->
  rate_limited err = false.
Proof.
  assert (Hg : forall st0, generate_answer env st0 q u = (RaisedWrapped (OracleError err), st') ->
                           rate_limited err = false).
  { intros st0. unfold generate_answer.
    destruct (prepare env (chat_rag st0) q) as [o|[[si qt] uris]] eqn:Hp.
    - unfold prepare in Hp. intros [= -> _]. repeat case_match; simplify_eq.
    - destruct (ce_generate env si qt uris) as [e|r].
      + destruct (rate_limited e) eqn:He; [done|]. by intros [= -> _].
      + unfold finish_answer. destruct (extract_answer r) as [e|] eqn:Ex; [|by intros [=]].
        apply extract_answer_err in Ex. by subst. }
  unfold ask_school_question. destruct (ce_api_key env); [|done]. destruct (nonempty store); [|done].
  destruct u; [|apply Hg]. destruct (ac_get _ _ _) as [[a|] c].
  - destruct (nonempty a); [done|apply Hg].
  - apply Hg.
Qed.

(** The [ValueError]s of the handler are the two of its guards. *)
Lemma ask_value_errors (env : chat_env) (st st' : chat_state C) (q store : string)
    (u : bool) (msg : string) :
  ask_school_question env st q store u = (RaisedValueError msg, st') ->
  msg = "GOOGLE_API_KEY not set in environment variables" \/
  msg = "FILE_SEARCH_STORE_NAME not set in environment variables".
Proof.
  assert (Hg : forall st0, generate_answer env st0 q u <> (RaisedValueError msg, st')).
  { intros st0. unfold generate_answer.
    destruct (prepare env (chat_rag st0) q) as [o|[[si qt] uris]] eqn:Hp.
    - unfold prepare in Hp. intros [= -> _]. repeat case_match; simplify_eq.
    - destruct (ce_generate env si qt uris) as [e|r].
      + by destruct (rate_limited e).
      + unfold finish_answer. by destruct (extract_answer r). }
  unfold ask_school_question. destruct (ce_api_key env); [|intros [= <- _]; by left].
  destruct (nonempty store); [|intros [= <- _]; by right].
  destruct u; [|intros Hc; by destruct (Hg _ Hc)]. destruct (ac_get _ _ _) as [[a|] c].
  - destruct (nonempty a); [done|]. intros Hc; by destruct (Hg _ Hc).
  - intros Hc; by destruct (Hg _ Hc).
Qed.

(** A stored answer is replayed by the whole handler. *)
Lemma ask_after_put (env : chat_env) (t : Z) (c : C) (rag : rag_files) (q q' store a : string) :
  ce_api_key env = true -> nonempty store = true -> nonempty a = true ->
  norm q' = norm q -> (ce_lookup_time env <= t + ttl)%Z ->
  ask_school_question env (Build_chat_state (ac_put t c q a) rag) q' store true =
  (Returned a, Build_chat_state (ac_put t c q a) rag).
Proof. intros Hk Hs Ha Hq Ht. apply ask_hit; [done..|]. by apply ac_hit. Qed.

End Lemmas.

(** The fallback text survives formatting as a non-empty answer, whatever
    strategy the question picks. *)
Lemma format_fallback_nonempty (q : string) :
  nonempty (ResponseFormatter.format_response_for_action fallback_answer q) = true.
Proof.
  unfold ResponseFormatter.format_response_for_action.
  rewrite bool_decide_false by (vm_compute; discriminate).
  destruct (ResponseFormatter.pick_strategy q); vm_compute; reflexivity.
Qed.

(** ** Properties *)

Section Properties.
Context {C : Type} `{AnswerCache C}.
Context (norm : string -> string) (ttl : Z) `{!AnswerCacheLaws C norm ttl}.

(** C11: against the cache interface, [ask_school_question] memoises
    the model: once a call has missed the cache, asked the model and
    returned a non-empty answer, every call with a question of the same
    normal form, up to the time-to-live after the answer was stored,
    returns that answer without reaching the model (whatever the model,
    the files or the listing are then) and leaves the cache and the
    learning files as they are. *)
Theorem ask_replays_generated_answer (env1 env2 : chat_env) (st st1 : chat_state C)
    (q q' store store' : string) (c : C) (si qt : string) (uris : list (option string))
    (r : gen_response) (a : string) :
  ce_api_key env1 = true -> nonempty store = true ->
  ac_get (ce_lookup_time env1) (chat_cache st) q = (None, c) ->
  prepare env1 (chat_rag st) q = inr (si, qt, uris) ->
  ce_generate env1 si qt uris = GenResponse r ->
  ask_school_question env1 st q store true = (Returned a, st1) -> nonempty a = true ->
  ce_api_key env2 = true -> nonempty store' = true -> norm q' = norm q ->
  (ce_lookup_time env2 <= ce_store_time env1 + ttl)%Z ->
  ask_school_question env2 st1 q' store' true = (Returned a, st1).
Proof.
  intros Hk Hs Hmiss Hp Hg Hask Ha Hk2 Hs2 Hq Ht.
  rewrite (ask_miss _ _ _ _ c) in Hask by done. unfold generate_answer in Hask. simpl in Hask.
  rewrite Hp, Hg in Hask. pose proof (finish_answer_cache _ _ _ _ _ _ Hask) as Hc.
  rewrite Ha in Hc. destruct st1 as [c1 rag1]. simpl in Hc. subst c1.
  by apply (ask_after_put norm ttl).
Qed.

(** C12: a response without any text is answered with the
    fallback message ("I couldn't generate a response ..."), formatted;
    that failure text is cached like an answer, so every question of the
    same normal form gets it again until the time-to-live has passed,
    without the model being asked. *)
Theorem empty_response_cached (env1 env2 : chat_env) (st : chat_state C)
    (q q' store : string) (r : gen_response) :
  extract_answer r = inr None ->
  ce_api_key env2 = true -> nonempty store = true -> norm q' = norm q ->
  (ce_lookup_time env2 <= ce_store_time env1 + ttl)%Z ->
  let a := ResponseFormatter.format_response_for_action fallback_answer q in
  (finish_answer env1 st q true r).1 = Returned a /\
  ask_school_question env2 (finish_answer env1 st q true r).2 q' store true =
  (Returned a, (finish_answer env1 st q true r).2).
Proof.
  intros Hr Hk Hs Hq Ht a. unfold finish_answer. rewrite Hr. cbv beta iota zeta.
  fold a. assert (Ha : nonempty a = true) by apply format_fallback_nonempty.
  rewrite Ha. split; [done|]. by apply (ask_after_put norm ttl).
Qed.

(** C13: when the cache misses and the model raises, nothing is cached
    and nothing is tracked: an error naming "429" or
    "RESOURCE_EXHAUSTED" is returned as the rate-limit text, as if it
    were an answer, and any other error is raised wrapped. *)
Theorem model_error_keeps_state (env : chat_env) (st : chat_state C) (q store : string)
    (c : C) (si qt : string) (uris : list (option string)) (err : string) :
  ce_api_key env = true -> nonempty store = true ->
  ac_get (ce_lookup_time env) (chat_cache st) q = (None, c) ->
  prepare env (chat_rag st) q = inr (si, qt, uris) ->
  ce_generate env si qt uris = GenRaised err ->
  ask_school_question env st q store true =
  (if rate_limited err then Returned rate_limit_message else RaisedWrapped (OracleError err),
   Build_chat_state c (chat_rag st)).
Proof.
  intros Hk Hs Hmiss Hp Hg. rewrite (ask_miss _ _ _ _ c) by done.
  unfold generate_answer. simpl. by rewrite Hp, Hg.
Qed.

End Properties.

(** C14: two early returns of the handler are unreachable: once the
    markdown files and the uploaded files are both non-empty, the URIs
    taken are never empty ("Files haven't been uploaded to Gemini yet")
    and the request always has a file part ("Error: Could not create
    query with file references"). *)
Theorem prepare_dead_branches (env : chat_env) (rag : rag_files) (q : string) :
  prepare env rag q <>
    inl (Returned "Files haven't been uploaded to Gemini yet. Please run the upload script first.") /\
  prepare env rag q <> inl (Returned "Error: Could not create query with file references.").
Proof.
  unfold prepare.
  destruct (ce_consolidated_exists env); simpl; [|split; discriminate].
  destruct (bool_decide_reflect (sort_desc md_mtime (ce_md_files env) = [])) as [|Hmd];
    [split; discriminate|].
  pose proof (select_files_nonempty _ Hmd) as Hsel.
  destruct (ce_uploaded env) as [msg|up]; [split; discriminate|].
  destruct (bool_decide_reflect (up = [])) as [|Hup]; [split; discriminate|].
  set (act := if bool_decide (filter is_active up = []) then up else filter is_active up).
  assert (Hact : act <> []) by (unfold act; case_bool_decide as Hf; [exact Hup|exact Hf]).
  destruct (sort_uploaded act) as [sorted|] eqn:Hsort; [|split; discriminate].
  apply sort_uploaded_length in Hsort.
  assert (Huris : uf_uri <$> take (length (select_files (sort_desc md_mtime (ce_md_files env)))) sorted <> []).
  { destruct (select_files _) as [|f fs]; [done|]. destruct sorted as [|g gs]; [by destruct act|].
    simpl. discriminate. }
  revert Huris. generalize (uf_uri <$> take (length (select_files (sort_desc md_mtime (ce_md_files env)))) sorted).
  intros [|u us] Hne; [done|]. simpl. rewrite Nat.add_1_r. split; discriminate.
Qed.

End RagChat.

(** ** Witnesses, with the identity as digest *)

Import RagChat.

Definition demo_clock : clock :=
  {| now_iso := "2025-11-03T09:00:00"; today_iso := "2025-11-03" |}.

Definition demo_rag : rag_files :=
  {| metrics_file := Missing; learning_file := Missing; feedback_file := Missing |}.

Definition demo_env (lookup_time : Z) (gen : gen_result) : chat_env :=
  {| ce_api_key := true; ce_lookup_time := lookup_time;
     ce_date := mk_datetime 2025 11 3 9 0 0; ce_consolidated_exists := true;
     ce_md_files := [{| md_name := "school-data-2025-W45.md"; md_mtime := 5; md_size := 2048 |}];
     ce_uploaded := Listed [{| uf_state := "ACTIVE"; uf_create_time := Some 7%Z;
                               uf_uri := Some "files/abc" |}];
     ce_generate := fun _ _ _ => gen; ce_store_time := 2000; ce_clock := demo_clock;
     ce_track_time := 0 |}.

Definition demo_si : string :=
  system_instruction "Monday, November 03, 2025" "2025-W45" "Tuesday, November 04, 2025".

Definition demo_qt (q : string) : string :=
  query_text "Monday, November 03, 2025" q (get_optimized_prompt_base Missing q).

Definition demo_state : chat_state (stored (gmap string cache_item)) :=
  {| chat_cache := Missing; chat_rag := demo_rag |}.

Definition trip_response : gen_response :=
  {| gr_text := Some "The field trip is on Friday, November 14."; gr_candidates := [] |}.

Lemma ask_replays_generated_answer_witness :
  let env1 := demo_env 1000 (GenResponse trip_response) in
  let env2 := demo_env (2000 + cache_expiry) (GenRaised "500 INTERNAL") in
  let first := @ask_school_question _ (rag_answer_cache id_digest) env1 demo_state
                 "When is the field trip?" "stores/school" true in
  @ask_school_question _ (rag_answer_cache id_digest) env2 first.2
    "  when is the FIELD trip? " "stores/school" true =
  (Returned (ResponseFormatter.format_response_for_action
               "The field trip is on Friday, November 14." "When is the field trip?"), first.2).
Proof.
  intros env1 env2 first.
  apply (@ask_replays_generated_answer _ (rag_answer_cache id_digest) (fun q => strip (lower q))
           cache_expiry (rag_answer_cache_laws id_digest) env1 env2 demo_state first.2
           "When is the field trip?" _ "stores/school" _ Missing demo_si
           (demo_qt "When is the field trip?") [Some "files/abc"] trip_response);
    try reflexivity; vm_compute; try reflexivity; discriminate.
Defined.

Lemma empty_response_cached_witness :
  let r := {| gr_text := Some EmptyString;
              gr_candidates := [None; Some (Some [None; Some EmptyString])] |} in
  let env1 := demo_env 1000 (GenResponse r) in
  let env2 := demo_env 3000 (GenResponse trip_response) in
  let a := ResponseFormatter.format_response_for_action fallback_answer "What is the dress code?" in
  (@finish_answer _ (rag_answer_cache id_digest) env1 demo_state "What is the dress code?" true r).1
    = Returned a /\
  @ask_school_question _ (rag_answer_cache id_digest) env2
    (@finish_answer _ (rag_answer_cache id_digest) env1 demo_state "What is the dress code?" true r).2
    "what is the dress code?" "stores/school" true =
  (Returned a,
   (@finish_answer _ (rag_answer_cache id_digest) env1 demo_state "What is the dress code?" true r).2).
Proof.
  intros r env1 env2 a.
  apply (@empty_response_cached _ (rag_answer_cache id_digest) (fun q => strip (lower q))
           cache_expiry (rag_answer_cache_laws id_digest) env1 env2);
    try reflexivity; vm_compute; discriminate.
Defined.

Lemma model_error_keeps_state_witness :
  let env := demo_env 1000 (GenRaised "429 RESOURCE_EXHAUSTED: quota exceeded") in
  @ask_school_question _ (rag_answer_cache id_digest) env demo_state
    "When is the field trip?" "stores/school" true =
  (Returned rate_limit_message, demo_state).
Proof.
  intros env.
  apply (@model_error_keeps_state _ (rag_answer_cache id_digest) env demo_state
           "When is the field trip?" "stores/school" Missing demo_si
           (demo_qt "When is the field trip?") [Some "files/abc"]
           "429 RESOURCE_EXHAUSTED: quota exceeded"); vm_compute; reflexivity.
Defined.

