(* ===== verification/DateExtractor.v ===== *)
(** * DateExtractor: [date_extractor.py]

    [extract_dates_from_text] asks the model for a JSON array of events,
    strips a markdown code fence from the reply, parses it with
    [json.loads] (retrying on the outermost [[...]] of the reply), and
    turns every object with a parseable ["date"] into an event whose
    [datetime] is [strptime(date, '%Y-%m-%d')] with the start of the
    ["time"] field applied. Errors of the model call fall back to
    [_extract_dates_regex], which returns no event. The voice request of
    [voice_calendar.py] that uses it is the file [VoiceCalendar].

    A Python value decoded from JSON is [json]; [null] is [None]. The
    decoder [json.loads] is the Section variable [json_loads] ([None] is
    [JSONDecodeError]): the code only calls it. [int()] and the
    [strptime] of the two formats the code uses are written out, with the
    regular expression of [_strptime] and its range checks. The model is
    an input. *)

From stdpp Require Import pretty.
From S2P Require Import Prelude Clock Regex.
Local Open Scope string_scope.
Import PyRegex.

Module DateExtractor.

(** ** Python values decoded from JSON *)

Inductive json :=
| JNull
| JBool (b : bool)
| JNum (q : Q)
| JStr (s : string)
| JArr (l : list json)
| JObj (kvs : list (string * json)).

(** [bool(v)] *)
Definition truthy (v : json) : bool :=
  match v with
  | JNull => false
  | JBool b => b
  | JNum q => negb (Qeq_bool q 0)
  | JStr s => negb (bool_decide (s = EmptyString))
  | JArr l => negb (bool_decide (l = []))
  | JObj kvs => negb (bool_decide (kvs = []))
  end.

(** [d.get(k, default)]: a repeated key keeps its last value, as
    [json.loads] builds the dict. *)
Definition obj_get (kvs : list (string * json)) (k : string) (default : json) : json :=
  fold_left (fun acc kv => if bool_decide (kv.1 = k) then kv.2 else acc) kvs default.

(** ** [int(s)] for a [str] *)

Definition digit_value (c : ascii) : Z := Z.of_nat (nat_of_ascii c - 48).

(** Decimal digits with single underscores between them. *)
Fixpoint int_digits (s : list ascii) (acc : Z) (after_digit : bool) : option Z :=
  match s with
  | [] => if after_digit then Some acc else None
  | c :: s' =>
      if is_digit c then int_digits s' (acc * 10 + digit_value c)%Z true
      else if Ascii.eqb c "_"%char && after_digit then int_digits s' acc false
      else None
  end.

(** [int(s)]: surrounding whitespace, an optional sign, digits;
    [None] is [ValueError]. *)
Definition py_int (s : string) : option Z :=
  match list_ascii_of_string (strip s) with
  | "+"%char :: r => int_digits r 0 false
  | "-"%char :: r => option_map Z.opp (int_digits r 0 false)
  | r => int_digits r 0 false
  end.

(** ** [datetime.strptime(s, '%Y-%m-%d')] *)

(** The regular expression [_strptime] compiles for the format:
    [(?P<Y>\d\d\d\d)-(?P<m>1[0-2]|0[1-9]|[1-9])-(?P<d>3[01]|[12]\d|0[1-9]|[1-9]| [1-9])],
    matched at the start with the alternatives tried in order. An
    alternative is a sequence of character classes. *)
Definition in_range (lo hi : nat) (c : ascii) : bool :=
  ((lo <=? nat_of_ascii c) && (nat_of_ascii c <=? hi))%nat.
Definition is_char (x : ascii) (c : ascii) : bool := Ascii.eqb c x.

Fixpoint match_classes (ps : list (ascii -> bool)) (s : list ascii)
    : option (list ascii * list ascii) :=
  match ps, s with
  | [], _ => Some ([], s)
  | p :: ps', c :: s' =>
      if p c then option_map (fun '(g, r) => (c :: g, r)) (match_classes ps' s') else None
  | _ :: _, [] => None
  end.

(** Alternatives in order, each followed by the rest of the pattern [k]. *)
Fixpoint first_alt {R} (alts : list (list (ascii -> bool))) (s : list ascii)
    (k : list ascii -> list ascii -> option R) : option R :=
  match alts with
  | [] => None
  | a :: alts' =>
      match match_classes a s with
      | Some (g, r) => match k g r with Some x => Some x | None => first_alt alts' s k end
      | None => first_alt alts' s k
      end
  end.

Definition year_re : list (ascii -> bool) := [is_digit; is_digit; is_digit; is_digit].
Definition month_alts : list (list (ascii -> bool)) :=
  [[is_char "1"; in_range 48 50]; [is_char "0"; in_range 49 57]; [in_range 49 57]].
Definition day_alts : list (list (ascii -> bool)) :=
  [[is_char "3"; in_range 48 49]; [in_range 49 50; is_digit]; [is_char "0"; in_range 49 57];
   [in_range 49 57]; [is_char " "; in_range 49 57]].

Definition group_int (g : list ascii) : Z := default 0%Z (py_int (string_of_list_ascii g)).

(** The match: the three groups and the unconverted rest. *)
Definition strptime_match (s : list ascii) : option (Z * Z * Z * list ascii) :=
  match match_classes year_re s with
  | Some (yg, "-"%char :: r) =>
      first_alt month_alts r (fun mg r' =>
        match r' with
        | "-"%char :: r'' =>
            first_alt day_alts r'' (fun dg rest => Some (group_int yg, group_int mg, group_int dg, rest))
        | _ => None
        end)
  | _ => None
  end.

(** The three [ValueError]s of [strptime]: no match, unconverted data, a
    date [datetime] rejects (day out of range for the month, year 0). *)
Inductive strptime_failure :=
| NoMatch
| Unconverted (rest : list ascii)
| OutOfRange (y m d : Z).

Definition strptime_parse (s : string) : datetime + strptime_failure :=
  match strptime_match (list_ascii_of_string s) with
  | None => inr NoMatch
  | Some (y, m, d, []) =>
      let t := mk_datetime y m d 0 0 0 in
      if valid_datetime t then inl t else inr (OutOfRange y m d)
  | Some (_, _, _, rest) => inr (Unconverted rest)
  end.

(** [None] is [ValueError]. *)
Definition strptime_ymd (s : string) : option datetime :=
  match strptime_parse s with inl t => Some t | inr _ => None end.

(** ** The model's reply *)

Definition newline : ascii := ascii_of_nat 10.
Definition fence : string := "```".

(** The loop over [response_text.split('\n')] of a fenced reply: a fence
    line toggles [in_code_block]; other lines are kept inside a block, or
    when the reply starts with no fence. *)
Fixpoint fence_loop (response_text : string) (in_code_block : bool) (ls : list string)
    : list string :=
  match ls with
  | [] => []
  | line :: ls' =>
      if startswith fence (strip line) then fence_loop response_text (negb in_code_block) ls'
      else if in_code_block || (negb (startswith "```json" response_text) &&
                                negb (startswith fence response_text))
      then line :: fence_loop response_text in_code_block ls'
      else fence_loop response_text in_code_block ls'
  end.

Definition strip_code_fence (response_text : string) : string :=
  if startswith fence response_text
  then join newline (fence_loop response_text false (split_on newline response_text))
  else response_text.

(** [\[.*\]] under [re.DOTALL] *)
Definition bracket_re : regex :=
  seqs [ch "["%char; RRepeat (fun _ => true) 0 None; ch "]"%char].

(** [json_match.group(0)] *)
Definition bracket_group (s : string) : option string :=
  match re_search bracket_re s with
  | Some (i, n) => Some (string_of_list_ascii (take n (drop i (list_ascii_of_string s))))
  | None => None
  end.

(** ** Events *)

Record parsed_event := {
  pe_title : json; pe_date : datetime; pe_time : json;
  pe_description : json; pe_confidence : json }.

(** [date_obj.replace(hour=h, minute=m)] from the start of a [time]
    string; every error (not a string, [int()] of a part that is not a
    number, an hour or minute out of range) leaves the date as it is. *)
Definition apply_time (date_obj : datetime) (time_str : json) : datetime :=
  match time_str with
  | JStr t =>
      let time_parts :=
        if contains "-" t && contains ":" t
        then Some (split_on ":"%char (strip (default EmptyString (head (split_on "-"%char t)))))
        else if contains ":" t then Some (split_on ":"%char t)
        else None in
      match time_parts with
      | None => date_obj
      | Some ps =>
          match py_int (default EmptyString (head ps)),
                (if (1 <? length ps)%nat then py_int (default EmptyString (ps !! 1%nat))
                 else Some 0%Z) with
          | Some h, Some mi =>
              if (0 <=? h)%Z && (h <? 24)%Z && (0 <=? mi)%Z && (mi <? 60)%Z
              then mk_datetime (dt_year date_obj) (dt_month date_obj) (dt_day date_obj) h mi
                     (dt_second date_obj)
              else date_obj
          | _, _ => date_obj
          end
      end
  | _ => date_obj
  end.

(** The body of [for event in events]: [None] when the event is skipped
    (not a dict, a false ["date"], or [strptime] raising). *)
Definition process_event (event : json) : option parsed_event :=
  match event with
  | JObj kvs =>
      let date_str := obj_get kvs "date" JNull in
      if truthy date_str then
        match date_str with
        | JStr s =>
            match strptime_ymd s with
            | Some date_obj =>
                let time_str := obj_get kvs "time" JNull in
                Some {| pe_title := obj_get kvs "title" (JStr "Untitled Event");
                        pe_date := apply_time date_obj time_str;
                        pe_time := time_str;
                        pe_description := obj_get kvs "description" (JStr EmptyString);
                        pe_confidence := obj_get kvs "confidence" (JNum (1 # 2)) |}
            | None => None
            end
        | _ => None
        end
      else None
  | _ => None
  end.

(** [for event in events]: a dict or a string iterates over strings, which
    are all skipped; any other non-list raises [TypeError], which the outer
    handler turns into the regex fallback, itself empty. *)
Definition parse_events (events : json) : list parsed_event :=
  match events with
  | JArr l => omap process_event l
  | _ => []
  end.

(** [_extract_dates_regex]: the loops over the three patterns compute the
    groups and discard them; [events] stays empty. *)
Definition extract_dates_regex (text : string) : list parsed_event := [].

Definition date_prompt (current_date_str current_year text : string) : string :=
  join newline [
    "Extract ALL dates, events, and reminders from the following text.";
    "IMPORTANT: Today is " ++ current_date_str ++ ". Use " ++ current_year ++ " as the year for dates unless explicitly stated otherwise.";
    EmptyString;
    "CRITICAL INSTRUCTIONS:";
    "1. If multiple dates are listed (e.g., " ++ dq ++ "Nov 18,20, Dec 2,4,9,11" ++ dq ++ "), create SEPARATE events for EACH date";
    "2. Parse time formats like " ++ dq ++ "345-445" ++ dq ++ " as " ++ dq ++ "15:45-16:45" ++ dq ++ " (3:45 PM - 4:45 PM)";
    "3. Parse time formats like " ++ dq ++ "530-630" ++ dq ++ " as " ++ dq ++ "17:30-18:30" ++ dq ++ " (5:30 PM - 6:30 PM)";
    "4. Parse time formats like " ++ dq ++ "4:00 p.m." ++ dq ++ " or " ++ dq ++ "4:00 PM" ++ dq ++ " as " ++ dq ++ "16:00" ++ dq ++ " (4:00 PM)";
    "5. Parse time formats like " ++ dq ++ "4pm" ++ dq ++ " or " ++ dq ++ "4 PM" ++ dq ++ " as " ++ dq ++ "16:00" ++ dq ++ " (4:00 PM)";
    "6. Parse time formats like " ++ dq ++ "10am" ++ dq ++ " or " ++ dq ++ "10 AM" ++ dq ++ " as " ++ dq ++ "10:00" ++ dq ++ " (10:00 AM)";
    "7. Extract event titles from context (e.g., " ++ dq ++ "Martial arts classes" ++ dq ++ ", " ++ dq ++ "Music concert" ++ dq ++ ")";
    "8. Include location if mentioned (e.g., " ++ dq ++ "school gym" ++ dq ++ ", " ++ dq ++ "main school" ++ dq ++ ")";
    "9. ALWAYS extract times when mentioned, even if in different formats";
    EmptyString;
    "Return a JSON array of events. Each event should have:";
    "- " ++ dq ++ "title" ++ dq ++ ": A clear, concise event title (e.g., " ++ dq ++ "Martial Arts Class" ++ dq ++ ", " ++ dq ++ "Music Concert" ++ dq ++ ")";
    "- " ++ dq ++ "date" ++ dq ++ ": ISO format date string (YYYY-MM-DD) - use " ++ current_year ++ " if year not specified";
    "- " ++ dq ++ "time" ++ dq ++ ": Optional time string (HH:MM or HH:MM-HH:MM for ranges) if mentioned";
    "- " ++ dq ++ "description" ++ dq ++ ": Full description from the text including location, dress code, etc.";
    "- " ++ dq ++ "confidence" ++ dq ++ ": A number between 0 and 1 indicating how certain you are";
    EmptyString;
    "Text to analyze:";
    text;
    EmptyString;
    "Return ONLY valid JSON array, no other text. ";
    EmptyString;
    "Example for " ++ dq ++ "Nov 18,20, Dec 2,4,9,11 - 345-445 Denali Martial arts classes" ++ dq ++ ":";
    "[";
    "  {" ++ dq ++ "title" ++ dq ++ ": " ++ dq ++ "Martial Arts Class" ++ dq ++ ", " ++ dq ++ "date" ++ dq ++ ": " ++ dq ++ "2025-11-18" ++ dq ++ ", " ++ dq ++ "time" ++ dq ++ ": " ++ dq ++ "15:45-16:45" ++ dq ++ ", " ++ dq ++ "description" ++ dq ++ ": " ++ dq ++ "Denali Martial arts classes at school gym" ++ dq ++ ", " ++ dq ++ "confidence" ++ dq ++ ": 0.95},";
    "  {" ++ dq ++ "title" ++ dq ++ ": " ++ dq ++ "Martial Arts Class" ++ dq ++ ", " ++ dq ++ "date" ++ dq ++ ": " ++ dq ++ "2025-11-20" ++ dq ++ ", " ++ dq ++ "time" ++ dq ++ ": " ++ dq ++ "15:45-16:45" ++ dq ++ ", " ++ dq ++ "description" ++ dq ++ ": " ++ dq ++ "Denali Martial arts classes at school gym" ++ dq ++ ", " ++ dq ++ "confidence" ++ dq ++ ": 0.95},";
    "  {" ++ dq ++ "title" ++ dq ++ ": " ++ dq ++ "Martial Arts Class" ++ dq ++ ", " ++ dq ++ "date" ++ dq ++ ": " ++ dq ++ "2025-12-02" ++ dq ++ ", " ++ dq ++ "time" ++ dq ++ ": " ++ dq ++ "15:45-16:45" ++ dq ++ ", " ++ dq ++ "description" ++ dq ++ ": " ++ dq ++ "Denali Martial arts classes at school gym" ++ dq ++ ", " ++ dq ++ "confidence" ++ dq ++ ": 0.95},";
    "  {" ++ dq ++ "title" ++ dq ++ ": " ++ dq ++ "Martinal Arts Class" ++ dq ++ ", " ++ dq ++ "date" ++ dq ++ ": " ++ dq ++ "2025-12-04" ++ dq ++ ", " ++ dq ++ "time" ++ dq ++ ": " ++ dq ++ "15:45-16:45" ++ dq ++ ", " ++ dq ++ "description" ++ dq ++ ": " ++ dq ++ "Denali Martial arts classes at school gym" ++ dq ++ ", " ++ dq ++ "confidence" ++ dq ++ ": 0.95},";
    "  {" ++ dq ++ "title" ++ dq ++ ": " ++ dq ++ "Martial Arts Class" ++ dq ++ ", " ++ dq ++ "date" ++ dq ++ ": " ++ dq ++ "2025-12-09" ++ dq ++ ", " ++ dq ++ "time" ++ dq ++ ": " ++ dq ++ "15:45-16:45" ++ dq ++ ", " ++ dq ++ "description" ++ dq ++ ": " ++ dq ++ "Denali Martial arts classes at school gym" ++ dq ++ ", " ++ dq ++ "confidence" ++ dq ++ ": 0.95},";
    "  {" ++ dq ++ "title" ++ dq ++ ": " ++ dq ++ "Martial Arts Class" ++ dq ++ ", " ++ dq ++ "date" ++ dq ++ ": " ++ dq ++ "2025-12-11" ++ dq ++ ", " ++ dq ++ "time" ++ dq ++ ": " ++ dq ++ "15:45-16:45" ++ dq ++ ", " ++ dq ++ "description" ++ dq ++ ": " ++ dq ++ "Denali Martial arts classes at school gym" ++ dq ++ ", " ++ dq ++ "confidence" ++ dq ++ ": 0.95}";
    "]"].

(** [client.models.generate_content]: raises, or has [response.text]. *)
Inductive gen_text := GenError (msg : string) | GenText (text : option string).

Record extract_env := {
  xe_api_key : bool;                 (** [bool(config.GOOGLE_API_KEY)] *)
  xe_now : datetime;                 (** [datetime.now()] *)
  xe_generate : string -> gen_text }.

Inductive extract_result := ExtractValueError (msg : string) | Extracted (events : list parsed_event).

Section Extract.
Variable json_loads : string -> option json.

Definition extract_dates_from_text (env : extract_env) (text : string) : extract_result :=
  if negb (xe_api_key env) then ExtractValueError "GOOGLE_API_KEY not set in environment variables"
  else
    let current_date_str := strftime_month_day_year (xe_now env) in
    let current_year := pretty (dt_year (xe_now env)) in
    match xe_generate env (date_prompt current_date_str current_year text) with
    | GenError _ => Extracted (extract_dates_regex text)
    | GenText None => Extracted []
    | GenText (Some t) =>
        if negb (nonempty t) then Extracted [] else
        let response_text := strip_code_fence (strip t) in
        match json_loads response_text with
        | Some events => Extracted (parse_events events)
        | None =>
            match bracket_group response_text with
            | Some g =>
                match json_loads g with
                | Some events => Extracted (parse_events events)
                | None => Extracted []
                end
            | None => Extracted []
            end
        end
    end.

End Extract.

(** ** A reference for the code-fence loop *)

Definition is_fence (line : string) : bool := startswith fence (strip line).

(** The lines cut into the segments between fence lines: [n] fences give
    [n + 1] segments. *)
Fixpoint split_fences (ls : list string) : list (list string) :=
  match ls with
  | [] => [[]]
  | l :: ls' =>
      let segs := split_fences ls' in
      if is_fence l then [] :: segs
      else match segs with
           | s :: rest => (l :: s) :: rest
           | [] => [[l]]
           end
  end.

(** The second, fourth, ... segments: the insides of the fenced blocks. *)
Fixpoint odd_segments (segs : list (list string)) : list string :=
  match segs with
  | _ :: s1 :: rest => s1 ++ odd_segments rest
  | _ => []
  end.

Definition even_segments (segs : list (list string)) : list string :=
  match segs with
  | s0 :: rest => s0 ++ odd_segments rest
  | [] => []
  end.

(** ** Lemmas *)

Lemma split_fences_cons (ls : list string) : exists s rest, split_fences ls = s :: rest.
Proof.
  induction ls as [|l ls (s & rest & IH)]; simpl; [by eexists _, _|].
  rewrite IH. destruct (is_fence l); by eexists _, _.
Qed.

Lemma fence_loop_segments (rt : string) (ls : list string) :
  startswith fence rt = true ->
  fence_loop rt false ls = odd_segments (split_fences ls) /\
  fence_loop rt true ls = even_segments (split_fences ls).
Proof.
  intros Hrt. induction ls as [|l ls [IHf IHt]]; [done|].
  destruct (split_fences_cons ls) as (s & rest & Hs).
  cbn [fence_loop split_fences]. fold (is_fence l). rewrite Hs in *. rewrite Hrt.
  cbn [negb andb orb]. rewrite andb_false_r.
  destruct (is_fence l); cbn [odd_segments even_segments app] in *; split; try done;
    by rewrite IHt.
Qed.

(** Setting the time changes only the hour and the minute, to values in
    range, or nothing. *)
Lemma apply_time_cases (d : datetime) (v : json) :
  apply_time d v = d \/
  exists h mi, (0 <= h < 24)%Z /\ (0 <= mi < 60)%Z /\
    apply_time d v = mk_datetime (dt_year d) (dt_month d) (dt_day d) h mi (dt_second d).
Proof.
  unfold apply_time. destruct v as [| | |t| |]; try by left. cbv zeta.
  destruct (if contains "-" t && contains ":" t then _ else _) as [ps|]; [|by left].
  destruct (py_int _) as [h|]; [|by left].
  destruct (if (1 <? length ps)%nat then _ else _) as [mi|]; [|by left].
  destruct ((0 <=? h)%Z && (h <? 24)%Z && (0 <=? mi)%Z && (mi <? 60)%Z) eqn:E; [|by left].
  right. exists h, mi. repeat rewrite andb_true_iff in E. rewrite !Z.leb_le, !Z.ltb_lt in E.
  split_and!; lia || done.
Qed.

(** ** Properties *)

Section Properties.
Variable json_loads : string -> option json.

(** Failures are not told apart from "no event": when the
    model call raises, the regex fallback returns no event; when the reply
    is neither JSON nor holds a bracketed JSON array, the result is also
    the empty list. *)
Theorem extract_failures_empty (env : extract_env) (text : string) (msg t : string) :
  xe_api_key env = true ->
  ((forall p, xe_generate env p = GenError msg) \/
   ((forall p, xe_generate env p = GenText (Some t)) /\
    json_loads (strip_code_fence (strip t)) = None /\
    bracket_group (strip_code_fence (strip t)) = None)) ->
  extract_dates_from_text json_loads env text = Extracted [].
Proof.
  intros Hk [Hg|(Hg & Hj & Hb)]; unfold extract_dates_from_text; rewrite Hk; simpl; rewrite Hg;
    [done|]. destruct (nonempty t); [|done]. by rewrite Hj, Hb.
Qed.

End Properties.

(** C25: on a reply that starts with a code fence, the line loop of
    [extract_dates_from_text] keeps exactly the lines inside the fenced
    blocks: with the lines cut into segments at the fence lines, the
    second, fourth, ... segments, in order. *)
Theorem strip_code_fence_blocks (response_text : string) :
  startswith fence response_text = true ->
  strip_code_fence response_text =
  join newline (odd_segments (split_fences (split_on newline response_text))).
Proof.
  intros H. unfold strip_code_fence. rewrite H. f_equal.
  by apply fence_loop_segments.
Qed.

(** The start of a 24-hour range sets the time, but a 12-hour
    time, the form the code's comment names ("3:45 PM - 4:45 PM"), makes
    [int()] raise and leaves the event at midnight. *)
Theorem twelve_hour_time_ignored (d : datetime) :
  apply_time d (JStr "3:45 PM - 4:45 PM") = d /\
  apply_time d (JStr "4:00 PM") = d /\
  apply_time d (JStr "15:45-16:45") =
    mk_datetime (dt_year d) (dt_month d) (dt_day d) 15 45 (dt_second d).
Proof. split_and!; reflexivity. Qed.

End DateExtractor.

(** ** Witnesses *)

Import DateExtractor.

Definition demo_loads (s : string) : option json :=
  if bool_decide (s = "[{" ++ dq ++ "date" ++ dq ++ ": " ++ dq ++ "2025-11-18" ++ dq ++ "}]")
  then Some (JArr [JObj [("date", JStr "2025-11-18"); ("time", JStr "15:45-16:45")]])
  else None.

Definition demo_extract_env (g : gen_text) : extract_env :=
  {| xe_api_key := true; xe_now := mk_datetime 2025 11 3 9 0 0; xe_generate := fun _ => g |}.

Lemma extract_failures_empty_witness :
  extract_dates_from_text demo_loads (demo_extract_env (GenError "503 UNAVAILABLE"))
    "Picture day Nov 20" = Extracted [] /\
  extract_dates_from_text demo_loads (demo_extract_env (GenText (Some "No events found.")))
    "Picture day Nov 20" = Extracted [].
Proof.
  split.
  - apply (extract_failures_empty demo_loads _ _ "503 UNAVAILABLE" EmptyString); [reflexivity|].
    left. reflexivity.
  - apply (extract_failures_empty demo_loads _ _ EmptyString "No events found."); [reflexivity|].
    right. split_and!; [reflexivity|vm_compute; reflexivity|vm_compute; reflexivity].
Defined.

Lemma strip_code_fence_blocks_witness :
  strip_code_fence ("```json" ++ String newline "[1]" ++ String newline "```") = "[1]".
Proof.
  rewrite strip_code_fence_blocks by reflexivity. vm_compute. reflexivity.
Defined.
