(* ===== verification/VoiceCalendar.v ===== *)
(** * VoiceCalendar: [voice_calendar.py]

    [create_calendar_from_voice] runs the date extractor on the request,
    takes the first event, and asks the calendar client to create it with
    a 60-minute reminder; every exception becomes a failure result. The
    calendar client ([calendar_client.py], Google Calendar I/O) is the
    input [cal_create]. [str()] of a decoded JSON value other than a
    string, [None] or a boolean is the Section variable [py_repr], and the
    message of the exception raised by slicing a description that is not a
    string or a list is [slice_error]. *)

From stdpp Require Import pretty.
From S2P Require Import Prelude Clock Regex DateExtractor.
Local Open Scope string_scope.
Import DateExtractor.

Module VoiceCalendar.

Definition nl : string := String (ascii_of_nat 10) EmptyString.

Definition calendar_keywords : list string :=
  ["add to calendar"; "create event"; "schedule"; "reminder"; "calendar"; "add calendar";
   "set reminder"; "add event"; "appointment"; "book"; "plan"].

Definition detect_calendar_intent (text : string) : bool :=
  contains_any calendar_keywords (lower text).

(** The dict [parse_voice_calendar_command] returns. *)
Record voice_command := {
  vc_title : json; vc_date : datetime; vc_time : json; vc_description : json;
  vc_confidence : json }.

(** The dict [parsed_info]. *)
Record parsed_info := {
  pi_title : json; pi_date : datetime; pi_time : json; pi_description : json }.

(** [calendar_client.authenticate()] and [create_event(...)]: raises, or
    the created event's [id] and [htmlLink]. *)
Inductive cal_result := CalRaised (msg : string) | CalCreated (event_id event_link : option string).

Record calendar_env := {
  cal_attendees : list string;       (** [config.DEFAULT_CALENDAR_ATTENDEES] *)
  cal_calendar_id : string;          (** [config.CALENDAR_ID] *)
  cal_create : json -> datetime -> json -> option (list string) -> string -> Z -> cal_result
    (** title, start, description, attendees, calendar id, reminder minutes *) }.

Inductive voice_result :=
| VoiceFailed (message error : string) (parsed_details : option parsed_info)
| VoiceCreated (event_id event_link : option string) (message : string) (title : json)
    (date : string) (parsed_details : parsed_info).

Definition no_events_message : string :=
  "❌ Could not extract date or event details from your request." ++ nl ++ nl ++
  "Please try a format like:" ++ nl ++
  "- " ++ dq ++ "Add Music class on November 18th at 4:00 PM" ++ dq ++ nl ++
  "- " ++ dq ++ "Create event: Field trip on December 15th at 10am" ++ dq.

Definition no_date_message : string :=
  "❌ Could not find a date in your request. Please include a date like " ++ dq ++
  "November 18th" ++ dq ++ " or " ++ dq ++ "Dec 15" ++ dq ++ ".".

Definition error_message (error_msg : string) : string :=
  "❌ Error creating calendar event: " ++ error_msg.

(** A [datetime] is always true. *)
Definition datetime_truthy (_ : datetime) : bool := true.

Section Voice.
Variable json_loads : string -> option json.
Variable py_repr : json -> string.
Variable slice_error : json -> string.

(** [str(v)] *)
Definition py_str (v : json) : string :=
  match v with
  | JStr s => s
  | JNull => "None"
  | JBool true => "True"
  | JBool false => "False"
  | _ => py_repr v
  end.

(** [v[:100]]: a string or a list is cut, anything else raises. *)
Definition slice100 (v : json) : json + string :=
  match v with
  | JStr s => inl (JStr (py_take 100 s))
  | JArr l => inl (JArr (take 100 l))
  | _ => inr (slice_error v)
  end.

(** The first extracted event, or [None]; the manual fallback computes a
    title and returns [None]. *)
Definition parse_voice_calendar_command (env : extract_env) (text : string)
    : option voice_command :=
  match extract_dates_from_text json_loads env text with
  | Extracted (event :: _) =>
      Some {| vc_title := pe_title event; vc_date := pe_date event; vc_time := pe_time event;
              vc_description := pe_description event; vc_confidence := pe_confidence event |}
  | _ => None
  end.

Definition create_calendar_from_voice (env : extract_env) (cal : calendar_env) (text : string)
    : voice_result :=
  match extract_dates_from_text json_loads env text with
  | ExtractValueError msg => VoiceFailed (error_message msg) msg None
  | Extracted [] => VoiceFailed no_events_message "No dates extracted" None
  | Extracted (event_data :: _) =>
      match slice100 (pe_description event_data) with
      | inr err => VoiceFailed (error_message err) err None
      | inl description =>
          let parsed_info := {| pi_title := pe_title event_data; pi_date := pe_date event_data;
                                pi_time := pe_time event_data; pi_description := description |} in
          if negb (datetime_truthy (pe_date event_data)) then
            VoiceFailed no_date_message "No date found" (Some parsed_info)
          else
            let attendees := if bool_decide (cal_attendees cal = []) then None
                             else Some (cal_attendees cal) in
            match cal_create cal (pe_title event_data) (pe_date event_data)
                    (pe_description event_data) attendees (cal_calendar_id cal) 60 with
            | CalRaised msg => VoiceFailed (error_message msg) msg None
            | CalCreated event_id event_link =>
                let date_str := strftime_month_day_year (pe_date event_data) in
                let time_str := if truthy (pe_time event_data)
                                then " at " ++ py_str (pe_time event_data) else EmptyString in
                VoiceCreated event_id event_link
                  ("✅ Calendar event created successfully!" ++ nl ++ nl ++ "📅 **" ++
                   py_str (pe_title event_data) ++ "**" ++ nl ++ "📆 " ++ date_str ++ time_str)
                  (pe_title event_data) (isoformat (pe_date event_data)) parsed_info
            end
      end
  end.

End Voice.

(** The "Could not find a date" failure of
    [create_calendar_from_voice] is unreachable: every extracted event
    carries a [datetime], which is always true, so a request either fails
    earlier (no event, an extractor or slicing error) or reaches the
    calendar client. *)
Theorem voice_no_date_branch_dead (json_loads : string -> option json)
    (py_repr : json -> string) (slice_error : json -> string)
    (env : extract_env) (cal : calendar_env) (text error : string) (p : option parsed_info) :
  create_calendar_from_voice json_loads py_repr slice_error env cal text <>
  VoiceFailed no_date_message error p.
Proof.
  unfold create_calendar_from_voice.
  destruct (extract_dates_from_text json_loads env text) as [msg|[|e evs]].
  - by intros [=].
  - by intros [=].
  - destruct (slice100 slice_error (pe_description e)) as [d|err]; simpl.
    + destruct (cal_create cal _ _ _ _ _ _) as [msg|id link]; [|done].
      by intros [=].
    + by intros [=].
Qed.

End VoiceCalendar.
