(* ===== verification/OAuth.v ===== *)
(** * OAuth: the [authenticate] methods of [gmail_client.py] and
    [calendar_client.py]

    Both clients keep a pickled credentials object in a token file
    ([token.json], [calendar_token.json]). [authenticate] loads it (an
    unreadable file is deleted), refreshes expired credentials that carry a
    refresh token, falls back to the browser flow of
    [InstalledAppFlow] when the credentials are still not valid (which
    needs [credentials.json]), and saves the credentials it obtained. The
    two methods are the same code with different file names and error
    messages: [authenticate] is written once over the Record [oauth_client]
    of those constants, and each client is an instance of it.

    The Google libraries are inputs of [auth_env]: the credentials the
    token file holds ([stored creds]: missing, unreadable, or a value), the
    result of [creds.refresh(Request())] ([None] when it raises), whether
    [credentials.json] exists, the result of the browser flow, and how the
    write of the token file ends. *)

From S2P Require Import Prelude.
Local Open Scope string_scope.

Module OAuth.

(** The observations of a [google.oauth2.credentials.Credentials] that the
    code makes, and an identity for the token it carries. *)
Record creds := { cr_valid : bool; cr_expired : bool; cr_refresh_token : bool; cr_token : string }.

(** The constants that differ between the two clients. *)
Record oauth_client := {
  token_file : string;
  missing_credentials_msg : string;
  flow_error_msg : string -> string }.

(** [open(token_file, 'wb')] then [pickle.dump]: the write succeeds, or
    [open] fails (the file is unchanged), or [pickle.dump] fails after the
    file was truncated (the file is left unreadable). Both failures are
    printed and ignored. *)
Inductive save_outcome := SaveOk | OpenFails | DumpFails.

Record auth_env := {
  ae_token : stored creds;
  ae_refresh : creds -> option creds;
  ae_credentials_exist : bool;
  ae_flow : creds + string;
  ae_save : save_outcome }.

(** The exceptions [authenticate] raises. *)
Inductive auth_error :=
| FileNotFoundError (msg : string)
| AuthException (msg : string).

(** The authentication inputs with the token file of a client's state. *)
Definition with_token (env : auth_env) (tok : stored creds) : auth_env :=
  {| ae_token := tok; ae_refresh := ae_refresh env; ae_credentials_exist := ae_credentials_exist env;
     ae_flow := ae_flow env; ae_save := ae_save env |}.

(** [with open(token_file, 'rb') ...: creds = pickle.load(token)], and
    [os.remove(token_file)] when loading raises. *)
Definition load_token (tok : stored creds) : stored creds * option creds :=
  match tok with
  | Missing => (Missing, None)
  | Corrupt => (Missing, None)
  | Valid c => (tok, Some c)
  end.

(** [if creds and creds.expired and creds.refresh_token: creds.refresh(...)];
    a failed refresh sets [creds = None]. *)
Definition try_refresh (refresh : creds -> option creds) (c : option creds) : option creds :=
  match c with
  | Some c => if cr_expired c && cr_refresh_token c then refresh c else Some c
  | None => None
  end.

(** The token file after saving [c]. *)
Definition save_token (s : save_outcome) (tok : stored creds) (c : creds) : stored creds :=
  match s with
  | SaveOk => Valid c
  | OpenFails => tok
  | DumpFails => Corrupt
  end.

(** [flow = InstalledAppFlow.from_client_secrets_file(...)];
    [creds = flow.run_local_server(port=0)], after the check that
    [credentials.json] exists, then the save. *)
Definition login_flow (cl : oauth_client) (env : auth_env) (tok : stored creds)
    : stored creds * (creds + auth_error) :=
  if negb (ae_credentials_exist env) then (tok, inr (FileNotFoundError (missing_credentials_msg cl)))
  else match ae_flow env with
       | inl c => (save_token (ae_save env) tok c, inl c)
       | inr e => (tok, inr (AuthException (flow_error_msg cl e)))
       end.

(** [authenticate]: the token file afterwards, and the credentials the
    service is built with or the exception raised. Valid loaded
    credentials are used as they are; refreshed ones are saved; otherwise
    the browser flow runs. *)
Definition authenticate (cl : oauth_client) (env : auth_env)
    : stored creds * (creds + auth_error) :=
  let '(tok, c) := load_token (ae_token env) in
  let refresh_or_login :=
    match try_refresh (ae_refresh env) c with
    | Some c1 => if cr_valid c1 then (save_token (ae_save env) tok c1, inl c1)
                 else login_flow cl env tok
    | None => login_flow cl env tok
    end in
  match c with
  | Some c0 => if cr_valid c0 then (tok, inl c0) else refresh_or_login
  | None => refresh_or_login
  end.

(** ** Properties *)

(** Whatever ends with credentials has saved them, when the write
    succeeds, or found them valid in the token file. *)
Lemma authenticate_ok_token (cl : oauth_client) (env : auth_env) (tok : stored creds) (c : creds) :
  ae_save env = SaveOk -> authenticate cl env = (tok, inl c) ->
  tok = Valid c.
Proof.
  intros Hs. unfold authenticate, login_flow, save_token. rewrite Hs.
  destruct (ae_token env) as [| |c0]; cbn zeta; simpl.
  1,2: destruct (negb _); [done|]; destruct (ae_flow env); by cbn; inversion 1.
  destruct (cr_valid c0) eqn:Hv; [by cbn; inversion 1|].
  destruct (cr_expired c0 && cr_refresh_token c0); [destruct (ae_refresh env c0) as [c1|]|];
    try (destruct (cr_valid c1); [by cbn; inversion 1|]);
    rewrite ?Hv; destruct (negb _); try done; destruct (ae_flow env); by cbn; inversion 1.
Qed.

(** C20: A login is remembered: once [authenticate] has returned valid
    credentials and written the token file, the next [authenticate] returns
    the same credentials and leaves the file as it is, whatever the
    refresh, the browser flow and [credentials.json] would do. *)
Theorem login_persists (cl : oauth_client) (env env' : auth_env) (tok : stored creds) (c : creds) :
  ae_save env = SaveOk -> authenticate cl env = (tok, inl c) -> cr_valid c = true ->
  ae_token env' = tok -> authenticate cl env' = (tok, inl c).
Proof.
  intros Hs Ha Hv Ht. pose proof (authenticate_ok_token cl env tok c Hs Ha) as ->.
  unfold authenticate. rewrite Ht. simpl. by rewrite Hv.
Qed.

Definition demo_client : oauth_client :=
  {| token_file := "token.json"; missing_credentials_msg := "Credentials file not found";
     flow_error_msg := fun e => "OAuth authentication failed: " ++ e |}.

Definition demo_login : creds :=
  {| cr_valid := true; cr_expired := false; cr_refresh_token := true; cr_token := "ya29" |}.

(** The first run logs in through the browser; the second has neither the
    browser nor [credentials.json]. *)
Lemma login_persists_witness :
  authenticate demo_client
    {| ae_token := Valid demo_login; ae_refresh := fun _ => None; ae_credentials_exist := false;
       ae_flow := inr "access_denied"; ae_save := OpenFails |} = (Valid demo_login, inl demo_login).
Proof.
  apply (login_persists demo_client
           {| ae_token := Missing; ae_refresh := fun _ => None; ae_credentials_exist := true;
              ae_flow := inl demo_login; ae_save := SaveOk |});
    reflexivity.
Defined.

End OAuth.
