(* ===== verification/Gmail.v ===== *)
(** * Gmail: the message parsing and the fetch of [gmail_client.py]

    [fetch_school_emails] authenticates on first use ([OAuth]), builds the
    search query from the configured domains and senders
    ([_build_query]), lists the matching messages and, for each one,
    fetches the full message, reads its headers, extracts the plain-text
    body and downloads the attachments. An [HttpError] of the listing ends
    the fetch with no e-mail; one of a message skips that message; one of
    an attachment skips that attachment. Any other exception (a malformed
    base64 body, a missing key) propagates out of [fetch_school_emails].

    A message payload is the tree [payload] of the Gmail API, its parts
    nested by [multipart/*]. The Gmail service is a set of Section
    variables (its answers to [messages().list], [messages().get] and
    [attachments().get]), as are [base64.urlsafe_b64decode] ([None] when it
    raises), the UTF-8 decoding with [errors='ignore'] and
    [email.utils.parsedate_to_datetime] (the wall-clock fields of the
    parsed date; [None] when it raises). [datetime.now()] is the input
    [now]. *)

From S2P Require Import Prelude Config Clock Regex Dedup Consolidator Ingest OAuth.
Local Open Scope string_scope.
Import PyRegex IngestEmails OAuth Config.

Module GmailClient.

(** ** Authentication *)

(** The constants of [GmailClient.authenticate]. *)
Definition gmail_oauth (cfg : config) : oauth_client := {|
  token_file := TOKEN_FILE cfg;
  missing_credentials_msg :=
    "Credentials file not found: " ++ CREDENTIALS_FILE cfg ++ ". "
    ++ "Please download OAuth credentials from Google Cloud Console.";
  flow_error_msg := fun e => "OAuth authentication failed: " ++ e |}.

(** ** The search query *)

Definition from_queries (l : list string) : list string := map (fun d => "from:" ++ d) l.

(** [_build_query] *)
Definition build_query (cfg : config) : string :=
  let domain_part :=
    if bool_decide (SCHOOL_DOMAINS cfg = []) then []
    else ["(" ++ String.concat " OR " (from_queries (SCHOOL_DOMAINS cfg)) ++ ")"] in
  let sender_part :=
    if bool_decide (SCHOOL_SENDERS cfg = []) then []
    else ["(" ++ String.concat " OR " (from_queries (SCHOOL_SENDERS cfg)) ++ ")"] in
  let query_parts := app domain_part sender_part in
  let base_query :=
    match query_parts with
    | [] => EmptyString
    | [p] => p
    | _ => "(" ++ String.concat " OR " query_parts ++ ")"
    end in
  if nonempty base_query then base_query ++ " newer_than:30d" else "newer_than:30d".

(** ** Messages *)

(** The [body] of a message part. *)
Record part_body := { pb_data : option string; pb_attachment_id : option string }.

Local Unset Elimination Schemes.
(** A message part: the keys [mimeType], [filename], [body], [headers]
    and [parts], each absent ([None]) or present. *)
Inductive payload := Payload {
  pl_mime_type : option string;
  pl_filename : option string;
  pl_body : option part_body;
  pl_headers : option (list (string * string));
  pl_parts : option (list payload) }.
Local Set Elimination Schemes.

(** The full message of [messages().get(format='full')]. *)
Record message := { m_id : string; m_payload : option payload }.

(** The exceptions the fetch distinguishes: [HttpError] is caught, the
    others propagate. *)
Inductive gmail_error :=
| HttpError (msg : string)
| B64Error
| KeyError (key : string).

(** Computations that raise: a value or the exception, with bind. *)
Definition raising (A : Type) : Type := A + gmail_error.
Definition bind_r {A B} (m : raising A) (k : A -> raising B) : raising B :=
  match m with inl a => k a | inr e => inr e end.
Declare Scope gmail_scope.
Notation "x <- m ;; k" := (bind_r m (fun x => k))
  (at level 100, m at next level, right associativity) : gmail_scope.
Local Open Scope gmail_scope.

(** [payload.get('body', {}).get('data', '')] *)
Definition body_data (p : payload) : string :=
  match pl_body p with Some b => default EmptyString (pb_data b) | None => EmptyString end.

(** [re.sub('<[^<]+?>', '', html)] *)
Definition tag_re : regex :=
  RSeq (ch "<") (RSeq (RLazy (fun c => negb (Ascii.eqb c "<")) 1 None) (ch ">")).

Definition strip_tags (html : string) : string := re_sub tag_re EmptyString html.

(** [{h['name']: h['value'] for h in headers}.get(key)]: the last header
    of that name. *)
Definition header_get (hs : list (string * string)) (key : string) : option string :=
  fold_left (fun acc '(n, v) => if bool_decide (n = key) then Some v else acc) hs None.

Section Service.
Variable urlsafe_b64decode : string -> option string.
Variable utf8_decode_ignore : string -> string.
(** [attachments().get(...).execute()['data']]: the field ([None] when
    absent) or the exception of the request. *)
Variable get_attachment : string -> string -> raising (option string).

(** [base64.urlsafe_b64decode(data).decode('utf-8', errors='ignore')] *)
Definition decode_text (data : string) : raising string :=
  match urlsafe_b64decode data with
  | Some b => inl (utf8_decode_ignore b)
  | None => inr B64Error
  end.

(** The inner [_extract_from_payload] of [_extract_email_body]: the texts
    of the parts in order; a [text/plain] leaf gives its decoded data, a
    [text/html] leaf its decoded data without tags when [not text], where
    [text] is the leaf's own accumulator and so always empty there. *)
Fixpoint payload_text (p : payload) : raising string :=
  match pl_parts p with
  | Some ps =>
      (fix go (ps : list payload) (text : string) : raising string :=
         match ps with
         | [] => inl text
         | q :: qs => t <- payload_text q ;; go qs (text ++ t)
         end) ps EmptyString
  | None =>
      let text := EmptyString in
      if bool_decide (pl_mime_type p = Some "text/plain") then
        let data := body_data p in
        if nonempty data then t <- decode_text data ;; inl (text ++ t) else inl text
      else if bool_decide (pl_mime_type p = Some "text/html") then
        let data := body_data p in
        if nonempty data && negb (nonempty text) then
          html <- decode_text data ;; inl (strip_tags html)
        else inl text
      else inl text
  end.

(** [_extract_email_body] *)
Definition extract_email_body (m : message) : raising string :=
  match m_payload m with
  | Some p => body <- payload_text p ;; inl (strip body)
  | None => inl EmptyString
  end.

(** The inner [_extract_from_payload] of [_extract_attachments]: the
    attachments of the leaves in order. A leaf with a [filename] and a
    [body.attachmentId] is downloaded; an [HttpError] of the download is
    printed and the attachment skipped. *)
Fixpoint payload_attachments (message_id : string) (p : payload)
    : raising (list email_attachment) :=
  match pl_parts p with
  | Some ps =>
      (fix go (ps : list payload) (acc : list email_attachment) :=
         match ps with
         | [] => inl acc
         | q :: qs => a <- payload_attachments message_id q ;; go qs (app acc a)
         end) ps []
  | None =>
      let filename := default EmptyString (pl_filename p) in
      match pl_body p with
      | Some b =>
          match pb_attachment_id b with
          | Some attachment_id =>
              if nonempty filename then
                let mime_type := default "application/octet-stream" (pl_mime_type p) in
                match get_attachment message_id attachment_id with
                | inl (Some raw) =>
                    match urlsafe_b64decode raw with
                    | Some data =>
                        inl [{| att_filename := filename; att_mime_type := mime_type;
                                att_data := data |}]
                    | None => inr B64Error
                    end
                | inl None => inr (KeyError "data")
                | inr (HttpError _) => inl []
                | inr e => inr e
                end
              else inl []
          | None => inl []
          end
      | None => inl []
      end
  end.

(** [_extract_attachments] *)
Definition extract_attachments (m : message) : raising (list email_attachment) :=
  match m_payload m with
  | Some p => payload_attachments (m_id m) p
  | None => inl []
  end.

(** The rest of the fetch: [parsedate_to_datetime] and the two requests
    of the listing and of a full message. *)
Variable parsedate_to_datetime : string -> option datetime.
Variable list_messages : string -> nat -> raising (list string).
Variable get_message : string -> raising message.

(** [except HttpError as e: print(...)]: an [HttpError] is swallowed, the
    other exceptions pass. *)
Definition catch_http {A} (r : raising A) : raising (option A) :=
  match r with
  | inl a => inl (Some a)
  | inr (HttpError _) => inl None
  | inr e => inr e
  end.

(** [message['payload']] *)
Definition payload_of (m : message) : raising payload :=
  match m_payload m with Some p => inl p | None => inr (KeyError "payload") end.

(** The body of the loop of [fetch_school_emails] after the request:
    headers, date, body and attachments of one message. *)
Definition email_of (now : datetime) (m : message) (p : payload) : raising email :=
  let headers := default [] (pl_headers p) in
  let subject := default "(No Subject)" (header_get headers "Subject") in
  let sender := default "Unknown" (header_get headers "From") in
  let date_str := default EmptyString (header_get headers "Date") in
  let date := if nonempty date_str then default now (parsedate_to_datetime date_str) else now in
  body_text <- extract_email_body m ;;
  attachments <- extract_attachments m ;;
  inl {| email_id := m_id m; email_subject := subject; email_sender := sender;
         email_date := date; email_body_text := body_text; email_attachments := attachments |}.

(** One iteration of [for msg in messages]: the e-mail, or [None] when an
    [HttpError] skipped the message. *)
Definition fetch_one (now : datetime) (msg_id : string) : raising (option email) :=
  catch_http (m <- get_message msg_id ;; p <- payload_of m ;; email_of now m p).

Fixpoint fetch_loop (now : datetime) (ids : list string) (emails : list email)
    : raising (list email) :=
  match ids with
  | [] => inl emails
  | i :: ids' => r <- fetch_one now i ;; fetch_loop now ids' (app emails (option_list r))
  end.

(** The client: whether [self.service] is set, and the token file. *)
Record gmail_state := { gs_service : bool; gs_token : stored creds }.

Inductive fetch_error :=
| AuthFailed (e : auth_error)
| Raised (e : gmail_error).

(** The search and the loop, inside [try: ... except HttpError: return []]. *)
Definition search_and_fetch (cfg : config) (now : datetime) (max_results : nat)
    : list email + fetch_error :=
  match (ids <- list_messages (build_query cfg) max_results ;; fetch_loop now ids []) with
  | inl emails => inl emails
  | inr (HttpError _) => inl []
  | inr e => inr (Raised e)
  end.

(** [GmailClient.fetch_school_emails]: [authenticate] when there is no
    service yet, then the search. *)
Definition fetch_school_emails (cfg : config) (env : auth_env) (now : datetime)
    (max_results : nat) (st : gmail_state) : gmail_state * (list email + fetch_error) :=
  if gs_service st then (st, search_and_fetch cfg now max_results) else
  match authenticate (gmail_oauth cfg) (with_token env (gs_token st)) with
  | (tok, inr e) => ({| gs_service := false; gs_token := tok |}, inr (AuthFailed e))
  | (tok, inl _) => ({| gs_service := true; gs_token := tok |}, search_and_fetch cfg now max_results)
  end.

(** The module-level [fetch_school_emails]: a new [GmailClient()] for
    every call, so every call authenticates. *)
Definition fetch_school_emails_fresh (cfg : config) (env : auth_env) (now : datetime)
    (max_results : nat) (tok : stored creds) : stored creds * (list email + fetch_error) :=
  let '(st, r) := fetch_school_emails cfg env now max_results
                    {| gs_service := false; gs_token := tok |} in
  (gs_token st, r).

(** ** Properties *)

(** A [multipart/alternative] message with a [text/plain] and a
    [text/html] leaf, the shape most mail clients send. *)
Definition leaf (mime data : string) : payload :=
  {| pl_mime_type := Some mime; pl_filename := None;
     pl_body := Some {| pb_data := Some data; pb_attachment_id := None |};
     pl_headers := None; pl_parts := None |}.

Definition alternative (plain html : string) : payload :=
  {| pl_mime_type := Some "multipart/alternative"; pl_filename := None; pl_body := None;
     pl_headers := None; pl_parts := Some [leaf "text/plain" plain; leaf "text/html" html] |}.

Lemma fetch_loop_app (now : datetime) (l1 l2 : list string) (acc : list email) :
  fetch_loop now (l1 ++ l2)%list acc = (r <- fetch_loop now l1 acc ;; fetch_loop now l2 r).
Proof.
  revert acc. induction l1 as [|i l1 IH]; intros acc; [done|]. simpl.
  destruct (fetch_one now i); [apply IH|done].
Qed.

(** [fetch_one] never lets an [HttpError] through. *)
Lemma fetch_one_not_http (now : datetime) (i msg : string) :
  fetch_one now i <> inr (HttpError msg).
Proof. unfold fetch_one, catch_http. by repeat case_match. Qed.

(** A loop over messages that each fetch or skip ends with e-mails. *)
Lemma fetch_loop_ok (now : datetime) (l : list string) (acc : list email) :
  Forall (fun j => exists r, fetch_one now j = inl r) l -> exists es, fetch_loop now l acc = inl es.
Proof.
  intros Hl. revert acc. induction Hl as [|j l [r Hr] _ IH]; intros acc; [by eexists|].
  simpl. rewrite Hr. apply IH.
Qed.

(** An [HttpError] of [messages().get] skips that message only: the loop
    returns what it returns without it. *)
Theorem message_http_error_skipped (now : datetime) (pre post : list string) (i msg : string)
    (acc : list email) :
  get_message i = inr (HttpError msg) ->
  fetch_loop now (pre ++ i :: post)%list acc = fetch_loop now (pre ++ post)%list acc.
Proof.
  intros Hg. rewrite !fetch_loop_app. destruct (fetch_loop now pre acc) as [es|]; [|done].
  simpl. unfold fetch_one at 1. rewrite Hg. simpl. by rewrite app_nil_r.
Qed.

(** C19: Any other exception of one message (a body that is not valid base64,
    a message without [payload], an attachment without [data]) ends the
    whole fetch with that exception: the e-mails of the messages before it
    are lost with it. *)
Theorem fetch_aborts_on_message_error (cfg : config) (now : datetime) (max_results : nat)
    (pre post : list string) (i : string) (e : gmail_error) :
  list_messages (build_query cfg) max_results = inl (pre ++ i :: post)%list ->
  Forall (fun j => exists r, fetch_one now j = inl r) pre ->
  fetch_one now i = inr e ->
  search_and_fetch cfg now max_results = inr (Raised e).
Proof.
  intros Hl Hpre Hi. unfold search_and_fetch. rewrite Hl. simpl.
  rewrite fetch_loop_app. destruct (fetch_loop_ok now pre [] Hpre) as [es ->]. simpl.
  rewrite Hi. simpl. destruct e as [msg| |]; [|done|done].
  by destruct (fetch_one_not_http now i msg).
Qed.

(** C18: The HTML leaf is not a fallback: the text of a
    [multipart/alternative] message is its plain text followed by its HTML
    without tags, because the [not text] test of the HTML branch reads the
    leaf's own, always empty, accumulator. *)
Theorem html_part_appended_to_plain (dp dh bp bh : string) :
  nonempty dp = true -> nonempty dh = true ->
  urlsafe_b64decode dp = Some bp -> urlsafe_b64decode dh = Some bh ->
  payload_text (alternative dp dh) = inl (utf8_decode_ignore bp ++ strip_tags (utf8_decode_ignore bh)).
Proof.
  intros Hp Hh Hbp Hbh. cbn. unfold body_data. cbn. rewrite Hp, Hh.
  unfold decode_text. rewrite Hbp, Hbh. cbn. by rewrite ?string_app_nil_r.
Qed.

End Service.

(** ** Witnesses

    A service where base64 decoding is the identity, [messages().get]
    fails with an [HttpError] on ["gone"], returns a message without
    [payload] for ["broken"], and a plain-text message otherwise. *)
Definition demo_decode (s : string) : option string := Some s.
Definition demo_attachment (m a : string) : raising (option string) := inl (Some a).
Definition demo_parsedate (s : string) : option datetime := None.
Definition demo_now : datetime := mk_datetime 2025 11 3 9 0 0.
Definition demo_get_message (i : string) : raising message :=
  if bool_decide (i = "gone") then inr (HttpError "404 Not Found")
  else if bool_decide (i = "broken") then inl {| m_id := i; m_payload := None |}
  else inl {| m_id := i; m_payload := Some (leaf "text/plain" "hello") |}.
Definition demo_list (q : string) (n : nat) : raising (list string) := inl ["a"; "broken"; "b"].
Definition demo_cfg : config := load_config (fun _ => None).

Lemma html_part_appended_to_plain_witness :
  payload_text demo_decode id (alternative "Hello" "<p>Hello</p>") = inl "HelloHello".
Proof.
  rewrite (html_part_appended_to_plain demo_decode id "Hello" "<p>Hello</p>" "Hello" "<p>Hello</p>")
    by reflexivity.
  vm_compute. reflexivity.
Defined.

Lemma message_http_error_skipped_witness :
  fetch_loop demo_decode id demo_attachment demo_parsedate demo_get_message demo_now
    ["a"; "gone"; "b"] [] =
  fetch_loop demo_decode id demo_attachment demo_parsedate demo_get_message demo_now ["a"; "b"] [].
Proof.
  apply (message_http_error_skipped demo_decode id demo_attachment demo_parsedate demo_get_message
           demo_now ["a"] ["b"] "gone" "404 Not Found" []).
  reflexivity.
Defined.

Lemma fetch_aborts_on_message_error_witness :
  search_and_fetch demo_decode id demo_attachment demo_parsedate demo_list demo_get_message
    demo_cfg demo_now 50 = inr (Raised (KeyError "payload")).
Proof.
  apply (fetch_aborts_on_message_error demo_decode id demo_attachment demo_parsedate demo_list
           demo_get_message demo_cfg demo_now 50 ["a"] ["b"] "broken").
  - reflexivity.
  - repeat constructor. eexists. reflexivity.
  - reflexivity.
Defined.

End GmailClient.
