(* ===== verification/FileSearch.v ===== *)
(** * FileSearch: the uploads of [gemini_file_search.py]

    [upload_file_to_store] checks that the file exists and that the upload
    tracker ([Dedup]) has not seen its "path:mtime" identity, copies a
    [.md] file to a [.txt] sibling (the path with every ".md" replaced),
    uploads the copy, deletes it, polls the uploaded file every five
    seconds for at most 120 seconds while its state is [PROCESSING], and
    marks the path uploaded when the state is [ACTIVE] or still
    [PROCESSING]. Every exception after the client is created is wrapped
    in [Exception("Error uploading file ...")]. [bulk_upload_directory]
    uploads every walked file whose name does not start with a dot and
    counts the new uploads.

    State is explicit: the tracker files and the file system as a map from
    the existing paths to their modification times (the [mtimes] of
    [Dedup]; [shutil.copy2] copies the time with the bytes). The Gemini
    Files API is a set of Section variables: [files.upload] and
    [files.get] (by the name and the seconds waited so far, so a test can
    script the states), each returning the file or the text of the
    exception. [time.sleep] is not modelled: the poll loop counts its
    waits. *)

From S2P Require Import Prelude Config Dedup Clock Consolidator Ingest.
Local Open Scope string_scope.
Import UploadTracker IngestEmails Config.

Module GeminiFileSearch.

(** A [File] of the Files API: its [name] and the text of its [state]. *)
Record gfile := { gf_name : string; gf_state : string }.

Record fs_state := { fs_tracker : tracker_files; fs_files : mtimes }.

Inductive upload_error :=
| UFileNotFound (msg : string)
| UValueError (msg : string)
| UException (msg : string).

(** [Path(p).name]: what follows the last '/'. *)
Fixpoint path_name_acc (s cur : string) : string :=
  match s with
  | EmptyString => cur
  | String c s' => if Ascii.eqb c "/" then path_name_acc s' EmptyString
                   else path_name_acc s' (cur ++ String c EmptyString)
  end.

Definition path_name (p : string) : string := path_name_acc p EmptyString.

(** [Path(p).suffix]: from the last dot of the name, when that dot is
    neither its first nor its last character. *)
Definition path_suffix (p : string) : string :=
  let name := path_name p in
  match last_dot_acc name 0 None with
  | Some i => if (0 <? i)%nat && (i <? String.length name - 1)%nat
              then substring i (String.length name - i) name else EmptyString
  | None => EmptyString
  end.

(** [state.upper()] *)
Definition get_state_string (state : string) : string := upper state.

(** [os.path.join(root, filename)] for a file name without '/'. *)
Definition path_join (root filename : string) : string :=
  if endswith "/" root then root ++ filename else root ++ "/" ++ filename.

Section Upload.
Variable cfg : config.
(** [files.upload(path=...)] *)
Variable files_upload : string -> gfile + string.
(** [files.get(name=...)] after [wait_time] seconds. *)
Variable files_get : string -> nat -> gfile + string.
(** Whether [shutil.copy2] can create the destination (its directory
    exists), and the message of its [OSError] otherwise. *)
Variable copy_dest_ok : string -> bool.
Variable copy_error : string -> string.
(** [repr] of a path, for the message of [shutil.SameFileError]. *)
Variable py_repr : string -> string.

(** [while "PROCESSING" in state and wait_time < max_wait:
    time.sleep(step); wait_time += step; file = client.files.get(...)]:
    the file and the seconds waited at the end. The loop is the same in
    [upload_file_to_store] (step 5, at most 120 s), [transcribe_pdf] (2,
    60) and [extract_text_from_image] (2, 30). [fuel] bounds the
    iterations; [max_wait / step] is enough from [wait_time = 0]
    ([poll_loop_fuel]). *)
Fixpoint poll_loop (step max_wait fuel : nat) (file : gfile) (wait_time : nat)
    : (gfile * nat) + string :=
  match fuel with
  | 0 => inl (file, wait_time)
  | S f =>
      if contains "PROCESSING" (get_state_string (gf_state file)) && (wait_time <? max_wait)%nat
      then match files_get (gf_name file) (wait_time + step) with
           | inl file' => poll_loop step max_wait f file' (wait_time + step)
           | inr e => inr e
           end
      else inl (file, wait_time)
  end.

(** [shutil.copy2(src, dst)]: the file system afterwards, or the message
    of the exception. *)
Definition copy2 (files : mtimes) (src dst : string) : mtimes + string :=
  if bool_decide (src = dst) then inr (py_repr src ++ " and " ++ py_repr dst ++ " are the same file")
  else if negb (copy_dest_ok dst) then inr (copy_error dst)
  else match files !! src with
       | Some m => inl (<[dst := m]> files)
       | None => inr (copy_error src)
       end.

(** The body of the [try] of [upload_file_to_store]: the file system and
    tracker afterwards, and the name, or the message of the exception. *)
Definition upload_body (st : fs_state) (filepath : string) : fs_state * (string + string) :=
  let file_ext := lower (path_suffix filepath) in
  let copied :=
    if bool_decide (file_ext = ".md") then
      let temp_filepath := py_replace ".md" ".txt" filepath in
      match copy2 (fs_files st) filepath temp_filepath with
      | inl files => inl (files, temp_filepath)
      | inr e => inr e
      end
    else inl (fs_files st, filepath) in
  match copied with
  | inr e => (st, inr e)
  | inl (files, temp_filepath) =>
      let st1 := {| fs_tracker := fs_tracker st; fs_files := files |} in
      match files_upload temp_filepath with
      | inr e => (st1, inr e)
      | inl file =>
          let files := if bool_decide (temp_filepath <> filepath) && bool_decide (temp_filepath ∈ dom files)
                       then delete temp_filepath files else files in
          let st2 := {| fs_tracker := fs_tracker st; fs_files := files |} in
          match poll_loop 5 120 24 file 0 with
          | inr e => (st2, inr e)
          | inl (file, _) =>
              let state := get_state_string (gf_state file) in
              if contains "PROCESSING" state || contains "ACTIVE" state then
                ({| fs_tracker := mark_file_uploaded files (fs_tracker st) filepath; fs_files := files |},
                 inl (gf_name file))
              else (st2, inr ("File upload failed. State: " ++ state))
          end
      end
  end.

(** [upload_file_to_store(filepath, store_name, skip_if_exists)]: the name
    of the uploaded file, or [None] when it was skipped. *)
Definition upload_file_to_store (st : fs_state) (filepath : string) (skip_if_exists : bool)
    : fs_state * (option string + upload_error) :=
  if bool_decide (filepath ∉ dom (fs_files st)) then
    (st, inr (UFileNotFound ("File not found: " ++ filepath)))
  else if skip_if_exists && is_file_uploaded (fs_files st) (fs_tracker st) filepath then
    (st, inl None)
  else if negb (nonempty (GOOGLE_API_KEY cfg)) then
    (st, inr (UValueError "GOOGLE_API_KEY not set in environment variables"))
  else
    match upload_body st filepath with
    | (st', inl name) => (st', inl (Some name))
    | (st', inr e) => (st', inr (UException ("Error uploading file " ++ filepath ++ ": " ++ e)))
    end.

(** The loop of [bulk_upload_directory] over the walked files: the state
    and the counts of uploaded, skipped and failed files. *)
Fixpoint bulk_loop (st : fs_state) (files : list string) (uploaded skipped failed : nat)
    : fs_state * (nat * nat * nat) :=
  match files with
  | [] => (st, (uploaded, skipped, failed))
  | filepath :: rest =>
      match upload_file_to_store st filepath true with
      | (st', inl None) => bulk_loop st' rest uploaded (S skipped) failed
      | (st', inl (Some _)) => bulk_loop st' rest (S uploaded) skipped failed
      | (st', inr _) => bulk_loop st' rest uploaded skipped (S failed)
      end
  end.

(** [bulk_upload_directory(dir_path, store_name)]; [walk] is what
    [os.walk] yields, flattened to (root, file name) pairs. *)
Definition bulk_upload_directory (st : fs_state) (dir_exists : bool)
    (walk : list (string * string)) (store_name : string) : fs_state * (nat + string) :=
  if negb dir_exists then (st, inl 0%nat)
  else if negb (nonempty store_name) then
    (st, inr "FILE_SEARCH_STORE_NAME not set in environment variables")
  else
    let files := map (fun '(root, filename) => path_join root filename)
                   (filter (fun '(_, filename) => negb (startswith "." filename)) walk) in
    match files with
    | [] => (st, inl 0%nat)
    | _ => let '(st', (uploaded, _, _)) := bulk_loop st files 0 0 0 in (st', inl uploaded)
    end.

(** [cleanup_old_files] *)
Record cleanup_stats := { emails_deleted : nat; attachments_deleted : nat; errors : nat }.

(** The loop over [Path(dir).rglob('*')] keeping the files: every
    existing path under [dir]; [unlink_ok] says whether [unlink] succeeds. *)
Definition cleanup_dir (unlink_ok : string -> bool) (dir : string) (files : mtimes)
    (deleted errs : nat) : mtimes * nat * nat :=
  foldl (fun '(fs, d, e) p =>
           if startswith (dir ++ "/") p then
             if unlink_ok p then (delete p fs, S d, e) else (fs, d, S e)
           else (fs, d, e))
        (files, deleted, errs) (map fst (map_to_list files)).

(** [cleanup_old_files(keep_markdown)]: the raw e-mails, then the
    attachments; [keep_markdown] is not used. *)
Definition cleanup_old_files (unlink_ok : string -> bool) (dir_exists : string -> bool)
    (keep_markdown : bool) (files : mtimes) : mtimes * cleanup_stats :=
  let '(files, emails, errs) :=
    if dir_exists (RAW_EMAILS_DIR cfg) then cleanup_dir unlink_ok (RAW_EMAILS_DIR cfg) files 0 0
    else (files, 0, 0)%nat in
  let '(files, atts, errs) :=
    if dir_exists (ATTACHMENTS_DIR cfg) then cleanup_dir unlink_ok (ATTACHMENTS_DIR cfg) files 0 errs
    else (files, 0, errs)%nat in
  (files, {| emails_deleted := emails; attachments_deleted := atts; errors := errs |}).

(** ** Properties *)

(** More fuel than [w + step * fuel >= max_wait] needs changes nothing:
    the loop has stopped by then. *)
Lemma poll_loop_fuel (step max_wait fuel n : nat) (file : gfile) (w : nat) :
  (max_wait <= w + step * fuel)%nat ->
  poll_loop step max_wait (fuel + n) file w = poll_loop step max_wait fuel file w.
Proof.
  revert file w. induction fuel as [|f IH]; intros file w Hw; simpl.
  - destruct n; simpl; [done|].
    rewrite (proj2 (Nat.ltb_ge w max_wait)) by lia. by rewrite andb_false_r.
  - case_match; [|done]. destruct (files_get _ _); [|done]. apply IH. lia.
Qed.

(** What a successful upload leaves: the file system without the
    temporary [.txt] path (for a [.md] file), and the tracker with the
    path marked. *)
Lemma upload_body_ok (st st' : fs_state) (filepath name : string) :
  upload_body st filepath = (st', inl name) ->
  fs_tracker st' = mark_file_uploaded (fs_files st') (fs_tracker st) filepath /\
  fs_files st' = (if bool_decide (lower (path_suffix filepath) = ".md")
                  then delete (py_replace ".md" ".txt" filepath) (fs_files st) else fs_files st) /\
  (lower (path_suffix filepath) = ".md" -> py_replace ".md" ".txt" filepath <> filepath).
Proof.
  unfold upload_body, copy2. case_bool_decide as Hmd.
  - case_bool_decide as Hsame; [by inversion 1|].
    destruct (copy_dest_ok _); [|by inversion 1]. cbn -[poll_loop].
    destruct (fs_files st !! filepath) as [m|]; [|by inversion 1].
    destruct (files_upload _) as [file|]; [|by inversion 1].
    rewrite bool_decide_true by done. rewrite bool_decide_true by (rewrite elem_of_dom; by rewrite lookup_insert_eq).
    cbn -[poll_loop]. destruct (poll_loop 5 120 24 file 0) as [[file' w]|]; [|by inversion 1].
    case_match; [|by inversion 1]. intros [= <- _]. cbn -[poll_loop]. split; [done|].
    rewrite delete_insert_eq. split; [done|]. intros _ Heq. by apply Hsame.
  - destruct (files_upload _) as [file|]; [|by inversion 1].
    rewrite (bool_decide_false (_ <> _)) by (intros H; by apply H). cbn -[poll_loop].
    destruct (poll_loop 5 120 24 file 0) as [[file' w]|]; [|by inversion 1].
    case_match; [|by inversion 1]. intros [= <- _]. cbn -[poll_loop]. done.
Qed.

(** A successful upload keeps the uploaded path. *)
Lemma upload_body_keeps_path (st st' : fs_state) (filepath name : string) :
  upload_body st filepath = (st', inl name) -> fs_files st' !! filepath = fs_files st !! filepath.
Proof.
  intros H. destruct (upload_body_ok st st' filepath name H) as (_ & -> & Hne).
  case_bool_decide as Hmd; [|done]. rewrite lookup_delete_ne; [done|]. by apply Hne.
Qed.

(** A call that returned a name ran the body to its end. *)
Lemma upload_file_ok (st st' : fs_state) (filepath name : string) (skip : bool) :
  upload_file_to_store st filepath skip = (st', inl (Some name)) ->
  filepath ∈ dom (fs_files st) /\ upload_body st filepath = (st', inl name).
Proof.
  unfold upload_file_to_store. case_bool_decide as Hex; [by inversion 1|].
  destruct (skip && _); [by inversion 1|]. destruct (negb _); [by inversion 1|].
  destruct (upload_body st filepath) as [st'' [name'|e]]; [|by inversion 1].
  intros [= -> ->]. split; [|done].
  by destruct (decide (filepath ∈ dom (fs_files st))).
Qed.

(** C22: Once [upload_file_to_store] has returned a file name, the next call on
    the same path (unchanged, so with the same modification time) is
    skipped: the upload tracker of [Dedup] has recorded it. *)
Theorem upload_then_skipped (st st' : fs_state) (filepath name : string) (skip : bool) :
  upload_file_to_store st filepath skip = (st', inl (Some name)) ->
  upload_file_to_store st' filepath true = (st', inl None).
Proof.
  intros H. destruct (upload_file_ok _ _ _ _ _ H) as [Hin Hb].
  pose proof (upload_body_ok _ _ _ _ Hb) as (Ht & _ & _).
  pose proof (upload_body_keeps_path _ _ _ _ Hb) as Hp.
  unfold upload_file_to_store. rewrite elem_of_dom, <- Hp in Hin.
  rewrite bool_decide_false by (rewrite elem_of_dom; tauto).
  by rewrite Ht, mark_then_is_file_uploaded.
Qed.

(** C23: The temporary copy of a [.md] file is the path with every ".md"
    replaced by ".txt", and it is deleted after the upload: a file that
    already existed at that path (the [.txt] twin of a markdown file, or
    any path of a directory whose name contains ".md") is overwritten by
    the copy and then removed. *)
Theorem md_upload_deletes_txt_path (st st' : fs_state) (filepath name : string) (skip : bool) :
  lower (path_suffix filepath) = ".md" ->
  upload_file_to_store st filepath skip = (st', inl (Some name)) ->
  fs_files st' = delete (py_replace ".md" ".txt" filepath) (fs_files st).
Proof.
  intros Hmd H. destruct (upload_file_ok _ _ _ _ _ H) as [_ Hb].
  destruct (upload_body_ok _ _ _ _ Hb) as (_ & -> & _). by rewrite bool_decide_true.
Qed.

(** A markdown file whose suffix is not lower case ([NOTES.MD]) has the
    [.md] suffix by [Path.suffix.lower()] but no ".md" for [replace]: the
    copy is the file itself, [shutil.copy2] raises [SameFileError], and the
    file is never uploaded. *)
Theorem upper_case_md_never_uploads (st : fs_state) (filepath : string) (skip : bool) :
  lower (path_suffix filepath) = ".md" -> py_replace ".md" ".txt" filepath = filepath ->
  filepath ∈ dom (fs_files st) ->
  skip && is_file_uploaded (fs_files st) (fs_tracker st) filepath = false ->
  nonempty (GOOGLE_API_KEY cfg) = true ->
  upload_file_to_store st filepath skip =
    (st, inr (UException ("Error uploading file " ++ filepath ++ ": " ++
                          py_repr filepath ++ " and " ++ py_repr filepath ++ " are the same file"))).
Proof.
  intros Hmd Hrep Hin Hsk Hkey. unfold upload_file_to_store.
  rewrite bool_decide_false by tauto. rewrite Hsk, Hkey. simpl.
  unfold upload_body, copy2. rewrite bool_decide_true by done. rewrite Hrep.
  by rewrite bool_decide_true.
Qed.

End Upload.

(** ** Witnesses

    A client with a key, a Files API that accepts every upload as
    [ACTIVE], and a directory holding a markdown file and its [.txt]
    twin. *)
Definition demo_cfg : config :=
  load_config (fun n => if bool_decide (n = "GOOGLE_API_KEY") then Some "key" else None).
Definition demo_upload (p : string) : gfile + string := inl {| gf_name := "files/abc"; gf_state := "ACTIVE" |}.
Definition demo_get (n : string) (w : nat) : gfile + string := inl {| gf_name := n; gf_state := "ACTIVE" |}.
Definition demo_repr (p : string) : string := "'" ++ p ++ "'".
Definition demo_run (st : fs_state) (p : string) (skip : bool) : fs_state * (option string + upload_error) :=
  upload_file_to_store demo_cfg demo_upload demo_get (fun _ => true) (fun p => p) demo_repr st p skip.

Definition demo_files : mtimes :=
  <["notes/week.md" := "1700000000.0"]> (<["notes/week.txt" := "1690000000.0"]> ∅).
Definition demo_st : fs_state :=
  {| fs_tracker := {| upload_tracker := Missing; email_tracker := Missing |}; fs_files := demo_files |}.

Lemma upload_then_skipped_witness :
  demo_run (fst (demo_run demo_st "notes/week.md" true)) "notes/week.md" true =
  (fst (demo_run demo_st "notes/week.md" true), inl None).
Proof.
  apply (upload_then_skipped demo_cfg demo_upload demo_get (fun _ => true) (fun p => p) demo_repr
           demo_st _ "notes/week.md" "files/abc" true).
  reflexivity.
Defined.

Lemma md_upload_deletes_txt_path_witness :
  fs_files (fst (demo_run demo_st "notes/week.md" true)) = delete "notes/week.txt" demo_files.
Proof.
  apply (md_upload_deletes_txt_path demo_cfg demo_upload demo_get (fun _ => true) (fun p => p)
           demo_repr demo_st _ "notes/week.md" "files/abc" true); reflexivity.
Defined.

Lemma upper_case_md_never_uploads_witness :
  let st := {| fs_tracker := {| upload_tracker := Missing; email_tracker := Missing |};
               fs_files := <["data/NOTES.MD" := "1"]> ∅ |} in
  demo_run st "data/NOTES.MD" true =
    (st, inr (UException ("Error uploading file data/NOTES.MD: " ++
                          "'data/NOTES.MD' and 'data/NOTES.MD' are the same file"))).
Proof.
  intros st.
  apply (upper_case_md_never_uploads demo_cfg demo_upload demo_get (fun _ => true) (fun p => p)
           demo_repr st "data/NOTES.MD" true); try reflexivity.
Defined.

End GeminiFileSearch.
