(* ===== verification/Transcriber.v ===== *)
(** * Transcriber: [attachment_transcriber.py] and [image_processor.py]

    [transcribe_attachment] picks a transcription by the lower-cased
    suffix of the attachment's path: images go to
    [extract_text_from_image], PDFs to [transcribe_pdf], text files are
    read, and anything else becomes a placeholder line. The two Gemini
    transcriptions upload the file, poll it while it is [PROCESSING]
    (every two seconds, for at most 60 s for a PDF and 30 s for an image,
    with the loop [poll_loop] of [FileSearch]), require the state
    [ACTIVE], ask the model for the text, and take [response.text] or the
    first non-empty text of a part of a candidate (the [extract_answer] of
    [Chat]: the same code). Every exception inside their [try] is wrapped
    with a prefix naming the file.

    The result is a [transcription] of [Consolidator]: the text, or the
    message of the exception; [transcribe_attachment] is the oracle the
    consolidation of an e-mail calls. The file system is the predicate
    [path_exists]; reading a text file ([errors='ignore']) is [read_text];
    the Files API and the model are the Section variables of
    [FileSearch] and [generate]. *)

From S2P Require Import Prelude Config Dedup Clock Consolidator Ingest Regex Quality LearningState Learning Cache Formatter Chat FileSearch.
Local Open Scope string_scope.
Import Config MarkdownConsolidator GeminiFileSearch RagChat.

Module AttachmentTranscriber.

Definition image_extensions : list string := [".jpg"; ".jpeg"; ".png"; ".gif"; ".bmp"; ".webp"].
Definition text_extensions : list string := [".txt"; ".md"; ".csv"].

Definition pdf_failed_prefix : string := "PDF upload failed. State: ".
Definition pdf_empty_message : string :=
  "Could not extract text from PDF. The PDF may be scanned images or empty.".
Definition image_failed_prefix : string := "Image upload failed. State: ".
Definition image_empty_message : string :=
  "Could not extract text from image. The image may be unclear or contain no readable text.".

Section Transcribe.
Variable cfg : config.
Variable files_upload : string -> gfile + string.
Variable files_get : string -> nat -> gfile + string.
(** [client.models.generate_content] with the prompt and the uploaded
    file. *)
Variable generate : gfile -> gen_result.
Variable path_exists : string -> bool.
Variable read_text : string -> string.

(** The [try] body shared by [transcribe_pdf] and
    [extract_text_from_image]: upload, poll, check the state, generate,
    extract the text. *)
Definition vision_extract (step max_wait fuel : nat) (failed_prefix empty_message path : string)
    : string + string :=
  match files_upload path with
  | inr e => inr e
  | inl file =>
      match poll_loop files_get step max_wait fuel file 0 with
      | inr e => inr e
      | inl (file, _) =>
          let state := get_state_string (gf_state file) in
          if negb (contains "ACTIVE" state) then inr (failed_prefix ++ state)
          else match generate file with
               | GenRaised e => inr e
               | GenResponse r =>
                   match extract_answer r with
                   | inl err => inr (inner_error_str err)
                   | inr None => inr empty_message
                   | inr (Some text) => inl text
                   end
               end
      end
  end.

(** [transcribe_pdf]: the key and the file are checked before the [try]. *)
Definition transcribe_pdf (pdf_path : string) : transcription :=
  if negb (nonempty (GOOGLE_API_KEY cfg)) then
    TranscribeError "GOOGLE_API_KEY not set in environment variables"
  else if negb (path_exists pdf_path) then TranscribeError ("PDF not found: " ++ pdf_path)
  else match vision_extract 2 60 30 pdf_failed_prefix pdf_empty_message pdf_path with
       | inl text => Transcribed text
       | inr e => TranscribeError ("Error processing PDF " ++ pdf_path ++ ": " ++ e)
       end.

(** [image_processor.extract_text_from_image] ([transcribe_image]). *)
Definition extract_text_from_image (image_path : string) : transcription :=
  if negb (nonempty (GOOGLE_API_KEY cfg)) then
    TranscribeError "GOOGLE_API_KEY not set in environment variables"
  else if negb (path_exists image_path) then TranscribeError ("Image not found: " ++ image_path)
  else match vision_extract 2 30 15 image_failed_prefix image_empty_message image_path with
       | inl text => Transcribed text
       | inr e => TranscribeError ("Error processing image: " ++ e)
       end.

(** [transcribe_attachment(attachment_path, mime_type)]; the MIME type is
    accepted and not used. *)
Definition transcribe_attachment (attachment_path : string) (mime_type : option string)
    : transcription :=
  if negb (path_exists attachment_path) then
    TranscribeError ("Attachment not found: " ++ attachment_path)
  else
    let ext := lower (path_suffix attachment_path) in
    if bool_decide (ext ∈ image_extensions) then extract_text_from_image attachment_path
    else if bool_decide (ext = ".pdf") then transcribe_pdf attachment_path
    else if bool_decide (ext ∈ text_extensions) then Transcribed (read_text attachment_path)
    else Transcribed ("[Attachment: " ++ path_name attachment_path ++
                      " - File type not supported for transcription]").

(** ** Properties *)

(** A file the Files API keeps reporting as [PROCESSING] is still
    [PROCESSING] when the loop gives up. *)
Lemma poll_loop_stuck (step max_wait fuel w : nat) (n : string) :
  (forall n' w', files_get n' w' = inl {| gf_name := n'; gf_state := "PROCESSING" |}) ->
  exists w', poll_loop files_get step max_wait fuel {| gf_name := n; gf_state := "PROCESSING" |} w =
             inl ({| gf_name := n; gf_state := "PROCESSING" |}, w').
Proof.
  intros Hg. revert w. induction fuel as [|f IH]; intros w; simpl; [by eexists|].
  destruct (_ <? _)%nat; simpl; [|by eexists]. rewrite Hg. apply IH.
Qed.

(** C24: A PDF that Gemini is still processing after 60 seconds is not
    transcribed: [transcribe_pdf] raises, and the consolidated e-mail gets
    the error line instead of the text. [upload_file_to_store] treats the
    same state after its own timeout as a success. *)
Theorem slow_pdf_not_transcribed (pdf_path n : string) :
  nonempty (GOOGLE_API_KEY cfg) = true -> path_exists pdf_path = true ->
  files_upload pdf_path = inl {| gf_name := n; gf_state := "PROCESSING" |} ->
  (forall n' w', files_get n' w' = inl {| gf_name := n'; gf_state := "PROCESSING" |}) ->
  transcribe_pdf pdf_path =
    TranscribeError ("Error processing PDF " ++ pdf_path ++ ": PDF upload failed. State: PROCESSING").
Proof.
  intros Hk He Hu Hg. unfold transcribe_pdf, vision_extract. rewrite Hk, He, Hu. cbn -[poll_loop].
  destruct (poll_loop_stuck 2 60 30 0 n Hg) as [w ->]. reflexivity.
Qed.

(** The MIME type is not consulted: an attachment whose name has no
    suffix, as a PDF saved without an extension, is reported as not
    supported whatever its MIME type. *)
Theorem mime_type_ignored (attachment_path : string) (mime_type : option string) :
  path_exists attachment_path = true -> path_suffix attachment_path = EmptyString ->
  transcribe_attachment attachment_path mime_type =
    Transcribed ("[Attachment: " ++ path_name attachment_path ++
                 " - File type not supported for transcription]").
Proof.
  intros He Hs. unfold transcribe_attachment. rewrite He, Hs. reflexivity.
Qed.

End Transcribe.

(** ** Witnesses *)

Definition demo_cfg : config :=
  load_config (fun n => if bool_decide (n = "GOOGLE_API_KEY") then Some "key" else None).
Definition demo_upload (p : string) : gfile + string := inl {| gf_name := "files/p1"; gf_state := "PROCESSING" |}.
Definition demo_get (n : string) (w : nat) : gfile + string := inl {| gf_name := n; gf_state := "PROCESSING" |}.
Definition demo_generate (f : gfile) : gen_result := GenResponse {| gr_text := Some "text"; gr_candidates := [] |}.

Lemma slow_pdf_not_transcribed_witness :
  transcribe_pdf demo_cfg demo_upload demo_get demo_generate (fun _ => true) "data/attachments/menu.pdf" =
  TranscribeError "Error processing PDF data/attachments/menu.pdf: PDF upload failed. State: PROCESSING".
Proof.
  apply (slow_pdf_not_transcribed demo_cfg demo_upload demo_get demo_generate (fun _ => true)
           "data/attachments/menu.pdf" "files/p1"); reflexivity.
Defined.

Lemma mime_type_ignored_witness :
  transcribe_attachment demo_cfg demo_upload demo_get demo_generate (fun _ => true) (fun _ => EmptyString)
    "data/attachments/scan" (Some "application/pdf") =
  Transcribed "[Attachment: scan - File type not supported for transcription]".
Proof.
  apply (mime_type_ignored demo_cfg demo_upload demo_get demo_generate (fun _ => true) (fun _ => EmptyString));
    reflexivity.
Defined.

End AttachmentTranscriber.
