(* ===== verification/Api.v ===== *)
(** * Api: the endpoints of [main.py]

    The FastAPI handlers are thin compositions of the components: [/chat]
    calls [ask_school_question] and maps its exceptions to HTTP errors,
    [/extract-dates] and [/voice-calendar] call the date extractor and the
    voice calendar, [/rag/feedback], [/cache/stats] and [/check-new-emails]
    forward to the learning engine, the cache and the notification
    service. An [HTTPException] is [HttpError status detail]; a response
    body is [HttpOk]. *)

From stdpp Require Import pretty.
From S2P Require Import Prelude Clock Regex Quality LearningState Learning Cache Formatter.
From S2P Require Import Notification Chat DateExtractor VoiceCalendar.
Local Open Scope string_scope.
Import RagImprovement TrackQuery RagCache NotificationService RagChat DateExtractor VoiceCalendar.

Module Api.

Inductive http (A : Type) := HttpOk (body : A) | HttpError (status : Z) (detail : string).
Arguments HttpOk {A}. Arguments HttpError {A}.

(** ** [/chat] *)

Definition rate_limit_detail : string := "Rate limit exceeded. Please wait a moment and try again.".

(** The [except Exception as e] of [chat]. *)
Definition chat_error {A} (error_msg : string) : http A :=
  if contains "429" error_msg || contains "RESOURCE_EXHAUSTED" error_msg
  then HttpError 429 rate_limit_detail
  else HttpError 500 ("Error processing question: " ++ error_msg).

Section Chat.
Context {C : Type} `{AnswerCache C}.

Definition chat (env : chat_env) (st : chat_state C) (store_name question : string)
    : http string * chat_state C :=
  if negb (nonempty (strip question)) then (HttpError 400 "Question cannot be empty", st)
  else if negb (nonempty store_name) then
    (HttpError 500 "FILE_SEARCH_STORE_NAME not configured. Please run init_file_search_store.py first.", st)
  else
    let '(o, st') := ask_school_question env st question store_name true in
    match o with
    | Returned answer => (HttpOk answer, st')
    | RaisedValueError msg => (chat_error msg, st')
    | RaisedWrapped e => (chat_error ("Error generating response: " ++ inner_error_str e), st')
    end.

(** C15: [/chat] never answers 429: a rate limit of the model comes
    back from [ask_school_question] as the rate-limit text with status
    200, and no exception it raises names "429" or "RESOURCE_EXHAUSTED",
    so the endpoint's 429 branch is unreachable. *)
Theorem chat_never_429 (env : chat_env) (st : chat_state C) (store_name question detail : string) :
  (chat env st store_name question).1 <> HttpError 429 detail.
Proof.
  unfold chat. destruct (nonempty (strip question)); [|done]. destruct (nonempty store_name); [|done].
  destruct (ask_school_question env st question store_name true) as [o st'] eqn:Hask.
  destruct o as [a|msg|e]; simpl; [done| |].
  - apply ask_value_errors in Hask as [-> | ->]; vm_compute; discriminate.
  - destruct e as [err| |]; [|vm_compute; discriminate..].
    apply ask_raises_unlimited in Hask. unfold rate_limited in Hask.
    apply orb_false_iff in Hask as [H4 HR]. unfold chat_error. cbn [inner_error_str]. skip_literal_prefix.
    rewrite H4, HR. discriminate.
Qed.

End Chat.

(** ** [/extract-dates] and [/voice-calendar] *)

Record extraction_response := { er_events : list parsed_event; er_message : string }.

Record calendar_event_response := {
  cr_success : bool; cr_event_id : option string; cr_event_link : option string;
  cr_message : string }.

Section Extraction.
Variable json_loads : string -> option json.
Variable py_repr : json -> string.
Variable slice_error : json -> string.

Definition extract_dates (env : extract_env) (text : string) : http extraction_response :=
  match extract_dates_from_text json_loads env text with
  | Extracted events =>
      HttpOk {| er_events := events;
                er_message := "Extracted " ++ pretty (length events) ++ " event(s) from text" |}
  | ExtractValueError msg => HttpError 500 ("Error extracting dates: " ++ msg)
  end.

Definition voice_calendar (env : extract_env) (cal : calendar_env) (text : string)
    : http calendar_event_response :=
  if negb (nonempty (strip text)) then HttpError 400 "Text cannot be empty"
  else
    match create_calendar_from_voice json_loads py_repr slice_error env cal text with
    | VoiceCreated event_id event_link message _ _ _ =>
        HttpOk {| cr_success := true; cr_event_id := event_id; cr_event_link := event_link;
                  cr_message := message |}
    | VoiceFailed message _ _ => HttpError 400 message
    end.

End Extraction.

(** ** [/create-calendar-event] *)

Record calendar_event_request := {
  req_title : string; req_date : string; req_time : option string;
  req_description : option string; req_location : option string;
  req_attendees : option (list string); req_reminder_minutes : option Z }.

Inductive call_error_kind := FileNotFound | OtherError.

(** [CalendarClient().authenticate()] and [create_event(...)]: raises, or
    the event's [id] and [htmlLink]. *)
Inductive cal_call := CallRaised (kind : call_error_kind) (msg : string)
                    | CallCreated (event_id event_link : option string).

Record calendar_api := {
  ca_credentials_exist : bool;       (** [os.path.exists(config.CREDENTIALS_FILE)] *)
  ca_default_attendees : list string;
  ca_calendar_id : string;
  ca_create : string -> datetime -> string -> string -> option (list string) -> string -> Z ->
              cal_call
    (** title, start, description, location, attendees, calendar id, reminder minutes *) }.

Definition setup_detail : string :=
  "Calendar not set up. Please:" ++ String (ascii_of_nat 10)
  ("1. Enable Google Calendar API in Google Cloud Console" ++ String (ascii_of_nat 10)
  ("2. Create OAuth credentials" ++ String (ascii_of_nat 10)
  ("3. Save as 'credentials.json'" ++ String (ascii_of_nat 10)
  "See CALENDAR_SETUP_GUIDE.md for details"))).

Definition api_not_enabled_detail : string :=
  "Google Calendar API not enabled." ++ String (ascii_of_nat 10)
  ("Please enable it in Google Cloud Console:" ++ String (ascii_of_nat 10)
  "https://console.cloud.google.com/apis/library/calendar-json.googleapis.com").

Section CreateEvent.
(** [repr(s)] of a string with a quote, a backslash or a character
    outside printable ASCII. *)
Variable repr_other : string -> string.
(** The message of the [ValueError] [strptime] raises for a date out of
    range (it depends on the Python version). *)
Variable date_range_error : Z -> Z -> Z -> string.

Definition repr_plain (c : ascii) : bool :=
  let n := nat_of_ascii c in
  ((32 <=? n) && (n <=? 126) && negb (n =? 39) && negb (n =? 92))%nat.

(** [repr(s)] of a [str] *)
Definition py_repr_str (s : string) : string :=
  if forallb repr_plain (list_ascii_of_string s) then "'" ++ s ++ "'" else repr_other s.

(** [str(e)] of the [ValueError] of [strptime(s, '%Y-%m-%d')]. *)
Definition strptime_error_str (s : string) (f : strptime_failure) : string :=
  match f with
  | NoMatch => "time data " ++ py_repr_str s ++ " does not match format '%Y-%m-%d'"
  | Unconverted rest => "unconverted data remains: " ++ string_of_list_ascii rest
  | OutOfRange y m d => date_range_error y m d
  end.

(** [int(part)] with its [ValueError]. *)
Definition py_int_str (part : string) : Z + string :=
  match py_int part with
  | Some n => inl n
  | None => inr ("invalid literal for int() with base 10: " ++ py_repr_str part)
  end.

(** The date and time of the request, or the message of the [ValueError]. *)
Definition request_datetime (req : calendar_event_request) : datetime + string :=
  match strptime_parse (req_date req) with
  | inr f => inr (strptime_error_str (req_date req) f)
  | inl date_obj =>
      match req_time req with
      | Some t =>
          if nonempty t then
            let time_parts := split_on ":"%char t in
            match py_int_str (default EmptyString (head time_parts)) with
            | inr e => inr e
            | inl h =>
                match (if (1 <? length time_parts)%nat
                       then py_int_str (default EmptyString (time_parts !! 1%nat)) else inl 0%Z) with
                | inr e => inr e
                | inl mi =>
                    if negb ((0 <=? h)%Z && (h <? 24)%Z) then inr "hour must be in 0..23"
                    else if negb ((0 <=? mi)%Z && (mi <? 60)%Z) then inr "minute must be in 0..59"
                    else inl (mk_datetime (dt_year date_obj) (dt_month date_obj) (dt_day date_obj)
                                h mi 0)
                end
            end
          else inl (mk_datetime (dt_year date_obj) (dt_month date_obj) (dt_day date_obj) 9 0 0)
      | None => inl (mk_datetime (dt_year date_obj) (dt_month date_obj) (dt_day date_obj) 9 0 0)
      end
  end.

(** The [except Exception as e] of [create_calendar_event]. *)
Definition calendar_error {A} (error_msg : string) : http A :=
  if contains "Calendar API" error_msg || contains "not enabled" error_msg
  then HttpError 400 api_not_enabled_detail
  else HttpError 500 ("Error creating calendar event: " ++ error_msg).

(** [x or default] of an optional string, list or integer field. *)
Definition or_str (x : option string) (d : string) : string :=
  match x with Some s => if nonempty s then s else d | None => d end.

Definition create_calendar_event (api : calendar_api) (req : calendar_event_request)
    : http calendar_event_response :=
  if negb (ca_credentials_exist api) then HttpError 400 setup_detail
  else
    match request_datetime req with
    | inr error_msg => calendar_error error_msg
    | inl date_obj =>
        let attendees := match req_attendees req with
                         | Some (_ :: _ as l) => l
                         | _ => ca_default_attendees api
                         end in
        let reminder := match req_reminder_minutes req with
                        | Some n => if bool_decide (n = 0%Z) then 60%Z else n
                        | None => 60%Z
                        end in
        match ca_create api (req_title req) date_obj (or_str (req_description req) EmptyString)
                (or_str (req_location req) EmptyString)
                (if bool_decide (attendees = []) then None else Some attendees)
                (ca_calendar_id api) reminder with
        | CallCreated event_id event_link =>
            HttpOk {| cr_success := true; cr_event_id := event_id; cr_event_link := event_link;
                      cr_message := "Calendar event '" ++ req_title req ++ "' created successfully" |}
        | CallRaised FileNotFound msg => HttpError 400 msg
        | CallRaised OtherError msg => calendar_error msg
        end
    end.

End CreateEvent.

(** ** [/upload-image] and [/process-conversation-image] *)

Record upload := {
  up_content_type : option string;   (** [file.content_type] *)
  up_image_text : string + string }. (** [extract_text_from_image]: its text, or raises *)

Record image_extraction := { ie_events : list parsed_event; ie_message : string;
                             ie_extracted_text : option string }.

(** One entry of [created_events]. *)
Inductive created_entry :=
| EventCreated (title : json) (date : string) (event_id event_link : option string)
| EventFailed (title : json) (error : string).

Record conversation_result := {
  cv_success : bool; cv_message : string; cv_events : list parsed_event;
  cv_created_events : option (list created_entry) }.

(** The calendar client of [process_conversation_image]: [authenticate()]
    raising or not, and [create_event]. *)
Record image_calendar := {
  ic_authenticate : option string;
  ic_default_attendees : list string;
  ic_calendar_id : string;
  ic_create : json -> datetime -> json -> option (list string) -> string -> Z -> cal_call }.

Definition no_image_events_message : string :=
  "No dates or events found in the image. The image may not contain clear date information, or the text extraction may have failed. Please try:" ++
  String (ascii_of_nat 10) ("1. Ensure the image is clear and readable" ++
  String (ascii_of_nat 10) ("2. Make sure dates are visible in the image" ++
  String (ascii_of_nat 10) "3. Try a different image format")).

(** [str(HTTPException)] *)
Definition http_exception_str (status : Z) (detail : string) : string :=
  pretty status ++ ": " ++ detail.

Section Image.
Variable json_loads : string -> option json.

Definition upload_image (env : extract_env) (file : upload) (debug : bool)
    : http image_extraction :=
  if negb (match up_content_type file with Some ct => startswith "image/" ct | None => false end)
  then HttpError 400 "File must be an image"
  else
    match up_image_text file with
    | inr err => HttpError 500 ("Error processing image: " ++ err)
    | inl extracted_text =>
        match extract_dates_from_text json_loads env extracted_text with
        | ExtractValueError msg => HttpError 500 ("Error processing image: " ++ msg)
        | Extracted events =>
            HttpOk {| ie_events := events;
                      ie_message := "Extracted " ++ pretty (length events) ++ " event(s) from image";
                      ie_extracted_text := if debug then Some (py_take 500 extracted_text) else None |}
        end
    end.

(** [[email.strip() for email in attendees.split(',') if email.strip()]] *)
Definition parse_attendees (attendees : string) : list string :=
  filter (fun e => bool_decide (e <> EmptyString)) (strip <$> split_on ","%char attendees).

(** The loop over the events: one entry per event, in order; an error of
    one event is recorded and the loop goes on. *)
Definition create_entries (cal : image_calendar) (attendee_list : list string)
    (events : list parsed_event) : list created_entry :=
  (fun event =>
     match ic_create cal (pe_title event) (pe_date event) (pe_description event)
             (if bool_decide (attendee_list = []) then None else Some attendee_list)
             (ic_calendar_id cal) 60 with
     | CallCreated event_id event_link =>
         EventCreated (pe_title event) (isoformat (pe_date event)) event_id event_link
     | CallRaised _ msg => EventFailed (pe_title event) msg
     end) <$> events.

Definition process_conversation_image (env : extract_env) (file : upload)
    (attendees : option string) (cal : image_calendar) : conversation_result :=
  match upload_image env file false with
  | HttpError status detail =>
      {| cv_success := false; cv_message := "Error processing image: " ++ http_exception_str status detail;
         cv_events := []; cv_created_events := None |}
  | HttpOk extraction =>
      let events := ie_events extraction in
      if bool_decide (events = []) then
        {| cv_success := false; cv_message := no_image_events_message; cv_events := [];
           cv_created_events := None |}
      else
        let attendee_list := match attendees with
                             | Some a => if nonempty a then parse_attendees a
                                         else ic_default_attendees cal
                             | None => ic_default_attendees cal
                             end in
        match ic_authenticate cal with
        | Some err =>
            {| cv_success := false; cv_message := "Calendar authentication failed: " ++ err;
               cv_events := events; cv_created_events := Some [] |}
        | None =>
            let created_events := create_entries cal attendee_list events in
            {| cv_success := true;
               cv_message := "Created " ++ pretty (length created_events) ++ " calendar event(s)";
               cv_events := events; cv_created_events := Some created_events |}
        end
  end.

End Image.

(** ** [/emails/recent] *)

(** A [*.txt] file of [data/raw_emails]: its name, [st_mtime], and its
    content ([None] when opening or reading raises). *)
Record raw_email_file := { rf_name : string; rf_mtime : Z; rf_content : option string }.

Record recent_email := {
  re_subject : string; re_date : option string; re_sender : string; re_preview : string;
  re_filename : string }.

Record recent_emails := {
  rr_emails : list recent_email; rr_last_ingestion : option string; rr_total_count : nat }.

(** [datetime.min] *)
Definition datetime_min : datetime := mk_datetime 1 1 1 0 0 0.

(** [get_sort_key]: the date of the file name and the mtime. The
    [from datetime import datetime] inside its [try] makes [datetime] a
    local variable of the whole function, unbound until the import runs:
    a name without ['_'] reaches [datetime.min] first and raises
    [UnboundLocalError] ([None]). *)
Definition get_sort_key (f : raw_email_file) : option (datetime * Z) :=
  if contains "_" (rf_name f) then
    match strptime_ymd (default EmptyString (head (split_on "_"%char (rf_name f)))) with
    | Some date_obj => Some (date_obj, rf_mtime f)
    | None => Some (datetime_min, rf_mtime f)
    end
  else None.

(** Tuple order on [(datetime, mtime)]. *)
Definition sort_key_lt (a b : datetime * Z) : bool :=
  let da := days_from_civil (dt_year a.1) (dt_month a.1) (dt_day a.1) in
  let db := days_from_civil (dt_year b.1) (dt_month b.1) (dt_day b.1) in
  let sa := ((dt_hour a.1 * 60 + dt_minute a.1) * 60 + dt_second a.1)%Z in
  let sb := ((dt_hour b.1 * 60 + dt_minute b.1) * 60 + dt_second b.1)%Z in
  ((da <? db) || ((da =? db) && (sa <? sb)) || ((da =? db) && (sa =? sb) && (a.2 <? b.2)))%Z.

(** [sorted(..., reverse=True)] on keyed files: stable, greatest first. *)
Fixpoint insert_key_desc (x : datetime * Z * raw_email_file) (l : list (datetime * Z * raw_email_file))
    : list (datetime * Z * raw_email_file) :=
  match l with
  | [] => [x]
  | y :: l' => if sort_key_lt (y.1.1, y.1.2) (x.1.1, x.1.2) then x :: l else y :: insert_key_desc x l'
  end.

(** [sorted(email_files, key=get_sort_key, reverse=True)]: every key is
    computed first, so one failing key fails the sort. *)
Definition sort_email_files (fs : list raw_email_file) : option (list raw_email_file) :=
  match mapM (fun f => option_map (fun k => (k.1, k.2, f)) (get_sort_key f)) fs with
  | Some keyed => Some ((fun x => x.2) <$> fold_left (fun acc x => insert_key_desc x acc) keyed [])
  | None => None
  end.

Section Recent.
(** [parsedate_to_datetime] with the fields of its result; [None] when it
    raises. *)
Variable parsedate_to_datetime : string -> option datetime.
(** [last_check.isoformat()] of the stored check time. *)
Variable dt_isoformat : py_datetime -> string.

(** The loop over the first ten lines: [From:] and [Date:] headers. *)
Fixpoint header_loop (date_str : option string) (sender : string) (email_date : option string)
    (ls : list string) : string * option string :=
  match ls with
  | [] => (sender, email_date)
  | line :: ls' =>
      if startswith "From:" line then
        header_loop date_str (strip (py_replace "From:" EmptyString line)) email_date ls'
      else if startswith "Date:" line then
        match parsedate_to_datetime (strip (py_replace "Date:" EmptyString line)) with
        | Some parsed_date => header_loop date_str sender (Some (strftime_date parsed_date)) ls'
        | None => header_loop date_str sender email_date ls'
        end
      else header_loop date_str sender email_date ls'
  end.

Definition newline : ascii := ascii_of_nat 10.

(** The body of the loop over [email_files[:10]]. *)
Definition read_recent_email (f : raw_email_file) : option recent_email :=
  match rf_content f with
  | None => None
  | Some content =>
      let filename := rf_name f in
      let has_sep := contains "_" filename in
      let subject := if has_sep then py_replace ".txt" EmptyString (after_first "_"%char filename)
                     else filename in
      let date_str := if has_sep then Some (default EmptyString (head (split_on "_"%char filename)))
                      else None in
      let '(sender, email_date) :=
        header_loop date_str "Unknown" date_str (take 10 (split_on newline content)) in
      let preview_text := join newline (take 5 (split_on newline content)) in
      Some {| re_subject := subject; re_date := email_date; re_sender := sender;
              re_preview := py_take 200 preview_text; re_filename := filename |}
  end.

(** [get_recent_emails]: [None] is the exception of the sort. *)
Definition get_recent_emails (emails_dir_exists : bool) (email_files : list raw_email_file)
    (notification_file : stored notification_data) : option recent_emails :=
  if negb emails_dir_exists then
    Some {| rr_emails := []; rr_last_ingestion := None; rr_total_count := 0 |}
  else
    match sort_email_files email_files with
    | None => None
    | Some sorted_files =>
        Some {| rr_emails := omap read_recent_email (take 10 sorted_files);
                rr_last_ingestion := option_map dt_isoformat (get_last_check_time notification_file);
                rr_total_count := length email_files |}
    end.

End Recent.

(** ** [/calendar/status] *)

Record calendar_status := {
  cs_configured : bool; cs_authenticated : bool; cs_message : string;
  cs_setup_required : list string }.

(** [pickle.load] of [calendar_token.json]: raises ([None]), or the
    credentials, [None] or with their [valid] flag. *)
Definition get_calendar_status (credentials_exist token_exists : bool)
    (token : option (option bool)) : calendar_status :=
  if negb credentials_exist then
    {| cs_configured := false; cs_authenticated := false;
       cs_message := "Calendar credentials not found. Setup required.";
       cs_setup_required := ["Enable Google Calendar API in Google Cloud Console";
                             "Create OAuth credentials"; "Download credentials.json file"] |}
  else if token_exists then
    match token with
    | Some (Some true) =>
        {| cs_configured := true; cs_authenticated := true;
           cs_message := "Calendar is connected and ready"; cs_setup_required := [] |}
    | Some _ =>
        {| cs_configured := true; cs_authenticated := false;
           cs_message := "Calendar token expired. Re-authentication needed."; cs_setup_required := [] |}
    | None =>
        {| cs_configured := true; cs_authenticated := false;
           cs_message := "Calendar token invalid. Re-authentication needed."; cs_setup_required := [] |}
    end
  else
    {| cs_configured := true; cs_authenticated := false;
       cs_message := "Calendar not authenticated. First use will prompt for authorization.";
       cs_setup_required := [] |}.

(** ** Forwarding endpoints *)

(** [/rag/feedback] *)
Definition submit_feedback (clk : clock) (st : rag_files) (question answer : string)
    (helpful : bool) (comment : option string) : string * rag_files :=
  ("feedback_recorded", record_feedback clk st question answer helpful comment).

(** [/cache/stats] *)
Definition get_cache_stats_endpoint (now : Z) (f : stored (gmap string cache_item))
    : nat * nat * nat :=
  get_cache_stats now f.

(** [/check-new-emails] *)
Definition check_new_emails_endpoint (clock : Z) (f : stored notification_data)
    (fetched : fetch_outcome) : check_result * stored notification_data :=
  check_for_new_emails true clock f fetched.

(** ** Lemmas *)

Lemma mapM_None_iff {A B} (f : A -> option B) (l : list A) :
  mapM f l = None <-> exists x, x ∈ l /\ f x = None.
Proof.
  induction l as [|x l IH]; simpl.
  - split; [done|]. intros (y & Hy & _). by apply elem_of_nil in Hy.
  - destruct (f x) as [y|] eqn:Hx; simpl.
    + destruct (mapM f l) as [ys|]; simpl.
      * split; [done|]. intros (z & Hz & Hfz). apply elem_of_cons in Hz as [->|Hz]; [congruence|].
        assert (Hn : Some ys = None) by (apply IH; by exists z). discriminate.
      * split; [|done]. intros _. destruct IH as [IH _]. destruct (IH eq_refl) as (z & ? & ?).
        exists z. split; [by apply elem_of_cons; right|done].
    + split; [|done]. intros _. exists x. split; [apply elem_of_cons; by left|done].
Qed.

Lemma length_omap_le {A B} (f : A -> option B) (l : list A) : (length (omap f l) <= length l)%nat.
Proof.
  induction l as [|x l IH]; simpl; [lia|]. destruct (f x); simpl; [apply le_n_S, IH|apply le_S, IH].
Qed.

(** ** Properties *)

(** [request.reminder_minutes or 60] turns a request for no
    reminder ([reminder_minutes = 0]) into a 60-minute reminder: for every
    calendar client the request behaves exactly as one asking for 60. *)
Theorem reminder_zero_is_sixty (repr_other : string -> string)
    (date_range_error : Z -> Z -> Z -> string) (api : calendar_api)
    (title date : string) (time description location : option string)
    (attendees : option (list string)) :
  create_calendar_event repr_other date_range_error api
    {| req_title := title; req_date := date; req_time := time; req_description := description;
       req_location := location; req_attendees := attendees; req_reminder_minutes := Some 0%Z |} =
  create_calendar_event repr_other date_range_error api
    {| req_title := title; req_date := date; req_time := time; req_description := description;
       req_location := location; req_attendees := attendees; req_reminder_minutes := Some 60%Z |}.
Proof. reflexivity. Qed.

(** C27: the [ValueError] of a date that does not match [%Y-%m-%d]
    quotes the date, and the endpoint tests the message for "not
    enabled": any request whose date text (printable, so quoted as it
    is) contains "not enabled" and does not start with a date is answered
    400 "Google Calendar API not enabled", whatever the calendar client. *)
Theorem date_text_reads_as_api_disabled (repr_other : string -> string)
    (date_range_error : Z -> Z -> Z -> string) (api : calendar_api) (req : calendar_event_request) :
  ca_credentials_exist api = true ->
  strptime_parse (req_date req) = inr NoMatch ->
  forallb repr_plain (list_ascii_of_string (req_date req)) = true ->
  contains "not enabled" (req_date req) = true ->
  create_calendar_event repr_other date_range_error api req = HttpError 400 api_not_enabled_detail.
Proof.
  intros Hc Hs Hp Hn. unfold create_calendar_event. rewrite Hc. simpl.
  unfold request_datetime. rewrite Hs. unfold calendar_error, strptime_error_str, py_repr_str.
  rewrite Hp.
  assert (Hm : contains "not enabled"
                 ("time data " ++ ("'" ++ req_date req ++ "'") ++ " does not match format '%Y-%m-%d'")
               = true).
  { apply contains_app_r, contains_app_l, contains_app_r, contains_app_l, Hn. }
  by rewrite Hm, orb_true_r.
Qed.

(** C26: [/emails/recent] fails exactly when a file of the raw e-mail
    directory has no ['_'] in its name (the [UnboundLocalError] of the
    sort key); otherwise it lists at most ten e-mails and counts every
    file. *)
Theorem recent_emails_fail_iff_plain_name (parsedate_to_datetime : string -> option datetime)
    (dt_isoformat : py_datetime -> string) (email_files : list raw_email_file)
    (nf : stored notification_data) :
  (get_recent_emails parsedate_to_datetime dt_isoformat true email_files nf = None <->
   exists f, f ∈ email_files /\ contains "_" (rf_name f) = false) /\
  (forall r, get_recent_emails parsedate_to_datetime dt_isoformat true email_files nf = Some r ->
   (length (rr_emails r) <= 10)%nat /\ rr_total_count r = length email_files).
Proof.
  unfold get_recent_emails, sort_email_files. simpl.
  assert (Hk : forall f : raw_email_file,
            option_map (fun k => (k.1, k.2, f)) (get_sort_key f) = None <->
            contains "_" (rf_name f) = false).
  { intros f. unfold get_sort_key. destruct (contains "_" (rf_name f)); simpl; [|done].
    split; [|done]. by destruct (strptime_ymd _). }
  destruct (mapM _ email_files) as [keyed|] eqn:Hm; split.
  - split; [done|]. intros (f & Hf & Hc). exfalso.
    assert (Hn : mapM (fun f => option_map (fun k => (k.1, k.2, f)) (get_sort_key f)) email_files = None)
      by (apply mapM_None_iff; exists f; split; [done|by apply Hk]).
    congruence.
  - intros r [= <-]. simpl. split; [|done].
    etrans; [apply length_omap_le|]. rewrite length_take. lia.
  - split; [|done]. intros _. apply mapM_None_iff in Hm as (f & Hf & Hn). exists f.
    split; [done|by apply Hk].
  - done.
Qed.

(** C28: once the image gave events and the client authenticated,
    [/process-conversation-image] reports success with one entry per
    event, in order, even when the calendar refuses every event: each
    entry then holds the error. *)
Theorem conversation_success_despite_failures (json_loads : string -> option json)
    (env : extract_env) (file : upload) (attendees : option string) (cal : image_calendar)
    (ex : image_extraction) (kind : call_error_kind) (msg : string) :
  upload_image json_loads env file false = HttpOk ex -> ie_events ex <> [] ->
  ic_authenticate cal = None ->
  (forall t d desc a cid r, ic_create cal t d desc a cid r = CallRaised kind msg) ->
  let r := process_conversation_image json_loads env file attendees cal in
  cv_success r = true /\
  cv_created_events r = Some ((fun e => EventFailed (pe_title e) msg) <$> ie_events ex).
Proof.
  intros Hup Hne Hauth Hcreate r. unfold r, process_conversation_image.
  rewrite Hup. rewrite bool_decide_false by done. rewrite Hauth. simpl. split; [done|].
  f_equal. unfold create_entries. apply list_fmap_ext. intros _ e _. by rewrite Hcreate.
Qed.

End Api.

(** ** Witnesses *)

Import Api.

Lemma date_text_reads_as_api_disabled_witness :
  create_calendar_event (fun s => s) (fun _ _ _ => EmptyString)
    {| ca_credentials_exist := true; ca_default_attendees := []; ca_calendar_id := "primary";
       ca_create := fun _ _ _ _ _ _ _ => CallCreated None None |}
    {| req_title := "Picture day"; req_date := "sign-up not enabled yet"; req_time := None;
       req_description := None; req_location := None; req_attendees := None;
       req_reminder_minutes := None |} = HttpError 400 api_not_enabled_detail.
Proof. apply date_text_reads_as_api_disabled; reflexivity. Defined.

Definition demo_image_env : extract_env :=
  {| xe_api_key := true; xe_now := mk_datetime 2025 11 3 9 0 0;
     xe_generate := fun _ => GenText (Some ("[{" ++ dq ++ "date" ++ dq ++ ": " ++ dq ++
                                              "2025-11-18" ++ dq ++ "}]")) |}.

Definition demo_upload : upload :=
  {| up_content_type := Some "image/png"; up_image_text := inl "Nov 18 field trip" |}.

Lemma conversation_success_despite_failures_witness :
  let cal := {| ic_authenticate := None; ic_default_attendees := []; ic_calendar_id := "primary";
                ic_create := fun _ _ _ _ _ _ => CallRaised OtherError "403 Forbidden" |} in
  cv_success (process_conversation_image demo_loads demo_image_env demo_upload None cal) = true /\
  cv_created_events (process_conversation_image demo_loads demo_image_env demo_upload None cal) =
    Some [EventFailed (JStr "Untitled Event") "403 Forbidden"].
Proof.
  intros cal.
  apply (conversation_success_despite_failures demo_loads demo_image_env demo_upload None cal
           (match upload_image demo_loads demo_image_env demo_upload false with
            | HttpOk ex => ex | HttpError _ _ => {| ie_events := []; ie_message := EmptyString;
                                                    ie_extracted_text := None |} end)
           OtherError "403 Forbidden"); try reflexivity.
  vm_compute. discriminate.
Defined.
