(* ===== verification/Calendar.v ===== *)
(** * Calendar: the [CalendarClient] of [calendar_client.py]

    A client authenticates on first use ([OAuth], with the token file
    [calendar_token.json] and its own error messages), then builds the
    event body of [create_event] (a one-hour default duration, the fixed
    time zone, an e-mail and a popup reminder) and inserts it, or lists
    the calendars, or inserts an access rule. Every [HttpError] of the
    Calendar API becomes an [Exception] with a fixed prefix.

    The Calendar API is a set of Section variables: [events().insert]
    ([insert_event]: the created event, or the text of the [HttpError]),
    [calendarList().list] and [acl().insert]. The state of a client is
    whether [self.service] is set and the token file.

    The endpoints ([Api]) and the voice request ([VoiceCalendar]) take the
    calendar as an input; [api_create] and [voice_create] are that input
    computed by this client, and the last theorems of the file are about
    the composition. *)

From S2P Require Import Prelude Config Clock Regex DateExtractor VoiceCalendar OAuth Api.
Local Open Scope string_scope.
Import Config OAuth DateExtractor VoiceCalendar Api.

Module CalendarClient.

(** ** Authentication *)

(** The [except] of the browser flow in [CalendarClient.authenticate]. *)
Definition calendar_flow_error (error_str : string) : string :=
  if contains "access_denied" error_str || contains "403" error_str then
    "Calendar OAuth authentication failed: " ++ error_str ++ lf ++ lf ++
    "This usually means:" ++ lf ++
    "1. Google Calendar API is not enabled in Google Cloud Console" ++ lf ++
    "2. OAuth consent screen is not configured" ++ lf ++
    "3. Your email is not added as a test user" ++ lf ++ lf ++
    "See CALENDAR_SETUP_GUIDE.md for detailed setup instructions."
  else "Calendar OAuth authentication failed: " ++ error_str.

(** The constants of [CalendarClient.authenticate]. *)
Definition calendar_oauth (cfg : config) : oauth_client := {|
  token_file := "calendar_token.json";
  missing_credentials_msg :=
    "Calendar credentials not found: " ++ CREDENTIALS_FILE cfg ++ lf ++ lf ++
    "To set up Google Calendar integration:" ++ lf ++
    "1. Go to https://console.cloud.google.com/" ++ lf ++
    "2. Enable 'Google Calendar API'" ++ lf ++
    "3. Create OAuth credentials (Desktop app)" ++ lf ++
    "4. Download and save as 'credentials.json'" ++ lf ++
    "5. See CALENDAR_SETUP_GUIDE.md for detailed instructions";
  flow_error_msg := calendar_flow_error |}.

(** ** Events *)

(** The [event] dictionary of [create_event]. *)
Record event_body := {
  ev_summary : json;
  ev_description : json;
  ev_location : string;
  ev_start : string;          (** [start.dateTime] *)
  ev_end : string;            (** [end.dateTime] *)
  ev_time_zone : string;      (** [timeZone] of both *)
  ev_reminders : list (string * Z);
  ev_attendees : option (list string) }.

(** The body, with the end defaulting to one hour after the start; the
    [attendees] key is present only for a non-empty list. *)
Definition event_body_of (title : json) (start_datetime : datetime) (end_datetime : option datetime)
    (description : json) (location : string) (attendees : option (list string))
    (reminder_minutes : Z) : event_body :=
  let end_datetime := default (add_hour start_datetime) end_datetime in
  {| ev_summary := title; ev_description := description; ev_location := location;
     ev_start := isoformat start_datetime; ev_end := isoformat end_datetime;
     ev_time_zone := "America/Denver";
     ev_reminders := [("email", reminder_minutes); ("popup", reminder_minutes)];
     ev_attendees := match attendees with Some (_ :: _ as l) => Some l | _ => None end |}.

(** [sendUpdates='all' if attendees else 'none'] *)
Definition send_updates (attendees : option (list string)) : string :=
  match attendees with Some (_ :: _) => "all" | _ => "none" end.

(** The created event's [id] and [htmlLink]. *)
Record created_event := { ce_id : option string; ce_html_link : option string }.

(** The [{'scope': {'type': 'user', 'value': email}, 'role': role}] rule
    of [share_calendar]. *)
Record acl_rule := { acl_scope_type : string; acl_scope_value : string; acl_role : string }.

Record client_state := { cs_service : bool; cs_token : stored creds }.

(** What a client call raises. *)
Inductive client_error :=
| ClientAuth (e : auth_error)
| ClientException (msg : string).

Section Client.
Variable cfg : config.
Variable env : auth_env.
Variable insert_event : string -> event_body -> string -> created_event + string.
Variable list_items : list json + string.
Variable acl_insert : string -> acl_rule -> unit + string.

(** [if not self.service: self.authenticate()] *)
Definition ensure_service (st : client_state) : client_state * option auth_error :=
  if cs_service st then (st, None) else
  match authenticate (calendar_oauth cfg) (with_token env (cs_token st)) with
  | (tok, inl _) => ({| cs_service := true; cs_token := tok |}, None)
  | (tok, inr e) => ({| cs_service := false; cs_token := tok |}, Some e)
  end.

(** [CalendarClient.create_event] *)
Definition create_event (st : client_state) (title : json) (start_datetime : datetime)
    (end_datetime : option datetime) (description : json) (location : string)
    (attendees : option (list string)) (calendar_id : string) (reminder_minutes : Z)
    : client_state * (created_event + client_error) :=
  match ensure_service st with
  | (st', Some e) => (st', inr (ClientAuth e))
  | (st', None) =>
      let event := event_body_of title start_datetime end_datetime description location
                     attendees reminder_minutes in
      match insert_event calendar_id event (send_updates attendees) with
      | inl created => (st', inl created)
      | inr e => (st', inr (ClientException ("Error creating calendar event: " ++ e)))
      end
  end.

(** [CalendarClient.list_calendars] *)
Definition list_calendars (st : client_state) : client_state * (list json + client_error) :=
  match ensure_service st with
  | (st', Some e) => (st', inr (ClientAuth e))
  | (st', None) =>
      match list_items with
      | inl items => (st', inl items)
      | inr e => (st', inr (ClientException ("Error listing calendars: " ++ e)))
      end
  end.

(** [CalendarClient.share_calendar] *)
Definition share_calendar (st : client_state) (calendar_id email role : string)
    : client_state * (unit + client_error) :=
  match ensure_service st with
  | (st', Some e) => (st', inr (ClientAuth e))
  | (st', None) =>
      let rule := {| acl_scope_type := "user"; acl_scope_value := email; acl_role := role |} in
      match acl_insert calendar_id rule with
      | inl _ => (st', inl tt)
      | inr e => (st', inr (ClientException ("Error sharing calendar: " ++ e)))
      end
  end.

(** [calendar_client = CalendarClient(); calendar_client.authenticate();
    calendar_client.create_event(...)], as [main.py] and
    [voice_calendar.py] call it: the explicit [authenticate] of a fresh
    client, then [create_event] on the authenticated client. *)
Definition authenticate_and_create (tok : stored creds) (title : json) (start_datetime : datetime)
    (description : json) (location : string) (attendees : option (list string))
    (calendar_id : string) (reminder_minutes : Z) : created_event + client_error :=
  match authenticate (calendar_oauth cfg) (with_token env tok) with
  | (_, inr e) => inr (ClientAuth e)
  | (tok', inl _) =>
      snd (create_event {| cs_service := true; cs_token := tok' |} title start_datetime None
             description location attendees calendar_id reminder_minutes)
  end.

(** [str(e)] of what the sequence raises. *)
Definition client_error_str (e : client_error) : string :=
  match e with
  | ClientAuth (FileNotFoundError msg) | ClientAuth (AuthException msg) => msg
  | ClientException msg => msg
  end.

(** The calendar input of [/create-calendar-event] computed by the client:
    a [FileNotFoundError] is told apart, as its [except] clause does. *)
Definition api_create (tok : stored creds) (title : string) (start_datetime : datetime)
    (description location : string) (attendees : option (list string)) (calendar_id : string)
    (reminder_minutes : Z) : cal_call :=
  match authenticate_and_create tok (JStr title) start_datetime (JStr description) location
          attendees calendar_id reminder_minutes with
  | inl ev => CallCreated (ce_id ev) (ce_html_link ev)
  | inr (ClientAuth (FileNotFoundError msg)) => CallRaised FileNotFound msg
  | inr e => CallRaised OtherError (client_error_str e)
  end.

(** The calendar input of [create_calendar_from_voice] computed by the
    client (no location is passed: the default [""]). *)
Definition voice_create (tok : stored creds) (title : json) (start_datetime : datetime)
    (description : json) (attendees : option (list string)) (calendar_id : string)
    (reminder_minutes : Z) : cal_result :=
  match authenticate_and_create tok title start_datetime description EmptyString attendees
          calendar_id reminder_minutes with
  | inl ev => CalCreated (ce_id ev) (ce_html_link ev)
  | inr e => CalRaised (client_error_str e)
  end.

(** The operations of a client, for sequences of calls on one object. *)
Inductive client_op :=
| OpCreate (title : json) (start_datetime : datetime) (end_datetime : option datetime)
    (description : json) (location : string) (attendees : option (list string))
    (calendar_id : string) (reminder_minutes : Z)
| OpList
| OpShare (calendar_id email role : string).

Definition run_op (st : client_state) (op : client_op) : client_state :=
  match op with
  | OpCreate t s e d l a c r => fst (create_event st t s e d l a c r)
  | OpList => fst (list_calendars st)
  | OpShare c e r => fst (share_calendar st c e r)
  end.

Definition run_ops (st : client_state) (ops : list client_op) : client_state :=
  fold_left run_op ops st.

(** ** Properties *)

(** The detailed message of a denied browser flow names the Calendar API. *)
Lemma calendar_flow_error_403 (e : string) :
  contains "403" e = true -> contains "Calendar API" (calendar_flow_error e) = true.
Proof.
  intros H. unfold calendar_flow_error. rewrite H, orb_true_r. solve_contains.
Qed.

Lemma ensure_service_set (st : client_state) :
  cs_service st = true -> ensure_service st = (st, None).
Proof. unfold ensure_service. by intros ->. Qed.

Lemma run_op_set (st : client_state) (op : client_op) :
  cs_service st = true -> run_op st op = st.
Proof.
  intros H. destruct op; simpl;
    [unfold create_event|unfold list_calendars|unfold share_calendar];
    rewrite ensure_service_set by done; by repeat case_match.
Qed.

(** Once a call has authenticated the client, no later call on it
    authenticates again or touches the token file: the state of an
    authenticated client is fixed for any sequence of calls. *)
Theorem authenticated_client_state_fixed (st : client_state) (op : client_op) (ops : list client_op) :
  cs_service (run_op st op) = true -> run_ops (run_op st op) ops = run_op st op.
Proof.
  intros H. unfold run_ops. generalize (run_op st op) H. clear.
  intros st' H. induction ops as [|o ops IH]; [done|]. simpl. by rewrite run_op_set.
Qed.

(** C21: A first login of the calendar client (no token file yet) whose
    browser flow fails with a 403: the client raises its detailed message,
    which lists three possible causes (the API not enabled, the consent
    screen, a missing test user); [/create-calendar-event] finds "Calendar
    API" in it and answers 400 "Google Calendar API not enabled", whatever
    the cause. *)
Theorem calendar_403_reported_as_api_disabled (repr_other : string -> string)
    (date_range_error : Z -> Z -> Z -> string) (api : calendar_api)
    (req : calendar_event_request) (d : datetime) (e : string) :
  ca_credentials_exist api = true ->
  ca_create api = api_create Missing ->
  request_datetime repr_other date_range_error req = inl d ->
  ae_credentials_exist env = true -> ae_flow env = inr e -> contains "403" e = true ->
  create_calendar_event repr_other date_range_error api req = HttpError 400 api_not_enabled_detail.
Proof.
  intros Hc Hca Hd Hex Hf H403. unfold create_calendar_event. rewrite Hc, Hd, Hca. simpl.
  unfold api_create, authenticate_and_create, authenticate, login_flow. simpl.
  rewrite Hex, Hf. simpl. unfold calendar_error.
  by rewrite calendar_flow_error_403.
Qed.

End Client.

(** ** Witnesses *)

Definition demo_cfg : config := load_config (fun _ => None).

(** A first run: no token file, [credentials.json] present, and a browser
    flow denied with a 403. *)
Definition demo_denied_env : auth_env :=
  {| ae_token := Missing; ae_refresh := fun c => Some c; ae_credentials_exist := true;
     ae_flow := inr "Error 403: access_denied"; ae_save := SaveOk |}.

Definition demo_creds : creds :=
  {| cr_valid := true; cr_expired := false; cr_refresh_token := true; cr_token := "t0" |}.

Definition demo_ok_env : auth_env :=
  {| ae_token := Missing; ae_refresh := fun c => Some c; ae_credentials_exist := true;
     ae_flow := inl demo_creds; ae_save := SaveOk |}.

Definition demo_insert (cid : string) (b : event_body) (su : string) : created_event + string :=
  inl {| ce_id := Some "ev1"; ce_html_link := None |}.

Definition demo_api : calendar_api :=
  {| ca_credentials_exist := true; ca_default_attendees := []; ca_calendar_id := "primary";
     ca_create := api_create demo_cfg demo_denied_env demo_insert Missing |}.

Definition demo_request : calendar_event_request :=
  {| req_title := "Winter concert"; req_date := "2025-12-02"; req_time := Some "18:30";
     req_description := None; req_location := None; req_attendees := None;
     req_reminder_minutes := None |}.

Lemma calendar_403_reported_as_api_disabled_witness :
  create_calendar_event (fun s => s) (fun _ _ _ => EmptyString) demo_api demo_request =
  HttpError 400 api_not_enabled_detail.
Proof.
  apply (calendar_403_reported_as_api_disabled demo_cfg demo_denied_env demo_insert
           (fun s => s) (fun _ _ _ => EmptyString) demo_api demo_request
           (mk_datetime 2025 12 2 18 30 0) "Error 403: access_denied");
    reflexivity.
Defined.

Lemma authenticated_client_state_fixed_witness :
  let st0 := {| cs_service := false; cs_token := Missing |} in
  let op := OpCreate (JStr "Concert") (mk_datetime 2025 12 2 18 30 0) None (JStr EmptyString)
              EmptyString None "primary" 60 in
  run_op demo_cfg demo_ok_env demo_insert (inl []) (fun _ _ => inl tt) st0 op =
    {| cs_service := true; cs_token := Valid demo_creds |} /\
  run_ops demo_cfg demo_ok_env demo_insert (inl []) (fun _ _ => inl tt)
    (run_op demo_cfg demo_ok_env demo_insert (inl []) (fun _ _ => inl tt) st0 op) [OpList; op] =
    run_op demo_cfg demo_ok_env demo_insert (inl []) (fun _ _ => inl tt) st0 op.
Proof.
  split; [reflexivity|].
  apply authenticated_client_state_fixed. reflexivity.
Defined.

End CalendarClient.
